(** * poly-bridge: cross-chain statistics engine and reserve reconciler

    A shallow embedding of [src/crosschainstats/crosschainstats.go]
    (package [crosschainstats]) together with the parts of its
    collaborators that the aggregation passes, the reserve check and the
    scheduler rely on.

    Conventions.
    - Go's [int64], [uint64], [int32] and [*big.Int] are modelled by [Z];
      where a fixed-width value is produced from an unbounded one the
      wrap-around is written out ([Int64], [int32]).
    - A Go pair [(v, err)] is kept as a pair; [error] is [option string]
      ([None] is [nil]).  A nil-able pointer is an [option].
    - A nil-pointer dereference or a library panic is the outcome [Panic].
    - The persistent store and the ledger are explicit: the store is a
      finite map per statistic table, the data-access object is a record
      of query functions. *)

From Stdlib Require Import ZArith List Bool Lia.
From Stdlib Require Import DecimalString DecimalZ.
From stdpp Require Import base option list gmap strings fin_maps.

Open Scope string_scope.
Open Scope Z_scope.
Open Scope list_scope.

(** ** Go basics *)

Abbreviation error := (option string).

(** Outcome of evaluating Go code that may panic. *)
Inductive Res (A : Type) : Type :=
| Ok (a : A)
| Panic (msg : string).
Arguments Ok {A} a.
Arguments Panic {A} msg.

Definition res_bind {A B} (r : Res A) (k : A -> Res B) : Res B :=
  match r with
  | Ok a => k a
  | Panic m => Panic m
  end.

Notation "'let!' x ':=' r 'in' k" := (res_bind r (fun x => k))
  (at level 10, x pattern, r at level 100, k at level 200).

(** [Int64] of [big.Int]: the low 64 bits of the magnitude, reinterpreted as a
    two's complement [int64] and negated for a negative receiver. *)
Definition Int64 (x : Z) : Z :=
  let low64 := Z.abs x mod 2 ^ 64 in
  let v := if low64 <? 2 ^ 63 then low64 else low64 - 2 ^ 64 in
  if x <? 0
  then (if v =? - 2 ^ 63 then v else - v)
  else v.

(** The conversion [int32(x)] of an unsigned 64-bit value. *)
Definition int32 (x : Z) : Z :=
  let low32 := x mod 2 ^ 32 in
  if low32 <? 2 ^ 31 then low32 else low32 - 2 ^ 32.

Definition MaxInt32 : Z := 2147483647.
Definition MinInt32 : Z := -2147483648.

(** ** Constants of package [basedef] *)

Module basedef.
Definition PRICE_PRECISION : Z := 100000000.

Definition POLY_CROSSCHAIN_ID : Z := 0.
Definition BTC_CROSSCHAIN_ID : Z := 1.
Definition ETHEREUM_CROSSCHAIN_ID : Z := 2.
Definition ONT_CROSSCHAIN_ID : Z := 3.
Definition NEO_CROSSCHAIN_ID : Z := 4.
Definition SWITCHEO_CROSSCHAIN_ID : Z := 5.
Definition BSC_CROSSCHAIN_ID : Z := 6.
Definition HECO_CROSSCHAIN_ID : Z := 7.
Definition O3_CROSSCHAIN_ID : Z := 10.
Definition NEO3_CROSSCHAIN_ID : Z := 11.
Definition OK_CROSSCHAIN_ID : Z := 12.
End basedef.

(** ** The decimal library

    [github.com/shopspring/decimal] as the statistics code uses it: a
    decimal is [value * 10 ^ exp] with an unbounded integer [value];
    division rounds half away from zero at [DivisionPrecision] fractional
    digits. *)

Module decimal.

Record Decimal : Type := mkDecimal { value : Z; exp : Z }.

Definition DivisionPrecision : Z := 16.

Definition New (v e : Z) : Decimal := mkDecimal v e.
Definition NewFromInt (v : Z) : Decimal := mkDecimal v 0.
Definition NewFromInt32 (v : Z) : Decimal := mkDecimal v 0.
Definition NewFromBigInt (v e : Z) : Decimal := mkDecimal v e.

(** [rescale]: same number at another exponent; digits that do not fit
    are cut off towards zero. *)
Definition rescale (d : Decimal) (e : Z) : Decimal :=
  if exp d =? e then d
  else
    let expScale := 10 ^ Z.abs (e - exp d) in
    if exp d <? e
    then mkDecimal (Z.quot (value d) expScale) e
    else mkDecimal (value d * expScale) e.

Definition RescalePair (d1 d2 : Decimal) : Decimal * Decimal :=
  let e := Z.min (exp d1) (exp d2) in
  (rescale d1 e, rescale d2 e).

Definition Add (d d2 : Decimal) : Decimal :=
  let '(rd, rd2) := RescalePair d d2 in
  mkDecimal (value rd + value rd2) (exp rd).

Definition Sub (d d2 : Decimal) : Decimal :=
  let '(rd, rd2) := RescalePair d d2 in
  mkDecimal (value rd - value rd2) (exp rd).

(** [Mul]: the library panics when the sum of the exponents leaves
    [int32].  Every product of the statistics code multiplies a quotient
    of [Div] (exponent [-16]) or an integer (exponent [0]) by another
    such value, so the sum lies between [-32] and [0] and the test is
    left out. *)
Definition Mul (d d2 : Decimal) : Decimal :=
  mkDecimal (value d * value d2) (exp d + exp d2).

Definition Abs (d : Decimal) : Decimal := mkDecimal (Z.abs (value d)) (exp d).

(** [Cmp]: [-1], [0] or [1]. *)
Definition Cmp (d d2 : Decimal) : Z :=
  let '(rd, rd2) := RescalePair d d2 in
  match value rd ?= value rd2 with
  | Lt => -1
  | Eq => 0
  | Gt => 1
  end.

(** [QuoRem]: quotient with [precision] fractional digits, and the
    remainder; panics for a zero divisor and for an exponent outside
    [int32]. *)
Definition QuoRem (d d2 : Decimal) (precision : Z) : Res (Decimal * Decimal) :=
  if value d2 =? 0 then Panic "decimal division by 0"
  else
    let scale := - precision in
    let e := exp d - exp d2 - scale in
    if (MaxInt32 <? e) || (e <? MinInt32) then Panic "overflow in decimal QuoRem"
    else
      let '(aa, bb, scalerest) :=
        if e <? 0
        then (value d, value d2 * 10 ^ (- e), exp d)
        else (value d * 10 ^ e, value d2, scale + exp d2) in
      Ok (mkDecimal (Z.quot aa bb) scale, mkDecimal (Z.rem aa bb) scalerest).

Definition DivRound (d d2 : Decimal) (precision : Z) : Res Decimal :=
  let! (q, r) := QuoRem d d2 precision in
  let r2 := mkDecimal (Z.abs (value r) * 2) (exp r + precision) in
  if Cmp r2 (Abs d2) <? 0 then Ok q
  else if Z.sgn (value d) * Z.sgn (value d2) <? 0
       then Ok (Sub q (New 1 (- precision)))
       else Ok (Add q (New 1 (- precision))).

Definition Div (d d2 : Decimal) : Res Decimal := DivRound d d2 DivisionPrecision.

(** [BigInt]: the integer part, cut off towards zero. *)
Definition BigInt (d : Decimal) : Z := value (rescale d 0).

(** [IntPart]: the integer part as an [int64]. *)
Definition IntPart (d : Decimal) : Z := Int64 (value (rescale d 0)).

(** [Round]: to [places] fractional digits, half away from zero. *)
Definition Round (d : Decimal) (places : Z) : Decimal :=
  if exp d =? - places then d
  else
    let ret := rescale d (- places - 1) in
    let v := if value ret <? 0 then value ret - 5 else value ret + 5 in
    let q := v / 10 in
    let m := v mod 10 in
    let q' := if (q <? 0) && negb (m =? 0) then q + 1 else q in
    mkDecimal q' (exp ret + 1).

(** The integer that [Round d 0] stands for. *)
Definition Round0Int (d : Decimal) : Z := value (rescale (Round d 0) 0).

(** [StringFixed 0]: after [Round d 0] the exponent is [0] and the text
    is the integer in decimal notation. *)
Definition StringFixed0 (d : Decimal) : string :=
  NilZero.string_of_int (Z.to_int (Round0Int d)).

(** [NewFromString] on the texts the reserve check stores in
    [Amount_usd]: an optionally signed digit string parses to that
    integer, anything else (the empty string in particular) is an error
    together with the zero decimal. *)
Definition NewFromString (s : string) : Decimal * error :=
  match NilZero.int_of_string s with
  | Some i => (mkDecimal (Z.of_int i) 0, None)
  | None => (mkDecimal 0 0, Some ("can't convert " +:+ s +:+ " to decimal"))
  end.

End decimal.

Definition addDecimalBigInt (a b : Z) : Z :=
  let a_new := decimal.NewFromBigInt a 0 in
  let b_new := decimal.NewFromBigInt b 0 in
  let c := decimal.Add a_new b_new in
  decimal.BigInt c.

Definition addDecimalInt64 (a b : Z) : Z :=
  let a_new := decimal.New a 0 in
  let b_new := decimal.New b 0 in
  let c := decimal.Add a_new b_new in
  decimal.IntPart c.


(** What a pass leaves behind: it returned (with or without an error), or
    the goroutine panicked. *)
Inductive Outcome : Type :=
| Returned (err : error)
| Panicked (msg : string).

(** The text of the run-time panic of a nil dereference. *)
Definition nil_dereference : string :=
  "invalid memory address or nil pointer dereference".

(** Dereferencing a pointer. *)
Definition deref {A} (p : option A) : Res A :=
  match p with
  | Some a => Ok a
  | None => Panic nil_dereference
  end.

Definition Errorf (msg : string) (err : string) : error := Some (msg +:+ err).

(** ** Package [models] *)

Module ChainStatistic.
(** Modelled from the spec: [models.ChainStatistic] is declared outside
    [src/]; a Chain Statistic holds, per chain id, the accumulated
    inbound and outbound transfer counts, the active-address count and
    the two checkpoint cursors.  The fields are the ones the pass reads
    and writes. *)
Record t : Type := mk {
  ChainId : Z;
  In : Z;
  Out : Z;
  Addresses : Z;
  LastInCheckId : Z;
  LastOutCheckId : Z
}.

Definition with_In (v : Z) (r : t) : t :=
  mk (ChainId r) v (Out r) (Addresses r) (LastInCheckId r) (LastOutCheckId r).
Definition with_Out (v : Z) (r : t) : t :=
  mk (ChainId r) (In r) v (Addresses r) (LastInCheckId r) (LastOutCheckId r).
Definition with_LastInCheckId (v : Z) (r : t) : t :=
  mk (ChainId r) (In r) (Out r) (Addresses r) v (LastOutCheckId r).
Definition with_LastOutCheckId (v : Z) (r : t) : t :=
  mk (ChainId r) (In r) (Out r) (Addresses r) (LastInCheckId r) v.
End ChainStatistic.

(** ** The chain-statistics pass *)

Module ChainPass.
Import ChainStatistic.

(** The queries of [bridgedao.BridgeDao] that [computeChainStatistics]
    issues.  The record is one snapshot of the ledger and the catalog; a
    query that returns a row returns the pair (pointer, error). *)
Record Dao : Type := mkDao {
  GetNewChainSta : option ChainStatistic.t * error;
  (** [Id] of the newest destination transaction. *)
  GetNewDstTransaction : option Z * error;
  (** [Id] of the newest source transaction. *)
  GetNewSrcTransaction : option Z * error;
  (** [Id] of the newest relay-chain transaction. *)
  GetPolyTransaction : option Z * error;
  CalculateInChainStatistics : Z -> Z -> list ChainStatistic.t * error;
  CalculateOutChainStatistics : Z -> Z -> list ChainStatistic.t * error;
  CalculatePolyChainStatistic : Z -> Z -> Z * error;
  (** Chain ids of the catalog. *)
  GetChains : list Z * error;
  (** Failure of reading, and of writing, the statistic table. *)
  GetChainStatistic_err : error;
  SaveChainStatistics_err : list ChainStatistic.t -> error
}.

(** The statistic table: one row per chain id. *)
Abbreviation Store := (gmap Z ChainStatistic.t).

Definition GetChainStatistic (d : Dao) (s : Store) : list ChainStatistic.t * error :=
  match GetChainStatistic_err d with
  | None => ((map_to_list s).*2, None)
  | Some e => ([], Some e)
  end.

Definition SaveChainStatistics (d : Dao) (rows : list ChainStatistic.t) (s : Store)
  : Store * error :=
  match SaveChainStatistics_err d rows with
  | None => (foldl (fun acc r => <[ChainId r := r]> acc) s rows, None)
  | Some e => (s, Some e)
  end.

(** [chainMap]: catalog chains mapped to [false], then chains that have a
    row mapped to [true]. *)
Definition chainMap (chains : list Z) (chainStatistics : list ChainStatistic.t)
  : gmap Z bool :=
  let m := foldl (fun acc v => <[v := false]> acc) (∅ : gmap Z bool) chains in
  foldl (fun acc v => <[ChainId v := true]> acc) m chainStatistics.

(** Rows for the chains that have none yet.  Go ranges over the map in
    an unspecified order; the order of [map_to_list] stands for it. *)
Definition newChainStatistics (nowInId nowOutId : Z) (m : gmap Z bool)
  : list ChainStatistic.t :=
  omap (fun kv : Z * bool =>
          if kv.2 then None
          else Some (ChainStatistic.mk kv.1 0 0 0 nowInId nowOutId))
       (map_to_list m).

(** The first delta row of the same chain, as the inner loops with their
    [break] find it. *)
Definition findChain (c : Z) (l : list ChainStatistic.t) : option ChainStatistic.t :=
  List.find (fun x => c =? ChainId x) l.

(** Body of the first loop over [chainStatistics], for one row. *)
Definition foldChainRow (nowInId nowOutId : Z)
    (inChainStatistics outChainStatistics : list ChainStatistic.t)
    (chainStatistic : ChainStatistic.t) : ChainStatistic.t :=
  if ChainId chainStatistic =? basedef.POLY_CROSSCHAIN_ID then chainStatistic
  else
    let r1 :=
      match findChain (ChainId chainStatistic) inChainStatistics with
      | Some i => with_In (addDecimalInt64 (In chainStatistic) (In i)) chainStatistic
      | None => chainStatistic
      end in
    let r2 :=
      match findChain (ChainId chainStatistic) outChainStatistics with
      | Some o => with_Out (addDecimalInt64 (Out r1) (Out o)) r1
      | None => r1
      end in
    with_LastOutCheckId nowOutId (with_LastInCheckId nowInId r2).

(** The body of the second loop for the row of the relay chain: the
    relay counter of the range from the inbound cursor of the row to the
    newest relay transaction goes into both totals, and both cursors move
    to the newest relay transaction; nothing changes when the counter
    query fails. *)
Definition updatePolyRow (d : Dao) (polyCheckId : Z) (chainStatistic : ChainStatistic.t)
  : ChainStatistic.t :=
  let '(counter, err) :=
    CalculatePolyChainStatistic d (LastInCheckId chainStatistic) polyCheckId in
  match err with
  | None =>
      ChainStatistic.mk (ChainId chainStatistic)
        (addDecimalInt64 counter (In chainStatistic))
        (addDecimalInt64 counter (Out chainStatistic))
        (Addresses chainStatistic) polyCheckId polyCheckId
  | Some _ => chainStatistic
  end.

(** The second loop: it looks for the first row of the relay chain and
    stops there. *)
Fixpoint foldPolyRow (d : Dao) (polyCheckId : Z) (rows : list ChainStatistic.t)
  : list ChainStatistic.t :=
  match rows with
  | [] => []
  | chainStatistic :: rest =>
      if ChainId chainStatistic =? basedef.POLY_CROSSCHAIN_ID
      then updatePolyRow d polyCheckId chainStatistic :: rest
      else chainStatistic :: foldPolyRow d polyCheckId rest
  end.

Definition computeChainStatistics (d : Dao) (s : Store) : Store * Outcome :=
  let '(nowChainStatistic, err) := GetNewChainSta d in
  match err with
  | Some e => (s, Returned (Errorf "Failed to GetNewChainSta " e))
  | None =>
  let '(nowIn, err) := GetNewDstTransaction d in
  match err with
  | Some e => (s, Returned (Errorf "Failed to GetNewDstTransfer " e))
  | None =>
  match deref nowIn with
  | Panic m => (s, Panicked m)
  | Ok nowInId =>
  let '(nowOut, err) := GetNewSrcTransaction d in
  match err with
  | Some e => (s, Returned (Errorf "Failed to GetNewSrcTransfer " e))
  | None =>
  match deref nowOut with
  | Panic m => (s, Panicked m)
  | Ok nowOutId =>
  match deref nowChainStatistic with
  | Panic m => (s, Panicked m)
  | Ok nowSta =>
  let inChainStatistics :=
    if LastInCheckId nowSta <? nowInId
    then (CalculateInChainStatistics d (LastInCheckId nowSta) nowInId).1
    else [] in
  let outChainStatistics :=
    if LastOutCheckId nowSta <? nowOutId
    then (CalculateOutChainStatistics d (LastOutCheckId nowSta) nowOutId).1
    else [] in
  let '(polyTransaction, err) := GetPolyTransaction d in
  match err with
  | Some e => (s, Returned (Errorf "Failed to GetPolyTransaction " e))
  | None =>
  match deref polyTransaction with
  | Panic m => (s, Panicked m)
  | Ok polyCheckId =>
  if (LastInCheckId nowSta <? nowInId) || (LastOutCheckId nowSta <? nowOutId) then
    let '(chainStatistics, err) := GetChainStatistic d s in
    match err with
    | Some e => (s, Returned (Errorf "Failed to GetChainStatistic " e))
    | None =>
    let '(chains, err) := GetChains d in
    match err with
    | Some e => (s, Returned (Errorf "Failed to GetChains " e))
    | None =>
    let chainStatistics :=
      (chainStatistics
       ++ newChainStatistics nowInId nowOutId (chainMap chains chainStatistics))%list in
    let chainStatistics :=
      List.map (foldChainRow nowInId nowOutId inChainStatistics outChainStatistics)
               chainStatistics in
    let chainStatistics := foldPolyRow d polyCheckId chainStatistics in
    let '(s', err) := SaveChainStatistics d chainStatistics s in
    (* the error of the save is logged; the named result is the outer
       [err], still nil here *)
    (s', Returned None)
    end end
  else (s, Returned None)
  end end end end end end end end.

End ChainPass.

(** Modelled from the spec: [models.TokenBasic] and [models.Token] are
    declared outside [src/]; a Token Basic is a logical asset family
    spanning several chain-specific Token entries (chain id, asset hash,
    decimal precision, standard flag) and owns a price and a property
    flag.  The fields are the ones the statistics code reads; [Tokens]
    and [Token_TokenBasic] are the preloaded associations, the latter a
    pointer that may be nil. *)
Inductive TokenBasic : Type := mkTokenBasic {
  TokenBasic_Name : string;
  TokenBasic_Precision : Z;
  TokenBasic_Price : Z;
  TokenBasic_Standard : Z;
  TokenBasic_ChainId : Z;
  TokenBasic_Tokens : list Token
}
with Token : Type := mkToken {
  Token_Hash : string;
  Token_ChainId : Z;
  Token_Precision : Z;
  Token_TokenBasicName : string;
  Token_Property : Z;
  Token_Standard : Z;
  Token_TokenBasic : option TokenBasic
}.

Module AssetStatistic.
(** Modelled from the spec: [models.AssetStatistic] is declared outside
    [src/]; an Asset Statistic holds, per Token Basic name, the
    accumulated transaction count, address count, amount and USD/BTC
    valuations and one checkpoint cursor against the source-transfer
    stream.  [Txnum] and [Addressnum] are unsigned 64-bit counters. *)
Record t : Type := mk {
  TokenBasicName : string;
  Addressnum : Z;
  Txnum : Z;
  Amount : Z;
  AmountUsd : Z;
  AmountBtc : Z;
  LastCheckId : Z
}.
End AssetStatistic.

Module AssetInfo.
(** Modelled from the spec: [models.AssetInfo] is declared outside
    [src/]; one group of the range query of the asset pass: the summed
    raw amount and the number of transfers of one token of the family,
    with that token's precision and the family's price. *)
Record t : Type := mk {
  Amount : Z;
  Precision : Z;
  Price : Z;
  Txnum : Z
}.
End AssetInfo.

(** Addition of [uint64] counters. *)
Definition addUint64 (a b : Z) : Z := (a + b) mod 2 ^ 64.

(** ** The asset-statistics pass *)

Module AssetPass.

Record Dao : Type := mkDao {
  (** [Id] of the newest source transfer. *)
  GetNewSrcTransfer : option Z * error;
  GetTokenBasics : list TokenBasic * error;
  (** The Token Basic that carries the BTC price. *)
  GetBTCPrice : option TokenBasic * error;
  (** Range query: name, checkpoint (exclusive), new id (inclusive). *)
  CalculateAssets : string -> Z -> Z -> list AssetInfo.t * error;
  GetAssetStatistic_err : error;
  SaveAssetStatistic_err : AssetStatistic.t -> error
}.

(** The statistic table: one row per Token Basic name. *)
Abbreviation Store := (gmap string AssetStatistic.t).

Definition GetAssetStatistic (d : Dao) (s : Store) : list AssetStatistic.t * error :=
  match GetAssetStatistic_err d with
  | None => ((map_to_list s).*2, None)
  | Some e => ([], Some e)
  end.

Definition SaveAssetStatistic (d : Dao) (r : AssetStatistic.t) (s : Store)
  : Store * error :=
  match SaveAssetStatistic_err d r with
  | None => (<[AssetStatistic.TokenBasicName r := r]> s, None)
  | Some e => (s, Some e)
  end.

(** [nameMap]: names of the standard-0 families mapped to [false], then
    the names that have a row mapped to [true]. *)
Definition nameMap (tokenBasics : list TokenBasic)
    (assetStatistics : list AssetStatistic.t) : gmap string bool :=
  let m :=
    foldl (fun acc v =>
             if TokenBasic_Standard v =? 0
             then <[TokenBasic_Name v := false]> acc else acc)
          (∅ : gmap string bool) tokenBasics in
  foldl (fun acc v => <[AssetStatistic.TokenBasicName v := true]> acc)
        m assetStatistics.

Definition newAssetStatistics (m : gmap string bool) : list AssetStatistic.t :=
  omap (fun kv : string * bool =>
          if kv.2 then None
          else Some (AssetStatistic.mk kv.1 0 0 0 0 0 0))
       (map_to_list m).

(** One turn of the inner loop: one group of the range query folded into
    the row. *)
Definition foldAssetInfo (BTCPrice : decimal.Decimal)
    (old : AssetStatistic.t) (assetInfo : AssetInfo.t) : Res AssetStatistic.t :=
  let amount_new := decimal.NewFromBigInt (AssetInfo.Amount assetInfo) 0 in
  let precision_new := decimal.New 1 (int32 (AssetInfo.Precision assetInfo)) in
  let! real_amount := decimal.Div amount_new precision_new in
  let! price_new :=
    decimal.Div (decimal.NewFromInt (AssetInfo.Price assetInfo))
                (decimal.NewFromInt basedef.PRICE_PRECISION) in
  let amount_usd := decimal.Mul real_amount price_new in
  let! amount_btc := decimal.Div amount_usd BTCPrice in
  Ok (AssetStatistic.mk
        (AssetStatistic.TokenBasicName old)
        (AssetStatistic.Addressnum old)
        (addUint64 (AssetStatistic.Txnum old) (AssetInfo.Txnum assetInfo))
        (decimal.BigInt
           (decimal.Add (decimal.Mul real_amount (decimal.New 100 0))
                        (decimal.NewFromBigInt (AssetStatistic.Amount old) 0)))
        (decimal.BigInt
           (decimal.Add (decimal.Mul amount_usd (decimal.New 10000 0))
                        (decimal.NewFromBigInt (AssetStatistic.AmountUsd old) 0)))
        (decimal.BigInt
           (decimal.Add (decimal.Mul amount_btc (decimal.New 10000 0))
                        (decimal.NewFromBigInt (AssetStatistic.AmountBtc old) 0)))
        (AssetStatistic.LastCheckId old)).

Fixpoint foldAssetInfos (BTCPrice : decimal.Decimal)
    (old : AssetStatistic.t) (assetInfos : list AssetInfo.t) : Res AssetStatistic.t :=
  match assetInfos with
  | [] => Ok old
  | assetInfo :: rest =>
      let! old' := foldAssetInfo BTCPrice old assetInfo in
      foldAssetInfos BTCPrice old' rest
  end.

(** The row as it is handed to [SaveAssetStatistic]. *)
Definition assetRow (d : Dao) (nowId : Z) (BTCPrice : decimal.Decimal)
    (old : AssetStatistic.t) : Res AssetStatistic.t :=
  let '(assetInfos, _) :=
    CalculateAssets d (AssetStatistic.TokenBasicName old)
                    (AssetStatistic.LastCheckId old) nowId in
  let! old' := foldAssetInfos BTCPrice old assetInfos in
  Ok (AssetStatistic.mk
        (AssetStatistic.TokenBasicName old')
        (AssetStatistic.Addressnum old')
        (AssetStatistic.Txnum old')
        (AssetStatistic.Amount old')
        (AssetStatistic.AmountUsd old')
        (AssetStatistic.AmountBtc old')
        nowId).

(** The loop over the rows: a failed save returns from the pass. *)
Fixpoint saveLoop (d : Dao) (nowId : Z) (BTCPrice : decimal.Decimal)
    (assetStatistics : list AssetStatistic.t) (s : Store) : Store * Outcome :=
  match assetStatistics with
  | [] => (s, Returned None)
  | old :: rest =>
      match assetRow d nowId BTCPrice old with
      | Panic m => (s, Panicked m)
      | Ok old' =>
          let '(s', err) := SaveAssetStatistic d old' s in
          match err with
          | Some e => (s', Returned (Errorf "Failed to UpdateTransferStatistic " e))
          | None => saveLoop d nowId BTCPrice rest s'
          end
      end
  end.

Definition computeAssetStatistics (d : Dao) (s : Store) : Store * Outcome :=
  let '(srcTransfer, err) := GetNewSrcTransfer d in
  match err with
  | Some e => (s, Returned (Errorf "Failed to GetNewSrcTransfer " e))
  | None =>
  match deref srcTransfer with
  | Panic m => (s, Panicked m)
  | Ok nowId =>
  let '(tokenBasics, err) := GetTokenBasics d in
  match err with
  | Some e => (s, Returned (Errorf "Failed to GetTokenBasics " e))
  | None =>
  let '(assetStatistics, err) := GetAssetStatistic d s in
  match err with
  | Some e => (s, Returned (Errorf "Failed to GetAssetStatistic " e))
  | None =>
  let assetStatistics :=
    (assetStatistics ++ newAssetStatistics (nameMap tokenBasics assetStatistics))%list in
  let '(tokenBasicBTC, err) := GetBTCPrice d in
  match err with
  | Some e => (s, Returned (Errorf "Failed to GetBTCPrice " e))
  | None =>
  match deref tokenBasicBTC with
  | Panic m => (s, Panicked m)
  | Ok tokenBasicBTC =>
  match decimal.Div (decimal.NewFromInt (TokenBasic_Price tokenBasicBTC))
                    (decimal.NewFromInt basedef.PRICE_PRECISION) with
  | Panic m => (s, Panicked m)
  | Ok BTCPrice => saveLoop d nowId BTCPrice assetStatistics s
  end end end end end end end.

End AssetPass.

(** ** The chain-query collaborator and the clock

    [common.GetBalance] and [common.GetTotalSupply] ask chain nodes; the
    answer to the same question may differ from one call to the next.  The
    world counts the calls made so far and the seconds slept; the node is
    the table of answers, indexed by the number of the call. *)

Record World : Type := mkWorld {
  calls : nat;
  slept : nat
}.

Record ChainNode : Type := mkChainNode {
  GetBalance_at : nat -> Z -> string -> option Z * error;
  GetTotalSupply_at : nat -> Z -> string -> option Z * error
}.

Definition M (A : Type) : Type := World -> A * World.

Definition ret {A} (a : A) : M A := fun w => (a, w).

Definition bind {A B} (m : M A) (k : A -> M B) : M B :=
  fun w => let '(a, w') := m w in k a w'.

Notation "'do' x '<-' m ';' k" := (bind m (fun x => k))
  (at level 10, x pattern, m at level 100, k at level 200).

(** One call to the node: the answer of this call from one of its two
    tables, and one call more on the clock. *)
Definition fetchColumn (column : nat -> Z -> string -> option Z * error)
    (chainId : Z) (hash : string) : M (option Z * error) :=
  fun w => (column (calls w) chainId hash, mkWorld (S (calls w)) (slept w)).

Module common.
Definition GetBalance (c : ChainNode) (chainId : Z) (hash : string)
  : M (option Z * error) :=
  fetchColumn (GetBalance_at c) chainId hash.

Definition GetTotalSupply (c : ChainNode) (chainId : Z) (hash : string)
  : M (option Z * error) :=
  fetchColumn (GetTotalSupply_at c) chainId hash.
End common.

Module time.
(** [time.Sleep(time.Second)]. *)
Definition Sleep_Second : M unit :=
  fun w => (tt, mkWorld (calls w) (S (slept w))).
End time.

(** The loop [for i := 0; i < n; i++ { Sleep; fetch; if err == nil break }]
    of the two retry helpers; [last] is the result in hand when the loop
    condition is tested. *)
Fixpoint retryLoop (fetch : M (option Z * error)) (n : nat) (last : option Z * error)
  : M (option Z * error) :=
  match n with
  | O => ret last
  | S n' =>
      do _ <- time.Sleep_Second;
      do r <- fetch;
      match r.2 with
      | None => ret r
      | Some _ => retryLoop fetch n' r
      end
  end.

Definition getAndRetryBalance (c : ChainNode) (chainId : Z) (hash : string)
  : M (option Z * error) :=
  do r <- common.GetBalance c chainId hash;
  match r.2 with
  | Some _ => retryLoop (common.GetBalance c chainId hash) 4 r
  | None => ret r
  end.

Definition getAndRetryTotalSupply (c : ChainNode) (chainId : Z) (hash : string)
  : M (option Z * error) :=
  do r <- common.GetTotalSupply c chainId hash;
  match r.2 with
  | Some _ => retryLoop (common.GetTotalSupply c chainId hash) 2 r
  | None => ret r
  end.

Module TokenStatistic.
(** Modelled from the spec: [models.TokenStatistic] is declared outside
    [src/]; a Token Statistic holds, per (chain id, asset hash), the
    accumulated inbound and outbound amount and count, their USD/BTC
    valuations and the two checkpoint cursors.  [Token] is the preloaded
    association that the range queries fill in. *)
Record t : Type := mk {
  ChainId : Z;
  Hash : string;
  InAmount : Z;
  InAmountUsd : Z;
  InAmountBtc : Z;
  OutAmount : Z;
  OutAmountUsd : Z;
  OutAmountBtc : Z;
  InCounter : Z;
  OutCounter : Z;
  LastInCheckId : Z;
  LastOutCheckId : Z;
  Token : option Token
}.
End TokenStatistic.

(** ** The token-statistics pass *)

Module TokenPass.
Module TS := TokenStatistic.

Record Dao : Type := mkDao {
  (** [Id] of the newest destination transfer. *)
  GetNewDstTransfer : option Z * error;
  (** [Id] of the newest source transfer. *)
  GetNewSrcTransfer : option Z * error;
  GetTokens : list Token * error;
  GetBTCPrice : option TokenBasic * error;
  GetTokenBasicByHash : Z -> string -> option Token * error;
  (** Range queries: chain id, hash, lower id, upper id. *)
  CalculateInTokenStatistics : Z -> string -> Z -> Z -> option TokenStatistic.t * error;
  CalculateOutTokenStatistics : Z -> string -> Z -> Z -> option TokenStatistic.t * error;
  GetTokenStatistics_err : error;
  SaveTokenStatistic_err : TokenStatistic.t -> error
}.

(** The statistic table: one row per (chain id, hash). *)
Abbreviation Store := (gmap (Z * string) TokenStatistic.t).

Definition GetTokenStatistics (d : Dao) (s : Store) : list TokenStatistic.t * error :=
  match GetTokenStatistics_err d with
  | None => ((map_to_list s).*2, None)
  | Some e => ([], Some e)
  end.

Definition SaveTokenStatistic (d : Dao) (r : TokenStatistic.t) (s : Store)
  : Store * error :=
  match SaveTokenStatistic_err d r with
  | None => (<[(TS.ChainId r, TS.Hash r) := r]> s, None)
  | Some e => (s, Some e)
  end.

(** [tokensMap]: the standard-0 tokens mapped to [true], then the keys
    that have a row mapped to [false]. *)
Definition tokensMap (tokens : list Token) (tokenStatistics : list TokenStatistic.t)
  : gmap (Z * string) bool :=
  let m :=
    foldl (fun acc token =>
             if Token_Standard token =? 0
             then <[(Token_ChainId token, Token_Hash token) := true]> acc else acc)
          (∅ : gmap (Z * string) bool) tokens in
  foldl (fun acc tokenSta => <[(TS.ChainId tokenSta, TS.Hash tokenSta) := false]> acc)
        m tokenStatistics.

Definition newTokenStatistics (m : gmap (Z * string) bool) : list TokenStatistic.t :=
  omap (fun kv : (Z * string) * bool =>
          if kv.2
          then Some (TokenStatistic.mk kv.1.1 kv.1.2 0 0 0 0 0 0 0 0 0 0 None)
          else None)
       (map_to_list m).

(** [amount.Div(precision_new).Mul(100).BigInt()]. *)
Definition scaleAmount (precision_new : decimal.Decimal) (amount : Z) : Res Z :=
  let amount_new := decimal.NewFromBigInt amount 0 in
  let! q := decimal.Div amount_new precision_new in
  Ok (decimal.BigInt (decimal.Mul q (decimal.NewFromInt32 100))).

(** The guard [x != nil && x.Token != nil && x.Token.TokenBasic != nil];
    it yields the Token Basic behind the delta. *)
Definition deltaTokenBasic (x : option TokenStatistic.t) : option (TokenStatistic.t * TokenBasic) :=
  match x with
  | Some r =>
      match TS.Token r with
      | Some tk =>
          match Token_TokenBasic tk with
          | Some tb => Some (r, tb)
          | None => None
          end
      | None => None
      end
  | None => None
  end.

(** The inbound part of the loop body: after it [InAmount], [InCounter]
    and the two inbound valuations are set. *)
Definition inboundPart (d : Dao) (c : ChainNode) (nowInId : Z)
    (BTCPrice price_new precision_new : decimal.Decimal)
    (tb : TokenBasic) (statistic : TokenStatistic.t)
  : M (Res TokenStatistic.t) :=
  do r1 <-
    (if TokenBasic_ChainId tb =? TS.ChainId statistic then
       do b <- getAndRetryBalance c (TS.ChainId statistic) (TS.Hash statistic);
       match b.2 with
       | Some _ => ret (Ok (TS.InAmount statistic, TS.InCounter statistic))
       | None =>
           ret (let! balance := deref b.1 in
                let! a := scaleAmount precision_new balance in
                Ok (a, TS.InCounter statistic))
       end
     else
       let '(i, _) :=
         CalculateInTokenStatistics d (TS.ChainId statistic) (TS.Hash statistic)
                                    (TS.LastInCheckId statistic) nowInId in
       match deltaTokenBasic i with
       | Some (i, _) =>
           ret (let! a := scaleAmount precision_new (TS.InAmount i) in
                Ok (addDecimalBigInt (TS.InAmount statistic) a,
                    addDecimalInt64 (TS.InCounter statistic) (TS.InCounter i)))
       | None => ret (Ok (TS.InAmount statistic, TS.InCounter statistic))
       end);
  ret (let! (inAmount, inCounter) := r1 in
       let amount_usd := decimal.Mul (decimal.NewFromBigInt inAmount 0) price_new in
       let! amount_btc := decimal.Div amount_usd BTCPrice in
       Ok (TokenStatistic.mk
             (TS.ChainId statistic) (TS.Hash statistic)
             inAmount
             (decimal.BigInt (decimal.Mul amount_usd (decimal.NewFromInt32 100)))
             (decimal.BigInt (decimal.Mul amount_btc (decimal.NewFromInt32 100)))
             (TS.OutAmount statistic) (TS.OutAmountUsd statistic) (TS.OutAmountBtc statistic)
             inCounter (TS.OutCounter statistic)
             (TS.LastInCheckId statistic) (TS.LastOutCheckId statistic)
             (TS.Token statistic))).

(** The outbound part and the advance of the two cursors. *)
Definition outboundPart (d : Dao) (nowInId nowOutId : Z)
    (BTCPrice price_new precision_new : decimal.Decimal)
    (statistic : TokenStatistic.t) : Res TokenStatistic.t :=
  let '(o, _) :=
    CalculateOutTokenStatistics d (TS.ChainId statistic) (TS.Hash statistic)
                                (TS.LastInCheckId statistic) nowInId in
  let! (outAmount, outAmountUsd, outAmountBtc, outCounter) :=
    match deltaTokenBasic o with
    | Some (o, otb) =>
        let! outAmount :=
          (if TS.ChainId statistic =? TokenBasic_ChainId otb then Ok 0
           else
             let! a := scaleAmount precision_new (TS.OutAmount o) in
             Ok (addDecimalBigInt (TS.OutAmount statistic) a)) in
        let amount_usd := decimal.Mul (decimal.NewFromBigInt outAmount 0) price_new in
        let! amount_btc := decimal.Div amount_usd BTCPrice in
        Ok (outAmount,
            decimal.BigInt (decimal.Mul amount_usd (decimal.NewFromInt32 100)),
            decimal.BigInt (decimal.Mul amount_btc (decimal.NewFromInt32 100)),
            addDecimalInt64 (TS.OutCounter statistic) (TS.OutCounter o))
    | None =>
        Ok (TS.OutAmount statistic, TS.OutAmountUsd statistic, TS.OutAmountBtc statistic,
            TS.OutCounter statistic)
    end in
  Ok (TokenStatistic.mk
        (TS.ChainId statistic) (TS.Hash statistic)
        (TS.InAmount statistic) (TS.InAmountUsd statistic) (TS.InAmountBtc statistic)
        outAmount outAmountUsd outAmountBtc
        (TS.InCounter statistic) outCounter
        nowInId nowOutId
        (TS.Token statistic)).

(** The loop body from the first use of [token] to the row that is
    handed to [SaveTokenStatistic]. *)
Definition tokenRowBody (d : Dao) (c : ChainNode) (nowInId nowOutId : Z)
    (BTCPrice : decimal.Decimal) (token : option Token)
    (statistic : TokenStatistic.t) : M (Res TokenStatistic.t) :=
  match (let! token := deref token in
         let! tb := deref (Token_TokenBasic token) in
         let! price_new :=
           decimal.Div (decimal.New (TokenBasic_Price tb) 0)
                       (decimal.NewFromInt basedef.PRICE_PRECISION) in
         Ok (tb, price_new, decimal.New 1 (int32 (Token_Precision token)))) with
  | Panic m => ret (Panic m)
  | Ok (tb, price_new, precision_new) =>
      do r <- inboundPart d c nowInId BTCPrice price_new precision_new tb statistic;
      ret (let! statistic' := r in
           outboundPart d nowInId nowOutId BTCPrice price_new precision_new statistic')
  end.

(** What one turn of the loop over the rows does. *)
Inductive RowStep : Type :=
| Skipped
| Processed (row : TokenStatistic.t)
| RowPanicked (msg : string).

Definition tokenRow (d : Dao) (c : ChainNode) (nowInId nowOutId : Z)
    (BTCPrice : decimal.Decimal) (statistic : TokenStatistic.t) : M RowStep :=
  let '(token, err) := GetTokenBasicByHash d (TS.ChainId statistic) (TS.Hash statistic) in
  match err with
  | None => ret Skipped
  | Some _ =>
      do r <- tokenRowBody d c nowInId nowOutId BTCPrice token statistic;
      match r with
      | Ok row => ret (Processed row)
      | Panic m => ret (RowPanicked m)
      end
  end.

Fixpoint rowLoop (d : Dao) (c : ChainNode) (nowInId nowOutId : Z)
    (BTCPrice : decimal.Decimal) (tokenStatistics : list TokenStatistic.t)
    (s : Store) : M (Store * Outcome) :=
  match tokenStatistics with
  | [] => ret (s, Returned None)
  | statistic :: rest =>
      do step <- tokenRow d c nowInId nowOutId BTCPrice statistic;
      match step with
      | Skipped => rowLoop d c nowInId nowOutId BTCPrice rest s
      | RowPanicked m => ret (s, Panicked m)
      | Processed row =>
          let '(s', err) := SaveTokenStatistic d row s in
          match err with
          | Some e => ret (s', Returned (Errorf "Failed to SaveTokenStatistic " e))
          | None => rowLoop d c nowInId nowOutId BTCPrice rest s'
          end
      end
  end.

Definition computeTokenStatistics (d : Dao) (c : ChainNode) (s : Store)
  : M (Store * Outcome) :=
  let '(newDst, err) := GetNewDstTransfer d in
  match err with
  | Some e => ret (s, Returned (Errorf "Failed to GetNewDstTransfer " e))
  | None =>
  match deref newDst with
  | Panic m => ret (s, Panicked m)
  | Ok nowInId =>
  let '(newSrc, err) := GetNewSrcTransfer d in
  match err with
  | Some e => ret (s, Returned (Errorf "Failed to GetNewSrcTransfer " e))
  | None =>
  match deref newSrc with
  | Panic m => ret (s, Panicked m)
  | Ok nowOutId =>
  let '(tokenStatistics, err) := GetTokenStatistics d s in
  match err with
  | Some e => ret (s, Returned (Errorf "Failed to GetTokenStatistics " e))
  | None =>
  let '(tokens, err) := GetTokens d in
  match err with
  | Some e => ret (s, Returned (Errorf "Failed to GetTokens " e))
  | None =>
  let tokenStatistics :=
    (tokenStatistics ++ newTokenStatistics (tokensMap tokens tokenStatistics))%list in
  let '(tokenBasicBTC, err) := GetBTCPrice d in
  match err with
  | Some e => ret (s, Returned (Errorf "Failed to GetBTCPrice " e))
  | None =>
  match (let! tokenBasicBTC := deref tokenBasicBTC in
         decimal.Div (decimal.NewFromInt (TokenBasic_Price tokenBasicBTC))
                     (decimal.NewFromInt basedef.PRICE_PRECISION)) with
  | Panic m => ret (s, Panicked m)
  | Ok BTCPrice => rowLoop d c nowInId nowOutId BTCPrice tokenStatistics s
  end end end end end end end end.

End TokenPass.

(** ** The reserve check *)

Module DstChainAsset.
Record t : Type := mk {
  ChainId : Z;
  Hash : string;
  TotalSupply : option Z;
  Balance : option Z;
  Flow : option Z
}.
End DstChainAsset.

Module AssetDetail.
Record t : Type := mk {
  BasicName : string;
  TokenAsset : list DstChainAsset.t;
  Difference : Z;
  Precision : Z;
  Price : Z;
  Amount_usd : string;
  Reason : string
}.
End AssetDetail.

Definition inExtraBasic (name : string) : bool :=
  let extraBasics := ["BLES"; "GOF"; "LEV"; "mBTM"; "MOZ"; "O3"; "USDT"; "STN"; "XMPT"] in
  existsb (fun basic => String.eqb name basic) extraBasics.

Definition notToken (token : Token) : bool :=
  String.eqb (Token_TokenBasicName token) "USDT" && negb (Token_Precision token =? 6).

(** The answer to one [http.Get]: a transport error (the response is nil),
    or a response with its status code and the [Balance] member decoded
    from the body (nil when the body does not carry one). *)
Inductive HttpGet : Type :=
| HttpFailed
| HttpResponse (StatusCode : Z) (Balance : option Z).

(** [conf.IPPortConfig]: each address stands for what it answers. *)
Record IPPortConfig : Type := mkIPPortConfig {
  WBTCIP : HttpGet;
  USDTIP : HttpGet
}.

(** The message handed to [common.PostDingtext]: the details whose lines
    make up its text, in order. *)
Definition DingText : Type := list AssetDetail.t.

Section Reconciler.

(** [basedef.MATIC_CROSSCHAIN_ID] is declared outside [src/]. *)
Variable MATIC_CROSSCHAIN_ID : Z.

Definition specialBasic (token : Token) (totalSupply : option Z) : option Z :=
  let presion := decimal.BigInt (decimal.New 1 (int32 (Token_Precision token))) in
  let name := Token_TokenBasicName token in
  let chain := Token_ChainId token in
  if String.eqb name "YNI" && (chain =? basedef.ETHEREUM_CROSSCHAIN_ID) then Some 0
  else if String.eqb name "YNI" && (chain =? basedef.HECO_CROSSCHAIN_ID) then Some (1 * presion)
  else if String.eqb name "DAO" && (chain =? basedef.ETHEREUM_CROSSCHAIN_ID) then Some (1000 * presion)
  else if String.eqb name "DAO" && (chain =? basedef.HECO_CROSSCHAIN_ID) then Some (1000 * presion)
  else if String.eqb name "COPR" && (chain =? basedef.BSC_CROSSCHAIN_ID) then Some (274400000 * presion)
  else if String.eqb name "COPR" && (chain =? basedef.HECO_CROSSCHAIN_ID) then Some 0
  else if String.eqb name "DigiCol ERC-721" && (chain =? basedef.ETHEREUM_CROSSCHAIN_ID) then Some 0
  else if String.eqb name "DigiCol ERC-721" && (chain =? basedef.HECO_CROSSCHAIN_ID) then Some 0
  else if String.eqb name "DMOD" && (chain =? basedef.ETHEREUM_CROSSCHAIN_ID) then Some 0
  else if String.eqb name "DMOD" && (chain =? basedef.BSC_CROSSCHAIN_ID) then Some (15000000 * presion)
  else if String.eqb name "SIL" && (chain =? basedef.ETHEREUM_CROSSCHAIN_ID) then Some 1487520675265330391631
  else if String.eqb name "SIL" && (chain =? basedef.BSC_CROSSCHAIN_ID) then Some (5001 * presion)
  else if String.eqb name "DOGK" && (chain =? basedef.BSC_CROSSCHAIN_ID) then Some 0
  else if String.eqb name "DOGK" && (chain =? basedef.HECO_CROSSCHAIN_ID) then Some (285000000000 * presion)
  else if String.eqb name "SXC" && (chain =? basedef.OK_CROSSCHAIN_ID) then Some 0
  else if String.eqb name "SXC" && (chain =? MATIC_CROSSCHAIN_ID) then Some 0
  else if String.eqb name "OOE" && (chain =? MATIC_CROSSCHAIN_ID) then Some 0
  else totalSupply.

(** The (asset name, chain) pairs that [specialBasic] tests for, in the
    order of its tests. *)
Definition overrideTable : list (string * Z) :=
  [("YNI", basedef.ETHEREUM_CROSSCHAIN_ID); ("YNI", basedef.HECO_CROSSCHAIN_ID);
   ("DAO", basedef.ETHEREUM_CROSSCHAIN_ID); ("DAO", basedef.HECO_CROSSCHAIN_ID);
   ("COPR", basedef.BSC_CROSSCHAIN_ID); ("COPR", basedef.HECO_CROSSCHAIN_ID);
   ("DigiCol ERC-721", basedef.ETHEREUM_CROSSCHAIN_ID);
   ("DigiCol ERC-721", basedef.HECO_CROSSCHAIN_ID);
   ("DMOD", basedef.ETHEREUM_CROSSCHAIN_ID); ("DMOD", basedef.BSC_CROSSCHAIN_ID);
   ("SIL", basedef.ETHEREUM_CROSSCHAIN_ID); ("SIL", basedef.BSC_CROSSCHAIN_ID);
   ("DOGK", basedef.BSC_CROSSCHAIN_ID); ("DOGK", basedef.HECO_CROSSCHAIN_ID);
   ("SXC", basedef.OK_CROSSCHAIN_ID); ("SXC", MATIC_CROSSCHAIN_ID);
   ("OOE", MATIC_CROSSCHAIN_ID)].


(** State of the loop over [basic.Tokens]: the entries so far, the
    running [totalFlow] and the [Reason] of the detail under
    construction. *)
Record TokenLoop : Type := mkTokenLoop {
  dstChainAssets : list DstChainAsset.t;
  totalFlow : Z;
  reason : string
}.

(** The total supply that enters the flow of one token: the fetched
    figure (zero after a failed fetch), then the override table, then
    the rule for the home chain. *)
Definition supplyForFlow (basic : TokenBasic) (token : Token)
    (fetched : option Z * error) : option Z :=
  let totalSupply := match fetched.2 with Some _ => Some 0 | None => fetched.1 end in
  let totalSupply := specialBasic token totalSupply in
  if negb (inExtraBasic (Token_TokenBasicName token))
     && (TokenBasic_ChainId basic =? Token_ChainId token)
  then Some 0 else totalSupply.

(** One turn of the loop over [basic.Tokens]. *)
Definition checkToken (c : ChainNode) (basic : TokenBasic) (token : Token)
    (st : TokenLoop) : M (Res TokenLoop) :=
  if notToken token then ret (Ok st)
  else if negb (Token_Property token =? 1) then ret (Ok st)
  else
    do b <- getAndRetryBalance c (Token_ChainId token) (Token_Hash token);
    let reason1 := match b.2 with Some e => e | None => reason st end in
    let balance := match b.2 with Some _ => Some 0 | None => b.1 end in
    do _ <- time.Sleep_Second;
    do t <- getAndRetryTotalSupply c (Token_ChainId token) (Token_Hash token);
    let reason2 := match t.2 with Some e => e | None => reason1 end in
    let totalSupply := supplyForFlow basic token t in
    ret (let! ts := deref totalSupply in
         let! bal := deref balance in
         let flow := ts - bal in
         Ok (mkTokenLoop
               (dstChainAssets st ++
                  [DstChainAsset.mk (Token_ChainId token) (Token_Hash token)
                                    totalSupply balance (Some flow)])%list
               (totalFlow st + flow)
               reason2)).

Fixpoint checkTokens (c : ChainNode) (basic : TokenBasic) (tokens : list Token)
    (st : TokenLoop) : M (Res TokenLoop) :=
  match tokens with
  | [] => ret (Ok st)
  | token :: rest =>
      do r <- checkToken c basic token st;
      match r with
      | Ok st' => checkTokens c basic rest st'
      | Panic m => ret (Panic m)
      end
  end.

Definition getO3Data (assetDetail : AssetDetail.t) (ipCfg : IPPortConfig)
  : Res AssetDetail.t :=
  let name := AssetDetail.BasicName assetDetail in
  if String.eqb name "WBTC" then
    match WBTCIP ipCfg with
    | HttpFailed => Panic nil_dereference
    | HttpResponse code o3Balance =>
        if negb (code =? 200) then Ok assetDetail
        else
          let chainAsset :=
            DstChainAsset.mk basedef.O3_CROSSCHAIN_ID "" (Some 0) (Some 0) o3Balance in
          let! flow := deref o3Balance in
          Ok (AssetDetail.mk name
                (AssetDetail.TokenAsset assetDetail ++ [chainAsset])%list
                (AssetDetail.Difference assetDetail + flow)
                (AssetDetail.Precision assetDetail) (AssetDetail.Price assetDetail)
                (AssetDetail.Amount_usd assetDetail) (AssetDetail.Reason assetDetail))
    end
  else if String.eqb name "USDT" then
    match USDTIP ipCfg with
    | HttpFailed => Panic nil_dereference
    | HttpResponse code o3Balance =>
        if negb (code =? 200) then Ok assetDetail
        else
          let chainAsset :=
            DstChainAsset.mk basedef.O3_CROSSCHAIN_ID "" (Some 0) o3Balance (Some 0) in
          Ok (AssetDetail.mk name
                (AssetDetail.TokenAsset assetDetail ++ [chainAsset])%list
                (AssetDetail.Difference assetDetail)
                (AssetDetail.Precision assetDetail) (AssetDetail.Price assetDetail)
                (AssetDetail.Amount_usd assetDetail) (AssetDetail.Reason assetDetail))
    end
  else Ok assetDetail.

(** The USD value of a difference: the difference in units of the asset
    times the price. *)
Definition usdDecimal (difference precision price : Z) : Res decimal.Decimal :=
  let! q := decimal.Div (decimal.NewFromBigInt difference 0)
                        (decimal.New 1 (int32 precision)) in
  Ok (decimal.Mul q (decimal.New price (-8))).

(** The text stored in [Amount_usd] for a positive difference. *)
Definition amountUsd (difference precision price : Z) : Res string :=
  let! d := usdDecimal difference precision price in
  Ok (decimal.StringFixed0 d).

(** The sum of the [Flow] members of chain entries. *)
Definition sumFlows (l : list DstChainAsset.t) : Z :=
  foldr (fun x acc => default 0 (DstChainAsset.Flow x) + acc) 0 l.

(** The body of the loop over the Token Basics, up to the point where
    the detail is put into one of the two lists. *)
Definition checkBasic (c : ChainNode) (ipCfg : IPPortConfig) (basic : TokenBasic)
  : M (Res AssetDetail.t) :=
  do r <- checkTokens c basic (TokenBasic_Tokens basic) (mkTokenLoop [] 0 "");
  ret (let! st := r in
       let assetDetail :=
         AssetDetail.mk (TokenBasic_Name basic) (dstChainAssets st) (totalFlow st)
                        (TokenBasic_Precision basic) (TokenBasic_Price basic)
                        "" (reason st) in
       let! assetDetail := getO3Data assetDetail ipCfg in
       if inExtraBasic (AssetDetail.BasicName assetDetail) then Ok assetDetail
       else if 0 <? AssetDetail.Difference assetDetail then
         let! usd := amountUsd (AssetDetail.Difference assetDetail)
                               (AssetDetail.Precision assetDetail)
                               (AssetDetail.Price assetDetail) in
         Ok (AssetDetail.mk
               (AssetDetail.BasicName assetDetail) (AssetDetail.TokenAsset assetDetail)
               (AssetDetail.Difference assetDetail) (AssetDetail.Precision assetDetail)
               (AssetDetail.Price assetDetail) usd (AssetDetail.Reason assetDetail))
       else Ok assetDetail).

(** The loop over the Token Basics: the two lists. *)
Fixpoint checkBasics (c : ChainNode) (ipCfg : IPPortConfig) (tokenBasics : list TokenBasic)
    (resAssetDetails extraAssetDetails : list AssetDetail.t)
  : M (Res (list AssetDetail.t * list AssetDetail.t)) :=
  match tokenBasics with
  | [] => ret (Ok (resAssetDetails, extraAssetDetails))
  | basic :: rest =>
      do r <- checkBasic c ipCfg basic;
      match r with
      | Panic m => ret (Panic m)
      | Ok assetDetail =>
          if inExtraBasic (AssetDetail.BasicName assetDetail)
          then checkBasics c ipCfg rest resAssetDetails
                           (extraAssetDetails ++ [assetDetail])%list
          else checkBasics c ipCfg rest (resAssetDetails ++ [assetDetail])%list
                           extraAssetDetails
      end
  end.

(** Whether [sendDing] puts the detail into the message. *)
Definition alarming (assetDetail : AssetDetail.t) : bool :=
  if String.eqb (AssetDetail.Reason assetDetail) "all node is not working" then false
  else if 0 <? AssetDetail.Difference assetDetail then
    let '(usd, _) := decimal.NewFromString (AssetDetail.Amount_usd assetDetail) in
    decimal.Cmp usd (decimal.NewFromInt32 10000) =? 1
  else false.

(** [sendDing]: the message posted, if one is, and the error returned. *)
Definition sendDing (PostDingtext : DingText -> error)
    (assetDetails : list AssetDetail.t) : option DingText * error :=
  let ss := List.filter alarming assetDetails in
  let flag := existsb alarming assetDetails in
  if flag then (Some ss, PostDingtext ss) else (None, None).

Record Report : Type := mkReport {
  resAssetDetails : list AssetDetail.t;
  extraAssetDetails : list AssetDetail.t;
  ding : option DingText
}.

Definition startCheckAssetAlarm
    (GetPropertytokenBasic : list TokenBasic * error)
    (PostDingtext : DingText -> error)
    (c : ChainNode) (ipCfg : IPPortConfig) : M (Res (Report * error)) :=
  let '(tokenBasics, err) := GetPropertytokenBasic in
  match err with
  | Some e => ret (Ok (mkReport [] [] None, Some e))
  | None =>
      do r <- checkBasics c ipCfg tokenBasics [] [];
      ret (let! (res, extra) := r in
           let '(posted, _) := sendDing PostDingtext res in
           Ok (mkReport res extra posted, None))
  end.

End Reconciler.

(** ** The scheduler

    [run] is one goroutine: it registers with the wait group, then loops
    over a [select] on the ticker and on the [Done] channel of the
    context.  The model follows the statements: a statement completes
    normally or with a [break], and a [break] belongs to the innermost
    [for], [switch] or [select] around it. *)

Module Scheduler.

(** What the [select] receives in one turn of the loop. *)
Inductive Event : Type :=
| Tick
| Done.

Inductive Completion : Type :=
| Normal
| Break.

(** One task: its share of the wait-group counter, the passes started so
    far and whether [run] has returned. *)
Record Task : Type := mkTask {
  wg : Z;
  passes : nat;
  returned : bool
}.

Definition wg_Add (n : Z) (t : Task) : Task := mkTask (wg t + n) (passes t) (returned t).
Definition wg_Done (t : Task) : Task := mkTask (wg t - 1) (passes t) (returned t).

(** The statements of the two cases. *)
Definition case_body (ev : Event) (t : Task) : Task * Completion :=
  match ev with
  | Tick => (mkTask (wg t) (S (passes t)) (returned t), Normal)
  | Done => (t, Break)
  end.

(** The [select] statement: a [break] in a case ends the [select]. *)
Definition select_stmt (ev : Event) (t : Task) : Task * Completion :=
  let '(t', _) := case_body ev t in (t', Normal).

(** [for { select ... }] over the events that arrive; the loop is left
    only by a [break] of its body.  The flag tells whether it was. *)
Fixpoint for_loop (evs : list Event) (t : Task) : Task * bool :=
  match evs with
  | [] => (t, false)
  | ev :: rest =>
      let '(t', c) := select_stmt ev t in
      match c with
      | Break => (t', true)
      | Normal => for_loop rest t'
      end
  end.

(** [run], as far as it gets on the events [evs]. *)
Definition run (evs : list Event) : Task :=
  let t := wg_Add 1 (mkTask 0 0 false) in
  let '(t', exited) := for_loop evs t in
  if exited then mkTask (wg (wg_Done t')) (passes t') true else t'.

(** [Stop] cancels the context and waits; [Wait] returns when the
    counter of the wait group is zero. *)
Definition wg_counter (tasks : list Task) : Z :=
  foldr (fun t acc => wg t + acc) 0 tasks.

Definition Stop_returns (tasks : list Task) : bool := wg_counter tasks =? 0.

End Scheduler.

(** * Invariants of the reserve check *)

(** A chain entry of the loop over the tokens: its flow is its total
    supply less its balance. *)
Definition entry_ok (x : DstChainAsset.t) : Prop :=
  exists ts bal,
    DstChainAsset.TotalSupply x = Some ts
    /\ DstChainAsset.Balance x = Some bal
    /\ DstChainAsset.Flow x = Some (ts - bal).

(** The chain entry that [getO3Data] adds. *)
Definition entry_o3 (x : DstChainAsset.t) : Prop :=
  DstChainAsset.ChainId x = basedef.O3_CROSSCHAIN_ID
  /\ DstChainAsset.TotalSupply x = Some 0.

(** The state of the loop over the tokens of a family: every entry so
    far has its flow, and the running total is their sum. *)
Definition loop_ok (st : TokenLoop) : Prop :=
  Forall entry_ok (dstChainAssets st)
  /\ totalFlow st = sumFlows (dstChainAssets st).

(** A detail as the loop over the families leaves it: the difference is
    the sum of the flows of its entries, each entry is one of the loop
    over the tokens or the one added for O3, only "WBTC" and "USDT" have
    the latter, and for a family off the exclusion list with a positive
    difference [Amount_usd] spells its USD value. *)
Definition detail_ok (ad : AssetDetail.t) : Prop :=
  AssetDetail.Difference ad = sumFlows (AssetDetail.TokenAsset ad)
  /\ Forall (fun x => entry_ok x \/ entry_o3 x) (AssetDetail.TokenAsset ad)
  /\ (AssetDetail.BasicName ad <> "WBTC" -> AssetDetail.BasicName ad <> "USDT" ->
      Forall entry_ok (AssetDetail.TokenAsset ad))
  /\ (inExtraBasic (AssetDetail.BasicName ad) = false ->
      0 < AssetDetail.Difference ad ->
      amountUsd (AssetDetail.Difference ad) (AssetDetail.Precision ad)
                (AssetDetail.Price ad)
      = Ok (AssetDetail.Amount_usd ad)).

(** * Invariants of the statistic tables *)

(** The asset table when nothing is left to do up to the source transfer
    [nowId]: every row sits under its own name and its cursor is
    [nowId]. *)
Definition asset_settled (nowId : Z) (s : gmap string AssetStatistic.t) : Prop :=
  forall k r,
    s !! k = Some r ->
    AssetStatistic.TokenBasicName r = k /\ AssetStatistic.LastCheckId r = nowId.

(** Every row of the chain table sits under its own chain id. *)
Definition chain_keyed (s : gmap Z ChainStatistic.t) : Prop :=
  forall k r, s !! k = Some r -> ChainStatistic.ChainId r = k.

(** * Assumptions on the chain nodes *)

(** A node answers every call with a figure or with an error: it never
    returns the nil figure together with the nil error. *)
Definition node_answers (c : ChainNode) : Prop :=
  forall n chainId hash,
    ((GetBalance_at c n chainId hash).2 = None ->
     (GetBalance_at c n chainId hash).1 <> None)
    /\ ((GetTotalSupply_at c n chainId hash).2 = None ->
        (GetTotalSupply_at c n chainId hash).1 <> None).

(** * Scenarios

    Concrete ledgers, catalogs and nodes on which the passes are run. *)

Definition is_int64 (x : Z) : Prop := - 2 ^ 63 <= x < 2 ^ 63.

Module Scenario.

(** A node none of whose endpoints answers. *)
Definition deadNode : ChainNode :=
  mkChainNode (fun _ _ _ => (None, Some "all node is not working"))
              (fun _ _ _ => (None, Some "all node is not working")).

(** A token of a family "FOO" that lives on BSC, bridged to Ethereum. *)
Definition fooOnEth : Token := mkToken "0xf00" 2 18 "FOO" 1 0 None.

Definition foo : TokenBasic := mkTokenBasic "FOO" 18 250000000 0 6 [fooOnEth].

Definition w0 : World := mkWorld 0 0.

(** The value of [basedef.MATIC_CROSSCHAIN_ID] used in the scenarios. *)
Definition MATIC : Z := 17.

(** The family "DAO" with Ethereum as its home chain, and its token on
    Ethereum. *)
Definition daoOnEth : Token := mkToken "0xda0" 2 18 "DAO" 1 0 None.

Definition daoBasic : TokenBasic := mkTokenBasic "DAO" 18 100000000 0 2 [daoOnEth].

(** A node that reports a balance of 3 and a total supply of 5. *)
Definition smallNode : ChainNode :=
  mkChainNode (fun _ _ _ => (Some 3, None)) (fun _ _ _ => (Some 5, None)).

End Scenario.

Module TokenScenario.

(** The family "WBTC" with Ethereum as its home chain, its token on
    Ethereum and its token on BSC. *)
Definition wbtc : TokenBasic := mkTokenBasic "WBTC" 8 3000000000000 0 2 [].

Definition wbtcOnEth : Token := mkToken "0xbtc" 2 8 "WBTC" 1 0 (Some wbtc).

Definition wbtcOnBsc : Token := mkToken "0xb5c" 6 8 "WBTC" 1 0 (Some wbtc).

(** The statistic rows of the two tokens. *)
Definition rowEth : TokenStatistic.t :=
  TokenStatistic.mk 2 "0xbtc" 0 0 0 0 0 0 0 0 5 10 None.

Definition rowBsc : TokenStatistic.t :=
  TokenStatistic.mk 6 "0xb5c" 7000 0 0 1000 0 0 3 4 5 10 None.

Definition store : gmap (Z * string) TokenStatistic.t :=
  <[(2, "0xbtc") := rowEth]> (<[(6, "0xb5c") := rowBsc]> ∅).

(** Source transfers of the ledger: id, chain id, hash, raw amount. *)
Definition srcTransfers : list (Z * Z * string * Z) :=
  [(6, 6, "0xb5c", 100000000);
   (15, 6, "0xb5c", 300000000)].

Definition inRange (lo hi : Z) (t : Z * Z * string * Z) (chainId : Z) (hash : string) : bool :=
  let '(id, c, h, _) := t in
  (lo <? id) && (id <=? hi) && (c =? chainId) && String.eqb h hash.

(** Sum and count of the source transfers of one token with
    [lo < id <= hi]. *)
Definition sumOut (chainId : Z) (hash : string) (lo hi : Z) : Z * Z :=
  foldr (fun t acc =>
           if inRange lo hi t chainId hash
           then (acc.1 + t.2, acc.2 + 1) else acc)
        (0, 0) srcTransfers.

Definition lookup (chainId : Z) (hash : string) : option Token * error :=
  if (chainId =? 2) && String.eqb hash "0xbtc" then (Some wbtcOnEth, None)
  else if (chainId =? 6) && String.eqb hash "0xb5c" then (Some wbtcOnBsc, None)
  else (None, Some "record not found").

Definition dao : TokenPass.Dao :=
  TokenPass.mkDao
    (Some 7, None) (Some 20, None)
    ([wbtcOnEth; wbtcOnBsc], None)
    (Some wbtc, None)
    lookup
    (fun c h lo hi => (None, None))
    (fun c h lo hi =>
       let '(amount, count) := sumOut c h lo hi in
       (Some (TokenStatistic.mk c h 0 0 0 amount 0 0 0 count 0 0 (lookup c h).1), None))
    None
    (fun _ => None).

(** A node that reports a balance of 5 WBTC. *)
Definition node : ChainNode :=
  mkChainNode (fun _ _ _ => (Some 500000000, None)) (fun _ _ _ => (Some 0, None)).

End TokenScenario.

Module AssetScenario.

Definition rowA : AssetStatistic.t := AssetStatistic.mk "AAA" 0 1 100 0 0 10.
Definition rowB : AssetStatistic.t := AssetStatistic.mk "BBB" 0 2 200 0 0 10.

Definition store : gmap string AssetStatistic.t :=
  <["AAA" := rowA]> (<["BBB" := rowB]> ∅).

Definition btc : TokenBasic := mkTokenBasic "WBTC" 8 3000000000000 0 2 [].

(** Every family has one new transfer of 5 units (precision 2, price 1
    USD) whenever the range is not empty. *)
Definition CalculateAssets (name : string) (lo hi : Z) : list AssetInfo.t * error :=
  if lo <? hi then ([AssetInfo.mk 500 2 100000000 1], None) else ([], None).

(** The statistic table refuses the row of "AAA". *)
Definition dao : AssetPass.Dao :=
  AssetPass.mkDao
    (Some 20, None)
    ([], None)
    (Some btc, None)
    CalculateAssets
    None
    (fun r => if String.eqb (AssetStatistic.TokenBasicName r) "AAA"
              then Some "disk full" else None).

(** The same ledger with a table that takes every row. *)
Definition goodDao : AssetPass.Dao :=
  AssetPass.mkDao
    (Some 20, None) ([], None) (Some btc, None) CalculateAssets None (fun _ => None).

(** The table after a pass up to the source transfer 20. *)
Definition settled : gmap string AssetStatistic.t :=
  <["AAA" := AssetStatistic.mk "AAA" 0 2 600 50000 1 20]>
    (<["BBB" := AssetStatistic.mk "BBB" 0 3 700 50000 1 20]> ∅).

End AssetScenario.

Module ReserveScenario.

(** Answers of the O3 endpoints: both serve a balance of zero. *)
Definition ipCfg : IPPortConfig :=
  mkIPPortConfig (HttpResponse 200 (Some 0)) (HttpResponse 200 (Some 0)).

Definition PostDingtext (ss : DingText) : error := None.

(** The balance endpoint is down; the total supply of every token reads
    20000 units of 18 decimals. *)
Definition balanceDown : ChainNode :=
  mkChainNode (fun _ _ _ => (None, Some "all node is not working"))
              (fun _ _ _ => (Some (20000 * 10 ^ 18), None)).

(** The same supply with a balance endpoint that reads zero. *)
Definition balanceZero : ChainNode :=
  mkChainNode (fun _ _ _ => (Some 0, None))
              (fun _ _ _ => (Some (20000 * 10 ^ 18), None)).

(** "WBTC" with its token on BSC; the node reads a balance of 7 and a
    total supply of 7, and O3 serves a balance of 1000 WBTC. *)
Definition wbtcOnBsc : Token := mkToken "0xb5c" 6 8 "WBTC" 1 0 None.

Definition wbtc : TokenBasic := mkTokenBasic "WBTC" 8 3000000000000 0 2 [wbtcOnBsc].

Definition balanced : ChainNode :=
  mkChainNode (fun _ _ _ => (Some 7, None)) (fun _ _ _ => (Some 7, None)).

Definition o3Holds : IPPortConfig :=
  mkIPPortConfig (HttpResponse 200 (Some 100000000000)) (HttpResponse 200 (Some 0)).

(** The detail of "FOO" when the balance reads zero. *)
Definition fooDetail : AssetDetail.t :=
  AssetDetail.mk "FOO"
    [DstChainAsset.mk 2 "0xf00" (Some (20000 * 10 ^ 18)) (Some 0) (Some (20000 * 10 ^ 18))]
    (20000 * 10 ^ 18) 18 250000000 "50000" "".

End ReserveScenario.

Module ChainScenario.

(** Rows of the relay chain, of Ethereum and of BSC. *)
Definition rowPoly : ChainStatistic.t := ChainStatistic.mk 0 50 50 0 100 100.
Definition rowEth : ChainStatistic.t := ChainStatistic.mk 2 10 20 0 7 20.
Definition rowBsc : ChainStatistic.t := ChainStatistic.mk 6 30 40 0 7 20.

Definition store : gmap Z ChainStatistic.t :=
  <[0 := rowPoly]> (<[2 := rowEth]> (<[6 := rowBsc]> ∅)).

(** The relay counter: one transaction per id of the range. *)
Definition relayCount (lo hi : Z) : Z * error := (Z.max 0 (hi - lo), None).

(** Nothing new in any stream: the newest destination, source and relay
    transactions are 7, 20 and 100. *)
Definition quiet : ChainPass.Dao :=
  ChainPass.mkDao
    (Some rowEth, None) (Some 7, None) (Some 20, None) (Some 100, None)
    (fun _ _ => ([], None)) (fun _ _ => ([], None))
    relayCount
    ([0; 2; 6], None)
    None (fun _ => None).

(** Two new destination transactions, both on Ethereum, and thirty new
    relay transactions. *)
Definition busy : ChainPass.Dao :=
  ChainPass.mkDao
    (Some rowEth, None) (Some 9, None) (Some 20, None) (Some 130, None)
    (fun _ _ => ([ChainStatistic.mk 2 2 0 0 0 0], None)) (fun _ _ => ([], None))
    relayCount
    ([0; 2; 6], None)
    None (fun _ => None).

(** New destination transactions, none on the relay stream. *)
Definition relayQuiet : ChainPass.Dao :=
  ChainPass.mkDao
    (Some rowEth, None) (Some 9, None) (Some 20, None) (Some 100, None)
    (fun _ _ => ([ChainStatistic.mk 2 2 0 0 0 0], None)) (fun _ _ => ([], None))
    relayCount
    ([0; 2; 6], None)
    None (fun _ => None).

End ChainScenario.

(** * Further parts of the program

    The passes of [crosschainstats.go] beside those above, and what the
    further properties are stated with. *)

(** The tokens that the loop over [basic.Tokens] does not pass by: those
    that [notToken] lets through and whose [Property] is 1. *)
Definition eligibleToken (token : Token) : bool :=
  negb (notToken token) && (Token_Property token =? 1).

(** The Token Basics at which [getO3Data] asks an O3 endpoint that gives
    it nothing to read: the transport failed, so the response is nil, or
    (for "WBTC") the body carries no balance. *)
Definition o3Unreadable (ipCfg : IPPortConfig) (basic : TokenBasic) : Prop :=
  (TokenBasic_Name basic = "WBTC"
   /\ (WBTCIP ipCfg = HttpFailed \/ WBTCIP ipCfg = HttpResponse 200 None))
  \/ (TokenBasic_Name basic = "USDT" /\ USDTIP ipCfg = HttpFailed).

(** Every row of the asset table sits under its own name. *)
Definition asset_keyed (s : gmap string AssetStatistic.t) : Prop :=
  forall k r, s !! k = Some r -> AssetStatistic.TokenBasicName r = k.

(** The number of eligible tokens of a catalog of Token Basics. *)
Definition eligibleCount (tokenBasics : list TokenBasic) : nat :=
  length (flat_map (fun basic => List.filter eligibleToken (TokenBasic_Tokens basic))
                   tokenBasics).

(** Whether the catalog lookup of the token pass fails for a row. *)
Definition lookupFails (d : TokenPass.Dao) (statistic : TokenStatistic.t) : bool :=
  match (TokenPass.GetTokenBasicByHash d (TokenStatistic.ChainId statistic)
           (TokenStatistic.Hash statistic)).2 with
  | Some _ => true
  | None => false
  end.

(** ** The chain-address pass

    [computeChainStatisticAssets] of the same file: the number of
    addresses per chain, and their total as the figure of the relay
    chain. *)

(** Arithmetic of the type [int64]: a result is reduced into the range of
    the type. *)
Definition wrapInt64 (x : Z) : Z := (x + 2 ^ 63) mod 2 ^ 64 - 2 ^ 63.

Module ChainAssetsPass.
Import ChainStatistic.

Definition with_Addresses (v : Z) (r : ChainStatistic.t) : ChainStatistic.t :=
  ChainStatistic.mk (ChainId r) (In r) (Out r) v (LastInCheckId r) (LastOutCheckId r).

(** The first loop: a row of a chain other than the relay chain takes
    the address count of the first computed row of its chain, and that
    count goes into [polyAddress]. *)
Fixpoint addressLoop (computeChainStatistics chainStatistics : list ChainStatistic.t)
    (polyAddress : Z) : list ChainStatistic.t * Z :=
  match chainStatistics with
  | [] => ([], polyAddress)
  | chainStatistic :: rest =>
      let '(row, polyAddress) :=
        if ChainId chainStatistic =? basedef.POLY_CROSSCHAIN_ID
        then (chainStatistic, polyAddress)
        else
          match ChainPass.findChain (ChainId chainStatistic) computeChainStatistics with
          | Some chain =>
              (with_Addresses (Addresses chain) chainStatistic,
               wrapInt64 (polyAddress + Addresses chain))
          | None => (chainStatistic, polyAddress)
          end in
      let '(rest', polyAddress) := addressLoop computeChainStatistics rest polyAddress in
      (row :: rest', polyAddress)
  end.

(** The body of the second loop. *)
Definition setPolyAddress (polyAddress : Z) (chainStatistic : ChainStatistic.t)
  : ChainStatistic.t :=
  if ChainId chainStatistic =? basedef.POLY_CROSSCHAIN_ID
  then with_Addresses polyAddress chainStatistic
  else chainStatistic.

(** [CalculateChainStatisticAssets] is the answer of the DAO to the query
    of that name; the table is read and written as in the chain pass.
    The error of reading the table is logged; the error of the batch
    save is assigned to the named result and returned as it is. *)
Definition computeChainStatisticAssets (d : ChainPass.Dao)
    (CalculateChainStatisticAssets : list ChainStatistic.t * error)
    (s : ChainPass.Store) : ChainPass.Store * Outcome :=
  let '(computeChainStatistics, err) := CalculateChainStatisticAssets in
  match err with
  | Some e => (s, Returned (Errorf "Failed to CalculateChainStatisticAssets " e))
  | None =>
      let '(chainStatistics, _) := ChainPass.GetChainStatistic d s in
      let '(chainStatistics, polyAddress) :=
        addressLoop computeChainStatistics chainStatistics 0 in
      let chainStatistics := List.map (setPolyAddress polyAddress) chainStatistics in
      let '(s', err) := ChainPass.SaveChainStatistics d chainStatistics s in
      (s', Returned err)
  end.

(** The sum that the relay chain is meant to show: the computed address
    counts of the chains, other than the relay chain, that have a row. *)
Definition addressTotal (computeChainStatistics chainStatistics : list ChainStatistic.t)
  : Z :=
  foldr (fun chainStatistic acc =>
           if ChainId chainStatistic =? basedef.POLY_CROSSCHAIN_ID then acc
           else
             match ChainPass.findChain (ChainId chainStatistic) computeChainStatistics with
             | Some chain => Addresses chain + acc
             | None => acc
             end)
        0 chainStatistics.

(** What the two loops make of one row, given the total. *)
Definition addressRow (computed : list ChainStatistic.t) (total : Z)
    (r : ChainStatistic.t) : ChainStatistic.t :=
  with_Addresses
    (if ChainId r =? basedef.POLY_CROSSCHAIN_ID then total
     else match ChainPass.findChain (ChainId r) computed with
          | Some x => Addresses x
          | None => Addresses r
          end)
    r.

End ChainAssetsPass.

(** ** The asset-address pass

    [computeAssetStatisticAdress].  [UpdateAssetStatisticAdress] is
    declared outside [src/]; the model keeps the rows handed to it, in
    the order of the calls. *)

Module AssetAddressPass.

Record Dao : Type := mkDao {
  CalculateAssetAdress : list AssetStatistic.t * error;
  UpdateAssetStatisticAdress_err : AssetStatistic.t -> error
}.

Fixpoint updateLoop (d : Dao) (newAssetAdresses : list AssetStatistic.t)
    (updated : list AssetStatistic.t) : list AssetStatistic.t * Outcome :=
  match newAssetAdresses with
  | [] => (updated, Returned None)
  | assetStatistic :: rest =>
      let updated := (updated ++ [assetStatistic])%list in
      match UpdateAssetStatisticAdress_err d assetStatistic with
      | Some e => (updated, Returned (Errorf "Failed to UpdateAssetStatisticAdress " e))
      | None => updateLoop d rest updated
      end
  end.

Definition computeAssetStatisticAdress (d : Dao) (updated : list AssetStatistic.t)
  : list AssetStatistic.t * Outcome :=
  let '(newAssetAdresses, err) := CalculateAssetAdress d in
  match err with
  | Some e => (updated, Returned (Errorf "Failed to CalculateAssetAdress " e))
  | None => updateLoop d newAssetAdresses updated
  end.

End AssetAddressPass.

(** ** The token-balance pass

    [computeTokensStats]: one balance read per token of the catalog, the
    metric of the balance, and the available amount written back.
    [tools.Record], [basedef.Int64FromFigure] and
    [UpdateTokenAvailableAmount] are declared outside [src/]: the model
    keeps the metrics recorded and the updates asked for, in order, and
    takes [Int64FromFigure] as it comes.  The error of an update is
    logged and nothing depends on it. *)

Module TokensStatsPass.

(** What the pass hands to its collaborators. *)
Inductive Effect : Type :=
| Recorded (TokenBasicName : string) (ChainId : Z) (amount unit : Z)
| Updated (Hash : string) (ChainId : Z) (amount : Z).

(** [new(big.Float).Quo(x, y)] panics when both operands are zero; the
    model keeps the two integers of the quotient. *)
Definition Float_Quo (x y : Z) : Res (Z * Z) :=
  if (x =? 0) && (y =? 0)
  then Panic "division of zero by zero or infinity by infinity"
  else Ok (x, y).

Section Balances.
Variable Int64FromFigure : Z -> Z.

(** One turn of the loop over the tokens. *)
Definition tokenStep (c : ChainNode) (t : Token) (effects : list Effect)
  : M (Res (list Effect)) :=
  do r <- common.GetBalance c (Token_ChainId t) (Token_Hash t);
  match r.2, r.1 with
  | None, Some amount =>
      ret (let! v := Float_Quo amount (Int64FromFigure (wrapInt64 (Token_Precision t))) in
           Ok (effects
               ++ [Recorded (Token_TokenBasicName t) (Token_ChainId t) v.1 v.2;
                   Updated (Token_Hash t) (Token_ChainId t) amount])%list)
  | _, _ => ret (Ok effects)
  end.

Fixpoint tokenLoop (c : ChainNode) (tokens : list Token) (effects : list Effect)
  : M (list Effect * Outcome) :=
  match tokens with
  | [] => ret (effects, Returned None)
  | t :: rest =>
      do r <- tokenStep c t effects;
      match r with
      | Ok effects' => tokenLoop c rest effects'
      | Panic m => ret (effects, Panicked m)
      end
  end.

Definition computeTokensStats (GetTokens : list Token * error) (c : ChainNode)
    (effects : list Effect) : M (list Effect * Outcome) :=
  let '(tokens, err) := GetTokens in
  match err with
  | Some e => ret (effects, Returned (Errorf "Failed to fetch token basic list " e))
  | None => tokenLoop c tokens effects
  end.

End Balances.

(** The updates that the answers of the node call for: the token at
    position [i] is asked in the call [n + i], and is written back when
    the answer is a figure without an error. *)
Fixpoint expectedUpdates (c : ChainNode) (n : nat) (tokens : list Token) : list Effect :=
  match tokens with
  | [] => []
  | t :: rest =>
      match GetBalance_at c n (Token_ChainId t) (Token_Hash t) with
      | (Some amount, None) =>
          Updated (Token_Hash t) (Token_ChainId t) amount :: expectedUpdates c (S n) rest
      | _ => expectedUpdates c (S n) rest
      end
  end.

Definition isUpdate (e : Effect) : bool :=
  match e with
  | Updated _ _ _ => true
  | Recorded _ _ _ _ => false
  end.

End TokensStatsPass.

(** ** Start-up

    [StartCrossChainStats], [Start] and the first statements of [run]. *)

Module conf.
(** Modelled from the spec: [conf.StatsConfig] is declared outside
    [src/]; the configuration consumed is the per-category interval in
    seconds of each pass.  The fields are the seven that [Start] reads,
    of the type [int64] that [run] takes. *)
Record StatsConfig : Type := mkStatsConfig {
  TokenBasicStatsInterval : Z;
  TokenAmountCheckInterval : Z;
  TokenStatisticInterval : Z;
  ChainStatisticInterval : Z;
  ChainAddressCheckInterval : Z;
  AssetStatisticInterval : Z;
  AssetAdressInterval : Z
}.
End conf.

Module Startup.
Import conf.

(** [basedef.SERVER_POLY_BRIDGE]. *)
Definition SERVER_POLY_BRIDGE : string := "polybridge".

(** The passes that [Start] hands to [run]. *)
Inductive Pass : Type :=
| computeStats
| computeTokensStats
| computeTokenStatistics
| computeChainStatistics
| computeChainStatisticAssets
| computeAssetStatistics
| computeAssetStatisticAdress
| startCheckAssetAlarm.

(** [time.NewTicker(time.Second * time.Duration(interval))]: the duration
    is the product in [int64] nanoseconds, and [NewTicker] panics unless
    it is positive. *)
Definition NewTicker (interval : Z) : Res Z :=
  let d := wrapInt64 (1000000000 * interval) in
  if d <=? 0 then Panic "non-positive interval for NewTicker" else Ok d.

(** [run]: the wait group, the ticker, then the loop of [Scheduler.run]
    on the events that arrive. *)
Definition run (interval : Z) (evs : list Scheduler.Event) : Res Scheduler.Task :=
  let! _ := NewTicker interval in
  Ok (Scheduler.run evs).

(** [Start]: the goroutines it starts, each with its interval; the
    reserve check only when [basedef.ENV] is [basedef.MAINNET]. *)
Definition Start (cfg : StatsConfig) (mainnet : bool) : list (Z * Pass) :=
  [(TokenBasicStatsInterval cfg, computeStats);
   (TokenAmountCheckInterval cfg, computeTokensStats);
   (TokenStatisticInterval cfg, computeTokenStatistics);
   (ChainStatisticInterval cfg, computeChainStatistics);
   (ChainAddressCheckInterval cfg, computeChainStatisticAssets);
   (AssetStatisticInterval cfg, computeAssetStatistics);
   (AssetAdressInterval cfg, computeAssetStatisticAdress)]
  ++ (if mainnet then [(600, startCheckAssetAlarm)] else []).

(** [StartCrossChainStats]; [NewBridgeDao] is what opening the database
    comes to. *)
Definition StartCrossChainStats (server : string) (cfg : option StatsConfig)
    (NewBridgeDao : Res unit) (mainnet : bool) : Res (list (Z * Pass)) :=
  if negb (String.eqb server SERVER_POLY_BRIDGE)
  then Panic "CrossChainStats Only runs on bridge server"
  else
    match cfg with
    | None => Panic "Invalid Stats config"
    | Some cfg =>
        if (TokenBasicStatsInterval cfg =? 0) || (TokenAmountCheckInterval cfg =? 0)
        then Panic "Invalid Stats config"
        else
          let! _ := NewBridgeDao in
          Ok (Start cfg mainnet)
    end.

(** The seven intervals of a configuration, in the order of [Start]. *)
Definition intervals (c : StatsConfig) : list Z :=
  [TokenBasicStatsInterval c; TokenAmountCheckInterval c; TokenStatisticInterval c;
   ChainStatisticInterval c; ChainAddressCheckInterval c; AssetStatisticInterval c;
   AssetAdressInterval c].

End Startup.

(** ** The pass of the family totals

    [computeStats] and [computeTokenBasicStats]: per Token Basic, the
    total amount and the number of the source transfers of its tokens,
    brought forward from a checkpoint.  [tools.Record],
    [basedef.Int64FromFigure] and [UpdateTokenBasicStatsWithCheckPoint]
    are declared outside [src/]: the model keeps the metrics recorded
    and the updates asked for, in order. *)

Module BasicStatsPass.

(** Modelled from the spec: a Token Basic with the fields of
    [models.TokenBasic] that [computeTokenBasicStats] reads and writes
    besides those of [TokenBasic]: the checkpoint [StatsUpdateTime] and
    the accumulated totals; [TotalAmount] is a pointer.  Of
    [models.SrcTransfer], the [Id] and the [Time]. *)
Record Stats : Type := mkStats {
  basic : TokenBasic;
  StatsUpdateTime : Z;
  TotalAmount : option Z;
  TotalCount : Z
}.

Record SrcTransfer : Type := mkSrcTransfer {
  Id : Z;
  Time : Z
}.

Record Dao : Type := mkDao {
  GetTokenBasics : list Stats * error;
  (** The newest source transfer of the given (chain id, hash) pairs. *)
  GetLastSrcTransferForToken : list (Z * string) -> option SrcTransfer * error;
  (** Amount and count of their source transfers between the checkpoint
      and the given id. *)
  AggregateTokenBasicSrcTransfers :
    list (Z * string) -> Z -> Z -> option Z * Z * error;
  UpdateTokenBasicStatsWithCheckPoint_err : Stats -> Z -> error
}.

(** What the pass hands to its collaborators: the metrics
    "total_amount.<name>" and "total_count.<name>", and the update of a
    Token Basic under a checkpoint. *)
Inductive Effect : Type :=
| RecordedAmount (Name : string) (amount unit : Z)
| RecordedCount (Name : string) (count : Z)
| Updated (token : Stats) (checkPoint : Z).

Section Totals.
Variable Int64FromFigure : Z -> Z.
(** The addition of the type of [TotalCount]. *)
Variable addCount : Z -> Z -> Z.

Definition computeTokenBasicStats (d : Dao) (token : Stats) (effects : list Effect)
  : list Effect * Res error :=
  if (length (TokenBasic_Tokens (basic token)) =? 0)%nat then (effects, Ok None)
  else
    let assets :=
      List.map (fun t => (Token_ChainId t, Token_Hash t))
               (TokenBasic_Tokens (basic token)) in
    let checkPoint := StatsUpdateTime token in
    let '(last, err) := GetLastSrcTransferForToken d assets in
    match err, last with
    | Some e, _ => (effects, Ok (Some e))
    | None, None => (effects, Ok None)
    | None, Some last =>
        if checkPoint =? wrapInt64 (Time last) then (effects, Ok None)
        else
          let '(totalAmount, totalCount, err) :=
            AggregateTokenBasicSrcTransfers d assets checkPoint (Id last) in
          match err with
          | Some e => (effects, Ok (Some e))
          | None =>
              match (let! totals :=
                       (if checkPoint =? 0 then
                          let! a := deref totalAmount in
                          Ok (a, totalCount)
                        else
                          let! old := deref (TotalAmount token) in
                          let! a := deref totalAmount in
                          Ok (a + old, addCount (TotalCount token) totalCount)) in
                     let! v :=
                       TokensStatsPass.Float_Quo totals.1
                         (Int64FromFigure
                            (wrapInt64 (TokenBasic_Precision (basic token)))) in
                     Ok (totals, v)) with
              | Panic m => (effects, Panic m)
              | Ok (totals, v) =>
                  let name := TokenBasic_Name (basic token) in
                  let token' := mkStats (basic token) (Id last) (Some totals.1) totals.2 in
                  ((effects
                    ++ [RecordedAmount name v.1 v.2; RecordedCount name totals.2;
                        Updated token' checkPoint])%list,
                   Ok (UpdateTokenBasicStatsWithCheckPoint_err d token' checkPoint))
              end
          end
    end.

(** The loop of [computeStats]: the error of a family is logged. *)
Fixpoint basicLoop (d : Dao) (tokens : list Stats) (effects : list Effect)
  : list Effect * Outcome :=
  match tokens with
  | [] => (effects, Returned None)
  | basic0 :: rest =>
      if (0 <? length (TokenBasic_Tokens (basic basic0)))%nat then
        match computeTokenBasicStats d basic0 effects with
        | (effects', Ok _) => basicLoop d rest effects'
        | (effects', Panic m) => (effects', Panicked m)
        end
      else basicLoop d rest effects
  end.

Definition computeStats (d : Dao) (effects : list Effect) : list Effect * Outcome :=
  let '(tokens, err) := GetTokenBasics d in
  match err with
  | Some e => (effects, Returned (Errorf "Failed to fetch token basic list " e))
  | None => basicLoop d tokens effects
  end.

End Totals.

(** A family that has nothing new: it has no tokens, or the ledger has
    no source transfer of its tokens, or the time of the newest one is
    its checkpoint. *)
Definition nothingNew (d : Dao) (token : Stats) : Prop :=
  TokenBasic_Tokens (basic token) = []
  \/ exists last,
      GetLastSrcTransferForToken d
        (List.map (fun t => (Token_ChainId t, Token_Hash t))
                  (TokenBasic_Tokens (basic token)))
      = (last, None)
      /\ match last with
         | None => True
         | Some l => StatsUpdateTime token = wrapInt64 (Time l)
         end.

End BasicStatsPass.

(** ** Further scenarios *)

Module MoreScenarios.

(** The ledger of [ChainScenario.busy] with a catalog that knows HECO,
    which has no row yet. *)
Definition hecoListed : ChainPass.Dao :=
  ChainPass.mkDao
    (Some ChainScenario.rowEth, None) (Some 9, None) (Some 20, None) (Some 130, None)
    (fun _ _ => ([ChainStatistic.mk 2 2 0 0 0 0], None)) (fun _ _ => ([], None))
    ChainScenario.relayCount
    ([0; 2; 6; 7], None)
    None (fun _ => None).

(** Address counts: 5 on Ethereum, 7 on BSC, a figure for the relay
    chain itself and one for a chain without a row. *)
Definition addressCounts : list ChainStatistic.t :=
  [ChainStatistic.mk 2 0 0 5 0 0; ChainStatistic.mk 6 0 0 7 0 0;
   ChainStatistic.mk 0 0 0 99 0 0; ChainStatistic.mk 9 0 0 11 0 0].

(** A table that cannot be read and takes no batch. *)
Definition brokenTable : ChainPass.Dao :=
  ChainPass.mkDao
    (Some ChainScenario.rowEth, None) (Some 9, None) (Some 20, None) (Some 130, None)
    (fun _ _ => ([], None)) (fun _ _ => ([], None))
    ChainScenario.relayCount
    ([0; 2; 6], None)
    (Some "connection lost") (fun _ => Some "connection lost").

(** The ledger of [AssetScenario.goodDao] with a BTC price of zero. *)
Definition zeroBtc : AssetPass.Dao :=
  AssetPass.mkDao
    (Some 20, None) ([], None) (Some (mkTokenBasic "WBTC" 8 0 0 2 []), None)
    AssetScenario.CalculateAssets None (fun _ => None).

(** The ledger of [AssetScenario.goodDao] with a catalog that knows the
    family "FOO", which has no row yet. *)
Definition fooListed : AssetPass.Dao :=
  AssetPass.mkDao
    (Some 20, None) ([Scenario.foo], None) (Some AssetScenario.btc, None)
    AssetScenario.CalculateAssets None (fun _ => None).

(** Three rows of address counts; the update of the second is refused. *)
Definition addressRows : list AssetStatistic.t :=
  [AssetStatistic.mk "AAA" 4 0 0 0 0 0; AssetStatistic.mk "BBB" 5 0 0 0 0 0;
   AssetStatistic.mk "CCC" 6 0 0 0 0 0].

Definition refusesB : AssetAddressPass.Dao :=
  AssetAddressPass.mkDao
    (addressRows, None)
    (fun r => if String.eqb (AssetStatistic.TokenBasicName r) "BBB"
              then Some "deadlock" else None).

(** A node that fails the first call and reads a balance of 3
    afterwards. *)
Definition slowStart : ChainNode :=
  mkChainNode (fun n _ _ => match n with
                            | O => (None, Some "timeout")
                            | S _ => (Some 3, None)
                            end)
              (fun _ _ _ => (Some 0, None)).

(** [Int64FromFigure] as ten to the power of the figure. *)
Definition pow10 (figure : Z) : Z := 10 ^ figure.

(** A configuration that passes the check of [StartCrossChainStats]: one
    interval is negative, another one zero. *)
Definition oddConfig : conf.StatsConfig := conf.mkStatsConfig 60 (-60) 0 60 60 60 60.

(** Three families: "FOO" was never aggregated, "DAO" stands at the
    checkpoint 50 with a total of 700 in 3 transfers, and a family
    without tokens. *)
Definition fooStats : BasicStatsPass.Stats :=
  BasicStatsPass.mkStats Scenario.foo 0 None 0.

Definition daoStats : BasicStatsPass.Stats :=
  BasicStatsPass.mkStats Scenario.daoBasic 50 (Some 700) 3.

Definition bareStats : BasicStatsPass.Stats :=
  BasicStatsPass.mkStats (mkTokenBasic "BARE" 8 0 0 2 []) 0 None 0.

(** The newest source transfer has the id 90 and the time 1600000000;
    the query for the tokens of "FOO" fails.  Every range holds 2
    transfers of 300 in all, and every update is refused. *)
Definition lastTransfer (assets : list (Z * string))
  : option BasicStatsPass.SrcTransfer * error :=
  match assets with
  | [(_, hash)] =>
      if String.eqb hash "0xf00" then (None, Some "connection lost")
      else (Some (BasicStatsPass.mkSrcTransfer 90 1600000000), None)
  | _ => (Some (BasicStatsPass.mkSrcTransfer 90 1600000000), None)
  end.

Definition familyLedger : BasicStatsPass.Dao :=
  BasicStatsPass.mkDao
    ([fooStats; daoStats; bareStats], None)
    lastTransfer
    (fun _ _ _ => (Some 300, 2, None))
    (fun _ _ => Some "lock wait timeout").

(** The same catalog when the newest transfer of every family has the
    time 50. *)
Definition quietLedger : BasicStatsPass.Dao :=
  BasicStatsPass.mkDao
    ([daoStats; bareStats], None)
    (fun _ => (Some (BasicStatsPass.mkSrcTransfer 90 50), None))
    (fun _ _ _ => (Some 300, 2, None))
    (fun _ _ => None).

(** A detail as the reserve check leaves it: one BTC of difference at a
    price of 30000 USD. *)
Definition btcDetail : AssetDetail.t :=
  AssetDetail.mk "BTCB"
    [DstChainAsset.mk 6 "0xb7c" (Some 100000000) (Some 0) (Some 100000000)]
    100000000 8 3000000000000 "30000" "".

End MoreScenarios.

(** * Further conditions and scenarios

    What the properties of the reserve check, of the relay row and of
    the passes without new records are stated with. *)

(** ** The reserve check *)

(** Every call for the balance of the token is answered with an error. *)
Definition balance_down (c : ChainNode) (token : Token) : Prop :=
  forall n, (GetBalance_at c n (Token_ChainId token) (Token_Hash token)).2 <> None.

(** Every call for the total supply of the token is answered with an
    error. *)
Definition supply_down (c : ChainNode) (token : Token) : Prop :=
  forall n, (GetTotalSupply_at c n (Token_ChainId token) (Token_Hash token)).2 <> None.

(** The text of an error that the node answers to a call for the token. *)
Definition answered_error (c : ChainNode) (token : Token) (e : string) : Prop :=
  exists n,
    (GetBalance_at c n (Token_ChainId token) (Token_Hash token)).2 = Some e
    \/ (GetTotalSupply_at c n (Token_ChainId token) (Token_Hash token)).2 = Some e.

(** The chain entry of a token in a detail: the entry of its chain and
    hash with its flow; a balance that could not be fetched is zero, and
    a total supply that could not be fetched is what the override table
    and the home-chain rule make of a fetched zero. *)
Definition degraded_entry (MATIC : Z) (c : ChainNode) (basic : TokenBasic) (token : Token)
    (x : DstChainAsset.t) : Prop :=
  DstChainAsset.ChainId x = Token_ChainId token
  /\ DstChainAsset.Hash x = Token_Hash token
  /\ entry_ok x
  /\ (balance_down c token -> DstChainAsset.Balance x = Some 0)
  /\ (supply_down c token ->
      DstChainAsset.TotalSupply x = supplyForFlow MATIC basic token (Some 0, None)).

(** The detail of a family in the report: it carries the name of the
    family and an entry for every token that the loop does not pass by;
    when a fetch for one of them failed throughout, the reason of the
    detail is the text of an error answered for a token of the family. *)
Definition degraded_detail (MATIC : Z) (c : ChainNode) (basic : TokenBasic)
    (ad : AssetDetail.t) : Prop :=
  AssetDetail.BasicName ad = TokenBasic_Name basic
  /\ forall token,
      In token (TokenBasic_Tokens basic) ->
      notToken token = false ->
      Token_Property token = 1 ->
      (exists x, In x (AssetDetail.TokenAsset ad) /\ degraded_entry MATIC c basic token x)
      /\ (balance_down c token \/ supply_down c token ->
          exists token',
            In token' (TokenBasic_Tokens basic)
            /\ answered_error c token' (AssetDetail.Reason ad)).

(** A family that the reserve check gets through: its O3 endpoint, if it
    has one, can be read, and its precision fits the exponent of a
    decimal. *)
Definition checkable_basic (ipCfg : IPPortConfig) (basic : TokenBasic) : Prop :=
  ~ o3Unreadable ipCfg basic
  /\ 0 <= TokenBasic_Precision basic < 2 ^ 31.

(** The entries of a detail other than that of "WBTC": each is an entry
    of the loop over the tokens, or its flow is zero (the entry added for
    "USDT"). *)
Definition flows_known (ad : AssetDetail.t) : Prop :=
  AssetDetail.BasicName ad <> "WBTC" ->
  Forall (fun x => entry_ok x \/ DstChainAsset.Flow x = Some 0) (AssetDetail.TokenAsset ad).

(** ** The token pass without new records *)

(** The token table when nothing is left to do up to the destination
    transfer [nowInId] and the source transfer [nowOutId]: every row sits
    under its own key and its cursors are those two ids. *)
Definition token_settled (nowInId nowOutId : Z)
    (s : gmap (Z * string) TokenStatistic.t) : Prop :=
  forall k r,
    s !! k = Some r ->
    (TokenStatistic.ChainId r, TokenStatistic.Hash r) = k
    /\ TokenStatistic.LastInCheckId r = nowInId
    /\ TokenStatistic.LastOutCheckId r = nowOutId.

(** The ledger answers the two range queries of the token pass with no
    delta when the range is empty. *)
Definition empty_range_no_delta (d : TokenPass.Dao) : Prop :=
  forall chainId hash id,
    TokenPass.deltaTokenBasic
      (TokenPass.CalculateInTokenStatistics d chainId hash id id).1 = None
    /\ TokenPass.deltaTokenBasic
         (TokenPass.CalculateOutTokenStatistics d chainId hash id id).1 = None.

(** A row that the loop body of the token pass gets to: the catalog
    lookup hands out a token together with an error. *)
Definition reached_row (d : TokenPass.Dao) (r : TokenStatistic.t) : Prop :=
  exists token e,
    TokenPass.GetTokenBasicByHash d (TokenStatistic.ChainId r) (TokenStatistic.Hash r)
    = (Some token, Some e).

(** Such a row on the home chain of its token. *)
Definition home_row (d : TokenPass.Dao) (r : TokenStatistic.t) : Prop :=
  exists token tb e,
    TokenPass.GetTokenBasicByHash d (TokenStatistic.ChainId r) (TokenStatistic.Hash r)
    = (Some token, Some e)
    /\ Token_TokenBasic token = Some tb
    /\ TokenBasic_ChainId tb = TokenStatistic.ChainId r.

(** What a pass without new records keeps of a row [r]: its key, both
    cursors, both counters and the three outbound figures; the inbound
    amount unless [r] is a row on its home chain that the loop body gets
    to, and the two inbound valuations unless the loop body gets to
    [r]. *)
Definition token_row_kept (d : TokenPass.Dao) (r r' : TokenStatistic.t) : Prop :=
  TokenStatistic.ChainId r' = TokenStatistic.ChainId r
  /\ TokenStatistic.Hash r' = TokenStatistic.Hash r
  /\ TokenStatistic.LastInCheckId r' = TokenStatistic.LastInCheckId r
  /\ TokenStatistic.LastOutCheckId r' = TokenStatistic.LastOutCheckId r
  /\ TokenStatistic.InCounter r' = TokenStatistic.InCounter r
  /\ TokenStatistic.OutCounter r' = TokenStatistic.OutCounter r
  /\ TokenStatistic.OutAmount r' = TokenStatistic.OutAmount r
  /\ TokenStatistic.OutAmountUsd r' = TokenStatistic.OutAmountUsd r
  /\ TokenStatistic.OutAmountBtc r' = TokenStatistic.OutAmountBtc r
  /\ (TokenStatistic.InAmount r' = TokenStatistic.InAmount r \/ home_row d r)
  /\ ((TokenStatistic.InAmountUsd r' = TokenStatistic.InAmountUsd r
       /\ TokenStatistic.InAmountBtc r' = TokenStatistic.InAmountBtc r)
      \/ reached_row d r).

(** The table [s] in the course of a pass that started from [s0]: every
    row of [s0] is kept, and the table is settled. *)
Definition token_table_kept (d : TokenPass.Dao) (nowInId nowOutId : Z)
    (s0 s : gmap (Z * string) TokenStatistic.t) : Prop :=
  (forall k r, s0 !! k = Some r -> exists r', s !! k = Some r' /\ token_row_kept d r r')
  /\ token_settled nowInId nowOutId s.

(** ** Scenarios *)

Module DegradedScenario.
(** A node whose balance endpoint is down for the token of "FOO" and
    reads 7 for every other token; every total supply reads 7. *)
Definition fooDown : ChainNode :=
  mkChainNode (fun _ _ hash => if String.eqb hash "0xf00"
                               then (None, Some "all node is not working")
                               else (Some 7, None))
              (fun _ _ _ => (Some 7, None)).

(** The details of "FOO" and of "WBTC" on that node. *)
Definition fooDetail : AssetDetail.t :=
  AssetDetail.mk "FOO" [DstChainAsset.mk 2 "0xf00" (Some 7) (Some 0) (Some 7)]
    7 18 250000000 "0" "all node is not working".

Definition wbtcDetail : AssetDetail.t :=
  AssetDetail.mk "WBTC"
    [DstChainAsset.mk 6 "0xb5c" (Some 7) (Some 7) (Some 0);
     DstChainAsset.mk 10 "" (Some 0) (Some 0) (Some 0)]
    0 8 3000000000000 "" "".
End DegradedScenario.

Module UsdtScenario.
(** "USDT" with its token on Ethereum; the node [ReserveScenario.balanced]
    reads a balance of 7 and a total supply of 7 for it. *)
Definition usdtOnEth : Token := mkToken "0xdac" 2 6 "USDT" 1 0 None.

Definition usdt : TokenBasic := mkTokenBasic "USDT" 6 100000000 0 1 [usdtOnEth].

(** Its detail when O3 serves a balance of zero. *)
Definition usdtDetail : AssetDetail.t :=
  AssetDetail.mk "USDT"
    [DstChainAsset.mk 2 "0xdac" (Some 7) (Some 7) (Some 0);
     DstChainAsset.mk 10 "" (Some 0) (Some 0) (Some 0)]
    0 6 100000000 "" "".
End UsdtScenario.

Module RelayScenario.
(** Thirty new relay transactions and nothing new in the other two
    streams: the newest destination, source and relay transactions are 7,
    20 and 130. *)
Definition relayOnly : ChainPass.Dao :=
  ChainPass.mkDao
    (Some ChainScenario.rowEth, None) (Some 7, None) (Some 20, None) (Some 130, None)
    (fun _ _ => ([], None)) (fun _ _ => ([], None))
    ChainScenario.relayCount
    ([0; 2; 6], None)
    None (fun _ => None).

(** The table of [ChainScenario.store] before the relay chain has a
    row. *)
Definition noRelayRow : gmap Z ChainStatistic.t :=
  <[2 := ChainScenario.rowEth]> (<[6 := ChainScenario.rowBsc]> ∅).

(** The ledger of [ChainScenario.busy] with a relay counter that cannot
    be read. *)
Definition counterDown : ChainPass.Dao :=
  ChainPass.mkDao
    (Some ChainScenario.rowEth, None) (Some 9, None) (Some 20, None) (Some 130, None)
    (fun _ _ => ([ChainStatistic.mk 2 2 0 0 0 0], None)) (fun _ _ => ([], None))
    (fun _ _ => (0, Some "connection lost"))
    ([0; 2; 6], None)
    None (fun _ => None).
End RelayScenario.

Module BatchScenario.
(** The ledger of [ChainScenario.busy] with a table that takes no batch. *)
Definition refused : ChainPass.Dao :=
  ChainPass.mkDao
    (Some ChainScenario.rowEth, None) (Some 9, None) (Some 20, None) (Some 130, None)
    (fun _ _ => ([ChainStatistic.mk 2 2 0 0 0 0], None)) (fun _ _ => ([], None))
    ChainScenario.relayCount
    ([0; 2; 6], None)
    None (fun _ => Some "disk full").
End BatchScenario.

Module QuietTokenScenario.

(** The catalog of [TokenScenario] when its lookup hands out the token
    together with an error. *)
Definition lookup (chainId : Z) (hash : string) : option Token * error :=
  ((TokenScenario.lookup chainId hash).1, Some "invalid connection").

(** Nothing new in the ledger: the newest destination transfer is 5 and
    the newest source transfer 10, the cursors of the rows of
    [TokenScenario.store]; a range query over an empty range returns
    nothing. *)
Definition dao : TokenPass.Dao :=
  TokenPass.mkDao
    (Some 5, None) (Some 10, None)
    ([TokenScenario.wbtcOnEth; TokenScenario.wbtcOnBsc], None)
    (Some TokenScenario.wbtc, None)
    lookup
    (fun c h lo hi => (None, None))
    (fun c h lo hi =>
       if lo <? hi then
         let '(amount, count) := TokenScenario.sumOut c h lo hi in
         (Some (TokenStatistic.mk c h 0 0 0 amount 0 0 0 count 0 0 (lookup c h).1), None)
       else (None, None))
    None
    (fun _ => None).

(** The same ledger with a table that refuses the rows of Ethereum. *)
Definition refusing : TokenPass.Dao :=
  TokenPass.mkDao
    (Some 5, None) (Some 10, None)
    ([TokenScenario.wbtcOnEth; TokenScenario.wbtcOnBsc], None)
    (Some TokenScenario.wbtc, None)
    lookup
    (fun c h lo hi => (None, None))
    (fun c h lo hi => (None, None))
    None
    (fun r => if TokenStatistic.ChainId r =? 2 then Some "disk full" else None).

(** The rows of Ethereum and of BSC after a pass on [dao] with the node
    of [TokenScenario]. *)
Definition rowEthAfter : TokenStatistic.t :=
  TokenStatistic.mk 2 "0xbtc" 500 1500000000 50000 0 0 0 0 0 5 10 None.

Definition rowBscAfter : TokenStatistic.t :=
  TokenStatistic.mk 6 "0xb5c" 7000 21000000000 700000 1000 0 0 3 4 5 10 None.

End QuietTokenScenario.

(** * Properties *)

(** ** Arithmetic of the helpers *)

Lemma Int64_id (x : Z) : is_int64 x -> Int64 x = x.
Proof.
  unfold is_int64, Int64. intros Hx.
  assert (H64 : (2 ^ 64 = 2 * 2 ^ 63)%Z) by reflexivity.
  destruct (Z.ltb_spec x 0) as [Hneg | Hpos].
  - rewrite Z.abs_neq by lia.
    rewrite Z.mod_small by lia.
    destruct (Z.ltb_spec (- x) (2 ^ 63)) as [Hlt | Hge].
    + destruct (Z.eqb_spec (- x) (- 2 ^ 63)); lia.
    + assert (x = - 2 ^ 63) by lia. subst x.
      vm_compute. reflexivity.
  - rewrite Z.abs_eq by lia.
    rewrite Z.mod_small by lia.
    destruct (Z.ltb_spec x (2 ^ 63)); lia.
Qed.

Lemma rescale_same (d : decimal.Decimal) : decimal.rescale d (decimal.exp d) = d.
Proof. unfold decimal.rescale. rewrite Z.eqb_refl. reflexivity. Qed.

Lemma addDecimalBigInt_add (a b : Z) : addDecimalBigInt a b = a + b.
Proof. reflexivity. Qed.

Lemma addDecimalInt64_wrap (a b : Z) : addDecimalInt64 a b = Int64 (a + b).
Proof. reflexivity. Qed.

Lemma addDecimalInt64_0_l (a : Z) : is_int64 a -> addDecimalInt64 0 a = a.
Proof. intros H. rewrite addDecimalInt64_wrap. simpl. apply Int64_id, H. Qed.

(** ** The scheduler *)

Module SchedulerFacts.
Import Scheduler.

Lemma select_stmt_normal ev t : (select_stmt ev t).2 = Normal.
Proof. destruct ev; reflexivity. Qed.

Lemma select_stmt_wg ev t : wg (select_stmt ev t).1 = wg t.
Proof. destruct ev; reflexivity. Qed.

Lemma for_loop_not_left evs : forall t, (for_loop evs t).2 = false.
Proof.
  induction evs as [| ev evs IH]; intros t; simpl.
  - reflexivity.
  - destruct ev; simpl; apply IH.
Qed.

Lemma for_loop_wg evs : forall t, wg (for_loop evs t).1 = wg t.
Proof.
  induction evs as [| ev evs IH]; intros t; simpl.
  - reflexivity.
  - destruct ev; simpl; rewrite IH; reflexivity.
Qed.

Lemma run_wg evs : wg (run evs) = 1.
Proof.
  unfold run.
  pose proof (for_loop_not_left evs (wg_Add 1 (mkTask 0 0 false))) as Hleft.
  pose proof (for_loop_wg evs (wg_Add 1 (mkTask 0 0 false))) as Hwg.
  destruct (for_loop evs (wg_Add 1 (mkTask 0 0 false))) as [t' b].
  simpl in *. subst b. rewrite Hwg. reflexivity.
Qed.

Lemma run_not_returned evs : returned (run evs) = false.
Proof.
  unfold run.
  pose proof (for_loop_not_left evs (wg_Add 1 (mkTask 0 0 false))) as Hleft.
  assert (Hret : forall l t, returned (for_loop l t).1 = returned t).
  { induction l as [| ev l IH]; intros t; simpl; [reflexivity |].
    destruct ev; simpl; rewrite IH; reflexivity. }
  specialize (Hret evs (wg_Add 1 (mkTask 0 0 false))).
  destruct (for_loop evs (wg_Add 1 (mkTask 0 0 false))) as [t' b].
  simpl in *. subst b. rewrite Hret. reflexivity.
Qed.

Lemma wg_counter_runs evss : wg_counter (List.map run evss) = Z.of_nat (length evss).
Proof.
  induction evss as [| evs evss IH].
  - reflexivity.
  - change (wg (run evs) + wg_counter (List.map run evss)
            = Z.of_nat (S (length evss))).
    rewrite IH, run_wg. lia.
Qed.

(** C10, as the code runs it.  Whatever the ticker and the [Done]
    channel deliver, and in whatever order, a task never leaves its loop:
    it never returns and never gives back its share of the wait group,
    so with at least one task started [Stop] does not get past [Wait];
    and a tick that is selected after [Done] still starts a pass. *)
Theorem shutdown_never_completes :
  forall (evs : list Event) (others : list (list Event)),
    returned (run evs) = false
    /\ wg (run evs) = 1
    /\ Stop_returns (List.map run (evs :: others)) = false
    /\ passes (run [Tick; Done; Tick]) = 2%nat.
Proof.
  intros evs others. repeat split.
  - apply run_not_returned.
  - apply run_wg.
  - unfold Stop_returns. rewrite wg_counter_runs. simpl length.
    apply Z.eqb_neq. lia.
Qed.

End SchedulerFacts.

(** ** Bounded retry *)

Section Retry.
Variable column : nat -> Z -> string -> option Z * error.
Variables (chainId : Z) (hash : string).

Abbreviation fetch := (fetchColumn column chainId hash).

(** Up to [n] retries: as many seconds slept as calls made, and never
    more than [n] of them. *)
Lemma retryLoop_bound (n : nat) :
  forall last w,
    let w' := (retryLoop fetch n last w).2 in
    (calls w <= calls w' <= calls w + n)%nat
    /\ (slept w' - slept w = calls w' - calls w)%nat
    /\ (slept w <= slept w')%nat.
Proof.
  induction n as [| n IH]; intros last w; simpl.
  - lia.
  - unfold bind, time.Sleep_Second. unfold fetchColumn at 1. simpl.
    destruct (column (calls w) chainId hash) as [v [e |]]; simpl.
    + specialize (IH (v, Some e) (mkWorld (S (calls w)) (S (slept w)))).
      cbv zeta in IH. simpl in IH. lia.
    + lia.
Qed.

(** When every answer is an error the loop runs to its end. *)
Lemma retryLoop_all_fail (n : nat) :
  forall last w,
    (forall i, (i < n)%nat -> (column (calls w + i)%nat chainId hash).2 <> None) ->
    retryLoop fetch n last w
    = (match n with
       | O => last
       | S k => column (calls w + k)%nat chainId hash
       end,
       mkWorld (calls w + n) (slept w + n)).
Proof.
  induction n as [| n IH]; intros last w Hfail; simpl.
  - destruct w as [cw sw]. simpl. repeat f_equal; lia.
  - unfold bind, time.Sleep_Second. unfold fetchColumn at 1. simpl.
    pose proof (Hfail O ltac:(lia)) as H0. rewrite Nat.add_0_r in H0.
    destruct (column (calls w) chainId hash) as [v [e |]] eqn:Hcol; simpl in *;
      [| congruence].
    rewrite IH.
    + simpl. destruct n as [| k].
      * rewrite Nat.add_0_r, Hcol. repeat f_equal; lia.
      * replace (S (calls w) + k)%nat with (calls w + S k)%nat by lia.
        repeat f_equal; lia.
    + intros i Hi. simpl.
      specialize (Hfail (S i) ltac:(lia)).
      replace (calls w + S i)%nat with (S (calls w + i)) in Hfail by lia.
      exact Hfail.
Qed.

End Retry.

Lemma getAndRetryBalance_bound c chainId hash w :
  let w' := (getAndRetryBalance c chainId hash w).2 in
  (calls w < calls w' <= calls w + 5)%nat
  /\ (slept w' - slept w = calls w' - calls w - 1)%nat.
Proof.
  unfold getAndRetryBalance, bind, common.GetBalance. unfold fetchColumn at 1. simpl.
  destruct (GetBalance_at c (calls w) chainId hash) as [v [e |]]; simpl.
  - pose proof (retryLoop_bound (GetBalance_at c) chainId hash 4 (v, Some e)
                  (mkWorld (S (calls w)) (slept w))) as H.
    cbv zeta in H. simpl in H. simpl. lia.
  - lia.
Qed.

Lemma getAndRetryTotalSupply_bound c chainId hash w :
  let w' := (getAndRetryTotalSupply c chainId hash w).2 in
  (calls w < calls w' <= calls w + 3)%nat
  /\ (slept w' - slept w = calls w' - calls w - 1)%nat.
Proof.
  unfold getAndRetryTotalSupply, bind, common.GetTotalSupply. unfold fetchColumn at 1. simpl.
  destruct (GetTotalSupply_at c (calls w) chainId hash) as [v [e |]]; simpl.
  - pose proof (retryLoop_bound (GetTotalSupply_at c) chainId hash 2 (v, Some e)
                  (mkWorld (S (calls w)) (slept w))) as H.
    cbv zeta in H. simpl in H. simpl. lia.
  - lia.
Qed.

Lemma getAndRetryBalance_all_fail c chainId hash w :
  (forall i, (i <= 4)%nat -> (GetBalance_at c (calls w + i)%nat chainId hash).2 <> None) ->
  getAndRetryBalance c chainId hash w
  = (GetBalance_at c (calls w + 4)%nat chainId hash,
     mkWorld (calls w + 5) (slept w + 4)).
Proof.
  intros Hfail.
  unfold getAndRetryBalance, bind.
  unfold common.GetBalance. unfold fetchColumn at 1. cbv beta iota zeta.
  pose proof (Hfail O ltac:(lia)) as H0. rewrite Nat.add_0_r in H0.
  destruct (GetBalance_at c (calls w) chainId hash) as [v [e |]] eqn:Hcol;
    cbn [snd] in *; [| congruence].
  rewrite retryLoop_all_fail.
  - cbn [calls slept].
    replace (S (calls w) + 3)%nat with (calls w + 4)%nat by lia.
    replace (S (calls w) + 4)%nat with (calls w + 5)%nat by lia.
    reflexivity.
  - intros i Hi. cbn [calls].
    specialize (Hfail (S i) ltac:(lia)).
    replace (calls w + S i)%nat with (S (calls w) + i)%nat in Hfail by lia.
    exact Hfail.
Qed.

Lemma getAndRetryTotalSupply_all_fail c chainId hash w :
  (forall i, (i <= 2)%nat -> (GetTotalSupply_at c (calls w + i)%nat chainId hash).2 <> None) ->
  getAndRetryTotalSupply c chainId hash w
  = (GetTotalSupply_at c (calls w + 2)%nat chainId hash,
     mkWorld (calls w + 3) (slept w + 2)).
Proof.
  intros Hfail.
  unfold getAndRetryTotalSupply, bind.
  unfold common.GetTotalSupply. unfold fetchColumn at 1. cbv beta iota zeta.
  pose proof (Hfail O ltac:(lia)) as H0. rewrite Nat.add_0_r in H0.
  destruct (GetTotalSupply_at c (calls w) chainId hash) as [v [e |]] eqn:Hcol;
    cbn [snd] in *; [| congruence].
  rewrite retryLoop_all_fail.
  - cbn [calls slept].
    replace (S (calls w) + 1)%nat with (calls w + 2)%nat by lia.
    replace (S (calls w) + 2)%nat with (calls w + 3)%nat by lia.
    reflexivity.
  - intros i Hi. cbn [calls].
    specialize (Hfail (S i) ltac:(lia)).
    replace (calls w + S i)%nat with (S (calls w) + i)%nat in Hfail by lia.
    exact Hfail.
Qed.

(** ** The reserve check: fetch failures *)

Ltac case_if :=
  match goal with
  | |- context [if ?b then _ else _] => destruct b eqn:?
  end.

Lemma specialBasic_Some (MATIC : Z) (token : Token) (z : Z) :
  exists z', specialBasic MATIC token (Some z) = Some z'.
Proof.
  unfold specialBasic.
  repeat (case_if; [eexists; reflexivity |]).
  eexists; reflexivity.
Qed.

Lemma supplyForFlow_failed (MATIC : Z) (basic : TokenBasic) (token : Token)
    (v : option Z) (e : string) :
  supplyForFlow MATIC basic token (v, Some e)
  = supplyForFlow MATIC basic token (Some 0, None).
Proof. reflexivity. Qed.

Lemma supplyForFlow_zero_Some (MATIC : Z) (basic : TokenBasic) (token : Token) :
  exists ts, supplyForFlow MATIC basic token (Some 0, None) = Some ts.
Proof.
  unfold supplyForFlow. cbn [fst snd].
  destruct (specialBasic_Some MATIC token 0) as [z' Hz]. rewrite Hz.
  case_if; eexists; reflexivity.
Qed.

(** The result of a fetch with retries is one of the answers of the
    node. *)
Lemma retryLoop_answer column chainId hash (n : nat) :
  forall last w,
    (retryLoop (fetchColumn column chainId hash) n last w).1 = last
    \/ exists k, (retryLoop (fetchColumn column chainId hash) n last w).1
                 = column k chainId hash.
Proof.
  induction n as [| n IH]; intros last w; cbn [retryLoop].
  - left. reflexivity.
  - unfold bind, time.Sleep_Second. unfold fetchColumn at 1 3. cbn [calls slept].
    destruct (column (calls w) chainId hash) as [v [e |]] eqn:Hcol; cbn [snd].
    + destruct (IH (v, Some e) (mkWorld (S (calls w)) (S (slept w)))) as [H | [k H]].
      * right. exists (calls w). rewrite H, Hcol. reflexivity.
      * right. exists k. exact H.
    + right. exists (calls w). unfold ret. cbn [fst]. symmetry. exact Hcol.
Qed.

Lemma getAndRetryBalance_answer c chainId hash w :
  exists k, (getAndRetryBalance c chainId hash w).1 = GetBalance_at c k chainId hash.
Proof.
  unfold getAndRetryBalance, bind, common.GetBalance. unfold fetchColumn at 1.
  destruct (GetBalance_at c (calls w) chainId hash) as [v [e |]] eqn:Hcol; cbn [snd].
  - destruct (retryLoop_answer (GetBalance_at c) chainId hash 4 (v, Some e)
                (mkWorld (S (calls w)) (slept w))) as [H | [k H]].
    + exists (calls w). rewrite H, Hcol. reflexivity.
    + exists k. exact H.
  - exists (calls w). unfold ret. cbn [fst]. symmetry. exact Hcol.
Qed.

Lemma getAndRetryTotalSupply_answer c chainId hash w :
  exists k, (getAndRetryTotalSupply c chainId hash w).1
            = GetTotalSupply_at c k chainId hash.
Proof.
  unfold getAndRetryTotalSupply, bind, common.GetTotalSupply. unfold fetchColumn at 1.
  destruct (GetTotalSupply_at c (calls w) chainId hash) as [v [e |]] eqn:Hcol; cbn [snd].
  - destruct (retryLoop_answer (GetTotalSupply_at c) chainId hash 2 (v, Some e)
                (mkWorld (S (calls w)) (slept w))) as [H | [k H]].
    + exists (calls w). rewrite H, Hcol. reflexivity.
    + exists k. exact H.
  - exists (calls w). unfold ret. cbn [fst]. symmetry. exact Hcol.
Qed.

Lemma supplyForFlow_Some MATIC basic token (t : option Z * error) :
  (t.2 = None -> t.1 <> None) ->
  exists ts, supplyForFlow MATIC basic token t = Some ts.
Proof.
  intros Ht. unfold supplyForFlow.
  assert (Hfetched : exists z, match t.2 with Some _ => Some 0 | None => t.1 end = Some z).
  { destruct t as [v [e |]]; cbn [fst snd] in *; [eauto |].
    destruct v as [z |]; [eauto | exfalso; apply Ht; reflexivity]. }
  destruct Hfetched as [z ->].
  destruct (specialBasic_Some MATIC token z) as [z' ->].
  case_if; eauto.
Qed.

(** Whatever the node answers, one turn of the loop over the tokens ends
    with an entry or passes the token by; no answer ends the loop. *)
Lemma checkToken_total MATIC c basic token st w :
  node_answers c ->
  exists st' w', checkToken MATIC c basic token st w = (Ok st', w').
Proof.
  intros Hnode. unfold checkToken.
  destruct (notToken token); [unfold ret; eauto |].
  destruct (negb (Token_Property token =? 1)); [unfold ret; eauto |].
  unfold bind, time.Sleep_Second, ret.
  destruct (getAndRetryBalance_answer c (Token_ChainId token) (Token_Hash token) w)
    as [k Hk].
  destruct (getAndRetryBalance c _ _ w) as [b w1]. cbn [fst] in Hk.
  destruct (getAndRetryTotalSupply_answer c (Token_ChainId token) (Token_Hash token)
              (mkWorld (calls w1) (S (slept w1)))) as [k' Hk'].
  destruct (getAndRetryTotalSupply c _ _ _) as [t w2]. cbn [fst] in Hk'.
  destruct (supplyForFlow_Some MATIC basic token t) as [ts ->].
  { rewrite Hk'. apply Hnode. }
  assert (Hbal : exists bal, match b.2 with Some _ => Some 0 | None => b.1 end = Some bal).
  { destruct (Hnode k (Token_ChainId token) (Token_Hash token)) as [Hb _].
    rewrite <- Hk in Hb.
    destruct b as [v [e |]]; cbn [fst snd] in *; [eauto |].
    destruct v as [z |]; [eauto | exfalso; apply Hb; reflexivity]. }
  destruct Hbal as [bal ->]. cbn [deref res_bind]. eauto.
Qed.

Lemma checkTokens_total MATIC c basic tokens :
  node_answers c ->
  forall st w, exists st' w', checkTokens MATIC c basic tokens st w = (Ok st', w').
Proof.
  intros Hnode. induction tokens as [| token rest IH]; intros st w; cbn [checkTokens].
  - unfold ret. eauto.
  - unfold bind.
    destruct (checkToken_total MATIC c basic token st w Hnode) as (st1 & w1 & ->).
    apply IH.
Qed.

Lemma Div_Ok (d d2 : decimal.Decimal) :
  decimal.value d2 <> 0 ->
  MinInt32 <= decimal.exp d - decimal.exp d2 + decimal.DivisionPrecision <= MaxInt32 ->
  exists q, decimal.Div d d2 = Ok q.
Proof.
  intros Hnz He. unfold decimal.Div, decimal.DivRound, decimal.QuoRem.
  destruct (Z.eqb_spec (decimal.value d2) 0) as [| _]; [contradiction |].
  set (e := decimal.exp d - decimal.exp d2 - - decimal.DivisionPrecision).
  assert (Hin : ((MaxInt32 <? e) || (e <? MinInt32))%bool = false).
  { apply orb_false_iff. split; [apply Z.ltb_ge | apply Z.ltb_ge]; subst e; lia. }
  rewrite Hin. destruct (e <? 0); cbn [res_bind]; repeat case_if; eauto.
Qed.

Lemma usdDecimal_Ok difference precision price :
  0 <= precision < 2 ^ 31 ->
  exists d, usdDecimal difference precision price = Ok d.
Proof.
  intros Hp. unfold usdDecimal.
  assert (H32 : int32 precision = precision).
  { unfold int32. rewrite Z.mod_small by (change (2 ^ 32) with (2 * 2 ^ 31); lia).
    destruct (Z.ltb_spec precision (2 ^ 31)); lia. }
  rewrite H32.
  destruct (Div_Ok (decimal.NewFromBigInt difference 0) (decimal.New 1 precision))
    as [q ->].
  - cbn. discriminate.
  - cbn [decimal.exp decimal.NewFromBigInt decimal.New].
    unfold MinInt32, MaxInt32, decimal.DivisionPrecision.
    change (2 ^ 31) with 2147483648 in Hp. lia.
  - cbn [res_bind]. eauto.
Qed.

(** ** The token-statistics pass *)

Module TokenPassFacts.
Import TokenPass.

Lemma tokenRow_lookup_ok d c nowInId nowOutId BTCPrice statistic token w :
  GetTokenBasicByHash d (TS.ChainId statistic) (TS.Hash statistic) = (token, None) ->
  tokenRow d c nowInId nowOutId BTCPrice statistic w = (Skipped, w).
Proof. intros H. unfold tokenRow. rewrite H. reflexivity. Qed.

Lemma tokenRow_lookup_nil d c nowInId nowOutId BTCPrice statistic e w :
  GetTokenBasicByHash d (TS.ChainId statistic) (TS.Hash statistic) = (None, Some e) ->
  tokenRow d c nowInId nowOutId BTCPrice statistic w = (RowPanicked nil_dereference, w).
Proof. intros H. unfold tokenRow. rewrite H. reflexivity. Qed.

(** C3.  A row whose catalog lookup returns no error is skipped: nothing
    is computed for it, nothing is saved, the node is not asked.  A row
    whose lookup returns an error and the nil token makes the pass
    dereference nil: the goroutine panics at that row. *)
Theorem lookup_success_skips_and_failure_dereferences_nil :
  forall (d : Dao) (c : ChainNode) (nowInId nowOutId : Z) (BTCPrice : decimal.Decimal)
         (statistic : TokenStatistic.t) (rest : list TokenStatistic.t)
         (s : Store) (w : World),
    (forall token,
        GetTokenBasicByHash d (TS.ChainId statistic) (TS.Hash statistic) = (token, None) ->
        tokenRow d c nowInId nowOutId BTCPrice statistic w = (Skipped, w)
        /\ rowLoop d c nowInId nowOutId BTCPrice (statistic :: rest) s w
           = rowLoop d c nowInId nowOutId BTCPrice rest s w)
    /\ (forall e,
        GetTokenBasicByHash d (TS.ChainId statistic) (TS.Hash statistic) = (None, Some e) ->
        tokenRow d c nowInId nowOutId BTCPrice statistic w
        = (RowPanicked nil_dereference, w)
        /\ rowLoop d c nowInId nowOutId BTCPrice (statistic :: rest) s w
           = (s, Panicked nil_dereference, w)).
Proof.
  intros d c nowInId nowOutId BTCPrice statistic rest s w. split.
  - intros token H. split.
    + eapply tokenRow_lookup_ok, H.
    + cbn [rowLoop]. unfold bind at 1.
      rewrite (tokenRow_lookup_ok _ _ _ _ _ _ _ _ H). reflexivity.
  - intros e H. split.
    + eapply tokenRow_lookup_nil, H.
    + cbn [rowLoop]. unfold bind at 1.
      rewrite (tokenRow_lookup_nil _ _ _ _ _ _ _ _ H). reflexivity.
Qed.

Lemma lookup_success_skips_and_failure_dereferences_nil_witness :
  (GetTokenBasicByHash TokenScenario.dao 2 "0xbtc" = (Some TokenScenario.wbtcOnEth, None)
   /\ rowLoop TokenScenario.dao TokenScenario.node 7 20 (decimal.New 30000 0)
        [TokenScenario.rowEth] TokenScenario.store Scenario.w0
      = (TokenScenario.store, Returned None, Scenario.w0))
  /\ (GetTokenBasicByHash TokenScenario.dao 9 "0x9" = (None, Some "record not found")
      /\ rowLoop TokenScenario.dao TokenScenario.node 7 20 (decimal.New 30000 0)
           [TokenStatistic.mk 9 "0x9" 0 0 0 0 0 0 0 0 0 0 None]
           TokenScenario.store Scenario.w0
         = (TokenScenario.store, Panicked nil_dereference, Scenario.w0)).
Proof.
  split.
  - split; [reflexivity |].
    destruct (lookup_success_skips_and_failure_dereferences_nil
                TokenScenario.dao TokenScenario.node 7 20 (decimal.New 30000 0)
                TokenScenario.rowEth [] TokenScenario.store Scenario.w0) as [Hok _].
    destruct (Hok (Some TokenScenario.wbtcOnEth) eq_refl) as [_ Hloop].
    exact Hloop.
  - split; [reflexivity |].
    destruct (lookup_success_skips_and_failure_dereferences_nil
                TokenScenario.dao TokenScenario.node 7 20 (decimal.New 30000 0)
                (TokenStatistic.mk 9 "0x9" 0 0 0 0 0 0 0 0 0 0 None) []
                TokenScenario.store Scenario.w0) as [_ Hnil].
    destruct (Hnil "record not found" eq_refl) as [_ Hloop].
    exact Hloop.
Defined.

(** What the loop body does with a row it gets to: on the home chain of
    the token the inbound amount is the scaled live balance. *)
Lemma inboundPart_home_chain d c nowInId BTCPrice price_new precision_new tb statistic
    w balance w' row :
  TokenBasic_ChainId tb = TS.ChainId statistic ->
  getAndRetryBalance c (TS.ChainId statistic) (TS.Hash statistic) w
  = ((Some balance, None), w') ->
  inboundPart d c nowInId BTCPrice price_new precision_new tb statistic w = (Ok row, w') ->
  scaleAmount precision_new balance = Ok (TS.InAmount row)
  /\ TS.InCounter row = TS.InCounter statistic.
Proof.
  intros Hhome Hbal. unfold inboundPart, bind.
  rewrite Hhome, Z.eqb_refl. unfold bind. rewrite Hbal. cbn [fst snd ret deref res_bind].
  destruct (scaleAmount precision_new balance) as [a | m]; cbn [res_bind]; [| discriminate].
  destruct (decimal.Div _ BTCPrice) as [btc | m]; cbn [res_bind]; [| discriminate].
  intros [= <-]. split; reflexivity.
Qed.

(** Away from the home chain the inbound amount grows by the scaled
    delta of the range [(LastInCheckId, nowInId]]. *)
Lemma inboundPart_other_chain d c nowInId BTCPrice price_new precision_new tb statistic
    w i itb row w' :
  TokenBasic_ChainId tb <> TS.ChainId statistic ->
  deltaTokenBasic
    (CalculateInTokenStatistics d (TS.ChainId statistic) (TS.Hash statistic)
       (TS.LastInCheckId statistic) nowInId).1 = Some (i, itb) ->
  inboundPart d c nowInId BTCPrice price_new precision_new tb statistic w = (Ok row, w') ->
  w' = w
  /\ (exists a, scaleAmount precision_new (TS.InAmount i) = Ok a
                /\ TS.InAmount row = TS.InAmount statistic + a)
  /\ TS.InCounter row = addDecimalInt64 (TS.InCounter statistic) (TS.InCounter i).
Proof.
  intros Hother Hdelta. unfold inboundPart, bind.
  destruct (Z.eqb_spec (TokenBasic_ChainId tb) (TS.ChainId statistic)) as [| _];
    [contradiction |].
  destruct (CalculateInTokenStatistics d (TS.ChainId statistic) (TS.Hash statistic)
              (TS.LastInCheckId statistic) nowInId) as [x err].
  cbn [fst] in Hdelta. rewrite Hdelta. cbn [ret].
  destruct (scaleAmount precision_new (TS.InAmount i)) as [a | m]; cbn [res_bind];
    [| discriminate].
  destruct (decimal.Div _ BTCPrice) as [btc | m]; cbn [res_bind]; [| discriminate].
  intros [= <- <-]. split; [reflexivity |]. split; [| reflexivity].
  exists a. split; reflexivity.
Qed.

(** The outbound part asks the ledger one question, and its bounds are the
    inbound cursor of the row and the newest destination transfer. *)
Lemma outboundPart_query d d' nowInId nowOutId BTCPrice price_new precision_new statistic :
  CalculateOutTokenStatistics d (TS.ChainId statistic) (TS.Hash statistic)
    (TS.LastInCheckId statistic) nowInId
  = CalculateOutTokenStatistics d' (TS.ChainId statistic) (TS.Hash statistic)
      (TS.LastInCheckId statistic) nowInId ->
  outboundPart d nowInId nowOutId BTCPrice price_new precision_new statistic
  = outboundPart d' nowInId nowOutId BTCPrice price_new precision_new statistic.
Proof. intros H. unfold outboundPart. rewrite H. reflexivity. Qed.

(** C2, as the code runs it.  The row of WBTC on BSC has the cursors
    [LastInCheckId = 5] and [LastOutCheckId = 10]; the newest destination
    transfer is 7, the newest source transfer 20.  The source transfer 15,
    of 3 WBTC, lies in [(10, 20]]; the source transfer 6, of 1 WBTC, was
    counted before.  The pass adds transfer 6 again, leaves transfer 15
    out, and moves [LastOutCheckId] to 20. *)
Theorem outbound_delta_read_over_inbound_range :
  TokenScenario.sumOut 6 "0xb5c" 10 20 = (300000000, 1)
  /\ TokenScenario.sumOut 6 "0xb5c" 5 7 = (100000000, 1)
  /\ exists row,
      outboundPart TokenScenario.dao 7 20 (decimal.New 30000 0) (decimal.New 1 0)
                   (decimal.New 1 8) TokenScenario.rowBsc = Ok row
      /\ TS.OutAmount row = TS.OutAmount TokenScenario.rowBsc + 100
      /\ TS.OutCounter row = TS.OutCounter TokenScenario.rowBsc + 1
      /\ TS.LastOutCheckId row = 20.
Proof.
  split; [reflexivity |]. split; [reflexivity |].
  eexists. split; [vm_compute; reflexivity |].
  repeat split.
Qed.

(** C5, as the code runs it.  The row of WBTC on Ethereum, the home chain
    of WBTC, has an inbound amount of 0 and the node reports a balance of
    5 WBTC, which the loop body would store as 500.  The lookup of the
    token succeeds, so the row is skipped: the pass ends with the store as
    it was and the node was never asked. *)
Theorem home_chain_row_is_skipped :
  TokenBasic_ChainId TokenScenario.wbtc = TS.ChainId TokenScenario.rowEth
  /\ GetTokenBasicByHash TokenScenario.dao 2 "0xbtc" = (Some TokenScenario.wbtcOnEth, None)
  /\ scaleAmount (decimal.New 1 8) 500000000 = Ok 500
  /\ computeTokenStatistics TokenScenario.dao TokenScenario.node TokenScenario.store
       Scenario.w0
     = (TokenScenario.store, Returned None, Scenario.w0)
  /\ TS.InAmount <$> TokenScenario.store !! (2, "0xbtc") = Some 0.
Proof.
  repeat split; vm_compute; reflexivity.
Qed.

End TokenPassFacts.

(** ** Persistence errors *)

(** C4 as stated fails.  The table holds the rows of "AAA" and "BBB", both
    with new transfers in the ledger, and refuses the row of "AAA" only.
    With a table that takes every row the pass brings "BBB" up to the new
    cursor; with the failing table the pass returns the error at "AAA"
    and "BBB" stays as it was. *)
Lemma save_error_blocks_remaining_rows :
  (AssetPass.GetAssetStatistic AssetScenario.dao AssetScenario.store).1
  = [AssetScenario.rowA; AssetScenario.rowB]
  /\ (AssetPass.computeAssetStatistics AssetScenario.goodDao AssetScenario.store).1 !! "BBB"
     = Some (AssetStatistic.mk "BBB" 0 3 700 50000 1 20)
  /\ AssetPass.SaveAssetStatistic_err AssetScenario.dao
       (AssetStatistic.mk "BBB" 0 3 700 50000 1 20) = None
  /\ AssetPass.computeAssetStatistics AssetScenario.dao AssetScenario.store
     = (AssetScenario.store,
        Returned (Some "Failed to UpdateTransferStatistic disk full"))
  /\ AssetScenario.store !! "BBB" = Some AssetScenario.rowB.
Proof.
  repeat split; vm_compute; reflexivity.
Qed.

Lemma chain_pass_refused_batch (d : ChainPass.Dao) (s : ChainPass.Store)
    sta nowInId nowOutId polyCheckId :
  ChainPass.GetNewChainSta d = (Some sta, None) ->
  ChainPass.GetNewDstTransaction d = (Some nowInId, None) ->
  ChainPass.GetNewSrcTransaction d = (Some nowOutId, None) ->
  ChainPass.GetPolyTransaction d = (Some polyCheckId, None) ->
  ChainPass.GetChainStatistic_err d = None ->
  (ChainPass.GetChains d).2 = None ->
  (forall rows, ChainPass.SaveChainStatistics_err d rows <> None) ->
  ChainPass.computeChainStatistics d s = (s, Returned None).
Proof.
  intros Hsta Hin Hout Hpoly Hload Hchains Hsave. unfold ChainPass.computeChainStatistics.
  rewrite Hsta, Hin, Hout, Hpoly. cbn [deref].
  destruct (_ || _)%bool; [| reflexivity].
  unfold ChainPass.GetChainStatistic. rewrite Hload.
  destruct (ChainPass.GetChains d) as [chains cerr]. cbn [snd] in Hchains. subst cerr.
  unfold ChainPass.SaveChainStatistics.
  destruct (ChainPass.SaveChainStatistics_err d _) as [e |] eqn:He; [reflexivity |].
  exfalso. exact (Hsave _ He).
Qed.

(** C4, amended.  In the asset pass and in the token pass a failed save
    ends the pass: the error is returned, wrapped, and the rows that
    follow in the loop are not touched; a row saved before stays saved and
    the loop goes on after a successful save.  The chain pass saves its
    rows in one batch; when the table refuses the batch the pass writes
    nothing and returns nil all the same. *)
Theorem save_error_ends_the_pass :
  (forall (d : AssetPass.Dao) (nowId : Z) (BTCPrice : decimal.Decimal)
          (old old' : AssetStatistic.t) (rest : list AssetStatistic.t)
          (s : AssetPass.Store),
      AssetPass.assetRow d nowId BTCPrice old = Ok old' ->
      (forall e,
          AssetPass.SaveAssetStatistic_err d old' = Some e ->
          AssetPass.saveLoop d nowId BTCPrice (old :: rest) s
          = (s, Returned (Errorf "Failed to UpdateTransferStatistic " e)))
      /\ (AssetPass.SaveAssetStatistic_err d old' = None ->
          AssetPass.saveLoop d nowId BTCPrice (old :: rest) s
          = AssetPass.saveLoop d nowId BTCPrice rest
              (<[AssetStatistic.TokenBasicName old' := old']> s)))
  /\ (forall (d : TokenPass.Dao) (c : ChainNode) (nowInId nowOutId : Z)
             (BTCPrice : decimal.Decimal) (statistic row : TokenStatistic.t)
             (rest : list TokenStatistic.t) (s : TokenPass.Store) (w w' : World),
      TokenPass.tokenRow d c nowInId nowOutId BTCPrice statistic w
      = (TokenPass.Processed row, w') ->
      (forall e,
          TokenPass.SaveTokenStatistic_err d row = Some e ->
          TokenPass.rowLoop d c nowInId nowOutId BTCPrice (statistic :: rest) s w
          = (s, Returned (Errorf "Failed to SaveTokenStatistic " e), w'))
      /\ (TokenPass.SaveTokenStatistic_err d row = None ->
          TokenPass.rowLoop d c nowInId nowOutId BTCPrice (statistic :: rest) s w
          = TokenPass.rowLoop d c nowInId nowOutId BTCPrice rest
              (<[(TokenStatistic.ChainId row, TokenStatistic.Hash row) := row]> s) w'))
  /\ (forall (d : ChainPass.Dao) (s : ChainPass.Store)
             (sta : ChainStatistic.t) (nowInId nowOutId polyCheckId : Z),
      ChainPass.GetNewChainSta d = (Some sta, None) ->
      ChainPass.GetNewDstTransaction d = (Some nowInId, None) ->
      ChainPass.GetNewSrcTransaction d = (Some nowOutId, None) ->
      ChainPass.GetPolyTransaction d = (Some polyCheckId, None) ->
      ChainPass.GetChainStatistic_err d = None ->
      (ChainPass.GetChains d).2 = None ->
      (forall rows, ChainPass.SaveChainStatistics_err d rows <> None) ->
      ChainPass.computeChainStatistics d s = (s, Returned None)).
Proof.
  split; [| split].
  - intros d nowId BTCPrice old old' rest s Hrow. split.
    + intros e He. cbn [AssetPass.saveLoop]. rewrite Hrow.
      unfold AssetPass.SaveAssetStatistic. rewrite He. reflexivity.
    + intros He. cbn [AssetPass.saveLoop]. rewrite Hrow.
      unfold AssetPass.SaveAssetStatistic. rewrite He. reflexivity.
  - intros d c nowInId nowOutId BTCPrice statistic row rest s w w' Hrow. split.
    + intros e He. cbn [TokenPass.rowLoop]. unfold bind at 1. rewrite Hrow.
      unfold TokenPass.SaveTokenStatistic. rewrite He. reflexivity.
    + intros He. cbn [TokenPass.rowLoop]. unfold bind at 1. rewrite Hrow.
      unfold TokenPass.SaveTokenStatistic. rewrite He. reflexivity.
  - apply chain_pass_refused_batch.
Qed.

Lemma save_error_ends_the_pass_witness :
  (AssetPass.assetRow AssetScenario.dao 20 (decimal.New 30000 0) AssetScenario.rowA
   = Ok (AssetStatistic.mk "AAA" 0 2 600 50000 1 20)
   /\ AssetPass.SaveAssetStatistic_err AssetScenario.dao
        (AssetStatistic.mk "AAA" 0 2 600 50000 1 20) = Some "disk full"
   /\ AssetPass.saveLoop AssetScenario.dao 20 (decimal.New 30000 0)
        [AssetScenario.rowA; AssetScenario.rowB] AssetScenario.store
      = (AssetScenario.store,
         Returned (Errorf "Failed to UpdateTransferStatistic " "disk full")))
  /\ (TokenPass.tokenRow QuietTokenScenario.refusing TokenScenario.node 5 10
        (decimal.New 30000 0) TokenScenario.rowEth Scenario.w0
      = (TokenPass.Processed QuietTokenScenario.rowEthAfter, mkWorld 1 0)
      /\ TokenPass.SaveTokenStatistic_err QuietTokenScenario.refusing
           QuietTokenScenario.rowEthAfter = Some "disk full"
      /\ TokenPass.rowLoop QuietTokenScenario.refusing TokenScenario.node 5 10
           (decimal.New 30000 0) [TokenScenario.rowEth; TokenScenario.rowBsc]
           TokenScenario.store Scenario.w0
         = (TokenScenario.store,
            Returned (Errorf "Failed to SaveTokenStatistic " "disk full"), mkWorld 1 0))
  /\ ((forall rows, ChainPass.SaveChainStatistics_err BatchScenario.refused rows <> None)
      /\ ChainPass.computeChainStatistics BatchScenario.refused ChainScenario.store
         = (ChainScenario.store, Returned None)).
Proof.
  assert (H1 : AssetPass.assetRow AssetScenario.dao 20 (decimal.New 30000 0)
                 AssetScenario.rowA
               = Ok (AssetStatistic.mk "AAA" 0 2 600 50000 1 20))
    by (vm_compute; reflexivity).
  assert (H2 : AssetPass.SaveAssetStatistic_err AssetScenario.dao
                 (AssetStatistic.mk "AAA" 0 2 600 50000 1 20) = Some "disk full")
    by reflexivity.
  assert (H3 : TokenPass.tokenRow QuietTokenScenario.refusing TokenScenario.node 5 10
                 (decimal.New 30000 0) TokenScenario.rowEth Scenario.w0
               = (TokenPass.Processed QuietTokenScenario.rowEthAfter, mkWorld 1 0))
    by (vm_compute; reflexivity).
  assert (H4 : TokenPass.SaveTokenStatistic_err QuietTokenScenario.refusing
                 QuietTokenScenario.rowEthAfter = Some "disk full")
    by reflexivity.
  assert (H5 : forall rows,
             ChainPass.SaveChainStatistics_err BatchScenario.refused rows <> None)
    by (intros rows; discriminate).
  destruct save_error_ends_the_pass as (Hasset & Htoken & Hchain).
  split; [| split].
  - split; [exact H1 |]. split; [exact H2 |].
    destruct (Hasset AssetScenario.dao 20 (decimal.New 30000 0) AssetScenario.rowA _
                [AssetScenario.rowB] AssetScenario.store H1) as [Hfail _].
    exact (Hfail "disk full" H2).
  - split; [exact H3 |]. split; [exact H4 |].
    destruct (Htoken QuietTokenScenario.refusing TokenScenario.node 5 10
                (decimal.New 30000 0) TokenScenario.rowEth _ [TokenScenario.rowBsc]
                TokenScenario.store Scenario.w0 _ H3) as [Hfail _].
    exact (Hfail "disk full" H4).
  - split; [exact H5 |].
    exact (Hchain BatchScenario.refused ChainScenario.store ChainScenario.rowEth 9 20 130
             eq_refl eq_refl eq_refl eq_refl eq_refl eq_refl H5).
Defined.

(** ** The reserve check: the override table *)

Lemma presion_pow10 (p : Z) :
  0 <= p < 2 ^ 31 ->
  decimal.BigInt (decimal.New 1 (int32 p)) = 10 ^ p.
Proof.
  intros Hp. unfold int32.
  rewrite Z.mod_small by (change (2 ^ 32) with (2 * 2 ^ 31); lia).
  destruct (Z.ltb_spec p (2 ^ 31)) as [_ | Hge]; [| lia].
  unfold decimal.BigInt, decimal.New, decimal.rescale. cbn [decimal.exp decimal.value].
  destruct (Z.eqb_spec p 0) as [-> | Hne]; [reflexivity |].
  destruct (Z.ltb_spec p 0) as [Hlt | _]; [lia |].
  cbn [decimal.value]. rewrite Z.sub_0_l, Z.abs_opp, Z.abs_eq by lia. lia.
Qed.

Lemma specialBasic_not_in_table (MATIC : Z) (token : Token) (totalSupply : option Z) :
  ~ In (Token_TokenBasicName token, Token_ChainId token) (overrideTable MATIC) ->
  specialBasic MATIC token totalSupply = totalSupply.
Proof.
  intros Hnot. unfold specialBasic.
  repeat (case_if;
          [ exfalso; apply Hnot;
            match goal with
            | H : (_ && _)%bool = true |- _ =>
                apply andb_true_iff in H as [Hn Hc];
                apply String.eqb_eq in Hn; apply Z.eqb_eq in Hc;
                rewrite Hn, Hc
            end;
            unfold overrideTable; cbn [In]; auto 30
          | ]).
  reflexivity.
Qed.

(** C7 as stated fails.  "DAO" is not on the exclusion list; when
    Ethereum is the home chain of the family, the chain entry of its
    Ethereum token gets the total supply 0, not the override
    [1000 * 10 ^ 18], and its flow is [0 - 3]. *)
Lemma override_is_superseded_on_home_chain :
  specialBasic Scenario.MATIC Scenario.daoOnEth (Some 5) = Some (1000 * 10 ^ 18)
  /\ supplyForFlow Scenario.MATIC Scenario.daoBasic Scenario.daoOnEth (Some 5, None)
     = Some 0
  /\ checkTokens Scenario.MATIC Scenario.smallNode Scenario.daoBasic
       (TokenBasic_Tokens Scenario.daoBasic) (mkTokenLoop [] 0 "") Scenario.w0
     = (Ok (mkTokenLoop [DstChainAsset.mk 2 "0xda0" (Some 0) (Some 3) (Some (-3))]
                        (-3) ""),
        mkWorld 2 1).
Proof.
  repeat split; vm_compute; reflexivity.
Qed.

(** C7, amended.  [specialBasic] answers [1000 * 10 ^ precision] for
    ("DAO", ETHEREUM) whatever was fetched, and hands the fetched supply
    through for a pair that is not in the table.  The total supply that
    enters the flow of the chain entry is that answer unless the asset is
    off the exclusion list and the token sits on the home chain of its
    family: then it is 0. *)
Theorem override_then_home_chain_rule :
  forall (MATIC : Z) (basic : TokenBasic) (token : Token) (fetched : option Z),
    (Token_TokenBasicName token = "DAO" ->
     Token_ChainId token = basedef.ETHEREUM_CROSSCHAIN_ID ->
     0 <= Token_Precision token < 2 ^ 31 ->
     specialBasic MATIC token fetched = Some (1000 * 10 ^ Token_Precision token))
    /\ (~ In (Token_TokenBasicName token, Token_ChainId token) (overrideTable MATIC) ->
        specialBasic MATIC token fetched = fetched)
    /\ supplyForFlow MATIC basic token (fetched, None)
       = if negb (inExtraBasic (Token_TokenBasicName token))
            && (TokenBasic_ChainId basic =? Token_ChainId token)
         then Some 0
         else specialBasic MATIC token fetched.
Proof.
  intros MATIC basic token fetched. split; [| split].
  - intros Hname Hchain Hp. unfold specialBasic.
    rewrite Hname, Hchain, (presion_pow10 _ Hp). reflexivity.
  - apply specialBasic_not_in_table.
  - reflexivity.
Qed.

Lemma override_then_home_chain_rule_witness :
  (Token_TokenBasicName Scenario.daoOnEth = "DAO"
   /\ Token_ChainId Scenario.daoOnEth = basedef.ETHEREUM_CROSSCHAIN_ID
   /\ 0 <= Token_Precision Scenario.daoOnEth < 2 ^ 31
   /\ specialBasic Scenario.MATIC Scenario.daoOnEth (Some 5)
      = Some (1000 * 10 ^ Token_Precision Scenario.daoOnEth))
  /\ (~ In (Token_TokenBasicName Scenario.fooOnEth, Token_ChainId Scenario.fooOnEth)
          (overrideTable Scenario.MATIC)
      /\ specialBasic Scenario.MATIC Scenario.fooOnEth (Some 5) = Some 5).
Proof.
  assert (Hp : 0 <= Token_Precision Scenario.daoOnEth < 2 ^ 31) by (simpl; lia).
  assert (Hnot : ~ In (Token_TokenBasicName Scenario.fooOnEth,
                       Token_ChainId Scenario.fooOnEth)
                      (overrideTable Scenario.MATIC)).
  { simpl. intros H. repeat (destruct H as [H | H]; [discriminate H |]). exact H. }
  split.
  - repeat (split; [first [reflexivity | exact Hp] |]).
    destruct (override_then_home_chain_rule Scenario.MATIC Scenario.daoBasic
                Scenario.daoOnEth (Some 5)) as [Hdao _].
    exact (Hdao eq_refl eq_refl Hp).
  - split; [exact Hnot |].
    destruct (override_then_home_chain_rule Scenario.MATIC Scenario.foo
                Scenario.fooOnEth (Some 5)) as (_ & Hpass & _).
    exact (Hpass Hnot).
Defined.

(** ** The reserve check: flows and the alert *)

Lemma to_int_not_nil (z : Z) :
  Z.to_int z <> Decimal.Pos Decimal.Nil /\ Z.to_int z <> Decimal.Neg Decimal.Nil.
Proof.
  destruct z as [| p | p]; simpl; split; try discriminate;
    intros [= H]; exact (DecimalPos.Unsigned.to_uint_nonnil p H).
Qed.

Lemma NewFromString_StringFixed0 (d : decimal.Decimal) :
  decimal.NewFromString (decimal.StringFixed0 d)
  = (decimal.mkDecimal (decimal.Round0Int d) 0, None).
Proof.
  unfold decimal.NewFromString, decimal.StringFixed0.
  destruct (to_int_not_nil (decimal.Round0Int d)) as [Hp Hn].
  rewrite (NilZero.isi _ Hp Hn), DecimalZ.of_to. reflexivity.
Qed.

Lemma Cmp_integers (a b : Z) :
  (decimal.Cmp (decimal.mkDecimal a 0) (decimal.mkDecimal b 0) =? 1) = (b <? a).
Proof.
  unfold decimal.Cmp, decimal.RescalePair, decimal.rescale. simpl.
  destruct (Z.compare_spec a b) as [Heq | Hlt | Hgt]; simpl; symmetry.
  - apply Z.ltb_ge. lia.
  - apply Z.ltb_ge. lia.
  - apply Z.ltb_lt. lia.
Qed.

(** The three tests of [sendDing] on one detail. *)
Lemma alarming_true_iff (ad : AssetDetail.t) :
  alarming ad = true
  <-> AssetDetail.Reason ad <> "all node is not working"
      /\ 0 < AssetDetail.Difference ad
      /\ decimal.Cmp (decimal.NewFromString (AssetDetail.Amount_usd ad)).1
                     (decimal.NewFromInt32 10000) = 1.
Proof.
  unfold alarming.
  destruct (String.eqb_spec (AssetDetail.Reason ad) "all node is not working") as [He | Hne].
  - split; [discriminate | intros [H _]; contradiction].
  - destruct (Z.ltb_spec 0 (AssetDetail.Difference ad)) as [Hpos | Hle].
    + destruct (decimal.NewFromString (AssetDetail.Amount_usd ad)) as [usd err].
      cbn [fst]. rewrite Z.eqb_eq. tauto.
    + split; [discriminate | intros (_ & H & _); lia].
Qed.

Lemma sendDing_posts_iff (PostDingtext : DingText -> error) (l : list AssetDetail.t) :
  (sendDing PostDingtext l).1 <> None
  <-> exists ad, In ad l /\ alarming ad = true.
Proof.
  unfold sendDing. rewrite <- existsb_exists.
  destruct (existsb alarming l); cbn [fst]; split; try congruence; discriminate.
Qed.

Lemma sumFlows_app (l1 l2 : list DstChainAsset.t) :
  sumFlows (l1 ++ l2) = sumFlows l1 + sumFlows l2.
Proof.
  induction l1 as [| x l1 IH]; simpl.
  - reflexivity.
  - unfold sumFlows in *. simpl. rewrite IH. lia.
Qed.

Section ReconcilerFacts.
Variable MATIC : Z.
Variable c : ChainNode.

Lemma checkToken_ok basic token st w st' w' :
  checkToken MATIC c basic token st w = (Ok st', w') ->
  loop_ok st -> loop_ok st'.
Proof.
  unfold checkToken.
  destruct (notToken token); [intros [= <- _]; trivial |].
  destruct (negb (Token_Property token =? 1)); [intros [= <- _]; trivial |].
  unfold bind, time.Sleep_Second, ret.
  destruct (getAndRetryBalance c _ _ w) as [b w1].
  destruct (getAndRetryTotalSupply c _ _ _) as [t w2].
  destruct (supplyForFlow MATIC basic token t) as [ts |]; cbn [deref res_bind];
    [| discriminate].
  destruct (match b.2 with Some _ => Some 0 | None => b.1 end) as [bal |] eqn:Hbal;
    cbn [deref res_bind]; [| discriminate].
  intros [= <- _] [Hall Hsum]. split; cbn [dstChainAssets totalFlow].
  - apply Forall_app. split; [exact Hall |].
    constructor; [| constructor]. exists ts, bal. repeat split.
  - rewrite sumFlows_app, Hsum. unfold sumFlows. simpl. lia.
Qed.

Lemma checkTokens_ok basic tokens :
  forall st w st' w',
    checkTokens MATIC c basic tokens st w = (Ok st', w') ->
    loop_ok st -> loop_ok st'.
Proof.
  induction tokens as [| token rest IH]; intros st w st' w'; cbn [checkTokens].
  - intros [= <- _]. trivial.
  - unfold bind.
    destruct (checkToken MATIC c basic token st w) as [[st1 | m] w1] eqn:Hstep.
    + intros Hrest Hok. eapply IH; [exact Hrest |].
      eapply checkToken_ok; eassumption.
    + discriminate.
Qed.

Lemma getO3Data_spec ad ipCfg ad' :
  getO3Data ad ipCfg = Ok ad' ->
  AssetDetail.BasicName ad' = AssetDetail.BasicName ad
  /\ AssetDetail.Precision ad' = AssetDetail.Precision ad
  /\ AssetDetail.Price ad' = AssetDetail.Price ad
  /\ AssetDetail.Amount_usd ad' = AssetDetail.Amount_usd ad
  /\ AssetDetail.Reason ad' = AssetDetail.Reason ad
  /\ exists extra,
      AssetDetail.TokenAsset ad' = (AssetDetail.TokenAsset ad ++ extra)%list
      /\ Forall entry_o3 extra
      /\ AssetDetail.Difference ad' = AssetDetail.Difference ad + sumFlows extra
      /\ (AssetDetail.BasicName ad <> "WBTC" -> AssetDetail.BasicName ad <> "USDT" ->
          extra = []).
Proof.
  unfold getO3Data.
  destruct (String.eqb_spec (AssetDetail.BasicName ad) "WBTC") as [Hw | Hw].
  - destruct (WBTCIP ipCfg) as [| code bal]; [discriminate |].
    destruct (negb (code =? 200)).
    + intros [= <-]. repeat (split; [reflexivity |]).
      exists []. rewrite app_nil_r. repeat split; [constructor | simpl; lia].
    + destruct bal as [flow |]; cbn [deref res_bind]; [| discriminate].
      intros [= <-]. cbn. repeat (split; [reflexivity |]).
      eexists. split; [reflexivity |]. split.
      * constructor; [split; reflexivity | constructor].
      * split; [unfold sumFlows; simpl; lia | intros H; contradiction].
  - destruct (String.eqb_spec (AssetDetail.BasicName ad) "USDT") as [Hu | Hu].
    + destruct (USDTIP ipCfg) as [| code bal]; [discriminate |].
      destruct (negb (code =? 200)).
      * intros [= <-]. repeat (split; [reflexivity |]).
        exists []. rewrite app_nil_r. repeat split; [constructor | simpl; lia].
      * intros [= <-]. cbn. repeat (split; [reflexivity |]).
        eexists. split; [reflexivity |]. split.
        -- constructor; [split; reflexivity | constructor].
        -- split; [unfold sumFlows; simpl; lia | intros _ H; contradiction].
    + intros [= <-]. repeat (split; [reflexivity |]).
      exists []. rewrite app_nil_r. repeat split; [constructor | simpl; lia].
Qed.

Lemma checkBasic_ok ipCfg basic w ad w' :
  checkBasic MATIC c ipCfg basic w = (Ok ad, w') ->
  detail_ok ad /\ AssetDetail.BasicName ad = TokenBasic_Name basic.
Proof.
  unfold checkBasic, bind, ret.
  destruct (checkTokens MATIC c basic (TokenBasic_Tokens basic) (mkTokenLoop [] 0 "") w)
    as [[st | m] w1] eqn:Hloop; cbn [res_bind]; [| discriminate].
  assert (Hst : loop_ok st).
  { eapply checkTokens_ok; [exact Hloop |]. split; [constructor | reflexivity]. }
  destruct Hst as [Hall Hsum].
  set (ad0 := AssetDetail.mk (TokenBasic_Name basic) (dstChainAssets st) (totalFlow st)
                (TokenBasic_Precision basic) (TokenBasic_Price basic) "" (reason st)).
  destruct (getO3Data ad0 ipCfg) as [ad1 | m] eqn:Ho3; cbn [res_bind]; [| discriminate].
  destruct (getO3Data_spec _ _ _ Ho3)
    as (Hname & Hprec & Hprice & Husd & Hreason & extra & Hentries & Hextra & Hdiff & Hnone).
  assert (Hbase : AssetDetail.Difference ad1 = sumFlows (AssetDetail.TokenAsset ad1)
                  /\ Forall (fun x => entry_ok x \/ entry_o3 x) (AssetDetail.TokenAsset ad1)
                  /\ (AssetDetail.BasicName ad1 <> "WBTC" ->
                      AssetDetail.BasicName ad1 <> "USDT" ->
                      Forall entry_ok (AssetDetail.TokenAsset ad1))).
  { rewrite Hentries, Hdiff, sumFlows_app. subst ad0.
    cbn [AssetDetail.TokenAsset AssetDetail.Difference AssetDetail.BasicName] in *.
    split; [lia |]. split.
    - apply Forall_app. split.
      + eapply List.Forall_impl; [| exact Hall]. intros x Hx. left. exact Hx.
      + eapply List.Forall_impl; [| exact Hextra]. intros x Hx. right. exact Hx.
    - rewrite Hname. intros H1 H2. rewrite (Hnone H1 H2), app_nil_r. exact Hall. }
  destruct Hbase as (Hb1 & Hb2 & Hb3).
  destruct (inExtraBasic (AssetDetail.BasicName ad1)) eqn:Hextra_name.
  - intros [= <- _]. split; [| exact Hname].
    repeat split; try assumption. intros H. congruence.
  - destruct (Z.ltb_spec 0 (AssetDetail.Difference ad1)) as [Hpos | Hle].
    + destruct (amountUsd _ _ _) as [usd | m] eqn:Hamount; cbn [res_bind]; [| discriminate].
      intros [= <- _]. split; [| exact Hname].
      repeat split; try assumption.
      intros _ _. exact Hamount.
    + intros [= <- _]. split; [| exact Hname].
      repeat split; try assumption. intros _ H. lia.
Qed.

Lemma checkBasics_ok ipCfg tokenBasics :
  forall res0 extra0 w res extra w',
    checkBasics MATIC c ipCfg tokenBasics res0 extra0 w = (Ok (res, extra), w') ->
    Forall detail_ok (res0 ++ extra0) ->
    Forall (fun ad => inExtraBasic (AssetDetail.BasicName ad) = false) res0 ->
    Forall detail_ok (res ++ extra)
    /\ Forall (fun ad => inExtraBasic (AssetDetail.BasicName ad) = false) res.
Proof.
  induction tokenBasics as [| basic rest IH]; intros res0 extra0 w res extra w';
    cbn [checkBasics].
  - intros [= <- <- _]. auto.
  - unfold bind.
    destruct (checkBasic MATIC c ipCfg basic w) as [[ad | m] w1] eqn:Hbasic;
      [| discriminate].
    destruct (checkBasic_ok _ _ _ _ _ Hbasic) as [Had _].
    destruct (inExtraBasic (AssetDetail.BasicName ad)) eqn:Hextra; intros Hrest Hok Hres.
    + eapply IH; [exact Hrest | | exact Hres].
      apply Forall_app in Hok as [H1 H2].
      apply Forall_app. split; [exact H1 |].
      apply Forall_app. split; [exact H2 | constructor; [exact Had | constructor]].
    + eapply IH; [exact Hrest | |].
      * apply Forall_app in Hok as [H1 H2].
        apply Forall_app. split; [| exact H2].
        apply Forall_app. split; [exact H1 | constructor; [exact Had | constructor]].
      * apply Forall_app. split; [exact Hres | constructor; [exact Hextra | constructor]].
Qed.

End ReconcilerFacts.

Lemma alarming_detail (ad : AssetDetail.t) :
  detail_ok ad ->
  inExtraBasic (AssetDetail.BasicName ad) = false ->
  alarming ad = true
  <-> AssetDetail.Reason ad <> "all node is not working"
      /\ 0 < AssetDetail.Difference ad
      /\ exists d,
          usdDecimal (AssetDetail.Difference ad) (AssetDetail.Precision ad)
                     (AssetDetail.Price ad) = Ok d
          /\ 10000 < decimal.Round0Int d.
Proof.
  intros (_ & _ & _ & Husd) Hextra. rewrite alarming_true_iff.
  split.
  - intros (Hreason & Hpos & Hcmp). split; [exact Hreason |]. split; [exact Hpos |].
    specialize (Husd Hextra Hpos). unfold amountUsd in Husd.
    destruct (usdDecimal _ _ _) as [d | m]; cbn [res_bind] in Husd; [| discriminate].
    injection Husd as Husd. exists d. split; [reflexivity |].
    rewrite <- Husd, NewFromString_StringFixed0 in Hcmp. cbn [fst] in Hcmp.
    apply Z.eqb_eq in Hcmp. unfold decimal.NewFromInt32 in Hcmp.
    rewrite Cmp_integers in Hcmp. apply Z.ltb_lt in Hcmp. exact Hcmp.
  - intros (Hreason & Hpos & d & Hd & Hgt). split; [exact Hreason |]. split; [exact Hpos |].
    specialize (Husd Hextra Hpos). unfold amountUsd in Husd. rewrite Hd in Husd.
    cbn [res_bind] in Husd. injection Husd as Husd.
    rewrite <- Husd, NewFromString_StringFixed0. cbn [fst].
    apply Z.eqb_eq. unfold decimal.NewFromInt32.
    rewrite Cmp_integers. apply Z.ltb_lt. exact Hgt.
Qed.

Lemma sumFlows_settled (l : list DstChainAsset.t) :
  Forall (fun x => entry_ok x \/ DstChainAsset.Flow x = Some 0) l ->
  Forall (fun x => DstChainAsset.TotalSupply x = DstChainAsset.Balance x) l ->
  sumFlows l = 0.
Proof.
  induction 1 as [| x l Hx _ IH]; intros Heq.
  - reflexivity.
  - inversion Heq as [| ? ? Hbal Hl]; subst.
    unfold sumFlows in *. cbn [foldr]. rewrite IH by assumption.
    destruct Hx as [(ts & bal & Hts & Hb & Hflow) | Hflow]; rewrite Hflow; simpl.
    + rewrite Hts, Hb in Hbal. injection Hbal as ->. lia.
    + lia.
Qed.

Lemma getO3Data_flows ad ipCfg ad' :
  getO3Data ad ipCfg = Ok ad' ->
  AssetDetail.BasicName ad <> "WBTC" ->
  exists extra,
    AssetDetail.TokenAsset ad' = (AssetDetail.TokenAsset ad ++ extra)%list
    /\ Forall (fun x => DstChainAsset.Flow x = Some 0) extra.
Proof.
  unfold getO3Data. intros Hrun Hw.
  destruct (String.eqb_spec (AssetDetail.BasicName ad) "WBTC") as [| _]; [contradiction |].
  destruct (String.eqb (AssetDetail.BasicName ad) "USDT").
  - destruct (USDTIP ipCfg) as [| code bal]; [discriminate |].
    destruct (negb (code =? 200)); injection Hrun as <-.
    + exists []. rewrite app_nil_r. split; [reflexivity | constructor].
    + eexists. split; [reflexivity |]. repeat constructor.
  - injection Hrun as <-. exists []. rewrite app_nil_r. split; [reflexivity | constructor].
Qed.

Section FlowsKnown.
Variable MATIC : Z.
Variable c : ChainNode.

Lemma checkBasic_flows ipCfg basic w ad w' :
  checkBasic MATIC c ipCfg basic w = (Ok ad, w') -> flows_known ad.
Proof.
  unfold checkBasic, bind, ret.
  destruct (checkTokens MATIC c basic (TokenBasic_Tokens basic) (mkTokenLoop [] 0 "") w)
    as [[st | m] w1] eqn:Hloop; cbn [res_bind]; [| discriminate].
  assert (Hst : loop_ok st).
  { eapply checkTokens_ok; [exact Hloop |]. split; [constructor | reflexivity]. }
  destruct Hst as [Hall _].
  set (ad0 := AssetDetail.mk (TokenBasic_Name basic) (dstChainAssets st) (totalFlow st)
                (TokenBasic_Precision basic) (TokenBasic_Price basic) "" (reason st)).
  destruct (getO3Data ad0 ipCfg) as [ad1 | m] eqn:Ho3; cbn [res_bind]; [| discriminate].
  assert (Hflows : flows_known ad1).
  { intros Hw.
    destruct (getO3Data_spec _ _ _ Ho3) as (Hname & _).
    destruct (getO3Data_flows _ _ _ Ho3) as (extra & -> & Hextra);
      [rewrite <- Hname; exact Hw |].
    apply Forall_app. split.
    - eapply List.Forall_impl; [| exact Hall]. intros x Hx. left. exact Hx.
    - eapply List.Forall_impl; [| exact Hextra]. intros x Hx. right. exact Hx. }
  destruct (inExtraBasic (AssetDetail.BasicName ad1)); [intros [= <- _]; exact Hflows |].
  destruct (0 <? AssetDetail.Difference ad1); [| intros [= <- _]; exact Hflows].
  destruct (amountUsd _ _ _) as [usd | m]; cbn [res_bind]; [| discriminate].
  intros [= <- _]. exact Hflows.
Qed.

Lemma checkBasics_flows ipCfg tokenBasics :
  forall res0 extra0 w res extra w',
    checkBasics MATIC c ipCfg tokenBasics res0 extra0 w = (Ok (res, extra), w') ->
    Forall flows_known (res0 ++ extra0) ->
    Forall flows_known (res ++ extra).
Proof.
  induction tokenBasics as [| basic rest IH]; intros res0 extra0 w res extra w';
    cbn [checkBasics].
  - intros [= <- <- _]. auto.
  - unfold bind.
    destruct (checkBasic MATIC c ipCfg basic w) as [[ad | m] w1] eqn:Hbasic;
      [| discriminate].
    pose proof (checkBasic_flows _ _ _ _ _ Hbasic) as Had.
    destruct (inExtraBasic (AssetDetail.BasicName ad)); intros Hrest Hok;
      (eapply IH; [exact Hrest |]);
      apply Forall_app in Hok as [H1 H2]; repeat (apply Forall_app; split);
      try assumption; constructor; [exact Had | constructor | exact Had | constructor].
Qed.

End FlowsKnown.

Lemma settled_detail_is_quiet (ad : AssetDetail.t) :
  detail_ok ad ->
  flows_known ad ->
  AssetDetail.BasicName ad <> "WBTC" ->
  Forall (fun x => DstChainAsset.TotalSupply x = DstChainAsset.Balance x)
         (AssetDetail.TokenAsset ad) ->
  AssetDetail.Difference ad = 0 /\ alarming ad = false.
Proof.
  intros (Hdiff & _) Hflows Hw Hbal.
  assert (H0 : AssetDetail.Difference ad = 0).
  { rewrite Hdiff. apply sumFlows_settled; [apply Hflows, Hw | exact Hbal]. }
  split; [exact H0 |].
  unfold alarming. rewrite H0.
  destruct (String.eqb _ _); reflexivity.
Qed.

(** C8 as stated fails, twice.  First: the family "FOO" is off the
    exclusion list, its difference is 20000 units worth 50000 USD, and
    the balance fetch failed with "all node is not working": no message
    is posted, while with a balance that reads zero the same figures are
    posted.  Second: "WBTC" has one token whose total supply equals its
    balance, and the entry added for O3 has total supply and balance 0,
    yet the difference is the balance that O3 serves and a message is
    posted. *)
Lemma no_alert_when_nodes_are_down_and_o3_counts_as_flow :
  (exists ad w',
      startCheckAssetAlarm Scenario.MATIC ([Scenario.foo], None)
        ReserveScenario.PostDingtext ReserveScenario.balanceDown ReserveScenario.ipCfg
        Scenario.w0
      = (Ok (mkReport [ad] [] None, None), w')
      /\ inExtraBasic (AssetDetail.BasicName ad) = false
      /\ AssetDetail.Difference ad = 20000 * 10 ^ 18
      /\ AssetDetail.Amount_usd ad = "50000"
      /\ AssetDetail.Reason ad = "all node is not working")
  /\ (exists ad w',
      startCheckAssetAlarm Scenario.MATIC ([Scenario.foo], None)
        ReserveScenario.PostDingtext ReserveScenario.balanceZero ReserveScenario.ipCfg
        Scenario.w0
      = (Ok (mkReport [ad] [] (Some [ad]), None), w')
      /\ AssetDetail.Difference ad = 20000 * 10 ^ 18
      /\ AssetDetail.Amount_usd ad = "50000")
  /\ (exists ad w',
      startCheckAssetAlarm Scenario.MATIC ([ReserveScenario.wbtc], None)
        ReserveScenario.PostDingtext ReserveScenario.balanced ReserveScenario.o3Holds
        Scenario.w0
      = (Ok (mkReport [ad] [] (Some [ad]), None), w')
      /\ AssetDetail.TokenAsset ad
         = [DstChainAsset.mk 6 "0xb5c" (Some 7) (Some 7) (Some 0);
            DstChainAsset.mk 10 "" (Some 0) (Some 0) (Some 100000000000)]
      /\ AssetDetail.Difference ad = 100000000000).
Proof.
  split; [| split].
  - eexists. eexists. split; [vm_compute; reflexivity |]. repeat split.
  - eexists. eexists. split; [vm_compute; reflexivity |]. repeat split.
  - eexists. eexists. split; [vm_compute; reflexivity |]. repeat split.
Qed.

(** C8, amended.  Every chain entry of the loop over the tokens has the
    flow [totalSupply - balance]; the difference of a detail is the sum
    of the flows of its entries, the entry added for O3 included.  A
    message is posted exactly when some detail off the exclusion list,
    whose reason is not "all node is not working", has a positive
    difference whose USD value, rounded to whole dollars, is above 10000.
    A detail other than that of "WBTC" whose entries all have total
    supply equal to balance has the difference 0 and does not enter a
    message. *)
Theorem reserve_alert_iff :
  forall (MATIC : Z) (GetPropertytokenBasic : list TokenBasic * error)
         (PostDingtext : DingText -> error) (c : ChainNode) (ipCfg : IPPortConfig)
         (w w' : World) (report : Report) (err : error),
    startCheckAssetAlarm MATIC GetPropertytokenBasic PostDingtext c ipCfg w
    = (Ok (report, err), w') ->
    Forall detail_ok (resAssetDetails report ++ extraAssetDetails report)
    /\ Forall (fun ad => inExtraBasic (AssetDetail.BasicName ad) = false)
              (resAssetDetails report)
    /\ (ding report <> None
        <-> exists ad d,
            In ad (resAssetDetails report)
            /\ inExtraBasic (AssetDetail.BasicName ad) = false
            /\ AssetDetail.Reason ad <> "all node is not working"
            /\ 0 < AssetDetail.Difference ad
            /\ usdDecimal (AssetDetail.Difference ad) (AssetDetail.Precision ad)
                          (AssetDetail.Price ad) = Ok d
            /\ 10000 < decimal.Round0Int d)
    /\ (forall ad,
           In ad (resAssetDetails report ++ extraAssetDetails report) ->
           AssetDetail.BasicName ad <> "WBTC" ->
           Forall (fun x => DstChainAsset.TotalSupply x = DstChainAsset.Balance x)
                  (AssetDetail.TokenAsset ad) ->
           AssetDetail.Difference ad = 0 /\ alarming ad = false).
Proof.
  intros MATIC [tokenBasics gerr] PostDingtext c ipCfg w w' report err.
  unfold startCheckAssetAlarm.
  assert (Hmain :
    Forall detail_ok (resAssetDetails report ++ extraAssetDetails report) ->
    Forall flows_known (resAssetDetails report ++ extraAssetDetails report) ->
    Forall (fun ad => inExtraBasic (AssetDetail.BasicName ad) = false)
           (resAssetDetails report) ->
    ding report = (sendDing PostDingtext (resAssetDetails report)).1 ->
    Forall detail_ok (resAssetDetails report ++ extraAssetDetails report)
    /\ Forall (fun ad => inExtraBasic (AssetDetail.BasicName ad) = false)
              (resAssetDetails report)
    /\ (ding report <> None
        <-> exists ad d,
            In ad (resAssetDetails report)
            /\ inExtraBasic (AssetDetail.BasicName ad) = false
            /\ AssetDetail.Reason ad <> "all node is not working"
            /\ 0 < AssetDetail.Difference ad
            /\ usdDecimal (AssetDetail.Difference ad) (AssetDetail.Precision ad)
                          (AssetDetail.Price ad) = Ok d
            /\ 10000 < decimal.Round0Int d)
    /\ (forall ad,
           In ad (resAssetDetails report ++ extraAssetDetails report) ->
           AssetDetail.BasicName ad <> "WBTC" ->
           Forall (fun x => DstChainAsset.TotalSupply x = DstChainAsset.Balance x)
                  (AssetDetail.TokenAsset ad) ->
           AssetDetail.Difference ad = 0 /\ alarming ad = false)).
  { intros Hall Hflows Hres Hding. split; [exact Hall |]. split; [exact Hres |]. split.
    - rewrite Hding, sendDing_posts_iff. split.
      + intros (ad & Hin & Halarm).
        assert (Hok : detail_ok ad).
        { rewrite List.Forall_forall in Hall. apply Hall, in_or_app. left. exact Hin. }
        assert (Hextra : inExtraBasic (AssetDetail.BasicName ad) = false).
        { rewrite List.Forall_forall in Hres. apply Hres, Hin. }
        apply (alarming_detail ad Hok Hextra) in Halarm
          as (Hreason & Hpos & d & Hd & Hgt).
        exists ad, d. auto 10.
      + intros (ad & d & Hin & Hextra & Hreason & Hpos & Hd & Hgt).
        exists ad. split; [exact Hin |].
        assert (Hok : detail_ok ad).
        { rewrite List.Forall_forall in Hall. apply Hall, in_or_app. left. exact Hin. }
        apply (alarming_detail ad Hok Hextra). eauto 10.
    - intros ad Hin. apply settled_detail_is_quiet.
      + rewrite List.Forall_forall in Hall. apply Hall, Hin.
      + rewrite List.Forall_forall in Hflows. apply Hflows, Hin. }
  destruct gerr as [e |].
  - intros [= <- _ _]. apply Hmain; [constructor | constructor | constructor | reflexivity].
  - unfold bind, ret.
    destruct (checkBasics MATIC c ipCfg tokenBasics [] [] w) as [[[res extra] | m] w1]
      eqn:Hloop; cbn [res_bind]; [| discriminate].
    destruct (sendDing PostDingtext res) as [posted perr] eqn:Hsend.
    intros [= <- _ _].
    destruct (checkBasics_ok MATIC c ipCfg tokenBasics [] [] w res extra w1 Hloop)
      as [Hall Hres]; [constructor | constructor |].
    pose proof (checkBasics_flows MATIC c ipCfg tokenBasics [] [] w res extra w1 Hloop
                  ltac:(constructor)) as Hflows.
    apply Hmain; cbn [resAssetDetails extraAssetDetails ding]; try assumption.
    rewrite Hsend. reflexivity.
Qed.

Lemma reserve_alert_iff_witness :
  (startCheckAssetAlarm Scenario.MATIC ([Scenario.foo], None)
     ReserveScenario.PostDingtext ReserveScenario.balanceZero ReserveScenario.ipCfg
     Scenario.w0
   = (Ok (mkReport [ReserveScenario.fooDetail] [] (Some [ReserveScenario.fooDetail]), None),
      mkWorld 2 1)
   /\ detail_ok ReserveScenario.fooDetail
   /\ exists ad d,
       In ad [ReserveScenario.fooDetail]
       /\ inExtraBasic (AssetDetail.BasicName ad) = false
       /\ AssetDetail.Reason ad <> "all node is not working"
       /\ 0 < AssetDetail.Difference ad
       /\ usdDecimal (AssetDetail.Difference ad) (AssetDetail.Precision ad)
                     (AssetDetail.Price ad) = Ok d
       /\ 10000 < decimal.Round0Int d)
  /\ (startCheckAssetAlarm Scenario.MATIC ([UsdtScenario.usdt], None)
        ReserveScenario.PostDingtext ReserveScenario.balanced ReserveScenario.ipCfg
        Scenario.w0
      = (Ok (mkReport [] [UsdtScenario.usdtDetail] None, None), mkWorld 2 1)
      /\ AssetDetail.BasicName UsdtScenario.usdtDetail <> "WBTC"
      /\ Forall (fun x => DstChainAsset.TotalSupply x = DstChainAsset.Balance x)
                (AssetDetail.TokenAsset UsdtScenario.usdtDetail)
      /\ AssetDetail.Difference UsdtScenario.usdtDetail = 0
      /\ alarming UsdtScenario.usdtDetail = false).
Proof.
  assert (H : startCheckAssetAlarm Scenario.MATIC ([Scenario.foo], None)
                ReserveScenario.PostDingtext ReserveScenario.balanceZero
                ReserveScenario.ipCfg Scenario.w0
              = (Ok (mkReport [ReserveScenario.fooDetail] []
                              (Some [ReserveScenario.fooDetail]), None),
                 mkWorld 2 1))
    by (vm_compute; reflexivity).
  assert (Hu : startCheckAssetAlarm Scenario.MATIC ([UsdtScenario.usdt], None)
                 ReserveScenario.PostDingtext ReserveScenario.balanced
                 ReserveScenario.ipCfg Scenario.w0
               = (Ok (mkReport [] [UsdtScenario.usdtDetail] None, None), mkWorld 2 1))
    by (vm_compute; reflexivity).
  assert (Hname : AssetDetail.BasicName UsdtScenario.usdtDetail <> "WBTC")
    by discriminate.
  assert (Hbal : Forall (fun x => DstChainAsset.TotalSupply x = DstChainAsset.Balance x)
                        (AssetDetail.TokenAsset UsdtScenario.usdtDetail))
    by (repeat constructor).
  split.
  - split; [exact H |].
    destruct (reserve_alert_iff _ _ _ _ _ _ _ _ _ H) as (Hall & _ & Hiff & _).
    split.
    + exact (List.Forall_inv Hall).
    + apply Hiff. discriminate.
  - split; [exact Hu |]. split; [exact Hname |]. split; [exact Hbal |].
    destruct (reserve_alert_iff _ _ _ _ _ _ _ _ _ Hu) as (_ & _ & _ & Hquiet).
    exact (Hquiet UsdtScenario.usdtDetail (or_introl eq_refl) Hname Hbal).
Defined.

(** ** The reserve check: what a failed fetch leaves in the report *)

Section Degraded.
Variable MATIC : Z.
Variable c : ChainNode.

(** One turn of the loop on a token that it does not pass by. *)
Lemma checkToken_degraded basic token st w st' w' :
  checkToken MATIC c basic token st w = (Ok st', w') ->
  notToken token = false ->
  Token_Property token = 1 ->
  (exists x, dstChainAssets st' = dstChainAssets st ++ [x]
             /\ degraded_entry MATIC c basic token x)
  /\ (reason st' = reason st \/ answered_error c token (reason st'))
  /\ (balance_down c token \/ supply_down c token -> answered_error c token (reason st')).
Proof.
  unfold checkToken. intros Hstep Hnot Hprop. rewrite Hnot, Hprop in Hstep.
  cbn [Z.eqb Pos.eqb negb] in Hstep. revert Hstep.
  unfold bind, time.Sleep_Second, ret.
  destruct (getAndRetryBalance_answer c (Token_ChainId token) (Token_Hash token) w)
    as [k Hk].
  destruct (getAndRetryBalance c _ _ w) as [b w1]. cbn [fst] in Hk.
  destruct (getAndRetryTotalSupply_answer c (Token_ChainId token) (Token_Hash token)
              (mkWorld (calls w1) (S (slept w1)))) as [k' Hk'].
  destruct (getAndRetryTotalSupply c _ _ _) as [t w2]. cbn [fst] in Hk'.
  destruct (supplyForFlow MATIC basic token t) as [ts |] eqn:Hts; cbn [deref res_bind];
    [| discriminate].
  destruct (match b.2 with Some _ => Some 0 | None => b.1 end) as [bal |] eqn:Hbal;
    cbn [deref res_bind]; [| discriminate].
  intros [= <- _]. cbn [dstChainAssets reason].
  split; [| split].
  - eexists. split; [reflexivity |].
    split; [reflexivity |]. split; [reflexivity |]. split; [| split].
    + exists ts, bal. cbn. auto.
    + intros Hdown. cbn [DstChainAsset.Balance].
      specialize (Hdown k). rewrite <- Hk in Hdown.
      destruct (b.2); [congruence | contradiction].
    + intros Hdown. cbn [DstChainAsset.TotalSupply]. rewrite <- Hts.
      specialize (Hdown k'). rewrite <- Hk' in Hdown.
      destruct t as [v [e |]]; cbn [snd] in Hdown; [| contradiction].
      apply supplyForFlow_failed.
  - destruct t as [tv [te |]]; cbn [snd].
    + right. exists k'. right. rewrite <- Hk'. reflexivity.
    + destruct b as [bv [be |]]; cbn [snd].
      * right. exists k. left. rewrite <- Hk. reflexivity.
      * left. reflexivity.
  - intros Hdown.
    destruct t as [tv [te |]]; cbn [snd].
    + exists k'. right. rewrite <- Hk'. reflexivity.
    + destruct Hdown as [Hdown | Hdown].
      * specialize (Hdown k). rewrite <- Hk in Hdown.
        destruct b as [bv [be |]]; cbn [snd] in *; [| contradiction].
        exists k. left. rewrite <- Hk. reflexivity.
      * specialize (Hdown k'). rewrite <- Hk' in Hdown. cbn [snd] in Hdown. contradiction.
Qed.

(** A token that the loop passes by leaves the state as it is. *)
Lemma checkToken_passed_by basic token st w st' w' :
  checkToken MATIC c basic token st w = (Ok st', w') ->
  notToken token = true \/ Token_Property token <> 1 ->
  st' = st.
Proof.
  unfold checkToken. intros Hstep Hskip.
  destruct (notToken token); [injection Hstep as <- _; reflexivity |].
  destruct Hskip as [Hskip | Hskip]; [discriminate |].
  destruct (Z.eqb_spec (Token_Property token) 1) as [| _]; [contradiction |].
  cbn [negb] in Hstep. injection Hstep as <- _. reflexivity.
Qed.

Lemma checkToken_appends basic token st w st' w' :
  checkToken MATIC c basic token st w = (Ok st', w') ->
  (exists extra, dstChainAssets st' = dstChainAssets st ++ extra)
  /\ (reason st' = reason st \/ answered_error c token (reason st')).
Proof.
  intros Hstep.
  destruct (notToken token) eqn:Hnot.
  - rewrite (checkToken_passed_by _ _ _ _ _ _ Hstep) by (left; exact Hnot).
    split; [exists []; symmetry; apply app_nil_r | left; reflexivity].
  - destruct (Z.eq_dec (Token_Property token) 1) as [Hprop | Hprop].
    + destruct (checkToken_degraded _ _ _ _ _ _ Hstep Hnot Hprop)
        as ((x & Hx & _) & Hreason & _).
      split; [exists [x]; exact Hx | exact Hreason].
    + rewrite (checkToken_passed_by _ _ _ _ _ _ Hstep) by (right; exact Hprop).
      split; [exists []; symmetry; apply app_nil_r | left; reflexivity].
Qed.

Lemma checkTokens_degraded basic tokens :
  forall st w st' w',
    checkTokens MATIC c basic tokens st w = (Ok st', w') ->
    (exists extra, dstChainAssets st' = dstChainAssets st ++ extra)
    /\ (reason st' = reason st
        \/ exists token', In token' tokens /\ answered_error c token' (reason st'))
    /\ forall token,
        In token tokens -> notToken token = false -> Token_Property token = 1 ->
        (exists x, In x (dstChainAssets st') /\ degraded_entry MATIC c basic token x)
        /\ (balance_down c token \/ supply_down c token ->
            exists token', In token' tokens /\ answered_error c token' (reason st')).
Proof.
  induction tokens as [| token0 rest IH]; intros st w st' w'; cbn [checkTokens].
  - intros [= <- _]. split; [exists []; symmetry; apply app_nil_r |].
    split; [left; reflexivity |]. intros token [].
  - unfold bind.
    destruct (checkToken MATIC c basic token0 st w) as [[st1 | m] w1] eqn:Hstep;
      [| discriminate].
    intros Hrest.
    destruct (IH _ _ _ _ Hrest) as ((extra2 & Happ2) & Hreason2 & Hall).
    destruct (checkToken_appends _ _ _ _ _ _ Hstep) as ((extra1 & Happ1) & Hreason1).
    split; [| split].
    + exists (extra1 ++ extra2). rewrite Happ2, Happ1, app_assoc. reflexivity.
    + destruct Hreason2 as [Heq | (token' & Hin & Hans)].
      * rewrite Heq. destruct Hreason1 as [Heq1 | Hans1]; [left; exact Heq1 |].
        right. exists token0. split; [left; reflexivity | exact Hans1].
      * right. exists token'. split; [right; exact Hin | exact Hans].
    + intros token [<- | Hin] Hnot Hprop.
      * destruct (checkToken_degraded _ _ _ _ _ _ Hstep Hnot Hprop)
          as ((x & Hx & Hentry) & _ & Hdown).
        split.
        -- exists x. split; [| exact Hentry].
           rewrite Happ2, Hx. apply in_or_app. left. apply in_or_app. right. left.
           reflexivity.
        -- intros Hd. specialize (Hdown Hd).
           destruct Hreason2 as [Heq | (token' & Hin' & Hans)].
           ++ exists token0. split; [left; reflexivity |]. rewrite Heq. exact Hdown.
           ++ exists token'. split; [right; exact Hin' | exact Hans].
      * destruct (Hall token Hin Hnot Hprop) as [Hentry Hdown].
        split; [exact Hentry |].
        intros Hd. destruct (Hdown Hd) as (token' & Hin' & Hans).
        exists token'. split; [right; exact Hin' | exact Hans].
Qed.

Lemma checkBasic_degraded ipCfg basic w ad w' :
  checkBasic MATIC c ipCfg basic w = (Ok ad, w') ->
  degraded_detail MATIC c basic ad.
Proof.
  unfold checkBasic, bind, ret.
  destruct (checkTokens MATIC c basic (TokenBasic_Tokens basic) (mkTokenLoop [] 0 "") w)
    as [[st | m] w1] eqn:Hloop; cbn [res_bind]; [| discriminate].
  destruct (checkTokens_degraded _ _ _ _ _ _ Hloop) as (_ & _ & Hall).
  set (ad0 := AssetDetail.mk (TokenBasic_Name basic) (dstChainAssets st) (totalFlow st)
                (TokenBasic_Precision basic) (TokenBasic_Price basic) "" (reason st)).
  destruct (getO3Data ad0 ipCfg) as [ad1 | m] eqn:Ho3; cbn [res_bind]; [| discriminate].
  destruct (getO3Data_spec _ _ _ Ho3)
    as (Hname & _ & _ & _ & Hreason & extra & Hentries & _).
  assert (Hdetail : degraded_detail MATIC c basic ad1).
  { split; [rewrite Hname; reflexivity |].
    intros token Hin Hnot Hprop.
    destruct (Hall token Hin Hnot Hprop) as [(x & Hx & Hentry) Hdown]. split.
    - exists x. split; [| exact Hentry].
      rewrite Hentries. apply in_or_app. left. exact Hx.
    - rewrite Hreason. exact Hdown. }
  destruct (inExtraBasic (AssetDetail.BasicName ad1)); [intros [= <- _]; exact Hdetail |].
  destruct (0 <? AssetDetail.Difference ad1); [| intros [= <- _]; exact Hdetail].
  destruct (amountUsd _ _ _) as [usd | m]; cbn [res_bind]; [| discriminate].
  intros [= <- _]. exact Hdetail.
Qed.

Lemma checkBasics_degraded ipCfg tokenBasics :
  forall res0 extra0 w res extra w',
    checkBasics MATIC c ipCfg tokenBasics res0 extra0 w = (Ok (res, extra), w') ->
    (forall ad, In ad (res0 ++ extra0) -> In ad (res ++ extra))
    /\ forall basic,
        In basic tokenBasics ->
        exists ad, In ad (res ++ extra) /\ degraded_detail MATIC c basic ad.
Proof.
  induction tokenBasics as [| basic0 rest IH]; intros res0 extra0 w res extra w';
    cbn [checkBasics].
  - intros [= <- <- _]. split; [auto | intros basic []].
  - unfold bind.
    destruct (checkBasic MATIC c ipCfg basic0 w) as [[ad0 | m] w1] eqn:Hbasic;
      [| discriminate].
    pose proof (checkBasic_degraded _ _ _ _ _ Hbasic) as Had0.
    assert (Hstep : forall res1 extra1,
               In ad0 (res1 ++ extra1) ->
               (forall ad, In ad (res0 ++ extra0) -> In ad (res1 ++ extra1)) ->
               checkBasics MATIC c ipCfg rest res1 extra1 w1 = (Ok (res, extra), w') ->
               (forall ad, In ad (res0 ++ extra0) -> In ad (res ++ extra))
               /\ forall basic,
                   In basic (basic0 :: rest) ->
                   exists ad, In ad (res ++ extra) /\ degraded_detail MATIC c basic ad).
    { intros res1 extra1 Hin0 Hkeep Hrest.
      destruct (IH _ _ _ _ _ _ Hrest) as [Hkeep' Hall]. split.
      - intros ad Hin. apply Hkeep', Hkeep, Hin.
      - intros basic [<- | Hin].
        + exists ad0. split; [apply Hkeep', Hin0 | exact Had0].
        + apply Hall, Hin. }
    destruct (inExtraBasic (AssetDetail.BasicName ad0)); apply Hstep.
    + apply in_or_app. right. apply in_or_app. right. left. reflexivity.
    + intros ad Hin. apply in_app_or in Hin as [Hin | Hin]; apply in_or_app;
        [left; exact Hin | right; apply in_or_app; left; exact Hin].
    + apply in_or_app. left. apply in_or_app. right. left. reflexivity.
    + intros ad Hin. apply in_app_or in Hin as [Hin | Hin]; apply in_or_app;
        [left; apply in_or_app; left; exact Hin | right; exact Hin].
Qed.

(** On a node that answers, a family whose O3 endpoint can be read is
    got through. *)
Lemma checkBasic_checkable ipCfg basic w :
  node_answers c ->
  checkable_basic ipCfg basic ->
  exists ad w', checkBasic MATIC c ipCfg basic w = (Ok ad, w').
Proof.
  intros Hnode (Ho3 & Hp). unfold checkBasic, bind, ret.
  destruct (checkTokens_total MATIC c basic (TokenBasic_Tokens basic) Hnode
              (mkTokenLoop [] 0 "") w) as (st & w1 & ->).
  cbn [res_bind].
  set (ad0 := AssetDetail.mk (TokenBasic_Name basic) (dstChainAssets st) (totalFlow st)
                (TokenBasic_Precision basic) (TokenBasic_Price basic) "" (reason st)).
  assert (Hread : exists ad1, getO3Data ad0 ipCfg = Ok ad1
                              /\ AssetDetail.Precision ad1 = TokenBasic_Precision basic).
  { unfold getO3Data. cbn [AssetDetail.BasicName ad0].
    destruct (String.eqb_spec (TokenBasic_Name basic) "WBTC") as [Hw | Hw].
    - destruct (WBTCIP ipCfg) as [| code bal] eqn:Hip.
      + exfalso. apply Ho3. left. auto.
      + destruct (Z.eqb_spec code 200) as [-> | Hcode]; cbn [negb].
        * destruct bal as [flow |]; cbn [deref res_bind].
          -- eexists. split; reflexivity.
          -- exfalso. apply Ho3. left. auto.
        * eexists. split; reflexivity.
    - destruct (String.eqb_spec (TokenBasic_Name basic) "USDT") as [Hu | Hu].
      + destruct (USDTIP ipCfg) as [| code bal] eqn:Hip.
        * exfalso. apply Ho3. right. auto.
        * destruct (negb (code =? 200)); eexists; split; reflexivity.
      + eexists. split; reflexivity. }
  destruct Hread as (ad1 & -> & Hprec). cbn [res_bind].
  destruct (inExtraBasic (AssetDetail.BasicName ad1)); [eauto |].
  destruct (0 <? AssetDetail.Difference ad1); [| eauto].
  unfold amountUsd. rewrite Hprec.
  destruct (usdDecimal_Ok (AssetDetail.Difference ad1) (TokenBasic_Precision basic)
              (AssetDetail.Price ad1) Hp) as [d ->].
  cbn [res_bind]. eauto.
Qed.

Lemma checkBasics_checkable ipCfg tokenBasics :
  node_answers c ->
  Forall (checkable_basic ipCfg) tokenBasics ->
  forall res0 extra0 w,
  exists res extra w',
    checkBasics MATIC c ipCfg tokenBasics res0 extra0 w = (Ok (res, extra), w')
    /\ (length res + length extra = length res0 + length extra0 + length tokenBasics)%nat.
Proof.
  intros Hnode Hall.
  induction Hall as [| basic rest Hbasic _ IH]; intros res0 extra0 w;
    cbn [checkBasics].
  - unfold ret. do 3 eexists. split; [reflexivity | cbn [length]; lia].
  - unfold bind.
    destruct (checkBasic_checkable ipCfg basic w Hnode Hbasic) as (ad & w1 & ->).
    destruct (inExtraBasic (AssetDetail.BasicName ad)).
    + destruct (IH res0 (extra0 ++ [ad]) w1) as (res & extra & w' & Heq & Hlen).
      exists res, extra, w'. split; [exact Heq |].
      rewrite Hlen, length_app. cbn [length]. lia.
    + destruct (IH (res0 ++ [ad]) extra0 w1) as (res & extra & w' & Heq & Hlen).
      exists res, extra, w'. split; [exact Heq |].
      rewrite Hlen, length_app. cbn [length]. lia.
Qed.

End Degraded.

(** C9.  A balance fetch is one call and at most four retries, a
    total-supply fetch one call and at most two, with one second slept
    before each retry.  When every attempt of the balance fetch of a token
    fails, the balance of its chain entry is zero and the text of the
    error is the reason of the detail, unless the total-supply fetch
    fails after it.  When every attempt of the total-supply fetch fails,
    the total supply of the entry is what the override table and the
    home-chain rule make of a fetched zero, and the text of the error is
    the reason.  Either way the loop goes on with the remaining tokens.
    And whatever errors a node answers, the pass gets through all the
    families whose O3 endpoint can be read and ends with a detail for
    each: the detail has an entry for every token that the loop does not
    pass by, with the balance zero where the balance could not be fetched
    and the total supply of a fetched zero where the supply could not,
    and then its reason is the text of an error that the node answered
    for a token of the family. *)
Theorem fetch_failure_degrades_to_zero :
  forall (MATIC : Z) (c : ChainNode),
    (forall chainId hash w0,
        let w' := (getAndRetryBalance c chainId hash w0).2 in
        (calls w0 < calls w' <= calls w0 + 5)%nat
        /\ (slept w' - slept w0 = calls w' - calls w0 - 1)%nat)
    /\ (forall chainId hash w0,
        let w' := (getAndRetryTotalSupply c chainId hash w0).2 in
        (calls w0 < calls w' <= calls w0 + 3)%nat
        /\ (slept w' - slept w0 = calls w' - calls w0 - 1)%nat)
    /\ (forall (basic : TokenBasic) (token : Token) (rest : list Token)
               (st : TokenLoop) (w : World),
        notToken token = false ->
        Token_Property token = 1 ->
        (forall i, (i <= 4)%nat ->
           (GetBalance_at c (calls w + i)%nat (Token_ChainId token) (Token_Hash token)).2
           <> None) ->
        exists why,
          (GetBalance_at c (calls w + 4)%nat (Token_ChainId token) (Token_Hash token)).2
          = Some why
          /\ forall t w2 ts,
              getAndRetryTotalSupply c (Token_ChainId token) (Token_Hash token)
                (mkWorld (calls w + 5) (S (slept w + 4))) = (t, w2) ->
              supplyForFlow MATIC basic token t = Some ts ->
              checkTokens MATIC c basic (token :: rest) st w
              = checkTokens MATIC c basic rest
                  (mkTokenLoop
                     (dstChainAssets st ++
                        [DstChainAsset.mk (Token_ChainId token) (Token_Hash token)
                                          (Some ts) (Some 0) (Some (ts - 0))])
                     (totalFlow st + (ts - 0))
                     (match t.2 with Some e => e | None => why end))
                  w2)
    /\ (forall (basic : TokenBasic) (token : Token) (rest : list Token)
               (st : TokenLoop) (w : World) bal w1,
        notToken token = false ->
        Token_Property token = 1 ->
        getAndRetryBalance c (Token_ChainId token) (Token_Hash token) w
        = ((Some bal, None), w1) ->
        (forall i, (i <= 2)%nat ->
           (GetTotalSupply_at c (calls w1 + i)%nat (Token_ChainId token)
              (Token_Hash token)).2 <> None) ->
        exists ts why,
          supplyForFlow MATIC basic token (Some 0, None) = Some ts
          /\ (GetTotalSupply_at c (calls w1 + 2)%nat (Token_ChainId token)
                (Token_Hash token)).2 = Some why
          /\ checkTokens MATIC c basic (token :: rest) st w
             = checkTokens MATIC c basic rest
                 (mkTokenLoop
                    (dstChainAssets st ++
                       [DstChainAsset.mk (Token_ChainId token) (Token_Hash token)
                                         (Some ts) (Some bal) (Some (ts - bal))])
                    (totalFlow st + (ts - bal))
                    why)
                 (mkWorld (calls w1 + 3) (S (slept w1) + 2)))
    /\ (node_answers c ->
        forall (PostDingtext : DingText -> error) (ipCfg : IPPortConfig)
               (tokenBasics : list TokenBasic) (w : World),
          Forall (checkable_basic ipCfg) tokenBasics ->
          exists report w',
            startCheckAssetAlarm MATIC (tokenBasics, None) PostDingtext c ipCfg w
            = (Ok (report, None), w')
            /\ (length (resAssetDetails report) + length (extraAssetDetails report)
                = length tokenBasics)%nat
            /\ forall basic,
                In basic tokenBasics ->
                exists ad,
                  In ad (resAssetDetails report ++ extraAssetDetails report)
                  /\ degraded_detail MATIC c basic ad).
Proof.
  intros MATIC c.
  split; [intros; apply getAndRetryBalance_bound |].
  split; [intros; apply getAndRetryTotalSupply_bound |].
  split; [| split].
  - intros basic token rest st w Hnot Hprop Hbal.
    pose proof (Hbal 4%nat ltac:(lia)) as Hb4.
    destruct (GetBalance_at c (calls w + 4)%nat (Token_ChainId token) (Token_Hash token))
      as [bv [why |]] eqn:Hbcol; cbn [snd] in Hb4; [| congruence].
    exists why. split; [reflexivity |].
    intros t w2 ts Hsup Hts.
    cbn [checkTokens]. unfold bind at 1.
    unfold checkToken. rewrite Hnot. rewrite Hprop. cbn [Z.eqb negb Pos.eqb].
    unfold bind at 1. rewrite (getAndRetryBalance_all_fail c _ _ w Hbal), Hbcol.
    cbn [snd fst]. unfold bind at 1. unfold time.Sleep_Second at 1. cbn [calls slept].
    unfold bind at 1. rewrite Hsup, Hts.
    unfold ret. cbn [deref res_bind]. reflexivity.
  - intros basic token rest st w bal w1 Hnot Hprop Hbal Hsup.
    destruct (supplyForFlow_zero_Some MATIC basic token) as [ts Hts].
    pose proof (Hsup 2%nat ltac:(lia)) as Hlast.
    destruct (GetTotalSupply_at c (calls w1 + 2)%nat (Token_ChainId token)
                (Token_Hash token)) as [tv [why |]] eqn:Hcol; cbn [snd] in Hlast;
      [| congruence].
    exists ts, why. split; [exact Hts |]. split; [reflexivity |].
    cbn [checkTokens]. unfold bind at 1.
    unfold checkToken. rewrite Hnot. rewrite Hprop. cbn [Z.eqb negb Pos.eqb].
    unfold bind at 1. rewrite Hbal.
    cbn [snd fst]. unfold bind at 1. unfold time.Sleep_Second at 1.
    unfold bind at 1.
    rewrite (getAndRetryTotalSupply_all_fail c _ _ (mkWorld (calls w1) (S (slept w1)))).
    + cbn [calls slept]. rewrite Hcol. cbn [snd fst].
      rewrite supplyForFlow_failed, Hts.
      unfold ret. cbn [deref res_bind]. reflexivity.
    + intros i Hi. cbn [calls]. apply Hsup, Hi.
  - intros Hnode PostDingtext ipCfg tokenBasics w Hall.
    unfold startCheckAssetAlarm, bind, ret.
    destruct (checkBasics_checkable MATIC c ipCfg tokenBasics Hnode Hall [] [] w)
      as (res & extra & w' & Hloop & Hlen).
    rewrite Hloop. cbn [res_bind].
    destruct (sendDing PostDingtext res) as [posted perr].
    eexists. eexists. split; [reflexivity |].
    cbn [resAssetDetails extraAssetDetails]. split; [rewrite Hlen; reflexivity |].
    apply (checkBasics_degraded MATIC c ipCfg tokenBasics [] [] w res extra w' Hloop).
Qed.

Lemma fetch_failure_degrades_to_zero_witness :
  (notToken Scenario.fooOnEth = false
   /\ Token_Property Scenario.fooOnEth = 1
   /\ (forall i, (i <= 4)%nat ->
         (GetBalance_at Scenario.deadNode (calls Scenario.w0 + i)%nat
            (Token_ChainId Scenario.fooOnEth) (Token_Hash Scenario.fooOnEth)).2 <> None)
   /\ getAndRetryTotalSupply Scenario.deadNode (Token_ChainId Scenario.fooOnEth)
        (Token_Hash Scenario.fooOnEth) (mkWorld 5 5)
      = ((None, Some "all node is not working"), mkWorld 8 7)
   /\ supplyForFlow Scenario.MATIC Scenario.foo Scenario.fooOnEth
        (None, Some "all node is not working") = Some 0
   /\ checkTokens Scenario.MATIC Scenario.deadNode Scenario.foo [Scenario.fooOnEth]
        (mkTokenLoop [] 0 "") Scenario.w0
      = (Ok (mkTokenLoop [DstChainAsset.mk 2 "0xf00" (Some 0) (Some 0) (Some (0 - 0))]
                         (0 + (0 - 0)) "all node is not working"),
         mkWorld 8 7))
  /\ (node_answers DegradedScenario.fooDown
      /\ Forall (checkable_basic ReserveScenario.ipCfg) [Scenario.foo; ReserveScenario.wbtc]
      /\ balance_down DegradedScenario.fooDown Scenario.fooOnEth
      /\ exists report w',
          startCheckAssetAlarm Scenario.MATIC ([Scenario.foo; ReserveScenario.wbtc], None)
            (fun _ => None) DegradedScenario.fooDown ReserveScenario.ipCfg Scenario.w0
          = (Ok (report, None), w')
          /\ report
             = mkReport [DegradedScenario.fooDetail; DegradedScenario.wbtcDetail] [] None
          /\ forall basic,
              In basic [Scenario.foo; ReserveScenario.wbtc] ->
              exists ad,
                In ad (resAssetDetails report ++ extraAssetDetails report)
                /\ degraded_detail Scenario.MATIC DegradedScenario.fooDown basic ad).
Proof.
  assert (H1 : notToken Scenario.fooOnEth = false) by reflexivity.
  assert (H2 : Token_Property Scenario.fooOnEth = 1) by reflexivity.
  assert (H3 : forall i, (i <= 4)%nat ->
        (GetBalance_at Scenario.deadNode (calls Scenario.w0 + i)%nat
           (Token_ChainId Scenario.fooOnEth) (Token_Hash Scenario.fooOnEth)).2 <> None)
    by (intros i _; simpl; discriminate).
  assert (H4 : getAndRetryTotalSupply Scenario.deadNode (Token_ChainId Scenario.fooOnEth)
                 (Token_Hash Scenario.fooOnEth) (mkWorld 5 5)
               = ((None, Some "all node is not working"), mkWorld 8 7))
    by reflexivity.
  assert (H5 : supplyForFlow Scenario.MATIC Scenario.foo Scenario.fooOnEth
                 (None, Some "all node is not working") = Some 0)
    by reflexivity.
  assert (H6 : node_answers DegradedScenario.fooDown).
  { intros n chainId hash. split; cbn; [| discriminate].
    destruct (String.eqb hash "0xf00"); cbn; discriminate. }
  assert (H7 : Forall (checkable_basic ReserveScenario.ipCfg)
                 [Scenario.foo; ReserveScenario.wbtc]).
  { repeat constructor; cbn; try lia;
      intros [[_ [H | H]] | [H _]]; discriminate H. }
  assert (H8 : balance_down DegradedScenario.fooDown Scenario.fooOnEth)
    by (intros n; cbn; discriminate).
  destruct (fetch_failure_degrades_to_zero Scenario.MATIC Scenario.deadNode)
    as (_ & _ & Hbalance & _ & _).
  destruct (fetch_failure_degrades_to_zero Scenario.MATIC DegradedScenario.fooDown)
    as (_ & _ & _ & _ & Hpass).
  split.
  - repeat (split; [assumption |]).
    destruct (Hbalance Scenario.foo Scenario.fooOnEth [] (mkTokenLoop [] 0 "")
                Scenario.w0 H1 H2 H3) as (why & _ & Hloop).
    exact (Hloop _ _ _ H4 H5).
  - split; [exact H6 |]. split; [exact H7 |]. split; [exact H8 |].
    destruct (Hpass H6 (fun _ => None) ReserveScenario.ipCfg
                [Scenario.foo; ReserveScenario.wbtc] Scenario.w0 H7)
      as (report & w' & Hrun & _ & Hdetails).
    exists report, w'. split; [exact Hrun |]. split; [| exact Hdetails].
    assert (Hval : startCheckAssetAlarm Scenario.MATIC
                     ([Scenario.foo; ReserveScenario.wbtc], None)
                     (fun _ => None) DegradedScenario.fooDown ReserveScenario.ipCfg
                     Scenario.w0
                   = (Ok (mkReport [DegradedScenario.fooDetail; DegradedScenario.wbtcDetail]
                                   [] None, None), mkWorld 8 6))
      by (vm_compute; reflexivity).
    rewrite Hval in Hrun. injection Hrun as Hrun _. symmetry. exact Hrun.
Defined.

(** ** The asset-statistics pass without new records *)

Module AssetPassFacts.
Import AssetPass.

Lemma foldAssetInfos_name BTCPrice infos :
  forall old old',
    foldAssetInfos BTCPrice old infos = Ok old' ->
    AssetStatistic.TokenBasicName old' = AssetStatistic.TokenBasicName old
    /\ AssetStatistic.LastCheckId old' = AssetStatistic.LastCheckId old.
Proof.
  induction infos as [| info infos IH]; intros old old'; cbn [foldAssetInfos].
  - intros [= <-]. split; reflexivity.
  - destruct (foldAssetInfo BTCPrice old info) as [old1 | m] eqn:Hstep; cbn [res_bind];
      [| discriminate].
    intros Hrest. destruct (IH _ _ Hrest) as [Hn Hc]. rewrite Hn, Hc.
    unfold foldAssetInfo in Hstep.
    repeat (match type of Hstep with
            | context [res_bind ?r _] => destruct r; cbn [res_bind] in Hstep
            end; [| discriminate]).
    injection Hstep as <-. split; reflexivity.
Qed.

Lemma assetRow_name d nowId BTCPrice old old' :
  assetRow d nowId BTCPrice old = Ok old' ->
  AssetStatistic.TokenBasicName old' = AssetStatistic.TokenBasicName old
  /\ AssetStatistic.LastCheckId old' = nowId.
Proof.
  unfold assetRow. destruct (CalculateAssets d _ _ nowId) as [infos e].
  destruct (foldAssetInfos BTCPrice old infos) as [old1 | m] eqn:Hfold; cbn [res_bind];
    [| discriminate].
  intros [= <-]. destruct (foldAssetInfos_name _ _ _ _ Hfold) as [Hn _].
  split; [exact Hn | reflexivity].
Qed.

Lemma foldl_true_stays (rows : list AssetStatistic.t) :
  forall (m : gmap string bool) k,
    m !! k = Some true ->
    foldl (fun acc v => <[AssetStatistic.TokenBasicName v := true]> acc) m rows !! k
    = Some true.
Proof.
  induction rows as [| r rows IH]; intros m k Hm; cbn [foldl].
  - exact Hm.
  - apply IH. destruct (decide (AssetStatistic.TokenBasicName r = k)) as [-> | Hne].
    + apply lookup_insert_eq.
    + rewrite lookup_insert_ne by exact Hne. exact Hm.
Qed.

Lemma foldl_false_fresh (rows : list AssetStatistic.t) :
  forall (m : gmap string bool) k,
    foldl (fun acc v => <[AssetStatistic.TokenBasicName v := true]> acc) m rows !! k
    = Some false ->
    forall r, r ∈ rows -> AssetStatistic.TokenBasicName r <> k.
Proof.
  induction rows as [| r0 rows IH]; intros m k Hm r Hin; cbn [foldl] in Hm.
  - inversion Hin.
  - apply elem_of_cons in Hin as [-> | Hin].
    + intros Heq. rewrite foldl_true_stays in Hm; [discriminate |].
      rewrite Heq. apply lookup_insert_eq.
    + eapply IH; eassumption.
Qed.

Lemma newAssetStatistics_fresh tokenBasics rows row :
  row ∈ newAssetStatistics (nameMap tokenBasics rows) ->
  forall r, r ∈ rows ->
            AssetStatistic.TokenBasicName r <> AssetStatistic.TokenBasicName row.
Proof.
  unfold newAssetStatistics. rewrite list_elem_of_omap.
  intros ([k b] & Hin & Hsome). cbn [fst snd] in Hsome.
  destruct b; [discriminate |]. injection Hsome as <-. cbn.
  apply elem_of_map_to_list in Hin. unfold nameMap in Hin.
  eapply foldl_false_fresh. exact Hin.
Qed.

Section Settled.
Variable d : Dao.
Variable nowId : Z.

(** The ledger answers a query over an empty range with no groups. *)
Hypothesis EmptyRange : forall name id, (CalculateAssets d name id id).1 = [].

Lemma assetRow_settled BTCPrice row :
  AssetStatistic.LastCheckId row = nowId ->
  assetRow d nowId BTCPrice row = Ok row.
Proof.
  intros Hrow. unfold assetRow. rewrite Hrow.
  pose proof (EmptyRange (AssetStatistic.TokenBasicName row) nowId) as He.
  destruct (CalculateAssets d _ nowId nowId) as [infos e]. cbn [fst] in He. subst infos.
  cbn. destruct row. cbn in Hrow. subst. reflexivity.
Qed.

Lemma saveLoop_keeps BTCPrice (s0 : Store) rows :
  forall s : Store,
    (forall k r, s0 !! k = Some r -> s !! k = Some r) ->
    (forall row, row ∈ rows ->
                 (s0 !! AssetStatistic.TokenBasicName row = Some row
                  /\ AssetStatistic.LastCheckId row = nowId)
                 \/ s0 !! AssetStatistic.TokenBasicName row = None) ->
    forall k r, s0 !! k = Some r -> (saveLoop d nowId BTCPrice rows s).1 !! k = Some r.
Proof.
  induction rows as [| row rows IH]; intros s Hkeep Hrows k r Hk; cbn [saveLoop].
  - apply Hkeep, Hk.
  - destruct (Hrows row ltac:(left)) as [[Hold Hcur] | Hnew].
    + rewrite (assetRow_settled _ _ Hcur). unfold SaveAssetStatistic.
      destruct (SaveAssetStatistic_err d row) as [e |]; cbn [fst].
      * apply Hkeep, Hk.
      * rewrite insert_id by (apply Hkeep, Hold).
        apply IH; [exact Hkeep | | exact Hk].
        intros row' Hin. apply Hrows. right. exact Hin.
    + destruct (assetRow d nowId BTCPrice row) as [row' | m] eqn:Hrow; cbn [fst].
      * destruct (assetRow_name _ _ _ _ _ Hrow) as [Hname _].
        unfold SaveAssetStatistic.
        destruct (SaveAssetStatistic_err d row') as [e |]; cbn [fst].
        -- apply Hkeep, Hk.
        -- apply IH; [| | exact Hk].
           ++ intros k' r' Hk'. rewrite lookup_insert_ne; [apply Hkeep, Hk' |].
              rewrite Hname. intros <-. congruence.
           ++ intros row'' Hin. apply Hrows. right. exact Hin.
      * apply Hkeep, Hk.
Qed.

Lemma saveLoop_settled BTCPrice rows :
  forall s : Store,
    asset_settled nowId s ->
    asset_settled nowId (saveLoop d nowId BTCPrice rows s).1.
Proof.
  induction rows as [| row rows IH]; intros s Hs; cbn [saveLoop].
  - exact Hs.
  - destruct (assetRow d nowId BTCPrice row) as [row' | m] eqn:Hrow; cbn [fst];
      [| exact Hs].
    destruct (assetRow_name _ _ _ _ _ Hrow) as [Hname Hcur].
    unfold SaveAssetStatistic.
    destruct (SaveAssetStatistic_err d row') as [e |]; cbn [fst]; [exact Hs |].
    apply IH. intros k r Hk.
    destruct (decide (AssetStatistic.TokenBasicName row' = k)) as [<- | Hne].
    + rewrite lookup_insert_eq in Hk. injection Hk as <-. split; [reflexivity | exact Hcur].
    + rewrite lookup_insert_ne in Hk by exact Hne. apply Hs, Hk.
Qed.

Lemma computeAssetStatistics_keeps (s : Store) :
  GetNewSrcTransfer d = (Some nowId, None) ->
  asset_settled nowId s ->
  forall k r, s !! k = Some r -> (computeAssetStatistics d s).1 !! k = Some r.
Proof.
  intros Hfetch Hs k r Hk. unfold computeAssetStatistics. rewrite Hfetch. cbn [deref].
  destruct (GetTokenBasics d) as [tokenBasics [e |]]; [exact Hk |].
  unfold GetAssetStatistic.
  destruct (GetAssetStatistic_err d) as [e |]; [exact Hk |].
  destruct (GetBTCPrice d) as [btc [e |]]; [exact Hk |].
  destruct btc as [btc |]; cbn [deref]; [| exact Hk].
  destruct (decimal.Div _ _) as [BTCPrice | m]; [| exact Hk].
  apply saveLoop_keeps with (s0 := s); [auto | | exact Hk].
  intros row Hin. apply elem_of_app in Hin as [Hin | Hin].
  - left. apply list_elem_of_fmap in Hin as ([k' r'] & -> & Hin). cbn [snd].
    apply elem_of_map_to_list in Hin. destruct (Hs _ _ Hin) as [Hname Hcur].
    rewrite Hname. split; [exact Hin | exact Hcur].
  - right. destruct (s !! AssetStatistic.TokenBasicName row) as [r' |] eqn:Hrow;
      [| reflexivity].
    exfalso. destruct (Hs _ _ Hrow) as [Hname _].
    eapply (newAssetStatistics_fresh _ _ _ Hin r'); [| exact Hname].
    apply list_elem_of_fmap. exists (AssetStatistic.TokenBasicName row, r').
    split; [reflexivity |]. apply elem_of_map_to_list. exact Hrow.
Qed.

Lemma computeAssetStatistics_settled (s : Store) :
  GetNewSrcTransfer d = (Some nowId, None) ->
  asset_settled nowId s ->
  asset_settled nowId (computeAssetStatistics d s).1.
Proof.
  intros Hfetch Hs. unfold computeAssetStatistics. rewrite Hfetch. cbn [deref].
  destruct (GetTokenBasics d) as [tokenBasics [e |]]; [exact Hs |].
  unfold GetAssetStatistic.
  destruct (GetAssetStatistic_err d) as [e |]; [exact Hs |].
  destruct (GetBTCPrice d) as [btc [e |]]; [exact Hs |].
  destruct btc as [btc |]; cbn [deref]; [| exact Hs].
  destruct (decimal.Div _ _) as [BTCPrice | m]; [| exact Hs].
  apply saveLoop_settled, Hs.
Qed.

End Settled.

End AssetPassFacts.

(** ** The chain-statistics pass without new records *)

Module ChainPassFacts.
Import ChainPass.

Lemma computeChainStatistics_no_new_records (d : Dao) (s : Store) sta nowInId nowOutId :
  GetNewChainSta d = (Some sta, None) ->
  GetNewDstTransaction d = (Some nowInId, None) ->
  GetNewSrcTransaction d = (Some nowOutId, None) ->
  nowInId <= ChainStatistic.LastInCheckId sta ->
  nowOutId <= ChainStatistic.LastOutCheckId sta ->
  (computeChainStatistics d s).1 = s.
Proof.
  intros Hsta Hin Hout Hle_in Hle_out. unfold computeChainStatistics.
  rewrite Hsta, Hin, Hout. cbn [deref].
  destruct (GetPolyTransaction d) as [poly [e |]]; [reflexivity |].
  destruct poly as [polyCheckId |]; cbn [deref]; [| reflexivity].
  destruct (Z.ltb_spec (ChainStatistic.LastInCheckId sta) nowInId); [lia |].
  destruct (Z.ltb_spec (ChainStatistic.LastOutCheckId sta) nowOutId); [lia |].
  reflexivity.
Qed.

End ChainPassFacts.

(** ** The row of the relay chain *)

Module RelayRowFacts.
Import ChainPass.

Abbreviation POLY := basedef.POLY_CROSSCHAIN_ID.

Abbreviation save := (fun (acc : Store) (r : ChainStatistic.t) =>
                        <[ChainStatistic.ChainId r := r]> acc).

Lemma foldChainRow_ChainId nowInId nowOutId ins outs x :
  ChainStatistic.ChainId (foldChainRow nowInId nowOutId ins outs x)
  = ChainStatistic.ChainId x.
Proof.
  unfold foldChainRow. case_if; [reflexivity |].
  destruct (findChain _ ins); destruct (findChain _ outs); reflexivity.
Qed.

Lemma foldChainRow_poly nowInId nowOutId ins outs x :
  ChainStatistic.ChainId x = POLY ->
  foldChainRow nowInId nowOutId ins outs x = x.
Proof. intros H. unfold foldChainRow. rewrite H. reflexivity. Qed.

Lemma updatePolyRow_ChainId d polyCheckId r :
  ChainStatistic.ChainId (updatePolyRow d polyCheckId r) = ChainStatistic.ChainId r.
Proof.
  unfold updatePolyRow.
  destruct (CalculatePolyChainStatistic d _ polyCheckId) as [counter [e |]]; reflexivity.
Qed.

Lemma foldPolyRow_first d polyCheckId l1 r l2 :
  (forall x, x ∈ l1 -> ChainStatistic.ChainId x <> POLY) ->
  ChainStatistic.ChainId r = POLY ->
  foldPolyRow d polyCheckId (l1 ++ r :: l2) = l1 ++ updatePolyRow d polyCheckId r :: l2.
Proof.
  intros Hl1 Hr. induction l1 as [| x l1 IH]; cbn [foldPolyRow app].
  - rewrite Hr, Z.eqb_refl. reflexivity.
  - destruct (Z.eqb_spec (ChainStatistic.ChainId x) POLY) as [Heq | _].
    + exfalso. apply (Hl1 x); [left | exact Heq].
    + f_equal. apply IH. intros y Hy. apply Hl1. right. exact Hy.
Qed.

Lemma save_other (l : list ChainStatistic.t) :
  forall (s : Store) k,
    (forall x, x ∈ l -> ChainStatistic.ChainId x <> k) ->
    foldl save s l !! k = s !! k.
Proof.
  induction l as [| x l IH]; intros s k Hl; cbn [foldl].
  - reflexivity.
  - rewrite IH by (intros y Hy; apply Hl; right; exact Hy).
    apply lookup_insert_ne, Hl. left.
Qed.

Lemma save_last (l1 l2 : list ChainStatistic.t) r (s : Store) :
  (forall x, x ∈ l2 -> ChainStatistic.ChainId x <> ChainStatistic.ChainId r) ->
  foldl save s (l1 ++ r :: l2) !! ChainStatistic.ChainId r = Some r.
Proof.
  intros Hl2. rewrite foldl_app. cbn [foldl].
  rewrite save_other by exact Hl2. apply lookup_insert_eq.
Qed.

Lemma chainMap_true_stays (rows : list ChainStatistic.t) :
  forall (m : gmap Z bool) k,
    m !! k = Some true ->
    foldl (fun acc v => <[ChainStatistic.ChainId v := true]> acc) m rows !! k = Some true.
Proof.
  induction rows as [| r rows IH]; intros m k Hm; cbn [foldl].
  - exact Hm.
  - apply IH. destruct (decide (ChainStatistic.ChainId r = k)) as [-> | Hne].
    + apply lookup_insert_eq.
    + rewrite lookup_insert_ne by exact Hne. exact Hm.
Qed.

Lemma chainMap_false_fresh (rows : list ChainStatistic.t) :
  forall (m : gmap Z bool) k,
    foldl (fun acc v => <[ChainStatistic.ChainId v := true]> acc) m rows !! k = Some false ->
    forall r, r ∈ rows -> ChainStatistic.ChainId r <> k.
Proof.
  induction rows as [| r0 rows IH]; intros m k Hm r Hin; cbn [foldl] in Hm.
  - inversion Hin.
  - apply elem_of_cons in Hin as [-> | Hin].
    + intros Heq. rewrite chainMap_true_stays in Hm; [discriminate |].
      rewrite Heq. apply lookup_insert_eq.
    + eapply IH; eassumption.
Qed.

Lemma newChainStatistics_fresh nowInId nowOutId chains rows row :
  row ∈ newChainStatistics nowInId nowOutId (chainMap chains rows) ->
  forall r, r ∈ rows -> ChainStatistic.ChainId r <> ChainStatistic.ChainId row.
Proof.
  unfold newChainStatistics. rewrite list_elem_of_omap.
  intros ([k b] & Hin & Hsome). cbn [fst snd] in Hsome.
  destruct b; [discriminate |]. injection Hsome as <-. cbn.
  apply elem_of_map_to_list in Hin. unfold chainMap in Hin.
  eapply chainMap_false_fresh. exact Hin.
Qed.

(** Among the rows read from a table keyed by chain id, the row of the
    relay chain occurs once. *)
Lemma loaded_rows_split (s : Store) r :
  chain_keyed s ->
  s !! POLY = Some r ->
  exists l1 l2,
    (map_to_list s).*2 = l1 ++ r :: l2
    /\ (forall x, x ∈ l1 -> ChainStatistic.ChainId x <> POLY)
    /\ (forall x, x ∈ l2 -> ChainStatistic.ChainId x <> POLY).
Proof.
  intros Hkeyed Hr.
  assert (Hin : (POLY, r) ∈ map_to_list s) by (apply elem_of_map_to_list; exact Hr).
  destruct (list_elem_of_split _ _ Hin) as (p1 & p2 & Hsplit).
  pose proof (NoDup_fst_map_to_list s) as Hnodup.
  rewrite Hsplit, fmap_app, fmap_cons in Hnodup. cbn [fst] in Hnodup.
  apply NoDup_app in Hnodup as (_ & Hp1 & Hp2).
  apply NoDup_cons in Hp2 as [Hp2 _].
  exists (p1.*2), (p2.*2). rewrite Hsplit, fmap_app, fmap_cons. split; [reflexivity |].
  assert (Hrows : forall k x, (k, x) ∈ map_to_list s -> ChainStatistic.ChainId x = k).
  { intros k x Hkx. apply elem_of_map_to_list in Hkx. apply Hkeyed, Hkx. }
  split.
  - intros x Hx. apply list_elem_of_fmap in Hx as ([k x'] & -> & Hx). cbn [snd].
    rewrite (Hrows k x') by (rewrite Hsplit; apply elem_of_app; left; exact Hx).
    intros ->. apply (Hp1 POLY); [| left].
    apply list_elem_of_fmap. exists (POLY, x'). split; [reflexivity | exact Hx].
  - intros x Hx. apply list_elem_of_fmap in Hx as ([k x'] & -> & Hx). cbn [snd].
    rewrite (Hrows k x')
      by (rewrite Hsplit; apply elem_of_app; right; right; exact Hx).
    intros ->. apply Hp2.
    apply list_elem_of_fmap. exists (POLY, x'). split; [reflexivity | exact Hx].
Qed.

(** The rows handed to [SaveChainStatistics], and what the table holds
    for the relay chain afterwards. *)
Lemma saved_poly_row (d : Dao) (s : Store) nowInId nowOutId polyCheckId chains ins outs r :
  chain_keyed s ->
  s !! POLY = Some r ->
  foldl save s
    (foldPolyRow d polyCheckId
       (List.map (foldChainRow nowInId nowOutId ins outs)
          ((map_to_list s).*2
           ++ newChainStatistics nowInId nowOutId (chainMap chains (map_to_list s).*2))))
    !! POLY
  = Some (updatePolyRow d polyCheckId r).
Proof.
  intros Hkeyed Hr.
  destruct (loaded_rows_split s r Hkeyed Hr) as (l1 & l2 & Hsplit & Hl1 & Hl2).
  pose proof (Hkeyed _ _ Hr) as Hid.
  assert (Hnew : forall x,
             x ∈ newChainStatistics nowInId nowOutId (chainMap chains (map_to_list s).*2) ->
             ChainStatistic.ChainId x <> POLY).
  { intros x Hx Heq.
    apply (newChainStatistics_fresh _ _ _ _ _ Hx r); [| congruence].
    rewrite Hsplit. apply elem_of_app. right. left. }
  set (f := foldChainRow nowInId nowOutId ins outs).
  set (news := newChainStatistics nowInId nowOutId _) in *. clearbody news.
  rewrite Hsplit, <- app_assoc. cbn [app].
  rewrite List.map_app. cbn [List.map].
  assert (Hfr : f r = r) by (apply foldChainRow_poly, Hid).
  rewrite Hfr.
  rewrite foldPolyRow_first; [| | exact Hid].
  - rewrite <- (updatePolyRow_ChainId d polyCheckId r) in Hid.
    rewrite <- Hid. apply save_last.
    intros x Hx. rewrite Hid.
    apply list_elem_of_In, in_map_iff in Hx as (y & <- & Hy). apply list_elem_of_In in Hy.
    subst f. rewrite foldChainRow_ChainId.
    apply elem_of_app in Hy as [Hy | Hy]; [apply Hl2, Hy | apply Hnew, Hy].
  - intros x Hx.
    apply list_elem_of_In, in_map_iff in Hx as (y & <- & Hy). apply list_elem_of_In in Hy.
    subst f. rewrite foldChainRow_ChainId. apply Hl1, Hy.
Qed.

Section Pass.
Variable d : Dao.
Variable s : Store.
Variables (sta : ChainStatistic.t) (nowInId nowOutId polyCheckId : Z).
Variable r : ChainStatistic.t.

Hypothesis Hsta : GetNewChainSta d = (Some sta, None).
Hypothesis Hin : GetNewDstTransaction d = (Some nowInId, None).
Hypothesis Hout : GetNewSrcTransaction d = (Some nowOutId, None).
Hypothesis Hpoly : GetPolyTransaction d = (Some polyCheckId, None).
Hypothesis Hkeyed : chain_keyed s.
Hypothesis Hr : s !! POLY = Some r.

Lemma poly_row_after_pass :
  ChainStatistic.LastInCheckId sta < nowInId
  \/ ChainStatistic.LastOutCheckId sta < nowOutId ->
  GetChainStatistic_err d = None ->
  (GetChains d).2 = None ->
  (forall rows, SaveChainStatistics_err d rows = None) ->
  (computeChainStatistics d s).1 !! POLY = Some (updatePolyRow d polyCheckId r).
Proof.
  intros Hguard Hload Hchains Hsave. unfold computeChainStatistics.
  rewrite Hsta, Hin, Hout, Hpoly. cbn [deref].
  replace ((ChainStatistic.LastInCheckId sta <? nowInId)
           || (ChainStatistic.LastOutCheckId sta <? nowOutId))%bool with true.
  2:{ symmetry. apply orb_true_iff.
      destruct Hguard; [left | right]; apply Z.ltb_lt; assumption. }
  unfold GetChainStatistic. rewrite Hload.
  destruct (GetChains d) as [chains cerr]. cbn [snd] in Hchains. subst cerr.
  unfold SaveChainStatistics. rewrite Hsave. cbn [fst].
  apply saved_poly_row; assumption.
Qed.

Lemma poly_row_cases :
  (computeChainStatistics d s).1 !! POLY = Some r
  \/ (computeChainStatistics d s).1 !! POLY = Some (updatePolyRow d polyCheckId r).
Proof.
  unfold computeChainStatistics.
  rewrite Hsta, Hin, Hout, Hpoly. cbn [deref].
  case_if; [| left; exact Hr].
  unfold GetChainStatistic.
  destruct (GetChainStatistic_err d) as [e |]; [left; exact Hr |].
  destruct (GetChains d) as [chains [e |]]; [left; exact Hr |].
  unfold SaveChainStatistics.
  destruct (SaveChainStatistics_err d _) as [e |]; cbn [fst]; [left; exact Hr |].
  right. apply saved_poly_row; assumption.
Qed.

End Pass.

Lemma chain_store_keyed : chain_keyed ChainScenario.store.
Proof.
  intros k r H. unfold ChainScenario.store in H.
  apply lookup_insert_Some in H as [[<- <-] | [_ H]]; [reflexivity |].
  apply lookup_insert_Some in H as [[<- <-] | [_ H]]; [reflexivity |].
  apply lookup_insert_Some in H as [[<- <-] | [_ H]]; [reflexivity |].
  rewrite lookup_empty in H. discriminate H.
Defined.

End RelayRowFacts.

(** * Further properties of the code *)

(** ** Sums of amounts and of counters *)

(** X1.  [addDecimalBigInt] adds exactly.  [addDecimalInt64] adds two
    [int64] counters and keeps the result in [int64]: it is the sum when
    the sum fits, and the sum moved by [2 ^ 64] when it does not. *)
Theorem counters_wrap_amounts_add_exactly :
  forall a b : Z,
    addDecimalBigInt a b = a + b
    /\ (is_int64 a -> is_int64 b ->
        is_int64 (addDecimalInt64 a b)
        /\ (is_int64 (a + b) -> addDecimalInt64 a b = a + b)
        /\ (2 ^ 63 <= a + b -> addDecimalInt64 a b = a + b - 2 ^ 64)
        /\ (a + b < - 2 ^ 63 -> addDecimalInt64 a b = a + b + 2 ^ 64)).
Proof.
  intros a b. split; [reflexivity |]. intros Ha Hb.
  change (addDecimalInt64 a b) with (Int64 (a + b)).
  unfold is_int64 in *.
  assert (H64 : 2 ^ 64 = 2 * 2 ^ 63) by reflexivity.
  set (p := 2 ^ 63) in *.
  assert (Hp : 0 < p) by (subst p; lia).
  assert (Hhigh : p <= a + b -> Int64 (a + b) = a + b - 2 ^ 64).
  { intros Hge. unfold Int64. rewrite Z.abs_eq by lia.
    rewrite Z.mod_small by lia. fold p.
    destruct (Z.ltb_spec (a + b) p); [lia |].
    destruct (Z.ltb_spec (a + b) 0); [lia | reflexivity]. }
  assert (Hlow : a + b < - p -> Int64 (a + b) = a + b + 2 ^ 64).
  { intros Hlt. unfold Int64. rewrite Z.abs_neq by lia. fold p.
    destruct (Z.ltb_spec (a + b) 0) as [_ |]; [| lia].
    destruct (Z.eq_dec (a + b) (- 2 ^ 64)) as [Heq | Hne].
    - rewrite Heq. rewrite Z.opp_involutive, Z.mod_same by lia.
      destruct (Z.ltb_spec 0 p); [| lia].
      destruct (Z.eqb_spec 0 (- p)); lia.
    - rewrite Z.mod_small by lia.
      destruct (Z.ltb_spec (- (a + b)) p); [lia |].
      destruct (Z.eqb_spec (- (a + b) - 2 ^ 64) (- p)); lia. }
  assert (Hfit : - p <= a + b < p -> Int64 (a + b) = a + b).
  { intros Hin. apply Int64_id. exact Hin. }
  repeat split; try assumption.
  - destruct (Z.le_gt_cases p (a + b)); [rewrite Hhigh by assumption; lia |].
    destruct (Z.lt_ge_cases (a + b) (- p)); [rewrite Hlow by assumption; lia |].
    rewrite Hfit by lia. lia.
  - destruct (Z.le_gt_cases p (a + b)); [rewrite Hhigh by assumption; lia |].
    destruct (Z.lt_ge_cases (a + b) (- p)); [rewrite Hlow by assumption; lia |].
    rewrite Hfit by lia. lia.
Qed.

Lemma counters_wrap_amounts_add_exactly_witness :
  is_int64 (2 ^ 63 - 1) /\ is_int64 1
  /\ addDecimalInt64 (2 ^ 63 - 1) 1 = - 2 ^ 63.
Proof.
  assert (Ha : is_int64 (2 ^ 63 - 1)) by (unfold is_int64; lia).
  assert (Hb : is_int64 1) by (unfold is_int64; lia).
  split; [exact Ha |]. split; [exact Hb |].
  destruct (counters_wrap_amounts_add_exactly (2 ^ 63 - 1) 1) as [_ H].
  destruct (H Ha Hb) as (_ & _ & Hhigh & _).
  rewrite Hhigh by lia. reflexivity.
Defined.

(** ** The reserve check: cost of the token loop *)

Lemma eligibleToken_false MATIC c basic token st w :
  eligibleToken token = false ->
  checkToken MATIC c basic token st w = (Ok st, w).
Proof.
  unfold eligibleToken, checkToken. intros H.
  destruct (notToken token); [reflexivity |].
  cbn [negb andb] in H. rewrite H. reflexivity.
Qed.

Lemma getAndRetryBalance_slept c chainId hash w :
  (slept w <= slept (getAndRetryBalance c chainId hash w).2)%nat.
Proof.
  unfold getAndRetryBalance, bind, common.GetBalance. unfold fetchColumn at 1.
  destruct (GetBalance_at c (calls w) chainId hash) as [v [e |]]; cbn [snd].
  - pose proof (retryLoop_bound (GetBalance_at c) chainId hash 4 (v, Some e)
                  (mkWorld (S (calls w)) (slept w))) as H.
    cbv zeta in H. cbn [calls slept] in H. lia.
  - cbn. lia.
Qed.

Lemma getAndRetryTotalSupply_slept c chainId hash w :
  (slept w <= slept (getAndRetryTotalSupply c chainId hash w).2)%nat.
Proof.
  unfold getAndRetryTotalSupply, bind, common.GetTotalSupply. unfold fetchColumn at 1.
  destruct (GetTotalSupply_at c (calls w) chainId hash) as [v [e |]]; cbn [snd].
  - pose proof (retryLoop_bound (GetTotalSupply_at c) chainId hash 2 (v, Some e)
                  (mkWorld (S (calls w)) (slept w))) as H.
    cbv zeta in H. cbn [calls slept] in H. lia.
  - cbn. lia.
Qed.

(** One eligible token costs one balance fetch, one second and one
    total-supply fetch; it ends with one more entry or with a panic. *)
Lemma eligibleToken_true MATIC c basic token st w :
  eligibleToken token = true ->
  let r := checkToken MATIC c basic token st w in
  (calls w + 2 <= calls r.2 <= calls w + 8)%nat
  /\ (slept r.2 + calls w + 1 = slept w + calls r.2)%nat
  /\ forall st', r.1 = Ok st' ->
                 length (dstChainAssets st') = S (length (dstChainAssets st)).
Proof.
  unfold eligibleToken, checkToken. intros H.
  apply andb_true_iff in H as [Hnot Hprop].
  apply negb_true_iff in Hnot. rewrite Hnot, Hprop. cbn [negb].
  unfold bind, time.Sleep_Second, ret.
  pose proof (getAndRetryBalance_bound c (Token_ChainId token) (Token_Hash token) w) as Hb.
  pose proof (getAndRetryBalance_slept c (Token_ChainId token) (Token_Hash token) w) as Hb'.
  destruct (getAndRetryBalance c _ _ w) as [b w1]. cbv zeta in Hb. cbn [snd] in Hb, Hb'.
  pose proof (getAndRetryTotalSupply_bound c (Token_ChainId token) (Token_Hash token)
                (mkWorld (calls w1) (S (slept w1)))) as Ht.
  pose proof (getAndRetryTotalSupply_slept c (Token_ChainId token) (Token_Hash token)
                (mkWorld (calls w1) (S (slept w1)))) as Ht'.
  destruct (getAndRetryTotalSupply c _ _ _) as [t w2]. cbv zeta in Ht.
  cbn [snd calls slept] in Ht, Ht'. cbn [fst snd].
  split; [lia |]. split; [lia |].
  intros st' Hst.
  destruct (supplyForFlow MATIC basic token t) as [ts |]; cbn [deref res_bind] in Hst;
    [| discriminate].
  destruct (match b.2 with Some _ => Some 0 | None => b.1 end) as [bal |];
    cbn [deref res_bind] in Hst; [| discriminate].
  injection Hst as <-. cbn [dstChainAssets]. rewrite length_app. cbn [length]. lia.
Qed.

Lemma checkTokens_cost MATIC c basic tokens :
  forall st w,
    let k := length (List.filter eligibleToken tokens) in
    let r := checkTokens MATIC c basic tokens st w in
    (calls w <= calls r.2 <= calls w + 8 * k)%nat
    /\ (slept w <= slept r.2 <= slept w + 7 * k)%nat
    /\ forall st', r.1 = Ok st' ->
         length (dstChainAssets st') = (length (dstChainAssets st) + k)%nat
         /\ (calls w + 2 * k <= calls r.2)%nat
         /\ (slept r.2 + calls w + k = slept w + calls r.2)%nat.
Proof.
  induction tokens as [| token rest IH]; intros st w; cbn [checkTokens List.filter].
  - cbn. split; [lia |]. split; [lia |]. intros st' [= <-]. lia.
  - unfold bind.
    destruct (eligibleToken token) eqn:Hel.
    + pose proof (eligibleToken_true MATIC c basic token st w Hel) as Hone.
      destruct (checkToken MATIC c basic token st w) as [[st1 | m] w1];
        cbv zeta in Hone; cbn [fst snd] in Hone; destruct Hone as (Hc & Hs & Hlen).
      * specialize (IH st1 w1). cbv zeta in IH. destruct IH as (IHc & IHs & IHok).
        cbn [length]. split; [lia |]. split; [lia |].
        intros st' Hst. destruct (IHok st' Hst) as (Hl & Hc2 & Hs2).
        rewrite Hl, (Hlen st1 eq_refl). lia.
      * cbn [length fst snd ret]. split; [lia |]. split; [lia |].
        intros st' Hst. discriminate Hst.
    + rewrite (eligibleToken_false MATIC c basic token st w Hel).
      apply IH.
Qed.

Lemma checkBasic_world MATIC c ipCfg basic w :
  (checkBasic MATIC c ipCfg basic w).2
  = (checkTokens MATIC c basic (TokenBasic_Tokens basic) (mkTokenLoop [] 0 "") w).2.
Proof.
  unfold checkBasic, bind, ret.
  destruct (checkTokens MATIC c basic _ _ w) as [r w1]. reflexivity.
Qed.

Lemma checkBasics_cost MATIC c ipCfg tokenBasics :
  forall res0 extra0 w,
    let r := checkBasics MATIC c ipCfg tokenBasics res0 extra0 w in
    (calls w <= calls r.2 <= calls w + 8 * eligibleCount tokenBasics)%nat
    /\ (slept w <= slept r.2 <= slept w + 7 * eligibleCount tokenBasics)%nat.
Proof.
  unfold eligibleCount.
  induction tokenBasics as [| basic rest IH]; intros res0 extra0 w;
    cbn [checkBasics flat_map].
  - cbn. lia.
  - rewrite length_app. unfold bind.
    pose proof (checkBasic_world MATIC c ipCfg basic w) as Hw.
    pose proof (checkTokens_cost MATIC c basic (TokenBasic_Tokens basic)
                  (mkTokenLoop [] 0 "") w) as Hcost.
    cbv zeta in Hcost. destruct Hcost as (Hc & Hs & _). rewrite <- Hw in Hc, Hs.
    destruct (checkBasic MATIC c ipCfg basic w) as [[ad | m] w1]; cbn [snd] in Hc, Hs.
    + destruct (inExtraBasic (AssetDetail.BasicName ad)).
      * specialize (IH res0 (extra0 ++ [ad])%list w1). cbv zeta in IH. lia.
      * specialize (IH (res0 ++ [ad])%list extra0 w1). cbv zeta in IH. lia.
    + cbn [ret snd]. lia.
Qed.

(** X2.  The cost of the reserve check in calls to the nodes and in
    seconds slept.  The loop over the tokens of one family, with [k] of
    them eligible ([notToken] lets them through and their [Property] is
    1), makes at most [8 * k] calls and sleeps at most [7 * k] seconds,
    whatever the nodes answer; when it runs to its end it has added
    exactly [k] chain entries, made at least [2 * k] calls, and slept
    one second for every call but the first of each token, so the other
    tokens cost no call and leave no entry.  A whole pass over a catalog
    with [n] eligible tokens makes at most [8 * n] calls and sleeps at
    most [7 * n] seconds. *)
Theorem reserve_check_cost :
  forall (MATIC : Z) (c : ChainNode) (w : World),
    (forall (basic : TokenBasic) (tokens : list Token) (st : TokenLoop),
        let k := length (List.filter eligibleToken tokens) in
        let r := checkTokens MATIC c basic tokens st w in
        (calls w <= calls r.2 <= calls w + 8 * k)%nat
        /\ (slept w <= slept r.2 <= slept w + 7 * k)%nat
        /\ forall st', r.1 = Ok st' ->
             length (dstChainAssets st') = (length (dstChainAssets st) + k)%nat
             /\ (calls w + 2 * k <= calls r.2)%nat
             /\ (slept r.2 + calls w + k = slept w + calls r.2)%nat)
    /\ (forall (PostDingtext : DingText -> error) (ipCfg : IPPortConfig)
               (tokenBasics : list TokenBasic),
        let r := startCheckAssetAlarm MATIC (tokenBasics, None) PostDingtext c ipCfg w in
        (calls w <= calls r.2 <= calls w + 8 * eligibleCount tokenBasics)%nat
        /\ (slept w <= slept r.2 <= slept w + 7 * eligibleCount tokenBasics)%nat).
Proof.
  intros MATIC c w. split.
  - intros basic tokens st. apply checkTokens_cost.
  - intros PostDingtext ipCfg tokenBasics. unfold startCheckAssetAlarm, bind, ret.
    pose proof (checkBasics_cost MATIC c ipCfg tokenBasics [] [] w) as H.
    cbv zeta in *. destruct (checkBasics MATIC c ipCfg tokenBasics [] [] w) as [r w1].
    exact H.
Qed.

Lemma reserve_check_cost_witness :
  exists st',
    (checkTokens Scenario.MATIC Scenario.deadNode Scenario.foo [Scenario.fooOnEth]
       (mkTokenLoop [] 0 "") Scenario.w0).1 = Ok st'
    /\ length (dstChainAssets st') = 1%nat
    /\ (calls (checkTokens Scenario.MATIC Scenario.deadNode Scenario.foo
                 [Scenario.fooOnEth] (mkTokenLoop [] 0 "") Scenario.w0).2 = 8)%nat
    /\ (slept (checkTokens Scenario.MATIC Scenario.deadNode Scenario.foo
                 [Scenario.fooOnEth] (mkTokenLoop [] 0 "") Scenario.w0).2 = 7)%nat.
Proof.
  eexists. split; [reflexivity |].
  destruct (reserve_check_cost Scenario.MATIC Scenario.deadNode Scenario.w0) as [Hloop _].
  destruct (Hloop Scenario.foo [Scenario.fooOnEth] (mkTokenLoop [] 0 "")) as (_ & _ & Hok).
  destruct (Hok _ eq_refl) as (Hlen & _ & _).
  split; [exact Hlen |]. split; reflexivity.
Defined.

(** ** The reserve check: the O3 endpoints *)

Lemma getO3Data_unreadable ipCfg basic tokenAsset difference reason0 :
  o3Unreadable ipCfg basic ->
  getO3Data (AssetDetail.mk (TokenBasic_Name basic) tokenAsset difference
               (TokenBasic_Precision basic) (TokenBasic_Price basic) "" reason0) ipCfg
  = Panic nil_dereference.
Proof.
  unfold getO3Data. cbn [AssetDetail.BasicName].
  intros [[-> [-> | ->]] | [-> ->]]; reflexivity.
Qed.

Lemma checkBasic_unreadable MATIC c ipCfg basic w :
  o3Unreadable ipCfg basic ->
  exists m, (checkBasic MATIC c ipCfg basic w).1 = Panic m.
Proof.
  intros Hbad. unfold checkBasic, bind, ret.
  destruct (checkTokens MATIC c basic _ _ w) as [[st | m] w1]; cbn [fst res_bind].
  - rewrite (getO3Data_unreadable _ _ _ _ _ Hbad). cbn [res_bind]. eauto.
  - eauto.
Qed.

Lemma checkBasics_unreadable MATIC c ipCfg tokenBasics basic :
  In basic tokenBasics ->
  o3Unreadable ipCfg basic ->
  forall res0 extra0 w,
  exists m, (checkBasics MATIC c ipCfg tokenBasics res0 extra0 w).1 = Panic m.
Proof.
  intros Hin Hbad.
  induction tokenBasics as [| b rest IH]; intros res0 extra0 w; [destruct Hin |].
  cbn [checkBasics]. unfold bind.
  destruct Hin as [-> | Hin].
  - destruct (checkBasic_unreadable MATIC c ipCfg basic w Hbad) as [m Hm].
    destruct (checkBasic MATIC c ipCfg basic w) as [r w1]. cbn [fst] in Hm. subst r.
    cbn [ret fst]. eauto.
  - destruct (checkBasic MATIC c ipCfg b w) as [[ad | m] w1].
    + destruct (inExtraBasic (AssetDetail.BasicName ad)); apply IH, Hin.
    + cbn [ret fst]. eauto.
Qed.

(** X3.  When the catalog of the reserve check holds "WBTC" or "USDT"
    and the O3 endpoint of that family does not answer (the response is
    nil when it is closed), or the answer for "WBTC" carries no balance,
    the pass panics: it returns no report and posts no message,
    whatever the nodes answer and whatever the other families are. *)
Theorem o3_endpoint_down_panics_the_reserve_check :
  forall (MATIC : Z) (PostDingtext : DingText -> error) (c : ChainNode)
         (ipCfg : IPPortConfig) (tokenBasics : list TokenBasic) (basic : TokenBasic)
         (w : World),
    In basic tokenBasics ->
    o3Unreadable ipCfg basic ->
    exists m,
      (startCheckAssetAlarm MATIC (tokenBasics, None) PostDingtext c ipCfg w).1 = Panic m.
Proof.
  intros MATIC PostDingtext c ipCfg tokenBasics basic w Hin Hbad.
  unfold startCheckAssetAlarm, bind, ret.
  destruct (checkBasics_unreadable MATIC c ipCfg tokenBasics basic Hin Hbad [] [] w)
    as [m Hm].
  destruct (checkBasics MATIC c ipCfg tokenBasics [] [] w) as [r w1].
  cbn [fst] in Hm. subst r. cbn [res_bind fst]. eauto.
Qed.

Lemma o3_endpoint_down_panics_the_reserve_check_witness :
  In ReserveScenario.wbtc [Scenario.foo; ReserveScenario.wbtc]
  /\ o3Unreadable (mkIPPortConfig HttpFailed (HttpResponse 200 (Some 0)))
       ReserveScenario.wbtc
  /\ exists m,
      (startCheckAssetAlarm Scenario.MATIC
         ([Scenario.foo; ReserveScenario.wbtc], None) ReserveScenario.PostDingtext
         ReserveScenario.balanced
         (mkIPPortConfig HttpFailed (HttpResponse 200 (Some 0))) Scenario.w0).1
      = Panic m.
Proof.
  assert (Hin : In ReserveScenario.wbtc [Scenario.foo; ReserveScenario.wbtc])
    by (right; left; reflexivity).
  assert (Hbad : o3Unreadable (mkIPPortConfig HttpFailed (HttpResponse 200 (Some 0)))
                   ReserveScenario.wbtc)
    by (left; split; [reflexivity | left; reflexivity]).
  split; [exact Hin |]. split; [exact Hbad |].
  exact (o3_endpoint_down_panics_the_reserve_check Scenario.MATIC
           ReserveScenario.PostDingtext ReserveScenario.balanced _ _ _ Scenario.w0
           Hin Hbad).
Defined.

(** ** The reserve check: the whole override table *)

Lemma specialBasic_in_table (MATIC : Z) (token : Token) (f1 f2 : option Z) :
  In (Token_TokenBasicName token, Token_ChainId token) (overrideTable MATIC) ->
  specialBasic MATIC token f1 = specialBasic MATIC token f2
  /\ specialBasic MATIC token f1 <> None.
Proof.
  intros Hin. unfold specialBasic.
  repeat (case_if; [split; [reflexivity | discriminate] |]).
  exfalso. unfold overrideTable in Hin. cbn [In] in Hin.
  repeat match goal with
         | H : _ \/ _ |- _ => destruct H as [H | H]
         | H : (_, _) = (_, _) |- _ => injection H as Hn Hc
         | H : False |- _ => destruct H
         end;
    rewrite <- Hn, <- Hc in *; cbn in *; rewrite ?Z.eqb_refl in *; discriminate.
Qed.

(** X4.  [specialBasic] leaves the fetched total supply aside exactly for
    the (asset name, chain) pairs of its table: for each of them the
    result is a figure that does not depend on what was fetched (nor on
    whether the fetch failed), for every other pair it is the fetched
    figure itself. *)
Theorem override_table_decides_whether_fetched_supply_counts :
  forall (MATIC : Z) (token : Token),
    (In (Token_TokenBasicName token, Token_ChainId token) (overrideTable MATIC) ->
     forall f1 f2 : option Z,
       specialBasic MATIC token f1 = specialBasic MATIC token f2
       /\ specialBasic MATIC token f1 <> None)
    /\ (~ In (Token_TokenBasicName token, Token_ChainId token) (overrideTable MATIC) ->
        forall f : option Z, specialBasic MATIC token f = f).
Proof.
  intros MATIC token. split.
  - intros Hin f1 f2. apply specialBasic_in_table, Hin.
  - intros Hnot f. apply specialBasic_not_in_table, Hnot.
Qed.

Lemma override_table_decides_whether_fetched_supply_counts_witness :
  (In ("DAO", 2) (overrideTable Scenario.MATIC)
   /\ specialBasic Scenario.MATIC Scenario.daoOnEth (Some 5)
      = specialBasic Scenario.MATIC Scenario.daoOnEth None)
  /\ (~ In ("FOO", 2) (overrideTable Scenario.MATIC)
      /\ specialBasic Scenario.MATIC Scenario.fooOnEth (Some 5) = Some 5).
Proof.
  assert (Hin : In ("DAO", 2) (overrideTable Scenario.MATIC))
    by (right; right; left; reflexivity).
  assert (Hnot : ~ In ("FOO", 2) (overrideTable Scenario.MATIC)).
  { unfold overrideTable. cbn [In]. intros H.
    repeat (destruct H as [H | H]; [discriminate H |]). exact H. }
  split.
  - split; [exact Hin |].
    destruct (override_table_decides_whether_fetched_supply_counts Scenario.MATIC
                Scenario.daoOnEth) as [Htable _].
    exact (proj1 (Htable Hin (Some 5) None)).
  - split; [exact Hnot |].
    destruct (override_table_decides_whether_fetched_supply_counts Scenario.MATIC
                Scenario.fooOnEth) as [_ Hother].
    exact (Hother Hnot (Some 5)).
Defined.

(** ** Rows created on first sight *)

Section FoldInsert.
Context {K : Type} `{Countable K} {A B : Type}.
Variable key : A -> K.
Variable b : B.

Lemma foldl_insert_hit (l : list A) :
  forall (m : gmap K B) k,
    (exists v, v ∈ l /\ key v = k) ->
    foldl (fun acc v => <[key v := b]> acc) m l !! k = Some b.
Proof.
  induction l as [| x l IH] using rev_ind; intros m k (v & Hv & Hk).
  - inversion Hv.
  - rewrite foldl_app. cbn [foldl].
    destruct (decide (key x = k)) as [<- | Hne].
    + apply lookup_insert_eq.
    + rewrite lookup_insert_ne by exact Hne. apply IH.
      exists v. split; [| exact Hk].
      apply elem_of_app in Hv as [Hv | Hv]; [exact Hv |].
      apply list_elem_of_singleton in Hv. subst v. contradiction.
Qed.

Lemma foldl_insert_miss (l : list A) :
  forall (m : gmap K B) k,
    (forall v, v ∈ l -> key v <> k) ->
    foldl (fun acc v => <[key v := b]> acc) m l !! k = m !! k.
Proof.
  induction l as [| x l IH]; intros m k Hl; cbn [foldl].
  - reflexivity.
  - rewrite IH by (intros v Hv; apply Hl; right; exact Hv).
    apply lookup_insert_ne, Hl. left.
Qed.

Lemma foldl_insert_inv (l : list A) :
  forall (m : gmap K B) k x,
    foldl (fun acc v => <[key v := b]> acc) m l !! k = Some x ->
    (exists v, v ∈ l /\ key v = k) \/ m !! k = Some x.
Proof.
  induction l as [| y l IH]; intros m k x Hk; cbn [foldl] in Hk.
  - right. exact Hk.
  - destruct (IH _ _ _ Hk) as [(v & Hv & Hkv) | Hm].
    + left. exists v. split; [right; exact Hv | exact Hkv].
    + destruct (decide (key y = k)) as [Heq | Hne].
      * left. exists y. split; [left | exact Heq].
      * right. rewrite lookup_insert_ne in Hm by exact Hne. exact Hm.
Qed.

Lemma foldl_insert_if (c : A -> bool) (l : list A) :
  forall m : gmap K B,
    foldl (fun acc v => if c v then <[key v := b]> acc else acc) m l
    = foldl (fun acc v => <[key v := b]> acc) m (List.filter c l).
Proof.
  induction l as [| x l IH]; intros m; cbn [foldl List.filter].
  - reflexivity.
  - destruct (c x); cbn [foldl]; apply IH.
Qed.

End FoldInsert.

(** The keys that the catalog marks and no row takes back. *)
Lemma marked_then_unmarked {K : Type} `{Countable K} {A R : Type}
    (keyA : A -> K) (keyR : R -> K) (c : A -> bool) (fresh : bool)
    (catalog : list A) (rows : list R) (k : K) :
  foldl (fun acc r => <[keyR r := negb fresh]> acc)
        (foldl (fun acc v => if c v then <[keyA v := fresh]> acc else acc)
               (∅ : gmap K bool) catalog)
        rows !! k = Some fresh
  <-> (exists v, In v catalog /\ c v = true /\ keyA v = k)
      /\ (forall r, In r rows -> keyR r <> k).
Proof.
  rewrite foldl_insert_if. split.
  - intros Hk.
    assert (Hrows : forall r, In r rows -> keyR r <> k).
    { intros r Hr Heq.
      rewrite (foldl_insert_hit keyR (negb fresh) rows) in Hk.
      - destruct fresh; discriminate Hk.
      - exists r. split; [apply list_elem_of_In, Hr | exact Heq]. }
    split; [| exact Hrows].
    rewrite foldl_insert_miss in Hk
      by (intros r Hr; apply Hrows, list_elem_of_In, Hr).
    apply foldl_insert_inv in Hk as [(v & Hv & Heq) | Hk].
    + apply list_elem_of_In, filter_In in Hv as [Hv Hc]. exists v. auto.
    + rewrite lookup_empty in Hk. discriminate Hk.
  - intros [(v & Hv & Hc & Hk) Hrows].
    rewrite foldl_insert_miss by (intros r Hr; apply Hrows, list_elem_of_In, Hr).
    apply foldl_insert_hit. exists v. split; [| exact Hk].
    apply list_elem_of_In, filter_In. auto.
Qed.

Section Created.
Context {K : Type} `{Countable K} {V R : Type}.
Variable g : K * V -> option R.

Lemma omap_map_to_list_In (m : gmap K V) (row : R) :
  In row (omap g (map_to_list m))
  <-> exists k v, m !! k = Some v /\ g (k, v) = Some row.
Proof.
  rewrite <- list_elem_of_In, list_elem_of_omap. split.
  - intros ([k v] & Hin & Hg). apply elem_of_map_to_list in Hin. eauto.
  - intros (k & v & Hm & Hg). exists (k, v). split; [| exact Hg].
    apply elem_of_map_to_list, Hm.
Qed.

(** A row tells its key. *)
Hypothesis g_key : forall kv kv' r, g kv = Some r -> g kv' = Some r -> kv.1 = kv'.1.

Lemma omap_NoDup_keys (l : list (K * V)) :
  NoDup (l.*1) -> NoDup (omap g l).
Proof.
  induction l as [| x l IH]; intros Hnd; cbn [omap list_omap].
  - constructor.
  - rewrite fmap_cons in Hnd. apply NoDup_cons in Hnd as [Hx Hl].
    destruct (g x) as [r |] eqn:Hgx; [| apply IH, Hl].
    apply NoDup_cons. split; [| apply IH, Hl].
    intros Hr. apply list_elem_of_omap in Hr as (x' & Hx' & Hgx').
    apply Hx. rewrite (g_key _ _ _ Hgx Hgx').
    apply list_elem_of_fmap. exists x'. split; [reflexivity | exact Hx'].
Qed.

Lemma omap_map_to_list_NoDup (m : gmap K V) : NoDup (omap g (map_to_list m)).
Proof. apply omap_NoDup_keys, NoDup_fst_map_to_list. Qed.

End Created.

Lemma newTokenStatistics_In (tokens : list Token) (rows : list TokenStatistic.t)
    (row : TokenStatistic.t) :
  In row (TokenPass.newTokenStatistics (TokenPass.tokensMap tokens rows))
  <-> exists token,
      In token tokens
      /\ Token_Standard token = 0
      /\ (forall r, In r rows ->
            (TokenStatistic.ChainId r, TokenStatistic.Hash r)
            <> (Token_ChainId token, Token_Hash token))
      /\ row = TokenStatistic.mk (Token_ChainId token) (Token_Hash token)
                 0 0 0 0 0 0 0 0 0 0 None.
Proof.
  unfold TokenPass.newTokenStatistics.
  rewrite omap_map_to_list_In. unfold TokenPass.tokensMap. split.
  - intros (k & v & Hk & Hg). cbn [fst snd] in Hg.
    destruct v; [| discriminate Hg]. injection Hg as <-.
    apply (marked_then_unmarked
             (fun t => (Token_ChainId t, Token_Hash t))
             (fun r => (TokenStatistic.ChainId r, TokenStatistic.Hash r))
             (fun t => Token_Standard t =? 0) true) in Hk
      as [(t & Ht & Hc & <-) Hrows].
    exists t. apply Z.eqb_eq in Hc. auto.
  - intros (t & Ht & Hc & Hrows & ->).
    exists (Token_ChainId t, Token_Hash t), true. split; [| reflexivity].
    apply (marked_then_unmarked
             (fun t => (Token_ChainId t, Token_Hash t))
             (fun r => (TokenStatistic.ChainId r, TokenStatistic.Hash r))
             (fun t => Token_Standard t =? 0) true).
    split; [| exact Hrows]. exists t. rewrite Hc. auto.
Qed.

Lemma newChainStatistics_In (nowInId nowOutId : Z) (chains : list Z)
    (rows : list ChainStatistic.t) (row : ChainStatistic.t) :
  In row (ChainPass.newChainStatistics nowInId nowOutId (ChainPass.chainMap chains rows))
  <-> exists chain,
      In chain chains
      /\ (forall r, In r rows -> ChainStatistic.ChainId r <> chain)
      /\ row = ChainStatistic.mk chain 0 0 0 nowInId nowOutId.
Proof.
  unfold ChainPass.newChainStatistics.
  rewrite omap_map_to_list_In. unfold ChainPass.chainMap. split.
  - intros (k & v & Hk & Hg). cbn [fst snd] in Hg.
    destruct v; [discriminate Hg |]. injection Hg as <-.
    apply (marked_then_unmarked (fun v : Z => v) ChainStatistic.ChainId
             (fun _ => true) false) in Hk as [(v & Hv & _ & <-) Hrows].
    exists v. auto.
  - intros (v & Hv & Hrows & ->).
    exists v, false. split; [| reflexivity].
    apply (marked_then_unmarked (fun v : Z => v) ChainStatistic.ChainId
             (fun _ => true) false).
    split; [| exact Hrows]. exists v. auto.
Qed.

Lemma newAssetStatistics_In (tokenBasics : list TokenBasic)
    (rows : list AssetStatistic.t) (row : AssetStatistic.t) :
  In row (AssetPass.newAssetStatistics (AssetPass.nameMap tokenBasics rows))
  <-> exists basic,
      In basic tokenBasics
      /\ TokenBasic_Standard basic = 0
      /\ (forall r, In r rows ->
            AssetStatistic.TokenBasicName r <> TokenBasic_Name basic)
      /\ row = AssetStatistic.mk (TokenBasic_Name basic) 0 0 0 0 0 0.
Proof.
  unfold AssetPass.newAssetStatistics.
  rewrite omap_map_to_list_In. unfold AssetPass.nameMap. split.
  - intros (k & v & Hk & Hg). cbn [fst snd] in Hg.
    destruct v; [discriminate Hg |]. injection Hg as <-.
    apply (marked_then_unmarked TokenBasic_Name AssetStatistic.TokenBasicName
             (fun v => TokenBasic_Standard v =? 0) false) in Hk
      as [(v & Hv & Hc & <-) Hrows].
    exists v. apply Z.eqb_eq in Hc. auto.
  - intros (v & Hv & Hc & Hrows & ->).
    exists (TokenBasic_Name v), false. split; [| reflexivity].
    apply (marked_then_unmarked TokenBasic_Name AssetStatistic.TokenBasicName
             (fun v => TokenBasic_Standard v =? 0) false).
    split; [| exact Hrows]. exists v. rewrite Hc. auto.
Qed.

(** X5.  The rows that a pass creates for what the catalog knows and the
    statistic table does not: the token pass makes one zero row for each
    key (chain id, hash) of a token of standard 0 that has no row, the
    chain pass one row, with both cursors at the newest ids, for each
    chain of the catalog that has no row, the asset pass one zero row
    for each name of a family of standard 0 that has no row.  Nothing
    else is created, no key twice, and a token or family of another
    standard gets no row. *)
Theorem rows_created_on_first_sight :
  (forall (tokens : list Token) (rows : list TokenStatistic.t) (row : TokenStatistic.t),
      NoDup (TokenPass.newTokenStatistics (TokenPass.tokensMap tokens rows))
      /\ (In row (TokenPass.newTokenStatistics (TokenPass.tokensMap tokens rows))
          <-> exists token,
              In token tokens
              /\ Token_Standard token = 0
              /\ (forall r, In r rows ->
                    (TokenStatistic.ChainId r, TokenStatistic.Hash r)
                    <> (Token_ChainId token, Token_Hash token))
              /\ row = TokenStatistic.mk (Token_ChainId token) (Token_Hash token)
                         0 0 0 0 0 0 0 0 0 0 None))
  /\ (forall (nowInId nowOutId : Z) (chains : list Z) (rows : list ChainStatistic.t)
             (row : ChainStatistic.t),
      NoDup (ChainPass.newChainStatistics nowInId nowOutId (ChainPass.chainMap chains rows))
      /\ (In row (ChainPass.newChainStatistics nowInId nowOutId
                    (ChainPass.chainMap chains rows))
          <-> exists chain,
              In chain chains
              /\ (forall r, In r rows -> ChainStatistic.ChainId r <> chain)
              /\ row = ChainStatistic.mk chain 0 0 0 nowInId nowOutId))
  /\ (forall (tokenBasics : list TokenBasic) (rows : list AssetStatistic.t)
             (row : AssetStatistic.t),
      NoDup (AssetPass.newAssetStatistics (AssetPass.nameMap tokenBasics rows))
      /\ (In row (AssetPass.newAssetStatistics (AssetPass.nameMap tokenBasics rows))
          <-> exists basic,
              In basic tokenBasics
              /\ TokenBasic_Standard basic = 0
              /\ (forall r, In r rows ->
                    AssetStatistic.TokenBasicName r <> TokenBasic_Name basic)
              /\ row = AssetStatistic.mk (TokenBasic_Name basic) 0 0 0 0 0 0)).
Proof.
  split; [| split].
  - intros tokens rows row. split; [| apply newTokenStatistics_In].
    unfold TokenPass.newTokenStatistics. apply omap_map_to_list_NoDup.
    intros [k [|]] [k' [|]] r; cbn [fst snd]; intros [= <-] [= Hk1 Hk2];
      destruct k, k'; cbn [fst snd] in *; congruence.
  - intros nowInId nowOutId chains rows row. split; [| apply newChainStatistics_In].
    unfold ChainPass.newChainStatistics. apply omap_map_to_list_NoDup.
    intros [k [|]] [k' [|]] r; cbn [fst snd]; intros [= <-] [= Hk]; congruence.
  - intros tokenBasics rows row. split; [| apply newAssetStatistics_In].
    unfold AssetPass.newAssetStatistics. apply omap_map_to_list_NoDup.
    intros [k [|]] [k' [|]] r; cbn [fst snd]; intros [= <-] [= Hk]; congruence.
Qed.

(** ** The chain-statistics pass: the rows of the other chains *)

Module ChainRowsFacts.
Import ChainPass.
Import RelayRowFacts.

Lemma save_lookup_ext (l : list ChainStatistic.t) :
  forall (s1 s2 : Store) k,
    s1 !! k = s2 !! k -> foldl save s1 l !! k = foldl save s2 l !! k.
Proof.
  induction l as [| x l IH]; intros s1 s2 k Hk; cbn [foldl].
  - exact Hk.
  - apply IH. destruct (decide (ChainStatistic.ChainId x = k)) as [<- | Hne].
    + rewrite !lookup_insert_eq. reflexivity.
    + rewrite !lookup_insert_ne by exact Hne. exact Hk.
Qed.

Lemma foldPolyRow_lookup d polyCheckId (l : list ChainStatistic.t) :
  forall (s : Store) k,
    k <> POLY ->
    foldl save s (foldPolyRow d polyCheckId l) !! k = foldl save s l !! k.
Proof.
  induction l as [| x l IH]; intros s k Hk; cbn [foldPolyRow].
  - reflexivity.
  - destruct (Z.eqb_spec (ChainStatistic.ChainId x) POLY) as [Hx | Hx]; cbn [foldl].
    + apply save_lookup_ext. rewrite updatePolyRow_ChainId, Hx.
      rewrite !lookup_insert_ne by congruence. reflexivity.
    + apply IH, Hk.
Qed.

Lemma foldPolyRow_keys d polyCheckId (l : list ChainStatistic.t) :
  List.map ChainStatistic.ChainId (foldPolyRow d polyCheckId l)
  = List.map ChainStatistic.ChainId l.
Proof.
  induction l as [| x l IH]; cbn [foldPolyRow List.map]; [reflexivity |].
  destruct (ChainStatistic.ChainId x =? POLY); cbn [List.map].
  - rewrite updatePolyRow_ChainId. reflexivity.
  - rewrite IH. reflexivity.
Qed.

Lemma save_keyed (l : list ChainStatistic.t) :
  forall s : Store, chain_keyed s -> chain_keyed (foldl save s l).
Proof.
  induction l as [| x l IH]; intros s Hs; cbn [foldl]; [exact Hs |].
  apply IH. intros k r Hk.
  destruct (decide (ChainStatistic.ChainId x = k)) as [<- | Hne].
  - rewrite lookup_insert_eq in Hk. congruence.
  - rewrite lookup_insert_ne in Hk by exact Hne. apply Hs, Hk.
Qed.

Lemma save_is_Some (l : list ChainStatistic.t) :
  forall (s : Store) k,
    is_Some (s !! k) \/ In k (List.map ChainStatistic.ChainId l) ->
    is_Some (foldl save s l !! k).
Proof.
  induction l as [| x l IH]; intros s k Hk; cbn [foldl].
  - destruct Hk as [Hk | []]. exact Hk.
  - apply IH. cbn [List.map In] in Hk.
    destruct (decide (ChainStatistic.ChainId x = k)) as [<- | Hne].
    + left. rewrite lookup_insert_eq. eauto.
    + rewrite lookup_insert_ne by exact Hne.
      destruct Hk as [Hk | [Hk | Hk]]; [left; exact Hk | contradiction | right; exact Hk].
Qed.

(** Among the rows read from a table keyed by chain id, the row of a
    chain occurs once. *)
Lemma loaded_rows_split_at (s : Store) k r :
  chain_keyed s ->
  s !! k = Some r ->
  exists l1 l2,
    (map_to_list s).*2 = l1 ++ r :: l2
    /\ (forall x, x ∈ l1 -> ChainStatistic.ChainId x <> k)
    /\ (forall x, x ∈ l2 -> ChainStatistic.ChainId x <> k).
Proof.
  intros Hkeyed Hr.
  assert (Hin : (k, r) ∈ map_to_list s) by (apply elem_of_map_to_list; exact Hr).
  destruct (list_elem_of_split _ _ Hin) as (p1 & p2 & Hsplit).
  pose proof (NoDup_fst_map_to_list s) as Hnodup.
  rewrite Hsplit, fmap_app, fmap_cons in Hnodup. cbn [fst] in Hnodup.
  apply NoDup_app in Hnodup as (_ & Hp1 & Hp2).
  apply NoDup_cons in Hp2 as [Hp2 _].
  exists (p1.*2), (p2.*2). rewrite Hsplit, fmap_app, fmap_cons. split; [reflexivity |].
  assert (Hrows : forall k' x, (k', x) ∈ map_to_list s -> ChainStatistic.ChainId x = k').
  { intros k' x Hkx. apply elem_of_map_to_list in Hkx. apply Hkeyed, Hkx. }
  split.
  - intros x Hx. apply list_elem_of_fmap in Hx as ([k' x'] & -> & Hx). cbn [snd].
    rewrite (Hrows k' x') by (rewrite Hsplit; apply elem_of_app; left; exact Hx).
    intros ->. apply (Hp1 k); [| left].
    apply list_elem_of_fmap. exists (k, x'). split; [reflexivity | exact Hx].
  - intros x Hx. apply list_elem_of_fmap in Hx as ([k' x'] & -> & Hx). cbn [snd].
    rewrite (Hrows k' x')
      by (rewrite Hsplit; apply elem_of_app; right; right; exact Hx).
    intros ->. apply Hp2.
    apply list_elem_of_fmap. exists (k, x'). split; [reflexivity | exact Hx].
Qed.

(** What the table holds for a chain other than the relay chain after
    the rows were handed to [SaveChainStatistics]. *)
Lemma saved_row (d : Dao) (s : Store) nowInId nowOutId polyCheckId chains ins outs k r :
  chain_keyed s ->
  s !! k = Some r ->
  k <> POLY ->
  foldl save s
    (foldPolyRow d polyCheckId
       (List.map (foldChainRow nowInId nowOutId ins outs)
          ((map_to_list s).*2
           ++ newChainStatistics nowInId nowOutId (chainMap chains (map_to_list s).*2))))
    !! k
  = Some (foldChainRow nowInId nowOutId ins outs r).
Proof.
  intros Hkeyed Hr Hk.
  rewrite foldPolyRow_lookup by exact Hk.
  destruct (loaded_rows_split_at s k r Hkeyed Hr) as (l1 & l2 & Hsplit & Hl1 & Hl2).
  pose proof (Hkeyed _ _ Hr) as Hid.
  assert (Hnew : forall x,
             x ∈ newChainStatistics nowInId nowOutId (chainMap chains (map_to_list s).*2) ->
             ChainStatistic.ChainId x <> k).
  { intros x Hx Heq.
    apply (newChainStatistics_fresh _ _ _ _ _ Hx r); [| congruence].
    rewrite Hsplit. apply elem_of_app. right. left. }
  set (f := foldChainRow nowInId nowOutId ins outs).
  set (news := newChainStatistics nowInId nowOutId _) in *. clearbody news.
  rewrite Hsplit, <- app_assoc. cbn [app].
  rewrite List.map_app. cbn [List.map].
  assert (Hfk : ChainStatistic.ChainId (f r) = k)
    by (subst f; rewrite foldChainRow_ChainId; exact Hid).
  rewrite <- Hfk. apply save_last.
  intros x Hx. rewrite Hfk.
  apply list_elem_of_In, in_map_iff in Hx as (y & <- & Hy). apply list_elem_of_In in Hy.
  subst f. rewrite foldChainRow_ChainId.
  apply elem_of_app in Hy as [Hy | Hy]; [apply Hl2, Hy | apply Hnew, Hy].
Qed.

Section RowsPass.
Variable d : Dao.
Variable s : Store.
Variables (sta : ChainStatistic.t) (nowInId nowOutId polyCheckId : Z).

Hypothesis Hsta : GetNewChainSta d = (Some sta, None).
Hypothesis Hin : GetNewDstTransaction d = (Some nowInId, None).
Hypothesis Hout : GetNewSrcTransaction d = (Some nowOutId, None).
Hypothesis Hpoly : GetPolyTransaction d = (Some polyCheckId, None).
Hypothesis Hguard :
  ChainStatistic.LastInCheckId sta < nowInId
  \/ ChainStatistic.LastOutCheckId sta < nowOutId.
Hypothesis Hload : GetChainStatistic_err d = None.
Hypothesis Hchains : (GetChains d).2 = None.
Hypothesis Hsave : forall rows, SaveChainStatistics_err d rows = None.

(** The table after a pass that gets to its loops and whose batch is
    taken. *)
Lemma table_after_pass :
  (computeChainStatistics d s).1
  = foldl save s
      (foldPolyRow d polyCheckId
         (List.map
            (foldChainRow nowInId nowOutId
               (if ChainStatistic.LastInCheckId sta <? nowInId
                then (CalculateInChainStatistics d
                        (ChainStatistic.LastInCheckId sta) nowInId).1
                else [])
               (if ChainStatistic.LastOutCheckId sta <? nowOutId
                then (CalculateOutChainStatistics d
                        (ChainStatistic.LastOutCheckId sta) nowOutId).1
                else []))
            ((map_to_list s).*2
             ++ newChainStatistics nowInId nowOutId
                  (chainMap (GetChains d).1 (map_to_list s).*2)))).
Proof.
  unfold computeChainStatistics.
  rewrite Hsta, Hin, Hout, Hpoly. cbn [deref].
  replace ((ChainStatistic.LastInCheckId sta <? nowInId)
           || (ChainStatistic.LastOutCheckId sta <? nowOutId))%bool with true.
  2:{ symmetry. apply orb_true_iff.
      destruct Hguard; [left | right]; apply Z.ltb_lt; assumption. }
  unfold GetChainStatistic. rewrite Hload.
  destruct (GetChains d) as [chains cerr]. cbn [snd] in Hchains. subst cerr.
  unfold SaveChainStatistics. rewrite Hsave. reflexivity.
Qed.

End RowsPass.

(** X6.  A pass of the chain statistics that finds new transactions, gets
    to its loops and has its batch taken leaves, for a chain [c] other
    than the relay chain that has the row [r]: the inbound total of [r]
    raised by the first group of [c] in the inbound delta (unchanged when
    the delta has no group of [c]), the outbound total likewise, the
    address count as it was, and both cursors at the newest destination
    and source transactions.  The deltas are read over the ranges that
    start at the cursors of the newest row [sta], not of [r]; a stream
    without anything new, and a delta query that fails, contribute the
    groups they returned and the cursors move all the same. *)
Theorem chain_row_gets_first_delta_and_newest_cursors :
  forall (d : Dao) (s : Store) (sta : ChainStatistic.t)
         (nowInId nowOutId polyCheckId c : Z) (r : ChainStatistic.t),
    GetNewChainSta d = (Some sta, None) ->
    GetNewDstTransaction d = (Some nowInId, None) ->
    GetNewSrcTransaction d = (Some nowOutId, None) ->
    GetPolyTransaction d = (Some polyCheckId, None) ->
    ChainStatistic.LastInCheckId sta < nowInId
    \/ ChainStatistic.LastOutCheckId sta < nowOutId ->
    GetChainStatistic_err d = None ->
    (GetChains d).2 = None ->
    (forall rows, SaveChainStatistics_err d rows = None) ->
    chain_keyed s ->
    s !! c = Some r ->
    c <> basedef.POLY_CROSSCHAIN_ID ->
    let ins :=
      if ChainStatistic.LastInCheckId sta <? nowInId
      then (CalculateInChainStatistics d (ChainStatistic.LastInCheckId sta) nowInId).1
      else [] in
    let outs :=
      if ChainStatistic.LastOutCheckId sta <? nowOutId
      then (CalculateOutChainStatistics d (ChainStatistic.LastOutCheckId sta) nowOutId).1
      else [] in
    (computeChainStatistics d s).1 !! c
    = Some (ChainStatistic.mk c
              (match findChain c ins with
               | Some i => addDecimalInt64 (ChainStatistic.In r) (ChainStatistic.In i)
               | None => ChainStatistic.In r
               end)
              (match findChain c outs with
               | Some o => addDecimalInt64 (ChainStatistic.Out r) (ChainStatistic.Out o)
               | None => ChainStatistic.Out r
               end)
              (ChainStatistic.Addresses r) nowInId nowOutId).
Proof.
  intros d s sta nowInId nowOutId polyCheckId c r Hsta Hin Hout Hpoly Hguard Hload
         Hchains Hsave Hkeyed Hr Hc ins outs.
  rewrite (table_after_pass d s sta nowInId nowOutId polyCheckId) by assumption.
  fold ins outs. rewrite (saved_row d s _ _ _ _ _ _ c r) by assumption. f_equal.
  unfold foldChainRow. rewrite (Hkeyed _ _ Hr).
  destruct (Z.eqb_spec c basedef.POLY_CROSSCHAIN_ID) as [| _]; [contradiction |].
  destruct (findChain c ins) as [i |]; destruct (findChain c outs) as [o |];
    destruct r; cbn in *; pose proof (Hkeyed _ _ Hr) as Hid; cbn in Hid; subst;
    reflexivity.
Qed.

Lemma chain_row_gets_first_delta_and_newest_cursors_witness :
  (computeChainStatistics ChainScenario.busy ChainScenario.store).1 !! 2
  = Some (ChainStatistic.mk 2 12 20 0 9 20).
Proof.
  exact (chain_row_gets_first_delta_and_newest_cursors ChainScenario.busy
           ChainScenario.store ChainScenario.rowEth 9 20 130 2 ChainScenario.rowEth
           eq_refl eq_refl eq_refl eq_refl (or_introl eq_refl) eq_refl eq_refl
           (fun _ => eq_refl) chain_store_keyed eq_refl ltac:(discriminate)).
Defined.

(** X7.  After such a pass the table has a row for every chain of the
    catalog and for every chain that had one, and every row still sits
    under its own chain id. *)
Theorem chain_table_covers_the_catalog :
  forall (d : Dao) (s : Store) (sta : ChainStatistic.t)
         (nowInId nowOutId polyCheckId : Z),
    GetNewChainSta d = (Some sta, None) ->
    GetNewDstTransaction d = (Some nowInId, None) ->
    GetNewSrcTransaction d = (Some nowOutId, None) ->
    GetPolyTransaction d = (Some polyCheckId, None) ->
    ChainStatistic.LastInCheckId sta < nowInId
    \/ ChainStatistic.LastOutCheckId sta < nowOutId ->
    GetChainStatistic_err d = None ->
    (GetChains d).2 = None ->
    (forall rows, SaveChainStatistics_err d rows = None) ->
    chain_keyed s ->
    chain_keyed (computeChainStatistics d s).1
    /\ (forall c, In c (GetChains d).1 -> is_Some ((computeChainStatistics d s).1 !! c))
    /\ (forall c, is_Some (s !! c) -> is_Some ((computeChainStatistics d s).1 !! c)).
Proof.
  intros d s sta nowInId nowOutId polyCheckId Hsta Hin Hout Hpoly Hguard Hload
         Hchains Hsave Hkeyed.
  rewrite (table_after_pass d s sta nowInId nowOutId polyCheckId) by assumption.
  split; [apply save_keyed, Hkeyed |]. split.
  - intros c Hc. apply save_is_Some.
    rewrite foldPolyRow_keys, List.map_map.
    erewrite List.map_ext by (intros x; apply foldChainRow_ChainId).
    rewrite List.map_app, in_app_iff.
    destruct (s !! c) as [r |] eqn:Hsc; [left; eauto | right; right].
    apply in_map_iff.
    exists (ChainStatistic.mk c 0 0 0 nowInId nowOutId). split; [reflexivity |].
    apply newChainStatistics_In. exists c. split; [exact Hc |].
    split; [| reflexivity].
    intros r Hr Heq. apply list_elem_of_In, list_elem_of_fmap in Hr as ([k r'] & -> & Hr).
    apply elem_of_map_to_list in Hr. cbn [snd] in Heq.
    rewrite (Hkeyed _ _ Hr) in Heq. congruence.
  - intros c Hc. apply save_is_Some. left. exact Hc.
Qed.

Lemma chain_table_covers_the_catalog_witness :
  ChainScenario.store !! 7 = None
  /\ is_Some ((computeChainStatistics MoreScenarios.hecoListed ChainScenario.store).1 !! 7).
Proof.
  split; [reflexivity |].
  destruct (chain_table_covers_the_catalog MoreScenarios.hecoListed ChainScenario.store
              ChainScenario.rowEth 9 20 130 eq_refl eq_refl eq_refl eq_refl
              (or_introl eq_refl) eq_refl eq_refl (fun _ => eq_refl) chain_store_keyed)
    as (_ & Hcatalog & _).
  apply Hcatalog. cbn. auto.
Defined.

End ChainRowsFacts.

(** ** Decimal arithmetic of the valuations *)

Lemma int32_small (p : Z) : 0 <= p < 2 ^ 31 -> int32 p = p.
Proof.
  intros Hp. unfold int32.
  rewrite Z.mod_small by (change (2 ^ 32) with (2 * 2 ^ 31); lia).
  destruct (Z.ltb_spec p (2 ^ 31)); lia.
Qed.

Lemma Div_by_zero (d d2 : decimal.Decimal) :
  decimal.value d2 = 0 -> decimal.Div d d2 = Panic "decimal division by 0".
Proof.
  intros Hz. unfold decimal.Div, decimal.DivRound, decimal.QuoRem.
  rewrite Hz. reflexivity.
Qed.

(** An integer divided by a power of ten of at most sixteen digits: the
    quotient is exact. *)
Lemma Div_pow10_exact (a p : Z) :
  0 <= p <= 16 ->
  decimal.Div (decimal.mkDecimal a 0) (decimal.mkDecimal 1 p)
  = Ok (decimal.mkDecimal (a * 10 ^ (16 - p)) (-16)).
Proof.
  intros Hp. unfold decimal.Div, decimal.DivRound, decimal.QuoRem.
  cbn [decimal.value decimal.exp]. unfold decimal.DivisionPrecision.
  change (1 =? 0) with false. cbv iota. change (Z.opp 16) with (-16).
  replace (0 - p - -16) with (16 - p) by lia.
  assert (Hrange : ((MaxInt32 <? 16 - p) || (16 - p <? MinInt32))%bool = false).
  { apply orb_false_iff. unfold MaxInt32, MinInt32. split; apply Z.ltb_ge; lia. }
  rewrite Hrange.
  destruct (Z.ltb_spec (16 - p) 0) as [| _]; [lia |].
  cbn [res_bind decimal.value decimal.exp].
  rewrite Z.quot_1_r, Z.rem_1_r. cbn [Z.abs Z.mul].
  unfold decimal.Cmp, decimal.RescalePair, decimal.Abs. cbn [decimal.value decimal.exp].
  replace (-16 + p + 16) with p by lia.
  rewrite Z.min_id. unfold decimal.rescale. cbn [decimal.value decimal.exp].
  rewrite Z.eqb_refl. cbn. reflexivity.
Qed.

(** A price divided by [PRICE_PRECISION]: exact as well. *)
Lemma Div_price_exact (price : Z) :
  decimal.Div (decimal.NewFromInt price) (decimal.NewFromInt basedef.PRICE_PRECISION)
  = Ok (decimal.mkDecimal (price * 10 ^ 8) (-16)).
Proof.
  unfold decimal.Div, decimal.DivRound, decimal.QuoRem, decimal.NewFromInt,
    basedef.PRICE_PRECISION.
  cbn [decimal.value decimal.exp]. unfold decimal.DivisionPrecision.
  change (100000000 =? 0) with false. cbv iota. change (Z.opp 16) with (-16).
  change (0 - 0 - -16) with 16.
  change ((MaxInt32 <? 16) || (16 <? MinInt32))%bool with false.
  change (16 <? 0) with false. cbv iota.
  cbn [res_bind decimal.value decimal.exp].
  assert (Hq : Z.quot (price * 10 ^ 16) 100000000 = price * 10 ^ 8).
  { change (10 ^ 16) with (10 ^ 8 * 100000000). rewrite Z.mul_assoc.
    apply Z.quot_mul. discriminate. }
  assert (Hr : Z.rem (price * 10 ^ 16) 100000000 = 0).
  { change (10 ^ 16) with (10 ^ 8 * 100000000). rewrite Z.mul_assoc.
    apply Z.rem_mul. discriminate. }
  rewrite Hq, Hr. reflexivity.
Qed.

Lemma quot_scaled_sum (x old c : Z) :
  0 <= x -> 0 <= old -> 0 < c ->
  Z.quot (x + old * c) c = old + x / c.
Proof.
  intros Hx Hold Hc.
  rewrite Z.quot_div_nonneg by nia.
  rewrite Z.div_add by lia. lia.
Qed.

Lemma rescale_refl (v e : Z) :
  decimal.rescale (decimal.mkDecimal v e) e = decimal.mkDecimal v e.
Proof. unfold decimal.rescale. cbn [decimal.exp]. rewrite Z.eqb_refl. reflexivity. Qed.

(** An integer brought to a negative exponent. *)
Lemma rescale_int_down (v e : Z) :
  e < 0 ->
  decimal.rescale (decimal.mkDecimal v 0) e = decimal.mkDecimal (v * 10 ^ (- e)) e.
Proof.
  intros He. unfold decimal.rescale. cbn [decimal.exp decimal.value].
  destruct (Z.eqb_spec 0 e) as [| _]; [lia |].
  destruct (Z.ltb_spec 0 e) as [| _]; [lia |].
  rewrite Z.sub_0_r, Z.abs_neq by lia. reflexivity.
Qed.

(** The integer part of a decimal with a negative exponent. *)
Lemma BigInt_negative_exp (v e : Z) :
  e < 0 ->
  decimal.BigInt (decimal.mkDecimal v e) = Z.quot v (10 ^ (- e)).
Proof.
  intros He. unfold decimal.BigInt, decimal.rescale. cbn [decimal.exp decimal.value].
  destruct (Z.eqb_spec e 0) as [| _]; [lia |].
  destruct (Z.ltb_spec e 0) as [_ |]; [| lia].
  cbn [decimal.value]. rewrite Z.sub_0_l, Z.abs_eq by lia. reflexivity.
Qed.

(** [d.Mul(k).Add(old).BigInt()] for a decimal with a negative exponent
    and integers [k] and [old]. *)
Lemma BigInt_scaled_sum (v e old k : Z) :
  e < 0 ->
  decimal.BigInt
    (decimal.Add (decimal.Mul (decimal.mkDecimal v e) (decimal.mkDecimal k 0))
                 (decimal.mkDecimal old 0))
  = Z.quot (v * k + old * 10 ^ (- e)) (10 ^ (- e)).
Proof.
  intros He. unfold decimal.Mul. cbn [decimal.exp decimal.value].
  rewrite Z.add_0_r. unfold decimal.Add, decimal.RescalePair.
  cbn [decimal.exp decimal.value]. rewrite Z.min_l by lia.
  rewrite rescale_refl, rescale_int_down by exact He.
  cbn [decimal.exp decimal.value]. apply BigInt_negative_exp, He.
Qed.

(** A decimal brought to a greater exponent: the digits that do not fit
    are cut off. *)
Lemma rescale_up (v e e' : Z) :
  e < e' ->
  decimal.rescale (decimal.mkDecimal v e) e'
  = decimal.mkDecimal (Z.quot v (10 ^ (e' - e))) e'.
Proof.
  intros He. unfold decimal.rescale. cbn [decimal.exp decimal.value].
  destruct (Z.eqb_spec e e') as [| _]; [lia |].
  destruct (Z.ltb_spec e e') as [_ |]; [| lia].
  rewrite Z.abs_eq by lia. reflexivity.
Qed.

(** ** The asset-statistics pass *)

Module AssetRowsFacts.
Import AssetPass.
Import AssetPassFacts.

(** X8.  One group of the range query of the asset pass, with a
    precision of at most 16, non-negative figures and a BTC price above
    zero, is folded into the row as follows: [Amount] grows by the amount
    in hundredths of a unit, [AmountUsd] by the value in ten-thousandths
    of a dollar (both cut off below), [Txnum] by the number of transfers
    modulo [2 ^ 64], [AmountBtc] does not shrink, and the name, the
    address count and the cursor stay. *)
Theorem asset_group_is_added_in_fixed_units :
  forall (btcp : Z) (old : AssetStatistic.t) (info : AssetInfo.t),
    0 < btcp ->
    0 <= AssetInfo.Amount info ->
    0 <= AssetInfo.Precision info <= 16 ->
    0 <= AssetInfo.Price info ->
    0 <= AssetStatistic.Amount old ->
    0 <= AssetStatistic.AmountUsd old ->
    0 <= AssetStatistic.AmountBtc old ->
    exists BTCPrice row,
      decimal.Div (decimal.NewFromInt btcp) (decimal.NewFromInt basedef.PRICE_PRECISION)
      = Ok BTCPrice
      /\ foldAssetInfo BTCPrice old info = Ok row
      /\ AssetStatistic.Amount row
         = AssetStatistic.Amount old
           + AssetInfo.Amount info * 100 / 10 ^ AssetInfo.Precision info
      /\ AssetStatistic.AmountUsd row
         = AssetStatistic.AmountUsd old
           + AssetInfo.Amount info * AssetInfo.Price info
             / 10 ^ (AssetInfo.Precision info + 4)
      /\ AssetStatistic.AmountBtc old <= AssetStatistic.AmountBtc row
      /\ AssetStatistic.Txnum row
         = (AssetStatistic.Txnum old + AssetInfo.Txnum info) mod 2 ^ 64
      /\ AssetStatistic.TokenBasicName row = AssetStatistic.TokenBasicName old
      /\ AssetStatistic.Addressnum row = AssetStatistic.Addressnum old
      /\ AssetStatistic.LastCheckId row = AssetStatistic.LastCheckId old.
Proof.
  intros btcp [name addrs txnum amount amountUsd amountBtc cursor]
         [a p price n] Hbtc Ha Hp Hprice Hamount Husd Hbtcold.
  cbn [AssetInfo.Amount AssetInfo.Precision AssetInfo.Price AssetInfo.Txnum
       AssetStatistic.Amount AssetStatistic.AmountUsd AssetStatistic.AmountBtc
       AssetStatistic.Txnum AssetStatistic.TokenBasicName AssetStatistic.Addressnum
       AssetStatistic.LastCheckId] in *.
  set (real := a * 10 ^ (16 - p)).
  assert (Hreal : 0 <= real) by (subst real; apply Z.mul_nonneg_nonneg; [lia |]; apply Z.pow_nonneg; lia).
  set (U := real * (price * 10 ^ 8)).
  assert (HU : 0 <= U) by (subst U; apply Z.mul_nonneg_nonneg; lia).
  (* the quotient by the BTC price *)
  destruct (decimal.Div (decimal.Mul (decimal.mkDecimal real (-16))
                                     (decimal.mkDecimal (price * 10 ^ 8) (-16)))
                        (decimal.mkDecimal (btcp * 10 ^ 8) (-16)))
    as [amount_btc | m] eqn:Hdiv.
  2:{ exfalso. revert Hdiv.
      unfold decimal.Div, decimal.DivRound, decimal.QuoRem, decimal.Mul.
      cbn [decimal.value decimal.exp]. unfold decimal.DivisionPrecision.
      destruct (Z.eqb_spec (btcp * 10 ^ 8) 0) as [Hz | _]; [lia |].
      change (Z.opp 16) with (-16).
      change (-16 + -16 - -16 - -16) with 0.
      change ((MaxInt32 <? 0) || (0 <? MinInt32))%bool with false.
      change (0 <? 0) with false. cbv iota. cbn [res_bind].
      repeat case_if; discriminate. }
  cbn [res_bind].
  assert (Hbtcq : decimal.exp amount_btc = -16 /\ 0 <= decimal.value amount_btc).
  { revert Hdiv.
    unfold decimal.Div, decimal.DivRound, decimal.QuoRem, decimal.Mul.
    cbn [decimal.value decimal.exp]. unfold decimal.DivisionPrecision.
    destruct (Z.eqb_spec (btcp * 10 ^ 8) 0) as [Hz | _]; [lia |].
    change (Z.opp 16) with (-16).
    change (-16 + -16 - -16 - -16) with 0.
    change ((MaxInt32 <? 0) || (0 <? MinInt32))%bool with false.
    change (0 <? 0) with false. cbv iota. cbn [res_bind].
    fold U. rewrite Z.pow_0_r, Z.mul_1_r.
    assert (Hq : 0 <= Z.quot U (btcp * 10 ^ 8)) by (apply Z.quot_pos; lia).
    assert (Hsgn : (Z.sgn U * Z.sgn (btcp * 10 ^ 8) <? 0) = false).
    { apply Z.ltb_ge. apply Z.mul_nonneg_nonneg; apply Z.sgn_nonneg; lia. }
    rewrite Hsgn.
    case_if; intros [= <-]; cbn [decimal.exp decimal.value].
    - split; [reflexivity | exact Hq].
    - unfold decimal.Add, decimal.RescalePair, decimal.New.
      cbn [decimal.exp decimal.value]. rewrite Z.min_id, !rescale_same.
      cbn [decimal.exp decimal.value]. split; [reflexivity | lia]. }
  destruct amount_btc as [vb eb]. cbn [decimal.exp decimal.value] in Hbtcq.
  destruct Hbtcq as [-> Hvb].
  eexists. eexists. split; [apply Div_price_exact |].
  unfold foldAssetInfo.
  cbn [AssetInfo.Amount AssetInfo.Precision AssetInfo.Price AssetInfo.Txnum
       AssetStatistic.Amount AssetStatistic.AmountUsd AssetStatistic.AmountBtc
       AssetStatistic.Txnum AssetStatistic.TokenBasicName AssetStatistic.Addressnum
       AssetStatistic.LastCheckId].
  rewrite int32_small by (change (2 ^ 31) with 2147483648; lia).
  unfold decimal.NewFromBigInt at 1. unfold decimal.New at 1.
  rewrite Div_pow10_exact by exact Hp. cbn [res_bind].
  rewrite Div_price_exact. cbn [res_bind].
  fold real. rewrite Hdiv. cbn [res_bind].
  split; [reflexivity |].
  cbn [AssetStatistic.Amount AssetStatistic.AmountUsd AssetStatistic.AmountBtc
       AssetStatistic.Txnum AssetStatistic.TokenBasicName AssetStatistic.Addressnum
       AssetStatistic.LastCheckId].
  unfold decimal.New, decimal.NewFromBigInt.
  repeat split.
  - rewrite BigInt_scaled_sum by lia. change (- -16) with 16.
    rewrite quot_scaled_sum by (try apply Z.mul_nonneg_nonneg; lia).
    f_equal. subst real.
    replace (a * 10 ^ (16 - p) * 100) with (a * 100 * 10 ^ (16 - p)) by ring.
    replace (10 ^ 16) with (10 ^ p * 10 ^ (16 - p))
      by (rewrite <- Z.pow_add_r by lia; f_equal; lia).
    apply Z.div_mul_cancel_r; apply Z.pow_nonzero; lia.
  - unfold decimal.Mul at 2. cbn [decimal.exp decimal.value]. fold U.
    change (-16 + -16) with (-32).
    rewrite BigInt_scaled_sum by lia. change (- -32) with 32.
    rewrite quot_scaled_sum by (try apply Z.mul_nonneg_nonneg; lia).
    f_equal. subst U real.
    replace (a * 10 ^ (16 - p) * (price * 10 ^ 8) * 10000)
      with (a * price * (10 ^ (16 - p) * 10 ^ 12)) by (change (10 ^ 12) with (10 ^ 8 * 10000); ring).
    rewrite <- Z.pow_add_r by lia.
    replace (10 ^ 32) with (10 ^ (p + 4) * 10 ^ (16 - p + 12))
      by (rewrite <- Z.pow_add_r by lia; f_equal; lia).
    apply Z.div_mul_cancel_r; apply Z.pow_nonzero; lia.
  - rewrite BigInt_scaled_sum by lia. change (- -16) with 16.
    rewrite quot_scaled_sum by (try apply Z.mul_nonneg_nonneg; lia).
    assert (0 <= vb * 10000 / 10 ^ 16) by (apply Z.div_pos; lia).
    lia.
Qed.


Lemma asset_group_is_added_in_fixed_units_witness :
  exists BTCPrice row,
    decimal.Div (decimal.NewFromInt 3000000000000)
                (decimal.NewFromInt basedef.PRICE_PRECISION) = Ok BTCPrice
    /\ foldAssetInfo BTCPrice AssetScenario.rowA (AssetInfo.mk 500 2 100000000 1) = Ok row
    /\ AssetStatistic.Amount row = 100 + 500 * 100 / 10 ^ 2
    /\ AssetStatistic.AmountUsd row = 0 + 500 * 100000000 / 10 ^ (2 + 4).
Proof.
  destruct (asset_group_is_added_in_fixed_units 3000000000000 AssetScenario.rowA
              (AssetInfo.mk 500 2 100000000 1))
    as (BTCPrice & row & H1 & H2 & H3 & H4 & _); cbn; try lia.
  exists BTCPrice, row. auto.
Defined.

(** A division by a BTC price of zero. *)
Lemma foldAssetInfo_zero_price BTCPrice old info :
  decimal.value BTCPrice = 0 ->
  exists m, foldAssetInfo BTCPrice old info = Panic m.
Proof.
  intros Hz. unfold foldAssetInfo.
  destruct (decimal.Div _ _) as [real_amount | m]; cbn [res_bind]; [| eauto].
  destruct (decimal.Div _ _) as [price_new | m]; cbn [res_bind]; [| eauto].
  rewrite (Div_by_zero _ BTCPrice Hz). cbn [res_bind]. eauto.
Qed.

Lemma assetRow_zero_price d nowId BTCPrice old :
  decimal.value BTCPrice = 0 ->
  (CalculateAssets d (AssetStatistic.TokenBasicName old)
     (AssetStatistic.LastCheckId old) nowId).1 <> [] ->
  exists m, assetRow d nowId BTCPrice old = Panic m.
Proof.
  intros Hz Hinfos. unfold assetRow.
  destruct (CalculateAssets d _ _ nowId) as [[| info infos] e]; cbn [fst] in Hinfos;
    [contradiction |].
  cbn [foldAssetInfos].
  destruct (foldAssetInfo_zero_price BTCPrice old info Hz) as [m ->].
  cbn [res_bind]. eauto.
Qed.

Lemma saveLoop_zero_price d nowId BTCPrice rows old :
  decimal.value BTCPrice = 0 ->
  In old rows ->
  (CalculateAssets d (AssetStatistic.TokenBasicName old)
     (AssetStatistic.LastCheckId old) nowId).1 <> [] ->
  forall s : Store,
    (saveLoop d nowId BTCPrice rows s).2 <> Returned None
    /\ ((forall r, SaveAssetStatistic_err d r = None) ->
        exists m, (saveLoop d nowId BTCPrice rows s).2 = Panicked m).
Proof.
  intros Hz Hin Hinfos.
  induction rows as [| row rows IH]; intros s; [destruct Hin |].
  cbn [saveLoop].
  destruct Hin as [-> | Hin].
  - destruct (assetRow_zero_price d nowId BTCPrice old Hz Hinfos) as [m ->].
    cbn [snd]. split; [discriminate | eauto].
  - destruct (assetRow d nowId BTCPrice row) as [row' | m]; cbn [snd];
      [| split; [discriminate | eauto]].
    unfold SaveAssetStatistic.
    destruct (SaveAssetStatistic_err d row') as [e |] eqn:Hsave; cbn [snd].
    + split; [discriminate |]. intros Hall. rewrite Hall in Hsave. discriminate Hsave.
    + apply IH, Hin.
Qed.

(** X9.  With a BTC price of zero in the catalog the asset pass cannot
    get past a row of the table that has something new in the ledger:
    the valuation in BTC divides by the price.  The pass does not return
    nil, and when the catalog and the table can be read and every save
    succeeds it ends in the panic of the division. *)
Theorem zero_btc_price_stops_the_asset_pass :
  forall (d : Dao) (s : Store) (nowId : Z) (btc : TokenBasic) (k : string)
         (row : AssetStatistic.t),
    GetNewSrcTransfer d = (Some nowId, None) ->
    GetBTCPrice d = (Some btc, None) ->
    TokenBasic_Price btc = 0 ->
    s !! k = Some row ->
    (CalculateAssets d (AssetStatistic.TokenBasicName row)
       (AssetStatistic.LastCheckId row) nowId).1 <> [] ->
    (computeAssetStatistics d s).2 <> Returned None
    /\ ((GetTokenBasics d).2 = None ->
        GetAssetStatistic_err d = None ->
        (forall r, SaveAssetStatistic_err d r = None) ->
        exists m, (computeAssetStatistics d s).2 = Panicked m).
Proof.
  intros d s nowId btc k row Hsrc Hbtc Hzero Hrow Hinfos.
  unfold computeAssetStatistics. rewrite Hsrc. cbn [deref].
  destruct (GetTokenBasics d) as [tokenBasics [e |]]; cbn [snd].
  { split; [discriminate | intros [=]]. }
  unfold GetAssetStatistic.
  destruct (GetAssetStatistic_err d) as [e |]; cbn [snd].
  { split; [discriminate | intros _ [=]]. }
  rewrite Hbtc. cbn [deref]. rewrite Hzero.
  rewrite Div_price_exact.
  destruct (saveLoop_zero_price d nowId (decimal.mkDecimal (0 * 10 ^ 8) (-16))
              ((map_to_list s).*2
               ++ newAssetStatistics (nameMap tokenBasics (map_to_list s).*2))
              row eq_refl) with (s := s) as [Hne Hpanic].
  - apply in_app_iff. left. apply list_elem_of_In, list_elem_of_fmap.
    exists (k, row). split; [reflexivity |]. apply elem_of_map_to_list, Hrow.
  - exact Hinfos.
  - split; [exact Hne | intros _ _ Hall; apply Hpanic, Hall].
Qed.

Lemma zero_btc_price_stops_the_asset_pass_witness :
  exists m,
    (computeAssetStatistics MoreScenarios.zeroBtc AssetScenario.store).2 = Panicked m.
Proof.
  destruct (zero_btc_price_stops_the_asset_pass MoreScenarios.zeroBtc AssetScenario.store
              20 (mkTokenBasic "WBTC" 8 0 0 2 []) "AAA" AssetScenario.rowA
              eq_refl eq_refl eq_refl eq_refl) as [_ Hpanic].
  - cbn. discriminate.
  - apply Hpanic; [reflexivity | reflexivity | intros r; reflexivity].
Defined.

(** What a completed loop over the rows leaves in the table. *)
Lemma saveLoop_completed d nowId BTCPrice rows :
  forall s s' : Store,
    saveLoop d nowId BTCPrice rows s = (s', Returned None) ->
    forall k,
      (In k (List.map AssetStatistic.TokenBasicName rows) ->
       exists r, s' !! k = Some r
                 /\ AssetStatistic.TokenBasicName r = k
                 /\ AssetStatistic.LastCheckId r = nowId)
      /\ (~ In k (List.map AssetStatistic.TokenBasicName rows) -> s' !! k = s !! k).
Proof.
  induction rows as [| row rows IH]; intros s s' Hloop k; cbn [saveLoop] in Hloop.
  - injection Hloop as <-. split; [intros [] | reflexivity].
  - destruct (assetRow d nowId BTCPrice row) as [row' | m] eqn:Hrow; [| discriminate].
    destruct (assetRow_name _ _ _ _ _ Hrow) as [Hname Hcur].
    unfold SaveAssetStatistic in Hloop.
    destruct (SaveAssetStatistic_err d row') as [e |]; [discriminate |].
    destruct (IH _ _ Hloop k) as [IHin IHout]. cbn [List.map In].
    destruct (in_dec String.string_dec k (List.map AssetStatistic.TokenBasicName rows))
      as [Hk | Hk].
    + split; [intros _; apply IHin, Hk | intros Hnot; exfalso; apply Hnot; right; exact Hk].
    + rewrite (IHout Hk). split.
      * intros [Heq | Hin]; [| contradiction].
        exists row'. rewrite Hname, Heq. rewrite lookup_insert_eq. rewrite <- Heq. auto.
      * intros Hnot. apply lookup_insert_ne. rewrite Hname. tauto.
Qed.

(** X10.  When a pass of the asset statistics returns nil, on a table
    whose rows sit under their own names, every row of the table has its
    cursor at the newest source transfer and sits under its own name,
    every family of standard 0 of the catalog has a row, and every name
    that had a row still has one. *)
Theorem completed_asset_pass_settles_the_table :
  forall (d : Dao) (s s' : Store) (nowId : Z),
    GetNewSrcTransfer d = (Some nowId, None) ->
    asset_keyed s ->
    computeAssetStatistics d s = (s', Returned None) ->
    asset_settled nowId s'
    /\ (forall basic,
           In basic (GetTokenBasics d).1 ->
           TokenBasic_Standard basic = 0 ->
           is_Some (s' !! TokenBasic_Name basic))
    /\ (forall k, is_Some (s !! k) -> is_Some (s' !! k)).
Proof.
  intros d s s' nowId Hsrc Hkeyed Hpass.
  unfold computeAssetStatistics in Hpass. rewrite Hsrc in Hpass. cbn [deref] in Hpass.
  destruct (GetTokenBasics d) as [tokenBasics [e |]]; [discriminate |].
  unfold GetAssetStatistic in Hpass.
  destruct (GetAssetStatistic_err d) as [e |]; [discriminate |].
  destruct (GetBTCPrice d) as [btc [e |]]; [discriminate |].
  destruct btc as [btc |]; cbn [deref] in Hpass; [| discriminate].
  destruct (decimal.Div _ _) as [BTCPrice | m]; [| discriminate].
  pose proof (saveLoop_completed _ _ _ _ _ _ Hpass) as Hdone.
  set (loaded := (map_to_list s).*2) in *.
  assert (Hloaded : forall k r, s !! k = Some r ->
            In k (List.map AssetStatistic.TokenBasicName
                    (loaded ++ newAssetStatistics (nameMap tokenBasics loaded)))).
  { intros k r Hk. apply in_map_iff. exists r. split; [apply Hkeyed, Hk |].
    apply in_app_iff. left. apply list_elem_of_In, list_elem_of_fmap.
    exists (k, r). split; [reflexivity |]. apply elem_of_map_to_list, Hk. }
  assert (Hin : forall k, is_Some (s' !! k) ->
            In k (List.map AssetStatistic.TokenBasicName
                    (loaded ++ newAssetStatistics (nameMap tokenBasics loaded)))).
  { intros k [r Hk].
    destruct (in_dec String.string_dec k
                (List.map AssetStatistic.TokenBasicName
                   (loaded ++ newAssetStatistics (nameMap tokenBasics loaded))))
      as [Hyes | Hno]; [exact Hyes |].
    destruct (Hdone k) as [_ Hout]. rewrite (Hout Hno) in Hk.
    exfalso. apply Hno. eapply Hloaded, Hk. }
  cbn [fst]. split; [| split].
  - intros k r Hk. destruct (Hdone k) as [Hdone_in _].
    destruct (Hdone_in (Hin k (mk_is_Some _ _ Hk))) as (r' & Hr' & Hname & Hcur).
    rewrite Hk in Hr'. injection Hr' as <-. auto.
  - intros basic Hbasic Hstd. destruct (Hdone (TokenBasic_Name basic)) as [Hdone_in _].
    destruct Hdone_in as (r & Hr & _); [| eauto].
    apply in_map_iff.
    destruct (in_dec String.string_dec (TokenBasic_Name basic)
                (List.map AssetStatistic.TokenBasicName loaded)) as [Hold | Hnew].
    + apply in_map_iff in Hold as (r & Hname & Hr).
      exists r. split; [exact Hname | apply in_app_iff; left; exact Hr].
    + exists (AssetStatistic.mk (TokenBasic_Name basic) 0 0 0 0 0 0).
      split; [reflexivity |]. apply in_app_iff. right.
      apply newAssetStatistics_In. exists basic.
      split; [exact Hbasic |]. split; [exact Hstd |]. split; [| reflexivity].
      intros r Hr Heq. apply Hnew. apply in_map_iff. exists r. auto.
  - intros k [r Hk]. destruct (Hdone k) as [Hdone_in _].
    destruct (Hdone_in (Hloaded _ _ Hk)) as (r' & Hr' & _). eauto.
Qed.

Lemma asset_store_keyed : asset_keyed AssetScenario.store.
Proof.
  intros k r H. unfold AssetScenario.store in H.
  apply lookup_insert_Some in H as [[<- <-] | [_ H]]; [reflexivity |].
  apply lookup_insert_Some in H as [[<- <-] | [_ H]]; [reflexivity |].
  rewrite lookup_empty in H. discriminate H.
Defined.

Lemma completed_asset_pass_settles_the_table_witness :
  AssetScenario.store !! "FOO" = None
  /\ asset_settled 20 (computeAssetStatistics MoreScenarios.fooListed AssetScenario.store).1
  /\ is_Some ((computeAssetStatistics MoreScenarios.fooListed AssetScenario.store).1
                !! "FOO").
Proof.
  assert (Hpass : computeAssetStatistics MoreScenarios.fooListed AssetScenario.store
                  = ((computeAssetStatistics MoreScenarios.fooListed
                        AssetScenario.store).1, Returned None)).
  { rewrite (surjective_pairing (computeAssetStatistics _ _)) at 1.
    f_equal; vm_compute; reflexivity. }
  destruct (completed_asset_pass_settles_the_table MoreScenarios.fooListed
              AssetScenario.store _ 20 eq_refl asset_store_keyed Hpass)
    as (Hsettled & Hcatalog & _).
  split; [reflexivity |]. split; [exact Hsettled |].
  apply (Hcatalog Scenario.foo); [left; reflexivity | reflexivity].
Defined.

End AssetRowsFacts.

(** ** Amounts in hundredths of a unit *)

(** An integer divided by a power of ten of more than sixteen digits: the
    quotient is rounded at the sixteenth digit. *)
Lemma Div_pow10_rounded (a p : Z) :
  16 < p < 2 ^ 31 ->
  0 <= a ->
  exists q,
    decimal.Div (decimal.mkDecimal a 0) (decimal.mkDecimal 1 p)
    = Ok (decimal.mkDecimal q (-16))
    /\ a / 10 ^ (p - 16) <= q <= a / 10 ^ (p - 16) + 1.
Proof.
  intros Hp Ha. change (2 ^ 31) with 2147483648 in Hp.
  unfold decimal.Div, decimal.DivRound, decimal.QuoRem.
  cbn [decimal.value decimal.exp]. unfold decimal.DivisionPrecision.
  change (1 =? 0) with false. cbv iota. change (Z.opp 16) with (-16).
  replace (0 - p - -16) with (16 - p) by lia.
  assert (Hrange : ((MaxInt32 <? 16 - p) || (16 - p <? MinInt32))%bool = false).
  { apply orb_false_iff. unfold MaxInt32, MinInt32. split; apply Z.ltb_ge; lia. }
  rewrite Hrange.
  destruct (Z.ltb_spec (16 - p) 0) as [_ |]; [| lia].
  replace (- (16 - p)) with (p - 16) by lia. rewrite Z.mul_1_l.
  cbn [res_bind decimal.value decimal.exp].
  set (B := 10 ^ (p - 16)).
  assert (HB : 0 < B) by (subst B; apply Z.pow_pos_nonneg; lia).
  rewrite Z.quot_div_nonneg by lia.
  assert (Hsgn : (Z.sgn a * Z.sgn 1 <? 0) = false).
  { apply Z.ltb_ge. apply Z.mul_nonneg_nonneg; [apply Z.sgn_nonneg; lia | cbn; lia]. }
  rewrite Hsgn.
  case_if.
  - eexists. split; [reflexivity | lia].
  - eexists. split.
    + unfold decimal.Add, decimal.RescalePair, decimal.New.
      cbn [decimal.exp decimal.value]. rewrite Z.min_id, !rescale_refl.
      cbn [decimal.exp decimal.value]. reflexivity.
    + lia.
Qed.

(** X11.  [amount.Div(precision_new).Mul(100).BigInt()], the figure that
    the token pass stores for a raw amount of a token with [p] decimals:
    it is the amount in hundredths of a unit, cut off towards zero, when
    [p] is at most 16.  Beyond that the quotient is rounded at the
    sixteenth digit before it is cut off, so for a non-negative amount
    the figure is the amount in hundredths, cut off, or one more. *)
Theorem scaled_amount_is_in_hundredths :
  forall (amount p : Z),
    0 <= p < 2 ^ 31 ->
    exists r,
      TokenPass.scaleAmount (decimal.New 1 (int32 p)) amount = Ok r
      /\ (p <= 16 -> r = Z.quot (amount * 100) (10 ^ p))
      /\ (0 <= amount -> amount * 100 / 10 ^ p <= r <= amount * 100 / 10 ^ p + 1).
Proof.
  intros a p Hp. rewrite int32_small by exact Hp.
  unfold TokenPass.scaleAmount, decimal.NewFromBigInt, decimal.New, decimal.NewFromInt32.
  change (2 ^ 31) with 2147483648 in Hp.
  destruct (Z.le_gt_cases p 16) as [Hle | Hgt].
  - rewrite Div_pow10_exact by lia. cbn [res_bind].
    unfold decimal.Mul. cbn [decimal.value decimal.exp]. change (-16 + 0) with (-16).
    rewrite BigInt_negative_exp by lia. change (- -16) with 16.
    assert (Hexact : Z.quot (a * 10 ^ (16 - p) * 100) (10 ^ 16)
                     = Z.quot (a * 100) (10 ^ p)).
    { replace (a * 10 ^ (16 - p) * 100) with (a * 100 * 10 ^ (16 - p)) by ring.
      replace (10 ^ 16) with (10 ^ p * 10 ^ (16 - p))
        by (rewrite <- Z.pow_add_r by lia; f_equal; lia).
      apply Z.quot_mul_cancel_r; apply Z.pow_nonzero; lia. }
    eexists. split; [reflexivity |]. split; [intros _; exact Hexact |].
    intros Ha. rewrite Hexact.
    rewrite Z.quot_div_nonneg by (try apply Z.pow_pos_nonneg; lia). lia.
  - destruct (Z.le_gt_cases 0 a) as [Ha | Ha].
    + destruct (Div_pow10_rounded a p ltac:(change (2 ^ 31) with 2147483648; lia) Ha)
        as (q & -> & Hq).
      cbn [res_bind]. unfold decimal.Mul. cbn [decimal.value decimal.exp].
      change (-16 + 0) with (-16).
      rewrite BigInt_negative_exp by lia. change (- -16) with 16.
      eexists. split; [reflexivity |]. split; [lia |]. intros _.
      set (B := 10 ^ (p - 16)) in *.
      assert (HB : 0 < B) by (subst B; apply Z.pow_pos_nonneg; lia).
      assert (Hq0 : 0 <= a / B) by (apply Z.div_pos; lia).
      rewrite Z.quot_div_nonneg by lia.
      assert (Hexact : a * 100 / 10 ^ p = a / B / 10 ^ 14).
      { rewrite Z.div_div by lia.
        replace (10 ^ p) with (B * 10 ^ 14 * 100).
        - apply Z.div_mul_cancel_r; lia.
        - subst B. change 100 with (10 ^ 2). rewrite <- !Z.pow_add_r by lia.
          f_equal. lia. }
      assert (Hr : q * 100 / 10 ^ 16 = q / 10 ^ 14).
      { change (10 ^ 16) with (10 ^ 14 * 100). apply Z.div_mul_cancel_r; lia. }
      rewrite Hexact, Hr. split.
      * apply Z.div_le_mono; lia.
      * transitivity ((a / B + 1 * 10 ^ 14) / 10 ^ 14).
        -- apply Z.div_le_mono; lia.
        -- rewrite Z.div_add by lia. lia.
    + destruct (Div_Ok (decimal.mkDecimal a 0) (decimal.mkDecimal 1 p)) as [q ->].
      * cbn. discriminate.
      * cbn [decimal.exp]. unfold MinInt32, MaxInt32, decimal.DivisionPrecision. lia.
      * cbn [res_bind]. eexists. split; [reflexivity |]. split; lia.
Qed.

Lemma scaled_amount_is_in_hundredths_witness :
  TokenPass.scaleAmount (decimal.New 1 (int32 18)) 999999999999999950 = Ok 100
  /\ 999999999999999950 * 100 / 10 ^ 18 = 99
  /\ exists r,
      TokenPass.scaleAmount (decimal.New 1 (int32 18)) 999999999999999950 = Ok r
      /\ 999999999999999950 * 100 / 10 ^ 18 <= r
         <= 999999999999999950 * 100 / 10 ^ 18 + 1.
Proof.
  split; [vm_compute; reflexivity |]. split; [reflexivity |].
  destruct (scaled_amount_is_in_hundredths 999999999999999950 18 ltac:(lia))
    as (r & Hr & _ & Hbound).
  exists r. split; [exact Hr | apply Hbound; lia].
Defined.

(** ** The chain-address pass *)

Lemma wrapInt64_idemp_l (a b : Z) : wrapInt64 (wrapInt64 a + b) = wrapInt64 (a + b).
Proof.
  unfold wrapInt64.
  replace ((a + 2 ^ 63) mod 2 ^ 64 - 2 ^ 63 + b + 2 ^ 63)
    with ((a + 2 ^ 63) mod 2 ^ 64 + b) by lia.
  rewrite Zplus_mod_idemp_l. f_equal. f_equal. lia.
Qed.

Lemma wrapInt64_id (x : Z) : is_int64 x -> wrapInt64 x = x.
Proof.
  unfold is_int64, wrapInt64. intros Hx.
  rewrite Z.mod_small by (change (2 ^ 64) with (2 * 2 ^ 63); lia). lia.
Qed.

Module ChainAssetsFacts.
Import ChainPass.
Import ChainAssetsPass.
Import RelayRowFacts.
Import ChainRowsFacts.

Lemma addressRow_ChainId computed total r :
  ChainStatistic.ChainId (addressRow computed total r) = ChainStatistic.ChainId r.
Proof. reflexivity. Qed.

Lemma addressLoop_total computed rows :
  forall p,
    (addressLoop computed rows (wrapInt64 p)).2
    = wrapInt64 (p + addressTotal computed rows).
Proof.
  induction rows as [| r rows IH]; intros p; cbn [addressLoop addressTotal foldr].
  - cbn [snd]. f_equal. lia.
  - fold (addressTotal computed rows).
    destruct (ChainStatistic.ChainId r =? POLY).
    + specialize (IH p). destruct (addressLoop computed rows (wrapInt64 p)) as [rest' p'].
      exact IH.
    + destruct (findChain (ChainStatistic.ChainId r) computed) as [x |].
      * rewrite wrapInt64_idemp_l.
        specialize (IH (p + ChainStatistic.Addresses x)).
        destruct (addressLoop computed rows _) as [rest' p']. cbn [snd] in *.
        rewrite IH. f_equal. lia.
      * specialize (IH p). destruct (addressLoop computed rows (wrapInt64 p)) as [rest' p'].
        exact IH.
Qed.

Lemma addressLoop_rows computed rows total :
  forall p,
    List.map (setPolyAddress total) (addressLoop computed rows p).1
    = List.map (addressRow computed total) rows.
Proof.
  induction rows as [| r rows IH]; intros p; cbn [addressLoop List.map].
  - reflexivity.
  - unfold addressRow at 1.
    destruct (Z.eqb_spec (ChainStatistic.ChainId r) POLY) as [Hr | Hr];
      [| destruct (findChain (ChainStatistic.ChainId r) computed) as [x |]];
      match goal with
      | |- context [addressLoop computed rows ?q] =>
          specialize (IH q); destruct (addressLoop computed rows q) as [rest' p']
      end;
      cbn [fst List.map] in *; rewrite IH; f_equal; unfold setPolyAddress;
      cbn [with_Addresses ChainStatistic.ChainId];
      destruct (Z.eqb_spec (ChainStatistic.ChainId r) POLY); try contradiction;
      try reflexivity.
    destruct r; reflexivity.
Qed.

Lemma saved_rows_lookup (s : Store) (g : ChainStatistic.t -> ChainStatistic.t) c :
  (forall r, ChainStatistic.ChainId (g r) = ChainStatistic.ChainId r) ->
  chain_keyed s ->
  foldl save s (List.map g (map_to_list s).*2) !! c = g <$> s !! c.
Proof.
  intros Hg Hkeyed.
  destruct (s !! c) as [r |] eqn:Hc; cbn [fmap option_fmap option_map].
  - destruct (loaded_rows_split_at s c r Hkeyed Hc) as (l1 & l2 & -> & Hl1 & Hl2).
    rewrite List.map_app. cbn [List.map].
    pose proof (Hkeyed _ _ Hc) as Hid. rewrite <- (Hg r) in Hid.
    rewrite <- Hid. apply save_last.
    intros x Hx. apply list_elem_of_In, in_map_iff in Hx as (y & <- & Hy).
    rewrite !Hg. rewrite Hg in Hid. rewrite Hid.
    apply Hl2, list_elem_of_In, Hy.
  - rewrite save_other; [exact Hc |].
    intros x Hx. apply list_elem_of_In, in_map_iff in Hx as (y & <- & Hy).
    rewrite Hg. apply list_elem_of_In, list_elem_of_fmap in Hy as ([k r] & -> & Hy).
    apply elem_of_map_to_list in Hy. cbn [snd]. rewrite (Hkeyed _ _ Hy).
    intros ->. congruence.
Qed.

(** X12.  A pass of the chain addresses whose query, table read and batch
    save succeed, on a table keyed by chain id, returns nil and leaves
    for each chain the row it had with nothing but the address count
    changed: a chain other than the relay chain takes the count of the
    first computed row of its chain and keeps its count when there is
    none; the relay chain takes the [int64] sum of the counts that the
    other chains with a row took.  No row is added. *)
Theorem chain_address_pass_sets_counts_and_relay_total :
  forall (d : Dao) (computed : list ChainStatistic.t) (s : Store),
    GetChainStatistic_err d = None ->
    (forall rows, SaveChainStatistics_err d rows = None) ->
    chain_keyed s ->
    let total := wrapInt64 (addressTotal computed (map_to_list s).*2) in
    (computeChainStatisticAssets d (computed, None) s).2 = Returned None
    /\ forall c,
        (computeChainStatisticAssets d (computed, None) s).1 !! c
        = match s !! c with
          | None => None
          | Some r =>
              Some (with_Addresses
                      (if c =? basedef.POLY_CROSSCHAIN_ID then total
                       else match findChain c computed with
                            | Some x => ChainStatistic.Addresses x
                            | None => ChainStatistic.Addresses r
                            end)
                      r)
          end.
Proof.
  intros d computed s Hload Hsave Hkeyed total.
  unfold computeChainStatisticAssets, GetChainStatistic. rewrite Hload.
  pose proof (addressLoop_total computed (map_to_list s).*2 0) as Htotal.
  change (wrapInt64 0) with 0 in Htotal. rewrite Z.add_0_l in Htotal. fold total in Htotal.
  pose proof (addressLoop_rows computed (map_to_list s).*2 total 0) as Hrows.
  destruct (addressLoop computed (map_to_list s).*2 0) as [rows p].
  cbn [fst snd] in Htotal, Hrows. subst p. rewrite Hrows.
  unfold SaveChainStatistics. rewrite Hsave. cbn [fst snd].
  split; [reflexivity |]. intros c.
  rewrite saved_rows_lookup by (exact Hkeyed || apply addressRow_ChainId).
  destruct (s !! c) as [r |] eqn:Hc; cbn [fmap option_fmap option_map]; [| reflexivity].
  unfold addressRow. rewrite (Hkeyed _ _ Hc). reflexivity.
Qed.

Lemma chain_address_pass_sets_counts_and_relay_total_witness :
  (computeChainStatisticAssets ChainScenario.quiet (MoreScenarios.addressCounts, None)
     ChainScenario.store).1 !! 0
  = Some (ChainStatistic.mk 0 50 50 12 100 100)
  /\ (computeChainStatisticAssets ChainScenario.quiet (MoreScenarios.addressCounts, None)
        ChainScenario.store).1 !! 2
     = Some (ChainStatistic.mk 2 10 20 5 7 20)
  /\ (computeChainStatisticAssets ChainScenario.quiet (MoreScenarios.addressCounts, None)
        ChainScenario.store).1 !! 9
     = None.
Proof.
  destruct (chain_address_pass_sets_counts_and_relay_total ChainScenario.quiet
              MoreScenarios.addressCounts ChainScenario.store eq_refl (fun _ => eq_refl)
              chain_store_keyed) as [_ Hrows].
  rewrite !Hrows. repeat split; vm_compute; reflexivity.
Defined.

(** X13.  The same pass when something fails.  A failed address query
    ends the pass with the wrapped error.  A failed read of the table is
    logged only: the pass goes on with no rows, hands an empty batch to
    [SaveChainStatistics] and returns what that returns.  A failed batch
    save is returned as it is, not wrapped (the chain pass logs it and
    returns nil).  In each case the table is as it was. *)
Theorem chain_address_pass_failures :
  forall (d : Dao) (calc : list ChainStatistic.t * error) (s : Store),
    (forall e, calc.2 = Some e ->
       computeChainStatisticAssets d calc s
       = (s, Returned (Errorf "Failed to CalculateChainStatisticAssets " e)))
    /\ (calc.2 = None -> GetChainStatistic_err d <> None ->
        computeChainStatisticAssets d calc s
        = (s, Returned (SaveChainStatistics_err d [])))
    /\ (forall e, calc.2 = None ->
          (forall rows, SaveChainStatistics_err d rows = Some e) ->
          computeChainStatisticAssets d calc s = (s, Returned (Some e))).
Proof.
  intros d [computed cerr] s. cbn [snd]. repeat split.
  - intros e ->. reflexivity.
  - intros -> Hload. unfold computeChainStatisticAssets, GetChainStatistic.
    destruct (GetChainStatistic_err d) as [e |]; [| contradiction].
    cbn [addressLoop List.map]. unfold SaveChainStatistics.
    destruct (SaveChainStatistics_err d []); reflexivity.
  - intros e -> Hsave. unfold computeChainStatisticAssets.
    destruct (GetChainStatistic d s) as [rows lerr].
    destruct (addressLoop computed rows 0) as [rows' p].
    unfold SaveChainStatistics. rewrite Hsave. reflexivity.
Qed.

Lemma chain_address_pass_failures_witness :
  computeChainStatisticAssets MoreScenarios.brokenTable (MoreScenarios.addressCounts, None)
    ChainScenario.store
  = (ChainScenario.store, Returned (Some "connection lost")).
Proof.
  destruct (chain_address_pass_failures MoreScenarios.brokenTable
              (MoreScenarios.addressCounts, None) ChainScenario.store)
    as (_ & Hload & _).
  apply Hload; [reflexivity | discriminate].
Defined.

End ChainAssetsFacts.

(** ** The asset-address pass *)

Module AssetAddressFacts.
Import AssetAddressPass.

Lemma updateLoop_all d rows :
  forall updated,
    Forall (fun r => UpdateAssetStatisticAdress_err d r = None) rows ->
    updateLoop d rows updated = ((updated ++ rows)%list, Returned None).
Proof.
  induction rows as [| r rows IH]; intros updated Hok; cbn [updateLoop].
  - rewrite app_nil_r. reflexivity.
  - apply Forall_cons in Hok as [Hr Hrows]. rewrite Hr, IH by exact Hrows.
    rewrite <- app_assoc. reflexivity.
Qed.

Lemma updateLoop_first_failure d l1 x l2 e :
  forall updated,
    Forall (fun r => UpdateAssetStatisticAdress_err d r = None) l1 ->
    UpdateAssetStatisticAdress_err d x = Some e ->
    updateLoop d (l1 ++ x :: l2) updated
    = ((updated ++ l1 ++ [x])%list,
       Returned (Errorf "Failed to UpdateAssetStatisticAdress " e)).
Proof.
  induction l1 as [| r l1 IH]; intros updated Hok Hx; cbn [app updateLoop].
  - rewrite Hx. reflexivity.
  - apply Forall_cons in Hok as [Hr Hrows]. rewrite Hr, IH by assumption.
    rewrite <- app_assoc. reflexivity.
Qed.

(** X14.  The pass of the asset addresses hands the computed rows to
    [UpdateAssetStatisticAdress] one by one, in order.  When every update
    succeeds all of them are handed over and the pass returns nil.  At
    the first update that fails the pass returns the wrapped error: the
    rows before it are updated, that row was handed over, none of the
    rows after it is.  When the query fails nothing is handed over. *)
Theorem asset_address_pass_stops_at_first_failure :
  forall (d : Dao) (updated : list AssetStatistic.t),
    (forall e, (CalculateAssetAdress d).2 = Some e ->
       computeAssetStatisticAdress d updated
       = (updated, Returned (Errorf "Failed to CalculateAssetAdress " e)))
    /\ ((CalculateAssetAdress d).2 = None ->
        Forall (fun r => UpdateAssetStatisticAdress_err d r = None)
               (CalculateAssetAdress d).1 ->
        computeAssetStatisticAdress d updated
        = ((updated ++ (CalculateAssetAdress d).1)%list, Returned None))
    /\ (forall l1 x l2 e,
          (CalculateAssetAdress d).2 = None ->
          (CalculateAssetAdress d).1 = (l1 ++ x :: l2)%list ->
          Forall (fun r => UpdateAssetStatisticAdress_err d r = None) l1 ->
          UpdateAssetStatisticAdress_err d x = Some e ->
          computeAssetStatisticAdress d updated
          = ((updated ++ l1 ++ [x])%list,
             Returned (Errorf "Failed to UpdateAssetStatisticAdress " e))).
Proof.
  intros d updated. unfold computeAssetStatisticAdress.
  destruct (CalculateAssetAdress d) as [rows err]. cbn [fst snd]. repeat split.
  - intros e ->. reflexivity.
  - intros -> Hok. apply updateLoop_all, Hok.
  - intros l1 x l2 e -> -> Hok Hx. apply updateLoop_first_failure; assumption.
Qed.

Lemma asset_address_pass_stops_at_first_failure_witness :
  computeAssetStatisticAdress MoreScenarios.refusesB []
  = ([AssetStatistic.mk "AAA" 4 0 0 0 0 0; AssetStatistic.mk "BBB" 5 0 0 0 0 0],
     Returned (Errorf "Failed to UpdateAssetStatisticAdress " "deadlock")).
Proof.
  destruct (asset_address_pass_stops_at_first_failure MoreScenarios.refusesB [])
    as (_ & _ & Hfail).
  apply (Hfail [AssetStatistic.mk "AAA" 4 0 0 0 0 0] (AssetStatistic.mk "BBB" 5 0 0 0 0 0)
               [AssetStatistic.mk "CCC" 6 0 0 0 0 0] "deadlock");
    [reflexivity | reflexivity | | reflexivity].
  constructor; [reflexivity | constructor].
Defined.

End AssetAddressFacts.

(** ** The token-balance pass *)

Module TokensStatsFacts.
Import TokensStatsPass.

Section BalancesFacts.
Variable Int64FromFigure : Z -> Z.

Lemma tokenStep_spec c t effects w :
  Int64FromFigure (wrapInt64 (Token_Precision t)) <> 0 ->
  tokenStep Int64FromFigure c t effects w
  = (Ok (match GetBalance_at c (calls w) (Token_ChainId t) (Token_Hash t) with
         | (Some amount, None) =>
             (effects
              ++ [Recorded (Token_TokenBasicName t) (Token_ChainId t) amount
                    (Int64FromFigure (wrapInt64 (Token_Precision t)));
                  Updated (Token_Hash t) (Token_ChainId t) amount])%list
         | _ => effects
         end),
     mkWorld (S (calls w)) (slept w)).
Proof.
  intros Hunit. unfold tokenStep, bind, common.GetBalance, fetchColumn.
  destruct (GetBalance_at c (calls w) (Token_ChainId t) (Token_Hash t))
    as [[amount |] [e |]]; cbn [fst snd ret]; try reflexivity.
  unfold Float_Quo.
  destruct (Z.eqb_spec (Int64FromFigure (wrapInt64 (Token_Precision t))) 0)
    as [Hz | _]; [contradiction |].
  rewrite andb_false_r. reflexivity.
Qed.

Lemma tokenLoop_effects c tokens :
  Forall (fun t => Int64FromFigure (wrapInt64 (Token_Precision t)) <> 0) tokens ->
  forall effects w,
    let r := tokenLoop Int64FromFigure c tokens effects w in
    r.1.2 = Returned None
    /\ calls r.2 = (calls w + length tokens)%nat
    /\ slept r.2 = slept w
    /\ List.filter isUpdate r.1.1
       = (List.filter isUpdate effects ++ expectedUpdates c (calls w) tokens)%list.
Proof.
  intros Hunit. induction Hunit as [| t rest Ht _ IH]; intros effects w;
    cbn [tokenLoop expectedUpdates length].
  - cbn. rewrite app_nil_r. repeat split; lia.
  - unfold bind. rewrite (tokenStep_spec c t effects w Ht).
    match goal with
    | |- context [tokenLoop Int64FromFigure c rest ?ef ?w1] =>
        specialize (IH ef w1); cbv zeta in IH; cbn [calls slept] in IH;
        destruct IH as (H1 & H2 & H3 & H4)
    end.
    cbv zeta. split; [exact H1 |]. split; [rewrite H2; lia |]. split; [exact H3 |].
    rewrite H4.
    destruct (GetBalance_at c (calls w) (Token_ChainId t) (Token_Hash t))
      as [[amount |] [e |]]; try reflexivity.
    rewrite List.filter_app. cbn [List.filter isUpdate].
    rewrite <- app_assoc. reflexivity.
Qed.

End BalancesFacts.

(** X15.  The pass of the token balances asks the node once for each
    token of the catalog, in order, without a retry and without a pause.
    A token whose answer is an error, or no figure, is passed by: no
    metric, no update, so the amount stored for it stays.  Every other
    token has its balance written back.  Whatever the answers and the
    outcome of the updates, the pass returns nil (provided
    [Int64FromFigure] is not zero at the precision of a token). *)
Theorem token_balance_pass_asks_once_and_skips_failures :
  forall (Int64FromFigure : Z -> Z) (tokens : list Token) (c : ChainNode)
         (effects : list Effect) (w : World),
    Forall (fun t => Int64FromFigure (wrapInt64 (Token_Precision t)) <> 0) tokens ->
    let r := computeTokensStats Int64FromFigure (tokens, None) c effects w in
    r.1.2 = Returned None
    /\ calls r.2 = (calls w + length tokens)%nat
    /\ slept r.2 = slept w
    /\ List.filter isUpdate r.1.1
       = (List.filter isUpdate effects ++ expectedUpdates c (calls w) tokens)%list.
Proof.
  intros Int64FromFigure tokens c effects w Hunit.
  unfold computeTokensStats. apply tokenLoop_effects, Hunit.
Qed.

Lemma token_balance_pass_asks_once_and_skips_failures_witness :
  let r := computeTokensStats MoreScenarios.pow10
             ([Scenario.fooOnEth; Scenario.daoOnEth], None) MoreScenarios.slowStart []
             Scenario.w0 in
  r.1.2 = Returned None
  /\ calls r.2 = 2%nat
  /\ slept r.2 = 0%nat
  /\ List.filter isUpdate r.1.1 = [Updated "0xda0" 2 3].
Proof.
  assert (Hunit : Forall (fun t => MoreScenarios.pow10 (wrapInt64 (Token_Precision t)) <> 0)
                         [Scenario.fooOnEth; Scenario.daoOnEth]).
  { repeat constructor; vm_compute; discriminate. }
  exact (token_balance_pass_asks_once_and_skips_failures MoreScenarios.pow10
           [Scenario.fooOnEth; Scenario.daoOnEth] MoreScenarios.slowStart []
           Scenario.w0 Hunit).
Defined.

End TokensStatsFacts.

(** ** Start-up *)

Module StartupFacts.
Import conf.
Import Startup.

Lemma NewTicker_non_positive (interval : Z) :
  - 9223372036 <= interval <= 0 ->
  NewTicker interval = Panic "non-positive interval for NewTicker".
Proof.
  intros Hi. unfold NewTicker.
  rewrite wrapInt64_id by (unfold is_int64; lia).
  destruct (Z.leb_spec (1000000000 * interval) 0); [reflexivity | lia].
Qed.

Lemma NewTicker_positive (interval : Z) :
  0 < interval <= 9223372036 ->
  NewTicker interval = Ok (1000000000 * interval).
Proof.
  intros Hi. unfold NewTicker.
  rewrite wrapInt64_id by (unfold is_int64; lia).
  destruct (Z.leb_spec (1000000000 * interval) 0); [lia | reflexivity].
Qed.

Lemma run_Ok_iff interval evs :
  run interval evs = Ok (Scheduler.run evs) <-> 0 < wrapInt64 (1000000000 * interval).
Proof.
  unfold run, NewTicker.
  destruct (Z.leb_spec (wrapInt64 (1000000000 * interval)) 0); cbn [res_bind].
  - split; [discriminate | lia].
  - split; [lia | reflexivity].
Qed.

(** X16.  [StartCrossChainStats] goes on to [Start] exactly when the
    server is "polybridge", there is a configuration, its first two
    intervals are not zero and the database opens: the other five
    intervals, and the sign of the first two, are not looked at.  It
    then starts seven tasks, eight on the main net, and all of them get
    to their loops exactly when each of the seven intervals makes a
    positive duration; a task with another interval panics when it makes
    its ticker.  An interval of seconds whose nanoseconds fit [int64]
    makes a positive duration exactly when it is positive. *)
Theorem startup_checks_two_intervals_for_zero :
  forall (server : string) (cfg : option StatsConfig) (NewBridgeDao : Res unit)
         (mainnet : bool),
    ((exists tasks, StartCrossChainStats server cfg NewBridgeDao mainnet = Ok tasks)
     <-> server = "polybridge"
         /\ (exists c, cfg = Some c
                       /\ TokenBasicStatsInterval c <> 0
                       /\ TokenAmountCheckInterval c <> 0)
         /\ NewBridgeDao = Ok tt)
    /\ (forall c tasks,
          cfg = Some c ->
          StartCrossChainStats server cfg NewBridgeDao mainnet = Ok tasks ->
          length tasks = (if mainnet then 8 else 7)%nat
          /\ (forall interval pass evs,
                In (interval, pass) tasks ->
                run interval evs = Ok (Scheduler.run evs)
                \/ run interval evs = Panic "non-positive interval for NewTicker")
          /\ ((forall interval pass evs,
                  In (interval, pass) tasks -> run interval evs = Ok (Scheduler.run evs))
              <-> Forall (fun interval => 0 < wrapInt64 (1000000000 * interval))
                         (intervals c)))
    /\ (forall interval,
          - 9223372036 <= interval <= 9223372036 ->
          (0 < wrapInt64 (1000000000 * interval) <-> 0 < interval)).
Proof.
  intros server cfg NewBridgeDao mainnet. unfold StartCrossChainStats. split; [| split].
  - split.
    + intros [tasks H].
      destruct (String.eqb_spec server SERVER_POLY_BRIDGE) as [-> |]; cbn [negb] in H;
        [| discriminate].
      destruct cfg as [c |]; [| discriminate].
      destruct (Z.eqb_spec (TokenBasicStatsInterval c) 0); [discriminate |].
      destruct (Z.eqb_spec (TokenAmountCheckInterval c) 0); [discriminate |].
      cbn [orb] in H. destruct NewBridgeDao as [[] | m]; [| discriminate].
      split; [reflexivity |]. split; [eauto | reflexivity].
    + intros (-> & (c & -> & H1 & H2) & ->).
      destruct (Z.eqb_spec (TokenBasicStatsInterval c) 0); [contradiction |].
      destruct (Z.eqb_spec (TokenAmountCheckInterval c) 0); [contradiction |].
      cbn. eauto.
  - intros c tasks -> H.
    destruct (negb (String.eqb server SERVER_POLY_BRIDGE)); [discriminate |].
    destruct ((TokenBasicStatsInterval c =? 0) || (TokenAmountCheckInterval c =? 0))%bool;
      [discriminate |].
    destruct NewBridgeDao as [[] | m]; [| discriminate].
    cbn [res_bind] in H. injection H as <-. split; [| split].
    + unfold Start. rewrite length_app. destruct mainnet; reflexivity.
    + intros interval pass evs _. unfold run, NewTicker.
      destruct (wrapInt64 (1000000000 * interval) <=? 0); cbn [res_bind]; auto.
    + split.
      * intros Hall. unfold intervals.
        repeat (apply Forall_cons; split;
                [eapply (run_Ok_iff _ []), Hall; unfold Start;
                 apply in_app_iff; left; cbn [In]; eauto 10 |]).
        constructor.
      * intros Hpos interval pass evs Hin. apply run_Ok_iff.
        unfold Start in Hin. apply in_app_iff in Hin as [Hin | Hin].
        -- unfold intervals in Hpos. rewrite !Forall_cons in Hpos.
           cbn [In] in Hin.
           repeat match goal with
                  | H : _ \/ _ |- _ => destruct H as [H | H]
                  | H : (_, _) = (_, _) |- _ => injection H as <- <-
                  | H : False |- _ => destruct H
                  end; tauto.
        -- destruct mainnet; [| destruct Hin].
           destruct Hin as [[= <- <-] | []]. reflexivity.
  - intros interval Hi. rewrite wrapInt64_id by (unfold is_int64; lia). lia.
Qed.

Lemma startup_checks_two_intervals_for_zero_witness :
  StartCrossChainStats "polybridge" (Some MoreScenarios.oddConfig) (Ok tt) false
  = Ok (Start MoreScenarios.oddConfig false)
  /\ run (TokenStatisticInterval MoreScenarios.oddConfig) []
     = Panic "non-positive interval for NewTicker"
  /\ ~ (forall interval pass evs,
           In (interval, pass) (Start MoreScenarios.oddConfig false) ->
           run interval evs = Ok (Scheduler.run evs)).
Proof.
  split; [reflexivity |]. split; [reflexivity |].
  destruct (startup_checks_two_intervals_for_zero "polybridge"
              (Some MoreScenarios.oddConfig) (Ok tt) false) as (_ & Htasks & _).
  destruct (Htasks MoreScenarios.oddConfig _ eq_refl eq_refl) as (_ & _ & Hiff).
  intros Hall. apply Hiff in Hall.
  apply Forall_cons in Hall as [_ Hall]. apply Forall_cons in Hall as [Hneg _].
  vm_compute in Hneg. discriminate Hneg.
Defined.

End StartupFacts.

(** ** The pass of the family totals *)

Module BasicStatsFacts.
Import BasicStatsPass.

Section TotalsFacts.
Variable Int64FromFigure : Z -> Z.
Variable addCount : Z -> Z -> Z.

Abbreviation family := (computeTokenBasicStats Int64FromFigure addCount).

(** What a family does is added to what was done before it. *)
Lemma family_effects d token effects :
  family d token effects
  = ((effects ++ (family d token []).1)%list, (family d token []).2).
Proof.
  unfold computeTokenBasicStats.
  destruct (length (TokenBasic_Tokens (basic token)) =? 0)%nat;
    [rewrite app_nil_r; reflexivity |].
  destruct (GetLastSrcTransferForToken d _) as [[last |] [e |]];
    try (rewrite app_nil_r; reflexivity).
  destruct (StatsUpdateTime token =? wrapInt64 (Time last));
    [rewrite app_nil_r; reflexivity |].
  destruct (AggregateTokenBasicSrcTransfers d _ _ _) as [[totalAmount totalCount] [e |]];
    [rewrite app_nil_r; reflexivity |].
  destruct (res_bind _ _) as [[totals v] | m]; [reflexivity |].
  rewrite app_nil_r. reflexivity.
Qed.

Lemma family_no_tokens d token effects :
  TokenBasic_Tokens (basic token) = [] ->
  family d token effects = (effects, Ok None).
Proof. intros H. unfold computeTokenBasicStats. rewrite H. reflexivity. Qed.

Lemma basicLoop_sum d tokens :
  (forall token m, In token tokens -> (family d token []).2 <> Panic m) ->
  forall effects,
    basicLoop Int64FromFigure addCount d tokens effects
    = ((effects ++ flat_map (fun token => (family d token []).1) tokens)%list,
       Returned None).
Proof.
  induction tokens as [| token rest IH]; intros Hsafe effects;
    cbn [basicLoop flat_map].
  - rewrite app_nil_r. reflexivity.
  - assert (Hrest : forall t m, In t rest -> (family d t []).2 <> Panic m)
      by (intros t m Ht; apply Hsafe; right; exact Ht).
    destruct (Nat.ltb_spec 0 (length (TokenBasic_Tokens (basic token)))) as [Hlen | Hlen].
    + rewrite family_effects.
      destruct (family d token []) as [done [err | m]] eqn:Hfam; cbn [fst snd].
      * rewrite IH by exact Hrest. rewrite <- app_assoc. reflexivity.
      * exfalso. apply (Hsafe token m); [left; reflexivity |].
        rewrite Hfam. reflexivity.
    + rewrite (family_no_tokens d token [])
        by (destruct (TokenBasic_Tokens (basic token)); [reflexivity | cbn in Hlen; lia]).
      cbn [fst app]. apply IH, Hrest.
Qed.

Lemma basicLoop_no_error d tokens e :
  forall effects,
    (basicLoop Int64FromFigure addCount d tokens effects).2 <> Returned (Some e).
Proof.
  induction tokens as [| token rest IH]; intros effects; cbn [basicLoop].
  - discriminate.
  - destruct (0 <? length (TokenBasic_Tokens (basic token)))%nat; [| apply IH].
    destruct (family d token effects) as [effects' [err | m]]; [apply IH | discriminate].
Qed.

Lemma family_nothing_new d token effects :
  nothingNew d token ->
  family d token effects = (effects, Ok None).
Proof.
  intros [Hnone | (last & Hlast & Htime)]; [apply family_no_tokens, Hnone |].
  unfold computeTokenBasicStats.
  destruct (length (TokenBasic_Tokens (basic token)) =? 0)%nat; [reflexivity |].
  rewrite Hlast. destruct last as [l |]; [| reflexivity].
  rewrite Htime, Z.eqb_refl. reflexivity.
Qed.

End TotalsFacts.

(** X17.  [computeStats] handles each family on its own.  When the
    catalog can be read, no error of a family comes back from the pass:
    a failed query or a failed update of one family is logged and the
    next family is taken up.  Unless a family panics, the pass returns
    nil, and what it recorded and asked to update is, family after
    family, what each family records and asks when handled alone. *)
Theorem family_totals_pass_is_the_sum_of_its_families :
  forall (Int64FromFigure : Z -> Z) (addCount : Z -> Z -> Z) (d : Dao)
         (tokens : list Stats) (effects : list Effect),
    GetTokenBasics d = (tokens, None) ->
    (forall e,
        (computeStats Int64FromFigure addCount d effects).2 <> Returned (Some e))
    /\ ((forall token m,
           In token tokens ->
           (computeTokenBasicStats Int64FromFigure addCount d token []).2 <> Panic m) ->
        computeStats Int64FromFigure addCount d effects
        = ((effects
            ++ flat_map
                 (fun token =>
                    (computeTokenBasicStats Int64FromFigure addCount d token []).1)
                 tokens)%list,
           Returned None)).
Proof.
  intros Int64FromFigure addCount d tokens effects Hcat.
  unfold computeStats. rewrite Hcat. split.
  - intros e. apply basicLoop_no_error.
  - intros Hsafe. apply basicLoop_sum, Hsafe.
Qed.

Lemma family_totals_pass_is_the_sum_of_its_families_witness :
  computeStats MoreScenarios.pow10 addUint64 MoreScenarios.familyLedger []
  = ([RecordedAmount "DAO" 1000 (10 ^ 18); RecordedCount "DAO" 5;
      Updated (mkStats Scenario.daoBasic 90 (Some 1000) 5) 50],
     Returned None).
Proof.
  destruct (family_totals_pass_is_the_sum_of_its_families MoreScenarios.pow10 addUint64
              MoreScenarios.familyLedger _ [] eq_refl) as [_ Hsum].
  rewrite Hsum.
  - vm_compute. reflexivity.
  - intros token m [<- | [<- | [<- | []]]]; vm_compute; discriminate.
Defined.

(** X18.  When no family has anything new (it has no tokens, the ledger
    has no source transfer of its tokens, or the time of the newest one
    is the checkpoint of the family) the pass records nothing, asks for
    no update and returns nil. *)
Theorem family_totals_pass_without_new_transfers_is_noop :
  forall (Int64FromFigure : Z -> Z) (addCount : Z -> Z -> Z) (d : Dao)
         (tokens : list Stats) (effects : list Effect),
    GetTokenBasics d = (tokens, None) ->
    Forall (nothingNew d) tokens ->
    computeStats Int64FromFigure addCount d effects = (effects, Returned None).
Proof.
  intros Int64FromFigure addCount d tokens effects Hcat Hquiet.
  unfold computeStats. rewrite Hcat. clear Hcat. rewrite basicLoop_sum.
  - replace (flat_map _ tokens) with (@nil Effect); [rewrite app_nil_r; reflexivity |].
    symmetry. induction Hquiet as [| token rest Htoken _ IH]; cbn [flat_map].
    + reflexivity.
    + rewrite family_nothing_new by exact Htoken. cbn [fst app]. exact IH.
  - intros token m Hin. rewrite Forall_forall in Hquiet.
    rewrite family_nothing_new by (apply Hquiet, list_elem_of_In, Hin). discriminate.
Qed.

Lemma family_totals_pass_without_new_transfers_is_noop_witness :
  computeStats MoreScenarios.pow10 addUint64 MoreScenarios.quietLedger [] = ([], Returned None).
Proof.
  apply (family_totals_pass_without_new_transfers_is_noop MoreScenarios.pow10 addUint64
           MoreScenarios.quietLedger [MoreScenarios.daoStats; MoreScenarios.bareStats] []
           eq_refl).
  constructor; [| constructor; [| constructor]].
  - right. exists (Some (mkSrcTransfer 90 50)). split; reflexivity.
  - left. reflexivity.
Defined.

(** X19.  A family with something new, handled once and then once more
    over the same ledger.  The first time the amount and the count of the
    range from the checkpoint to the id of the newest transfer become
    the totals when the checkpoint is 0 (whatever the totals were) and
    are added to the totals otherwise, and the family goes to the update
    with the id of the newest transfer as its checkpoint.  The checkpoint
    is compared with the time of the newest transfer, though: handled
    again, that family has nothing new only when the id of the newest
    transfer is also its time; otherwise the range from that id to
    itself is aggregated and another update is asked for. *)
Theorem family_checkpoint_is_an_id_compared_with_a_time :
  forall (Int64FromFigure : Z -> Z) (addCount : Z -> Z -> Z) (d : Dao) (token : Stats)
         (last : SrcTransfer) (amount count : Z) (effects : list Effect),
    TokenBasic_Tokens (basic token) <> [] ->
    GetLastSrcTransferForToken d
      (List.map (fun t => (Token_ChainId t, Token_Hash t))
                (TokenBasic_Tokens (basic token)))
    = (Some last, None) ->
    StatsUpdateTime token <> wrapInt64 (Time last) ->
    AggregateTokenBasicSrcTransfers d
      (List.map (fun t => (Token_ChainId t, Token_Hash t))
                (TokenBasic_Tokens (basic token)))
      (StatsUpdateTime token) (Id last)
    = (Some amount, count, None) ->
    Int64FromFigure (wrapInt64 (TokenBasic_Precision (basic token))) <> 0 ->
    (StatsUpdateTime token = 0 \/ TotalAmount token <> None) ->
    let total :=
      if StatsUpdateTime token =? 0 then amount
      else amount + default 0 (TotalAmount token) in
    let counted :=
      if StatsUpdateTime token =? 0 then count
      else addCount (TotalCount token) count in
    let token' := mkStats (basic token) (Id last) (Some total) counted in
    computeTokenBasicStats Int64FromFigure addCount d token effects
    = ((effects
        ++ [RecordedAmount (TokenBasic_Name (basic token)) total
              (Int64FromFigure (wrapInt64 (TokenBasic_Precision (basic token))));
            RecordedCount (TokenBasic_Name (basic token)) counted;
            Updated token' (StatsUpdateTime token)])%list,
       Ok (UpdateTokenBasicStatsWithCheckPoint_err d token' (StatsUpdateTime token)))
    /\ (Id last = wrapInt64 (Time last) ->
        forall effects',
          computeTokenBasicStats Int64FromFigure addCount d token' effects'
          = (effects', Ok None))
    /\ (Id last <> wrapInt64 (Time last) ->
        Id last <> 0 ->
        forall amount2 count2 effects',
          AggregateTokenBasicSrcTransfers d
            (List.map (fun t => (Token_ChainId t, Token_Hash t))
                      (TokenBasic_Tokens (basic token)))
            (Id last) (Id last)
          = (Some amount2, count2, None) ->
          (computeTokenBasicStats Int64FromFigure addCount d token' effects').1
          = (effects'
             ++ [RecordedAmount (TokenBasic_Name (basic token)) (amount2 + total)
                   (Int64FromFigure (wrapInt64 (TokenBasic_Precision (basic token))));
                 RecordedCount (TokenBasic_Name (basic token))
                   (addCount counted count2);
                 Updated (mkStats (basic token) (Id last) (Some (amount2 + total))
                                  (addCount counted count2))
                         (Id last)])%list).
Proof.
  intros Int64FromFigure addCount d token last amount count effects
         Htokens Hlast Htime Hagg Hunit Hold total counted token'.
  assert (Hlen : (length (TokenBasic_Tokens (basic token)) =? 0)%nat = false).
  { destruct (TokenBasic_Tokens (basic token)); [contradiction | reflexivity]. }
  assert (Hquo : forall x,
             TokensStatsPass.Float_Quo x
               (Int64FromFigure (wrapInt64 (TokenBasic_Precision (basic token))))
             = Ok (x, Int64FromFigure (wrapInt64 (TokenBasic_Precision (basic token))))).
  { intros x. unfold TokensStatsPass.Float_Quo.
    destruct (Z.eqb_spec (Int64FromFigure (wrapInt64 (TokenBasic_Precision (basic token)))) 0);
      [contradiction |].
    rewrite andb_false_r. reflexivity. }
  split; [| split].
  - unfold computeTokenBasicStats. rewrite Hlen, Hlast.
    destruct (Z.eqb_spec (StatsUpdateTime token) (wrapInt64 (Time last)));
      [contradiction |].
    rewrite Hagg. subst token' total counted.
    destruct (Z.eqb_spec (StatsUpdateTime token) 0) as [Hz | Hnz].
    + cbn [deref res_bind fst]. rewrite Hquo. reflexivity.
    + destruct Hold as [Hz | Hsome]; [contradiction |].
      destruct (TotalAmount token) as [old |]; [| contradiction].
      cbn [deref res_bind fst default]. rewrite Hquo. reflexivity.
  - intros Hid effects'. subst token'. unfold computeTokenBasicStats.
    cbn [basic StatsUpdateTime]. rewrite Hlen, Hlast, Hid, Z.eqb_refl. reflexivity.
  - intros Hid Hnz amount2 count2 effects' Hagg2. subst token'.
    unfold computeTokenBasicStats.
    cbn [basic StatsUpdateTime TotalAmount TotalCount]. rewrite Hlen, Hlast.
    destruct (Z.eqb_spec (Id last) (wrapInt64 (Time last))); [contradiction |].
    rewrite Hagg2.
    destruct (Z.eqb_spec (Id last) 0); [contradiction |].
    cbn [deref res_bind fst]. rewrite Hquo. reflexivity.
Qed.

Lemma family_checkpoint_is_an_id_compared_with_a_time_witness :
  (computeTokenBasicStats MoreScenarios.pow10 addUint64 MoreScenarios.familyLedger
     MoreScenarios.daoStats []).1
  = [RecordedAmount "DAO" 1000 (10 ^ 18); RecordedCount "DAO" 5;
     Updated (mkStats Scenario.daoBasic 90 (Some 1000) 5) 50]
  /\ (computeTokenBasicStats MoreScenarios.pow10 addUint64 MoreScenarios.familyLedger
        (mkStats Scenario.daoBasic 90 (Some 1000) 5) []).1
     = [RecordedAmount "DAO" 1300 (10 ^ 18); RecordedCount "DAO" 7;
        Updated (mkStats Scenario.daoBasic 90 (Some 1300) 7) 90].
Proof.
  destruct (family_checkpoint_is_an_id_compared_with_a_time MoreScenarios.pow10 addUint64
              MoreScenarios.familyLedger MoreScenarios.daoStats
              (mkSrcTransfer 90 1600000000) 300 2 [])
    as (Hfirst & _ & Hagain).
  - discriminate.
  - reflexivity.
  - vm_compute. discriminate.
  - reflexivity.
  - vm_compute. discriminate.
  - right. discriminate.
  - split.
    + rewrite Hfirst. vm_compute. reflexivity.
    + assert (Hid : Id (mkSrcTransfer 90 1600000000)
                    <> wrapInt64 (Time (mkSrcTransfer 90 1600000000)))
        by (vm_compute; discriminate).
      assert (Hnz : Id (mkSrcTransfer 90 1600000000) <> 0) by discriminate.
      exact (Hagain Hid Hnz 300 2 [] eq_refl).
Defined.

End BasicStatsFacts.

(** ** The token-statistics pass as a whole *)

Module TokenPassWhole.
Import TokenPass.

Section Catalog.
Variable d : Dao.
Variable c : ChainNode.

(** The catalog lookup returns a token or an error, never both. *)
Hypothesis TokenOrError :
  forall chainId hash,
    (GetTokenBasicByHash d chainId hash).2 = None
    \/ (GetTokenBasicByHash d chainId hash).1 = None.

Lemma tokenRow_whole nowInId nowOutId BTCPrice statistic w :
  tokenRow d c nowInId nowOutId BTCPrice statistic w
  = (if lookupFails d statistic then RowPanicked nil_dereference else Skipped, w).
Proof.
  unfold tokenRow, lookupFails.
  destruct (TokenOrError (TS.ChainId statistic) (TS.Hash statistic)) as [H | H];
    destruct (GetTokenBasicByHash d _ _) as [token [e |]]; cbn [fst snd] in H |- *;
    try discriminate; subst; reflexivity.
Qed.

Lemma rowLoop_whole nowInId nowOutId BTCPrice rows :
  forall (s : Store) w,
    rowLoop d c nowInId nowOutId BTCPrice rows s w
    = ((s, if existsb (lookupFails d) rows
           then Panicked nil_dereference else Returned None), w).
Proof.
  induction rows as [| statistic rows IH]; intros s w; cbn [rowLoop existsb].
  - reflexivity.
  - unfold bind. rewrite tokenRow_whole.
    destruct (lookupFails d statistic); cbn [orb]; [reflexivity | apply IH].
Qed.

End Catalog.

(** X20.  The token pass on a catalog whose lookup returns a token or an
    error, never both.  Whatever the ledger holds and whatever the node
    would answer, the pass writes no row, asks no node and does not
    sleep.  When its leading queries succeed it runs over the rows of the
    table and the rows it made for new tokens: it returns nil when the
    lookup succeeds for all of them, and panics on a nil token as soon
    as the lookup fails for one. *)
Theorem token_pass_does_nothing_or_panics :
  forall (d : Dao) (c : ChainNode) (s : Store) (w : World),
    (forall chainId hash,
        (GetTokenBasicByHash d chainId hash).2 = None
        \/ (GetTokenBasicByHash d chainId hash).1 = None) ->
    (computeTokenStatistics d c s w).1.1 = s
    /\ (computeTokenStatistics d c s w).2 = w
    /\ (forall nowInId nowOutId tokens btc,
          GetNewDstTransfer d = (Some nowInId, None) ->
          GetNewSrcTransfer d = (Some nowOutId, None) ->
          GetTokenStatistics_err d = None ->
          GetTokens d = (tokens, None) ->
          GetBTCPrice d = (Some btc, None) ->
          (computeTokenStatistics d c s w).1.2
          = if existsb (lookupFails d)
                 ((map_to_list s).*2
                  ++ newTokenStatistics (tokensMap tokens (map_to_list s).*2))
            then Panicked nil_dereference
            else Returned None).
Proof.
  intros d c s w Hlookup.
  assert (Hpass : (computeTokenStatistics d c s w).1.1 = s
                  /\ (computeTokenStatistics d c s w).2 = w).
  { unfold computeTokenStatistics.
    destruct (GetNewDstTransfer d) as [newDst [e |]]; [split; reflexivity |].
    destruct newDst as [nowInId |]; cbn [deref]; [| split; reflexivity].
    destruct (GetNewSrcTransfer d) as [newSrc [e |]]; [split; reflexivity |].
    destruct newSrc as [nowOutId |]; cbn [deref]; [| split; reflexivity].
    destruct (GetTokenStatistics d s) as [tokenStatistics [e |]]; [split; reflexivity |].
    destruct (GetTokens d) as [tokens [e |]]; [split; reflexivity |].
    destruct (GetBTCPrice d) as [btc [e |]]; [split; reflexivity |].
    destruct (res_bind _ _) as [BTCPrice | m]; [| split; reflexivity].
    rewrite (rowLoop_whole d c Hlookup). split; reflexivity. }
  destruct Hpass as [Hs Hw]. split; [exact Hs |]. split; [exact Hw |].
  intros nowInId nowOutId tokens btc Hdst Hsrc Hload Htokens Hbtc.
  unfold computeTokenStatistics, GetTokenStatistics.
  rewrite Hdst, Hsrc, Hload, Htokens, Hbtc. cbn [deref res_bind].
  rewrite Div_price_exact. rewrite (rowLoop_whole d c Hlookup). reflexivity.
Qed.

Lemma token_pass_does_nothing_or_panics_witness :
  computeTokenStatistics TokenScenario.dao TokenScenario.node TokenScenario.store
    Scenario.w0
  = ((TokenScenario.store, Returned None), Scenario.w0).
Proof.
  assert (Hlookup : forall chainId hash,
             (GetTokenBasicByHash TokenScenario.dao chainId hash).2 = None
             \/ (GetTokenBasicByHash TokenScenario.dao chainId hash).1 = None).
  { intros chainId hash. cbn. unfold TokenScenario.lookup.
    destruct ((chainId =? 2) && String.eqb hash "0xbtc")%bool; [left; reflexivity |].
    destruct ((chainId =? 6) && String.eqb hash "0xb5c")%bool; [left | right]; reflexivity. }
  destruct (token_pass_does_nothing_or_panics TokenScenario.dao TokenScenario.node
              TokenScenario.store Scenario.w0 Hlookup) as (Hs & Hw & Hout).
  specialize (Hout 7 20 _ _ eq_refl eq_refl eq_refl eq_refl eq_refl).
  destruct (computeTokenStatistics TokenScenario.dao TokenScenario.node
              TokenScenario.store Scenario.w0) as [[s' out] w'].
  cbn [fst snd] in Hs, Hw, Hout. subst s' w'. rewrite Hout. reflexivity.
Defined.

End TokenPassWhole.

(** ** Bounded retry: the first answer without an error *)

Lemma retryLoop_first_answer column chainId hash (n : nat) :
  forall (i : nat) last w,
    (i < n)%nat ->
    (forall j, (j < i)%nat -> (column (calls w + j)%nat chainId hash).2 <> None) ->
    (column (calls w + i)%nat chainId hash).2 = None ->
    retryLoop (fetchColumn column chainId hash) n last w
    = (column (calls w + i)%nat chainId hash,
       mkWorld (calls w + i + 1) (slept w + i + 1)).
Proof.
  induction n as [| n IH]; intros i last w Hi Hfail Hok; [lia |].
  cbn [retryLoop]. unfold bind, time.Sleep_Second. unfold fetchColumn at 1.
  cbn [calls slept].
  destruct i as [| i].
  - rewrite Nat.add_0_r in Hok. rewrite Hok. unfold ret.
    rewrite !Nat.add_0_r. f_equal. f_equal; lia.
  - pose proof (Hfail O ltac:(lia)) as H0. rewrite Nat.add_0_r in H0.
    destruct (column (calls w) chainId hash) as [v [e |]] eqn:Hcol; cbn [snd] in *;
      [| congruence].
    rewrite (IH i).
    + cbn [calls slept].
      replace (S (calls w) + i)%nat with (calls w + S i)%nat by lia.
      f_equal. f_equal; lia.
    + lia.
    + intros j Hj. cbn [calls].
      replace (S (calls w) + j)%nat with (calls w + S j)%nat by lia.
      apply Hfail. lia.
    + cbn [calls]. replace (S (calls w) + i)%nat with (calls w + S i)%nat by lia.
      exact Hok.
Qed.

(** X21.  A fetch with retries stops at the first answer without an
    error: when the attempts before the attempt [i] fail and the attempt
    [i] does not ([i] at most 4 for a balance, at most 2 for a total
    supply), the result is that answer, after [i + 1] calls and [i]
    seconds of sleep. *)
Theorem retry_stops_at_first_answer :
  forall (c : ChainNode) (chainId : Z) (hash : string) (w : World) (i : nat),
    ((i <= 4)%nat ->
     (forall j, (j < i)%nat -> (GetBalance_at c (calls w + j)%nat chainId hash).2 <> None) ->
     (GetBalance_at c (calls w + i)%nat chainId hash).2 = None ->
     getAndRetryBalance c chainId hash w
     = (GetBalance_at c (calls w + i)%nat chainId hash,
        mkWorld (calls w + i + 1) (slept w + i)))
    /\ ((i <= 2)%nat ->
        (forall j, (j < i)%nat ->
           (GetTotalSupply_at c (calls w + j)%nat chainId hash).2 <> None) ->
        (GetTotalSupply_at c (calls w + i)%nat chainId hash).2 = None ->
        getAndRetryTotalSupply c chainId hash w
        = (GetTotalSupply_at c (calls w + i)%nat chainId hash,
           mkWorld (calls w + i + 1) (slept w + i))).
Proof.
  intros c chainId hash w i. split; intros Hi Hfail Hok.
  - unfold getAndRetryBalance, bind, common.GetBalance. unfold fetchColumn at 1.
    destruct i as [| i].
    + rewrite Nat.add_0_r in Hok |- *. rewrite Hok. unfold ret.
      f_equal. f_equal; lia.
    + pose proof (Hfail O ltac:(lia)) as H0. rewrite Nat.add_0_r in H0.
      destruct (GetBalance_at c (calls w) chainId hash) as [v [e |]] eqn:Hcol;
        cbn [snd] in *; [| congruence].
      rewrite (retryLoop_first_answer (GetBalance_at c) chainId hash 4 i).
      * cbn [calls slept].
        replace (S (calls w) + i)%nat with (calls w + S i)%nat by lia.
        f_equal. f_equal; lia.
      * lia.
      * intros j Hj. cbn [calls].
        replace (S (calls w) + j)%nat with (calls w + S j)%nat by lia.
        apply Hfail. lia.
      * cbn [calls]. replace (S (calls w) + i)%nat with (calls w + S i)%nat by lia.
        exact Hok.
  - unfold getAndRetryTotalSupply, bind, common.GetTotalSupply. unfold fetchColumn at 1.
    destruct i as [| i].
    + rewrite Nat.add_0_r in Hok |- *. rewrite Hok. unfold ret.
      f_equal. f_equal; lia.
    + pose proof (Hfail O ltac:(lia)) as H0. rewrite Nat.add_0_r in H0.
      destruct (GetTotalSupply_at c (calls w) chainId hash) as [v [e |]] eqn:Hcol;
        cbn [snd] in *; [| congruence].
      rewrite (retryLoop_first_answer (GetTotalSupply_at c) chainId hash 2 i).
      * cbn [calls slept].
        replace (S (calls w) + i)%nat with (calls w + S i)%nat by lia.
        f_equal. f_equal; lia.
      * lia.
      * intros j Hj. cbn [calls].
        replace (S (calls w) + j)%nat with (calls w + S j)%nat by lia.
        apply Hfail. lia.
      * cbn [calls]. replace (S (calls w) + i)%nat with (calls w + S i)%nat by lia.
        exact Hok.
Qed.

Lemma retry_stops_at_first_answer_witness :
  getAndRetryBalance MoreScenarios.slowStart 2 "0xf00" Scenario.w0
  = ((Some 3, None), mkWorld 2 1).
Proof.
  destruct (retry_stops_at_first_answer MoreScenarios.slowStart 2 "0xf00" Scenario.w0 1)
    as [Hbalance _].
  apply Hbalance; [lia | | reflexivity].
  intros j Hj. replace j with O by lia. cbn. discriminate.
Defined.

(** ** The reserve check: the threshold in integers *)

(** The USD value of a positive difference of an asset of at most 16
    decimals, rounded to whole dollars. *)
Lemma usdDecimal_rounded (difference precision price : Z) :
  0 <= difference ->
  0 <= price ->
  0 <= precision <= 16 ->
  exists d,
    usdDecimal difference precision price = Ok d
    /\ decimal.Round0Int d
       = (difference * price * 10 ^ (16 - precision) / 10 ^ 23 + 5) / 10.
Proof.
  intros Hdiff Hprice Hp. unfold usdDecimal.
  rewrite int32_small by (change (2 ^ 31) with 2147483648; lia).
  unfold decimal.NewFromBigInt, decimal.New.
  rewrite Div_pow10_exact by exact Hp. cbn [res_bind].
  eexists. split; [reflexivity |].
  unfold decimal.Mul. cbn [decimal.value decimal.exp]. change (-16 + -8) with (-24).
  set (N := difference * 10 ^ (16 - precision) * price).
  assert (HN : 0 <= N).
  { subst N. apply Z.mul_nonneg_nonneg; [| lia].
    apply Z.mul_nonneg_nonneg; [lia |]. apply Z.pow_nonneg. lia. }
  replace (difference * price * 10 ^ (16 - precision)) with N by (subst N; ring).
  unfold decimal.Round0Int, decimal.Round. cbn [decimal.exp decimal.value].
  change (-24 =? - 0) with false. cbv iota.
  change (- 0 - 1) with (-1).
  rewrite (rescale_up N (-24) (-1)) by lia. cbn [decimal.exp decimal.value].
  change (-1 - -24) with 23.
  rewrite Z.quot_div_nonneg by lia.
  set (X := N / 10 ^ 23).
  assert (HX : 0 <= X) by (subst X; apply Z.div_pos; lia).
  destruct (Z.ltb_spec X 0) as [| _]; [lia |].
  assert (Hq : 0 <= (X + 5) / 10) by (apply Z.div_pos; lia).
  destruct (Z.ltb_spec ((X + 5) / 10) 0) as [| _]; [lia |].
  cbn [andb]. change (-1 + 1) with 0.
  rewrite rescale_refl. reflexivity.
Qed.

(** X22.  The threshold of the alert in integers.  A detail of the
    reserve check for a family off the exclusion list, with at most 16
    decimals and a price that is not negative, enters the message exactly
    when its reason is not "all node is not working" and its difference
    is worth at least 10000.5 USD, that is
    [Difference * Price >= 10000.5 * 10 ^ (Precision + 8)]. *)
Theorem alert_threshold_in_integers :
  forall ad : AssetDetail.t,
    detail_ok ad ->
    inExtraBasic (AssetDetail.BasicName ad) = false ->
    0 <= AssetDetail.Precision ad <= 16 ->
    0 <= AssetDetail.Price ad ->
    (alarming ad = true
     <-> AssetDetail.Reason ad <> "all node is not working"
         /\ 20001 * 10 ^ (AssetDetail.Precision ad + 8)
            <= 2 * AssetDetail.Difference ad * AssetDetail.Price ad).
Proof.
  intros ad Hok Hextra Hp Hprice.
  rewrite (alarming_detail ad Hok Hextra).
  set (D := AssetDetail.Difference ad) in *. set (p := AssetDetail.Precision ad) in *.
  set (price := AssetDetail.Price ad) in *.
  set (A := 10 ^ (16 - p)). set (B := 10 ^ p).
  assert (HA : 0 < A) by (subst A; apply Z.pow_pos_nonneg; lia).
  assert (HB : 0 < B) by (subst B; apply Z.pow_pos_nonneg; lia).
  assert (HAB : A * B = 10 ^ 16).
  { subst A B. rewrite <- Z.pow_add_r by lia. f_equal. lia. }
  assert (Hpow : 10 ^ (p + 8) = B * 10 ^ 8) by (subst B; apply Z.pow_add_r; lia).
  rewrite Hpow.
  assert (Hthreshold : 0 <= D ->
            (10000 < (D * price * A / 10 ^ 23 + 5) / 10
             <-> 20001 * (B * 10 ^ 8) <= 2 * D * price)).
  { intros HD.
    assert (HN : 0 <= D * price * A).
    { apply Z.mul_nonneg_nonneg; [| lia]. apply Z.mul_nonneg_nonneg; lia. }
    pose proof (Z.div_mod (D * price * A) (10 ^ 23) ltac:(lia)) as Hdm.
    pose proof (Z.mod_pos_bound (D * price * A) (10 ^ 23) ltac:(lia)) as Hmb.
    set (X := D * price * A / 10 ^ 23) in *.
    set (R := (D * price * A) mod 10 ^ 23) in *.
    pose proof (Z.div_mod (X + 5) 10 ltac:(lia)) as Hdm2.
    pose proof (Z.mod_pos_bound (X + 5) 10 ltac:(lia)) as Hmb2.
    assert (Hstep1 : 10000 < (X + 5) / 10 <-> 100005 <= X) by lia.
    assert (Hstep2 : 100005 <= X <-> 100005 * 10 ^ 23 <= D * price * A).
    { change (10 ^ 23) with 100000000000000000000000 in *. lia. }
    assert (Hstep3 : 100005 * 10 ^ 23 <= D * price * A
                     <-> 100005 * 10 ^ 7 * B <= D * price).
    { replace (100005 * 10 ^ 23) with (100005 * 10 ^ 7 * B * A).
      - split; intros H.
        + apply (Z.mul_le_mono_pos_r _ _ A HA). exact H.
        + apply Z.mul_le_mono_nonneg_r; lia.
      - change (10 ^ 23) with (10 ^ 7 * 10 ^ 16). rewrite <- HAB. ring. }
    rewrite Hstep1, Hstep2, Hstep3.
    change (10 ^ 7) with 10000000. change (10 ^ 8) with 100000000. lia. }
  split.
  - intros (Hreason & Hpos & d & Hd & Hgt). split; [exact Hreason |].
    destruct (usdDecimal_rounded D p price ltac:(lia) Hprice Hp) as (d' & Hd' & Hround).
    rewrite Hd in Hd'. injection Hd' as <-. rewrite Hround in Hgt.
    apply Hthreshold; [lia | exact Hgt].
  - intros (Hreason & Hle). split; [exact Hreason |].
    assert (Hpos : 0 < D).
    { destruct (Z.lt_ge_cases 0 D) as [| Hneg]; [assumption |].
      assert (2 * D * price <= 0) by nia.
      assert (0 < 20001 * (B * 10 ^ 8)) by (change (10 ^ 8) with 100000000; lia).
      lia. }
    split; [exact Hpos |].
    destruct (usdDecimal_rounded D p price ltac:(lia) Hprice Hp) as (d & Hd & Hround).
    exists d. split; [exact Hd |]. rewrite Hround.
    apply Hthreshold; [lia | exact Hle].
Qed.

Lemma btcDetail_ok : detail_ok MoreScenarios.btcDetail.
Proof.
  split; [reflexivity |]. split; [| split].
  - constructor; [| constructor]. left. exists 100000000, 0. repeat split.
  - intros _ _. constructor; [| constructor]. exists 100000000, 0. repeat split.
  - intros _ _. vm_compute. reflexivity.
Defined.

Lemma alert_threshold_in_integers_witness :
  alarming MoreScenarios.btcDetail = true.
Proof.
  apply (alert_threshold_in_integers MoreScenarios.btcDetail btcDetail_ok eq_refl).
  - cbn. lia.
  - cbn. lia.
  - split; [discriminate | vm_compute; discriminate].
Defined.

(** * The relay row and the ledger without new records *)

(** ** The row of the relay chain behind the guard of the pass *)

Lemma addDecimalInt64_wrapInt64 (a b : Z) :
  is_int64 a -> is_int64 b -> addDecimalInt64 a b = wrapInt64 (a + b).
Proof.
  intros Ha Hb. rewrite addDecimalInt64_wrap.
  unfold is_int64 in *. unfold wrapInt64.
  assert (H64 : 2 ^ 64 = 2 * 2 ^ 63) by reflexivity.
  set (p := 2 ^ 63) in *.
  assert (Hp : 0 < p) by (subst p; lia).
  destruct (Z.le_gt_cases p (a + b)) as [Hhigh | Hlt].
  - unfold Int64. rewrite Z.abs_eq by lia.
    rewrite Z.mod_small by lia. fold p.
    destruct (Z.ltb_spec (a + b) p); [lia |].
    destruct (Z.ltb_spec (a + b) 0); [lia |].
    replace (a + b + p) with (a + b + p - 2 ^ 64 + 1 * 2 ^ 64) by lia.
    rewrite Z_mod_plus_full, Z.mod_small by lia. lia.
  - destruct (Z.lt_ge_cases (a + b) (- p)) as [Hlow | Hge].
    + unfold Int64. rewrite Z.abs_neq by lia. fold p.
      destruct (Z.ltb_spec (a + b) 0) as [_ |]; [| lia].
      replace (a + b + p) with (a + b + p + 2 ^ 64 + (-1) * 2 ^ 64) by lia.
      rewrite Z_mod_plus_full, (Z.mod_small (a + b + p + 2 ^ 64)) by lia.
      destruct (Z.eq_dec (a + b) (- 2 ^ 64)) as [Heq | Hne].
      * rewrite Heq. rewrite Z.opp_involutive, Z.mod_same by lia.
        destruct (Z.ltb_spec 0 p); [| lia].
        destruct (Z.eqb_spec 0 (- p)); lia.
      * rewrite Z.mod_small by lia.
        destruct (Z.ltb_spec (- (a + b)) p); [lia |].
        destruct (Z.eqb_spec (- (a + b) - 2 ^ 64) (- p)); lia.
    + rewrite Int64_id by (unfold is_int64; fold p; lia).
      rewrite Z.mod_small by lia. lia.
Qed.

Module RelayPassFacts.
Import ChainPass.
Import RelayRowFacts.

Lemma newChainStatistics_NoDup nowInId nowOutId m :
  NoDup (newChainStatistics nowInId nowOutId m).
Proof.
  unfold newChainStatistics. apply omap_map_to_list_NoDup.
  intros [k [|]] [k' [|]] r; cbn [fst snd]; intros [= <-] [= Hk]; congruence.
Qed.

(** The rows handed to [SaveChainStatistics] when the table has no row
    of the relay chain and the catalog knows the chain: the row created
    for it goes through the second loop. *)
Lemma saved_created_poly_row (d : Dao) (s : Store) nowInId nowOutId polyCheckId chains
    ins outs :
  chain_keyed s ->
  s !! POLY = None ->
  In POLY chains ->
  foldl save s
    (foldPolyRow d polyCheckId
       (List.map (foldChainRow nowInId nowOutId ins outs)
          ((map_to_list s).*2
           ++ newChainStatistics nowInId nowOutId (chainMap chains (map_to_list s).*2))))
    !! POLY
  = Some (updatePolyRow d polyCheckId (ChainStatistic.mk POLY 0 0 0 nowInId nowOutId)).
Proof.
  intros Hkeyed Hnone Hcat.
  set (row0 := ChainStatistic.mk POLY 0 0 0 nowInId nowOutId).
  assert (Hloaded : forall x, x ∈ (map_to_list s).*2 -> ChainStatistic.ChainId x <> POLY).
  { intros x Hx Heq. apply list_elem_of_fmap in Hx as ([k x'] & -> & Hx).
    apply elem_of_map_to_list in Hx. cbn [snd] in Heq.
    rewrite (Hkeyed _ _ Hx) in Heq. subst k. congruence. }
  pose proof (newChainStatistics_NoDup nowInId nowOutId
                (chainMap chains (map_to_list s).*2)) as Hnodup.
  assert (Hin0 : row0 ∈ newChainStatistics nowInId nowOutId
                          (chainMap chains (map_to_list s).*2)).
  { apply list_elem_of_In, newChainStatistics_In. exists POLY.
    split; [exact Hcat |]. split; [| reflexivity].
    intros r Hr. apply Hloaded, list_elem_of_In, Hr. }
  assert (Hshape : forall x,
             x ∈ newChainStatistics nowInId nowOutId (chainMap chains (map_to_list s).*2) ->
             ChainStatistic.ChainId x = POLY -> x = row0).
  { intros x Hx Heq. apply list_elem_of_In, newChainStatistics_In in Hx
      as (chain & _ & _ & ->). cbn in Heq. subst chain. reflexivity. }
  set (news := newChainStatistics nowInId nowOutId _) in *. clearbody news.
  destruct (list_elem_of_split _ _ Hin0) as (n1 & n2 & Hsplit). subst news.
  apply NoDup_app in Hnodup as (_ & Hn1 & Hn2).
  apply NoDup_cons in Hn2 as [Hn2 _].
  set (f := foldChainRow nowInId nowOutId ins outs).
  rewrite app_assoc, List.map_app. cbn [List.map].
  assert (Hfr : f row0 = row0) by (apply foldChainRow_poly; reflexivity).
  rewrite Hfr.
  rewrite foldPolyRow_first; [| | reflexivity].
  - assert (Hid : ChainStatistic.ChainId (updatePolyRow d polyCheckId row0) = POLY)
      by (rewrite updatePolyRow_ChainId; reflexivity).
    rewrite <- Hid. apply save_last. intros x Hx. rewrite Hid.
    apply list_elem_of_In, in_map_iff in Hx as (y & <- & Hy). apply list_elem_of_In in Hy.
    subst f. rewrite foldChainRow_ChainId. intros Heq.
    apply Hn2. rewrite <- (Hshape y); [exact Hy | | exact Heq].
    apply elem_of_app. right. right. exact Hy.
  - intros x Hx.
    apply list_elem_of_In, in_map_iff in Hx as (y & <- & Hy). apply list_elem_of_In in Hy.
    subst f. rewrite foldChainRow_ChainId.
    apply elem_of_app in Hy as [Hy | Hy]; [apply Hloaded, Hy |].
    intros Heq. apply (Hn1 row0); [| left].
    rewrite <- (Hshape y); [exact Hy | | exact Heq].
    apply elem_of_app. left. exact Hy.
Qed.

Section Guard.
Variable d : Dao.
Variable s : Store.
Variables (sta : ChainStatistic.t) (nowInId nowOutId polyCheckId : Z).

Hypothesis Hsta : GetNewChainSta d = (Some sta, None).
Hypothesis Hin : GetNewDstTransaction d = (Some nowInId, None).
Hypothesis Hout : GetNewSrcTransaction d = (Some nowOutId, None).
Hypothesis Hpoly : GetPolyTransaction d = (Some polyCheckId, None).

Lemma guard_closed :
  nowInId <= ChainStatistic.LastInCheckId sta ->
  nowOutId <= ChainStatistic.LastOutCheckId sta ->
  computeChainStatistics d s = (s, Returned None).
Proof.
  intros Hle_in Hle_out. unfold computeChainStatistics.
  rewrite Hsta, Hin, Hout, Hpoly. cbn [deref].
  destruct (Z.ltb_spec (ChainStatistic.LastInCheckId sta) nowInId); [lia |].
  destruct (Z.ltb_spec (ChainStatistic.LastOutCheckId sta) nowOutId); [lia |].
  reflexivity.
Qed.

Lemma created_poly_row_after_pass chains :
  ChainStatistic.LastInCheckId sta < nowInId
  \/ ChainStatistic.LastOutCheckId sta < nowOutId ->
  GetChainStatistic_err d = None ->
  GetChains d = (chains, None) ->
  (forall rows, SaveChainStatistics_err d rows = None) ->
  chain_keyed s ->
  s !! POLY = None ->
  In POLY chains ->
  (computeChainStatistics d s).1 !! POLY
  = Some (updatePolyRow d polyCheckId (ChainStatistic.mk POLY 0 0 0 nowInId nowOutId)).
Proof.
  intros Hguard Hload Hchains Hsave Hkeyed Hnone Hcat. unfold computeChainStatistics.
  rewrite Hsta, Hin, Hout, Hpoly. cbn [deref].
  replace ((ChainStatistic.LastInCheckId sta <? nowInId)
           || (ChainStatistic.LastOutCheckId sta <? nowOutId))%bool with true.
  2:{ symmetry. apply orb_true_iff.
      destruct Hguard; [left | right]; apply Z.ltb_lt; assumption. }
  unfold GetChainStatistic. rewrite Hload, Hchains.
  unfold SaveChainStatistics. rewrite Hsave. cbn [fst].
  apply saved_created_poly_row; assumption.
Qed.

End Guard.

(** C6 as stated fails.  The relay stream has thirty new transactions
    (its newest id is 130, the cursor of the relay row is 100, and the
    counter of that range is 30), the destination and source streams
    have none: the pass returns without touching the relay row, which
    keeps its totals of 50 and its cursor 100.  With the same relay
    stream and two new destination transactions the relay row gets the
    totals 80 and the cursor 130. *)
Lemma relay_news_alone_leaves_relay_row :
  GetPolyTransaction RelayScenario.relayOnly = (Some 130, None)
  /\ ChainScenario.store !! POLY = Some (ChainStatistic.mk POLY 50 50 0 100 100)
  /\ CalculatePolyChainStatistic RelayScenario.relayOnly 100 130 = (30, None)
  /\ computeChainStatistics RelayScenario.relayOnly ChainScenario.store
     = (ChainScenario.store, Returned None)
  /\ (computeChainStatistics ChainScenario.busy ChainScenario.store).1 !! POLY
     = Some (ChainStatistic.mk POLY 80 80 0 130 130).
Proof.
  repeat split; vm_compute; reflexivity.
Qed.

(** C6, amended.  The pass works on the rows only when the destination
    or the source stream has something new: otherwise it returns with the
    table as it was, whatever the relay stream holds.  When it does, and
    the table takes the rows, the row [r] of the relay chain gets the
    counter of the relay range from the inbound cursor of [r] to the
    newest relay transaction added to both totals, in [int64], and both
    cursors at the newest relay transaction; it stays as it is when the
    counter query fails.  When the table has no row of the relay chain
    and the catalog knows the chain, the row created for it starts from
    the newest destination transaction: it ends with the counter of the
    range from there to the newest relay transaction in both totals.
    And when the newest relay transaction is the inbound cursor of [r],
    the pass leaves that cursor and both totals as they are, whatever
    else happens in it. *)
Theorem relay_row_follows_the_guard :
  forall (d : Dao) (s : Store) (sta : ChainStatistic.t)
         (nowInId nowOutId polyCheckId : Z),
    GetNewChainSta d = (Some sta, None) ->
    GetNewDstTransaction d = (Some nowInId, None) ->
    GetNewSrcTransaction d = (Some nowOutId, None) ->
    GetPolyTransaction d = (Some polyCheckId, None) ->
    chain_keyed s ->
    (nowInId <= ChainStatistic.LastInCheckId sta ->
     nowOutId <= ChainStatistic.LastOutCheckId sta ->
     computeChainStatistics d s = (s, Returned None))
    /\ (ChainStatistic.LastInCheckId sta < nowInId
        \/ ChainStatistic.LastOutCheckId sta < nowOutId ->
        GetChainStatistic_err d = None ->
        (GetChains d).2 = None ->
        (forall rows, SaveChainStatistics_err d rows = None) ->
        (forall r counter,
            s !! POLY = Some r ->
            CalculatePolyChainStatistic d (ChainStatistic.LastInCheckId r) polyCheckId
            = (counter, None) ->
            is_int64 counter ->
            is_int64 (ChainStatistic.In r) ->
            is_int64 (ChainStatistic.Out r) ->
            (computeChainStatistics d s).1 !! POLY
            = Some (ChainStatistic.mk POLY
                      (wrapInt64 (counter + ChainStatistic.In r))
                      (wrapInt64 (counter + ChainStatistic.Out r))
                      (ChainStatistic.Addresses r) polyCheckId polyCheckId))
        /\ (forall r counter e,
            s !! POLY = Some r ->
            CalculatePolyChainStatistic d (ChainStatistic.LastInCheckId r) polyCheckId
            = (counter, Some e) ->
            (computeChainStatistics d s).1 !! POLY = Some r)
        /\ (forall counter,
            s !! POLY = None ->
            In POLY (GetChains d).1 ->
            CalculatePolyChainStatistic d nowInId polyCheckId = (counter, None) ->
            is_int64 counter ->
            (computeChainStatistics d s).1 !! POLY
            = Some (ChainStatistic.mk POLY counter counter 0 polyCheckId polyCheckId)))
    /\ (forall r,
        s !! POLY = Some r ->
        polyCheckId = ChainStatistic.LastInCheckId r ->
        is_int64 (ChainStatistic.In r) ->
        is_int64 (ChainStatistic.Out r) ->
        (forall id, (CalculatePolyChainStatistic d id id).2 = None ->
                    (CalculatePolyChainStatistic d id id).1 = 0) ->
        exists r',
          (computeChainStatistics d s).1 !! POLY = Some r'
          /\ ChainStatistic.LastInCheckId r' = ChainStatistic.LastInCheckId r
          /\ ChainStatistic.In r' = ChainStatistic.In r
          /\ ChainStatistic.Out r' = ChainStatistic.Out r).
Proof.
  intros d s sta nowInId nowOutId polyCheckId Hsta Hin Hout Hpoly Hkeyed.
  split; [| split].
  - apply guard_closed with (polyCheckId := polyCheckId); assumption.
  - intros Hguard Hload Hchains Hsave. split; [| split].
    + intros r counter Hr Hcount Hc HinR HoutR.
      rewrite (poly_row_after_pass d s sta nowInId nowOutId polyCheckId r) by assumption.
      unfold updatePolyRow. rewrite Hcount, (Hkeyed _ _ Hr).
      rewrite !addDecimalInt64_wrapInt64 by assumption. reflexivity.
    + intros r counter e Hr Hcount.
      rewrite (poly_row_after_pass d s sta nowInId nowOutId polyCheckId r) by assumption.
      unfold updatePolyRow. rewrite Hcount. reflexivity.
    + intros counter Hnone Hcat Hcount Hc.
      destruct (GetChains d) as [chains cerr] eqn:Hget. cbn [fst snd] in *. subst cerr.
      rewrite (created_poly_row_after_pass d s sta nowInId nowOutId polyCheckId
                 Hsta Hin Hout Hpoly chains) by assumption.
      unfold updatePolyRow.
      cbn [ChainStatistic.LastInCheckId ChainStatistic.In ChainStatistic.Out
           ChainStatistic.ChainId ChainStatistic.Addresses].
      rewrite Hcount.
      rewrite addDecimalInt64_wrapInt64 by (try assumption; unfold is_int64; lia).
      rewrite Z.add_0_r, wrapInt64_id by assumption. reflexivity.
  - intros r Hr -> HinR HoutR Hempty.
    destruct (poly_row_cases d s sta nowInId nowOutId _ r Hsta Hin Hout Hpoly Hkeyed Hr)
      as [H | H]; rewrite H.
    + exists r. auto.
    + eexists. split; [reflexivity |]. unfold updatePolyRow.
      specialize (Hempty (ChainStatistic.LastInCheckId r)).
      destruct (CalculatePolyChainStatistic d _ _) as [counter [e |]]; cbn [fst snd] in *.
      * auto.
      * rewrite (Hempty eq_refl). cbn [ChainStatistic.LastInCheckId ChainStatistic.In
                                       ChainStatistic.Out].
        rewrite !addDecimalInt64_0_l by assumption. auto.
Qed.

Lemma no_relay_row_keyed : chain_keyed RelayScenario.noRelayRow.
Proof.
  intros k r H. unfold RelayScenario.noRelayRow in H.
  apply lookup_insert_Some in H as [[<- <-] | [_ H]]; [reflexivity |].
  apply lookup_insert_Some in H as [[<- <-] | [_ H]]; [reflexivity |].
  rewrite lookup_empty in H. discriminate H.
Defined.

Lemma relay_row_follows_the_guard_witness :
  (7 <= ChainStatistic.LastInCheckId ChainScenario.rowEth
   /\ 20 <= ChainStatistic.LastOutCheckId ChainScenario.rowEth
   /\ computeChainStatistics RelayScenario.relayOnly ChainScenario.store
      = (ChainScenario.store, Returned None))
  /\ (ChainStatistic.LastInCheckId ChainScenario.rowEth < 9
      /\ ChainScenario.store !! POLY = Some ChainScenario.rowPoly
      /\ CalculatePolyChainStatistic ChainScenario.busy 100 130 = (30, None)
      /\ is_int64 30 /\ is_int64 50
      /\ (computeChainStatistics ChainScenario.busy ChainScenario.store).1 !! POLY
         = Some (ChainStatistic.mk POLY 80 80 0 130 130))
  /\ (CalculatePolyChainStatistic RelayScenario.counterDown 100 130
      = (0, Some "connection lost")
      /\ (computeChainStatistics RelayScenario.counterDown ChainScenario.store).1 !! POLY
         = Some ChainScenario.rowPoly)
  /\ (RelayScenario.noRelayRow !! POLY = None
      /\ In POLY (GetChains ChainScenario.busy).1
      /\ CalculatePolyChainStatistic ChainScenario.busy 9 130 = (121, None)
      /\ is_int64 121
      /\ (computeChainStatistics ChainScenario.busy RelayScenario.noRelayRow).1 !! POLY
         = Some (ChainStatistic.mk POLY 121 121 0 130 130))
  /\ (100 = ChainStatistic.LastInCheckId ChainScenario.rowPoly
      /\ (forall id, (ChainScenario.relayCount id id).2 = None ->
                     (ChainScenario.relayCount id id).1 = 0)
      /\ exists r',
          (computeChainStatistics ChainScenario.relayQuiet ChainScenario.store).1 !! POLY
          = Some r'
          /\ ChainStatistic.LastInCheckId r' = 100
          /\ ChainStatistic.In r' = 50
          /\ ChainStatistic.Out r' = 50).
Proof.
  assert (Hle1 : 7 <= ChainStatistic.LastInCheckId ChainScenario.rowEth) by (simpl; lia).
  assert (Hle2 : 20 <= ChainStatistic.LastOutCheckId ChainScenario.rowEth) by (simpl; lia).
  assert (Hlt : ChainStatistic.LastInCheckId ChainScenario.rowEth < 9) by (simpl; lia).
  assert (H30 : is_int64 30) by (unfold is_int64; lia).
  assert (H50 : is_int64 50) by (unfold is_int64; lia).
  assert (H121 : is_int64 121) by (unfold is_int64; lia).
  assert (Hcat : In POLY (GetChains ChainScenario.busy).1) by (left; reflexivity).
  assert (Hempty : forall id, (ChainScenario.relayCount id id).2 = None ->
                              (ChainScenario.relayCount id id).1 = 0).
  { intros id _. unfold ChainScenario.relayCount. cbn [fst]. lia. }
  split; [| split; [| split; [| split]]].
  - split; [exact Hle1 |]. split; [exact Hle2 |].
    destruct (relay_row_follows_the_guard RelayScenario.relayOnly ChainScenario.store
                ChainScenario.rowEth 7 20 130 eq_refl eq_refl eq_refl eq_refl
                chain_store_keyed) as [Hclosed _].
    exact (Hclosed Hle1 Hle2).
  - split; [exact Hlt |]. split; [reflexivity |]. split; [reflexivity |].
    split; [exact H30 |]. split; [exact H50 |].
    destruct (relay_row_follows_the_guard ChainScenario.busy ChainScenario.store
                ChainScenario.rowEth 9 20 130 eq_refl eq_refl eq_refl eq_refl
                chain_store_keyed) as (_ & Hopen & _).
    destruct (Hopen (or_introl Hlt) eq_refl eq_refl (fun _ => eq_refl)) as (Hrow & _).
    exact (Hrow ChainScenario.rowPoly 30 eq_refl eq_refl H30 H50 H50).
  - split; [reflexivity |].
    destruct (relay_row_follows_the_guard RelayScenario.counterDown ChainScenario.store
                ChainScenario.rowEth 9 20 130 eq_refl eq_refl eq_refl eq_refl
                chain_store_keyed) as (_ & Hopen & _).
    destruct (Hopen (or_introl Hlt) eq_refl eq_refl (fun _ => eq_refl)) as (_ & Hfail & _).
    exact (Hfail ChainScenario.rowPoly 0 "connection lost" eq_refl eq_refl).
  - split; [reflexivity |]. split; [exact Hcat |]. split; [reflexivity |].
    split; [exact H121 |].
    destruct (relay_row_follows_the_guard ChainScenario.busy RelayScenario.noRelayRow
                ChainScenario.rowEth 9 20 130 eq_refl eq_refl eq_refl eq_refl
                no_relay_row_keyed) as (_ & Hopen & _).
    destruct (Hopen (or_introl Hlt) eq_refl eq_refl (fun _ => eq_refl)) as (_ & _ & Hnew).
    exact (Hnew 121 eq_refl Hcat eq_refl H121).
  - split; [reflexivity |]. split; [exact Hempty |].
    destruct (relay_row_follows_the_guard ChainScenario.relayQuiet ChainScenario.store
                ChainScenario.rowEth 9 20 100 eq_refl eq_refl eq_refl eq_refl
                chain_store_keyed) as (_ & _ & Hsame).
    exact (Hsame ChainScenario.rowPoly eq_refl eq_refl H50 H50 Hempty).
Defined.

End RelayPassFacts.

(** ** The token-statistics pass without new records *)

Module TokenQuietFacts.
Import TokenPass.

Abbreviation key r := (TS.ChainId r, TS.Hash r).

Lemma token_row_kept_refl d r : token_row_kept d r r.
Proof. unfold token_row_kept. auto 15. Qed.

Lemma home_row_key d r r' :
  TS.ChainId r' = TS.ChainId r -> TS.Hash r' = TS.Hash r -> home_row d r' -> home_row d r.
Proof. unfold home_row. intros -> ->. auto. Qed.

Lemma reached_row_key d r r' :
  TS.ChainId r' = TS.ChainId r -> TS.Hash r' = TS.Hash r ->
  reached_row d r' -> reached_row d r.
Proof. unfold reached_row. intros -> ->. auto. Qed.

Lemma token_row_kept_trans d r1 r2 r3 :
  token_row_kept d r1 r2 -> token_row_kept d r2 r3 -> token_row_kept d r1 r3.
Proof.
  intros (Hc & Hh & Hi & Ho & Hic & Hoc & Hoa & Hou & Hob & Hin & Hval)
         (Hc' & Hh' & Hi' & Ho' & Hic' & Hoc' & Hoa' & Hou' & Hob' & Hin' & Hval').
  unfold token_row_kept.
  repeat (split; [congruence |]). split.
  - destruct Hin' as [Hin' | Hhome]; [| right; eapply home_row_key; eassumption].
    destruct Hin as [Hin | Hhome]; [left; congruence | right; exact Hhome].
  - destruct Hval' as [[Hu' Hb'] | Hreached]; [| right; eapply reached_row_key; eassumption].
    destruct Hval as [[Hu Hb] | Hreached]; [left; split; congruence | right; exact Hreached].
Qed.

Section QuietRow.
Variable d : Dao.
Variable c : ChainNode.
Variables (nowInId nowOutId : Z) (BTCPrice : decimal.Decimal).

(** What the inbound part leaves alone. *)
Lemma inboundPart_frame price_new precision_new tb statistic w row w' :
  inboundPart d c nowInId BTCPrice price_new precision_new tb statistic w = (Ok row, w') ->
  TS.ChainId row = TS.ChainId statistic
  /\ TS.Hash row = TS.Hash statistic
  /\ TS.OutAmount row = TS.OutAmount statistic
  /\ TS.OutAmountUsd row = TS.OutAmountUsd statistic
  /\ TS.OutAmountBtc row = TS.OutAmountBtc statistic
  /\ TS.OutCounter row = TS.OutCounter statistic
  /\ TS.LastInCheckId row = TS.LastInCheckId statistic
  /\ TS.LastOutCheckId row = TS.LastOutCheckId statistic.
Proof.
  unfold inboundPart, bind, ret.
  destruct (_ w) as [r1 w1].
  destruct r1 as [[inAmount inCounter] | m]; cbn [res_bind]; [| discriminate].
  destruct (decimal.Div _ BTCPrice) as [btc | m]; cbn [res_bind]; [| discriminate].
  intros [= <- _]. repeat split.
Qed.

(** The inbound part when the ledger has no delta for the row. *)
Lemma inboundPart_quiet price_new precision_new tb statistic w row w' :
  deltaTokenBasic
    (CalculateInTokenStatistics d (TS.ChainId statistic) (TS.Hash statistic)
       (TS.LastInCheckId statistic) nowInId).1 = None ->
  inboundPart d c nowInId BTCPrice price_new precision_new tb statistic w = (Ok row, w') ->
  TS.InCounter row = TS.InCounter statistic
  /\ (TS.InAmount row = TS.InAmount statistic
      \/ TokenBasic_ChainId tb = TS.ChainId statistic).
Proof.
  intros Hdelta. unfold inboundPart, bind.
  destruct (Z.eqb_spec (TokenBasic_ChainId tb) (TS.ChainId statistic)) as [Hhome | Hother].
  - unfold bind, ret.
    destruct (getAndRetryBalance c _ _ w) as [b w1].
    destruct (b.2).
    + cbn [res_bind].
      destruct (decimal.Div _ BTCPrice) as [btc | m]; cbn [res_bind]; [| discriminate].
      intros [= <- _]. auto.
    + destruct (deref b.1) as [balance | m]; cbn [res_bind]; [| discriminate].
      destruct (scaleAmount precision_new balance) as [a | m]; cbn [res_bind];
        [| discriminate].
      destruct (decimal.Div _ BTCPrice) as [btc | m]; cbn [res_bind]; [| discriminate].
      intros [= <- _]. auto.
  - destruct (CalculateInTokenStatistics d _ _ _ nowInId) as [i ierr].
    cbn [fst] in Hdelta. rewrite Hdelta. unfold ret. cbn [res_bind].
    destruct (decimal.Div _ BTCPrice) as [btc | m]; cbn [res_bind]; [| discriminate].
    intros [= <- _]. auto.
Qed.

(** The outbound part: the key and the cursors of the row it returns. *)
Lemma outboundPart_cursors price_new precision_new statistic row :
  outboundPart d nowInId nowOutId BTCPrice price_new precision_new statistic = Ok row ->
  TS.ChainId row = TS.ChainId statistic
  /\ TS.Hash row = TS.Hash statistic
  /\ TS.LastInCheckId row = nowInId
  /\ TS.LastOutCheckId row = nowOutId
  /\ TS.InAmount row = TS.InAmount statistic
  /\ TS.InAmountUsd row = TS.InAmountUsd statistic
  /\ TS.InAmountBtc row = TS.InAmountBtc statistic
  /\ TS.InCounter row = TS.InCounter statistic.
Proof.
  unfold outboundPart.
  destruct (CalculateOutTokenStatistics d _ _ _ nowInId) as [o oerr].
  destruct (match deltaTokenBasic o with Some _ => _ | None => _ end)
    as [[[[outAmount outAmountUsd] outAmountBtc] outCounter] | m];
    cbn [res_bind]; [| discriminate].
  intros [= <-]. repeat split.
Qed.

(** The outbound part when the ledger has no delta for the row. *)
Lemma outboundPart_quiet price_new precision_new statistic row :
  deltaTokenBasic
    (CalculateOutTokenStatistics d (TS.ChainId statistic) (TS.Hash statistic)
       (TS.LastInCheckId statistic) nowInId).1 = None ->
  outboundPart d nowInId nowOutId BTCPrice price_new precision_new statistic = Ok row ->
  TS.OutAmount row = TS.OutAmount statistic
  /\ TS.OutAmountUsd row = TS.OutAmountUsd statistic
  /\ TS.OutAmountBtc row = TS.OutAmountBtc statistic
  /\ TS.OutCounter row = TS.OutCounter statistic.
Proof.
  intros Hdelta. unfold outboundPart.
  destruct (CalculateOutTokenStatistics d _ _ _ nowInId) as [o oerr].
  cbn [fst] in Hdelta. rewrite Hdelta. cbn [res_bind].
  intros [= <-]. repeat split.
Qed.

(** A row that the loop body hands to [SaveTokenStatistic] has the key of
    the row it was made from and the two newest ids as its cursors. *)
Lemma tokenRow_processed statistic w row w' :
  tokenRow d c nowInId nowOutId BTCPrice statistic w = (Processed row, w') ->
  key row = key statistic
  /\ TS.LastInCheckId row = nowInId
  /\ TS.LastOutCheckId row = nowOutId.
Proof.
  unfold tokenRow.
  destruct (GetTokenBasicByHash d _ _) as [token [e |]]; [| discriminate].
  unfold bind, tokenRowBody.
  destruct (res_bind (deref token) _) as [[[tb price_new] precision_new] | m];
    [| discriminate].
  unfold bind, ret.
  destruct (inboundPart d c nowInId BTCPrice price_new precision_new tb statistic w)
    as [[row1 | m] w1] eqn:Hin; cbn [res_bind]; [| discriminate].
  destruct (outboundPart d nowInId nowOutId BTCPrice price_new precision_new row1)
    as [row2 | m] eqn:Hout; [| discriminate].
  intros [= <- _].
  destruct (inboundPart_frame _ _ _ _ _ _ _ Hin) as (Hc & Hh & _).
  destruct (outboundPart_cursors _ _ _ _ Hout) as (Hc' & Hh' & Hi & Ho & _).
  split; [| split; assumption]. f_equal; congruence.
Qed.

(** A row whose cursors are the newest ids, on a ledger that has no
    delta for an empty range. *)
Lemma tokenRow_quiet statistic w row w' :
  empty_range_no_delta d ->
  TS.LastInCheckId statistic = nowInId ->
  TS.LastOutCheckId statistic = nowOutId ->
  tokenRow d c nowInId nowOutId BTCPrice statistic w = (Processed row, w') ->
  token_row_kept d statistic row.
Proof.
  intros Hempty Hcin Hcout. unfold tokenRow.
  destruct (GetTokenBasicByHash d _ _) as [token [e |]] eqn:Hlookup; [| discriminate].
  unfold bind, tokenRowBody.
  destruct token as [token |]; cbn [deref res_bind]; [| discriminate].
  destruct (Token_TokenBasic token) as [tb |] eqn:Htb; cbn [deref res_bind];
    [| discriminate].
  destruct (decimal.Div _ _) as [price_new | m]; cbn [res_bind]; [| discriminate].
  unfold bind, ret.
  set (precision_new := decimal.New 1 (int32 (Token_Precision token))).
  destruct (inboundPart d c nowInId BTCPrice price_new precision_new tb statistic w)
    as [[row1 | m] w1] eqn:Hin; cbn [res_bind]; [| discriminate].
  destruct (outboundPart d nowInId nowOutId BTCPrice price_new precision_new row1)
    as [row2 | m] eqn:Hout; [| discriminate].
  intros [= <- _].
  destruct (inboundPart_frame _ _ _ _ _ _ _ Hin)
    as (Hc & Hh & Hoa & Hou & Hob & Hoc & Hli & Hlo).
  destruct (Hempty (TS.ChainId statistic) (TS.Hash statistic) nowInId) as [Hdin Hdout].
  destruct (inboundPart_quiet _ _ _ _ _ _ _
              ltac:(rewrite Hcin; exact Hdin) Hin) as [Hic Hia].
  destruct (outboundPart_cursors _ _ _ _ Hout)
    as (Hc' & Hh' & Hi' & Ho' & Hia' & Hiu' & Hib' & Hic').
  destruct (outboundPart_quiet price_new precision_new row1 row2) as (Hoa' & Hou' & Hob' & Hoc').
  { rewrite Hc, Hh, Hli, Hcin. exact Hdout. }
  { exact Hout. }
  unfold token_row_kept.
  repeat (split; [congruence |]). split.
  - destruct Hia as [Hia | Hhome]; [left; congruence |].
    right. exists token, tb, e. auto.
  - right. exists token, e. exact Hlookup.
Qed.

End QuietRow.

Section QuietPass.
Variable d : Dao.
Variable c : ChainNode.
Variables (nowInId nowOutId : Z).
Variable s0 : Store.

Hypothesis Hempty : empty_range_no_delta d.
Hypothesis Hsettled : token_settled nowInId nowOutId s0.

Abbreviation loop_inv := (token_table_kept d nowInId nowOutId s0).

Lemma loop_inv_start : loop_inv s0.
Proof.
  split; [| exact Hsettled].
  intros k r Hk. exists r. split; [exact Hk | apply token_row_kept_refl].
Qed.

Lemma rowLoop_quiet BTCPrice rows :
  Forall (fun st => s0 !! key st = Some st \/ s0 !! key st = None) rows ->
  forall s w,
    loop_inv s ->
    loop_inv (rowLoop d c nowInId nowOutId BTCPrice rows s w).1.1.
Proof.
  induction 1 as [| st rows Hst _ IH]; intros s w Hinv; cbn [rowLoop].
  - exact Hinv.
  - unfold bind.
    destruct (tokenRow d c nowInId nowOutId BTCPrice st w) as [[| row | m] w1] eqn:Hrow.
    + apply IH, Hinv.
    + unfold SaveTokenStatistic.
      destruct (SaveTokenStatistic_err d row) as [e |]; [exact Hinv |].
      apply IH.
      destruct (tokenRow_processed _ _ _ _ _ _ _ _ _ Hrow) as (Hkey & Hi & Ho).
      destruct Hinv as [Hkept Hset]. split.
      * intros k r Hk.
        destruct (decide (key row = k)) as [Heq | Hne].
        -- rewrite Heq, lookup_insert_eq. exists row. split; [reflexivity |].
           destruct Hst as [Hst | Hst]; rewrite <- Hkey, Heq, Hk in Hst;
             [| discriminate].
           injection Hst as <-.
           destruct (Hsettled _ _ Hk) as (_ & Hcin & Hcout).
           eapply tokenRow_quiet; eassumption.
        -- rewrite lookup_insert_ne by exact Hne. apply Hkept, Hk.
      * intros k r Hk.
        apply lookup_insert_Some in Hk as [[<- <-] | [_ Hk]]; [auto | apply Hset, Hk].
    + exact Hinv.
Qed.

(** The rows that the pass runs over: those of the table, each under its
    key, and those made for new tokens, whose keys the table does not
    have. *)
Lemma pass_rows tokens :
  Forall (fun st => s0 !! key st = Some st \/ s0 !! key st = None)
         ((map_to_list s0).*2 ++ newTokenStatistics (tokensMap tokens (map_to_list s0).*2)).
Proof.
  apply Forall_app. split.
  - apply List.Forall_forall. intros st Hst.
    apply list_elem_of_In, list_elem_of_fmap in Hst as ([k r] & -> & Hin).
    apply elem_of_map_to_list in Hin. cbn [snd].
    destruct (Hsettled _ _ Hin) as (Hkey & _). left.
    rewrite Hkey. exact Hin.
  - apply List.Forall_forall. intros st Hst.
    apply newTokenStatistics_In in Hst as (token & _ & _ & Hfresh & ->).
    right. cbn [TS.ChainId TS.Hash].
    destruct (s0 !! (Token_ChainId token, Token_Hash token)) as [r |] eqn:Hr;
      [| reflexivity].
    exfalso. apply (Hfresh r).
    + apply list_elem_of_In, list_elem_of_fmap. exists ((Token_ChainId token, Token_Hash token), r).
      split; [reflexivity |]. apply elem_of_map_to_list, Hr.
    + destruct (Hsettled _ _ Hr) as (Hkey & _). exact Hkey.
Qed.

Hypothesis Hdst : GetNewDstTransfer d = (Some nowInId, None).
Hypothesis Hsrc : GetNewSrcTransfer d = (Some nowOutId, None).

Lemma computeTokenStatistics_quiet w :
  loop_inv (computeTokenStatistics d c s0 w).1.1.
Proof.
  pose proof loop_inv_start as Hstart.
  unfold computeTokenStatistics. rewrite Hdst, Hsrc. cbn [deref].
  unfold GetTokenStatistics.
  destruct (GetTokenStatistics_err d) as [e |]; [exact Hstart |].
  destruct (GetTokens d) as [tokens [e |]]; [exact Hstart |].
  destruct (GetBTCPrice d) as [btc [e |]]; [exact Hstart |].
  destruct (res_bind _ _) as [BTCPrice | m]; [| exact Hstart].
  apply rowLoop_quiet; [apply pass_rows | exact Hstart].
Qed.

End QuietPass.

Lemma token_table_kept_trans d nowInId nowOutId s0 s1 s2 :
  token_table_kept d nowInId nowOutId s0 s1 ->
  token_table_kept d nowInId nowOutId s1 s2 ->
  token_table_kept d nowInId nowOutId s0 s2.
Proof.
  intros [H01 _] [H12 Hset]. split; [| exact Hset].
  intros k r Hk. destruct (H01 _ _ Hk) as (r1 & Hk1 & Hkept1).
  destruct (H12 _ _ Hk1) as (r2 & Hk2 & Hkept2).
  exists r2. split; [exact Hk2 | eapply token_row_kept_trans; eassumption].
Qed.

End TokenQuietFacts.

(** C1 as stated fails for the token pass.  The newest destination and
    source transfers are 5 and 10, the cursors of both rows of the table.
    The pass returns nil, and afterwards the row of WBTC on Ethereum, its
    home chain, has the inbound amount 500 instead of 0 (the balance the
    node reports), and the row on BSC has its inbound valuations
    recomputed at the current price. *)
Lemma token_pass_rewrites_rows_without_new_records :
  TokenPass.GetNewDstTransfer QuietTokenScenario.dao = (Some 5, None)
  /\ TokenPass.GetNewSrcTransfer QuietTokenScenario.dao = (Some 10, None)
  /\ TokenScenario.store !! (2, "0xbtc")
     = Some (TokenStatistic.mk 2 "0xbtc" 0 0 0 0 0 0 0 0 5 10 None)
  /\ TokenScenario.store !! (6, "0xb5c")
     = Some (TokenStatistic.mk 6 "0xb5c" 7000 0 0 1000 0 0 3 4 5 10 None)
  /\ (TokenPass.computeTokenStatistics QuietTokenScenario.dao TokenScenario.node
        TokenScenario.store Scenario.w0).1.2 = Returned None
  /\ (TokenPass.computeTokenStatistics QuietTokenScenario.dao TokenScenario.node
        TokenScenario.store Scenario.w0).1.1 !! (2, "0xbtc")
     = Some (TokenStatistic.mk 2 "0xbtc" 500 1500000000 50000 0 0 0 0 0 5 10 None)
  /\ (TokenPass.computeTokenStatistics QuietTokenScenario.dao TokenScenario.node
        TokenScenario.store Scenario.w0).1.1 !! (6, "0xb5c")
     = Some (TokenStatistic.mk 6 "0xb5c" 7000 21000000000 700000 1000 0 0 3 4 5 10 None).
Proof.
  repeat split; vm_compute; reflexivity.
Qed.

(** C1, amended.  Chain pass: when the newest destination and source
    transactions are not beyond the cursors of the newest statistic row,
    the pass writes nothing.  Asset pass: when every row sits at the
    newest source transfer and the ledger answers an empty range with no
    groups, the pass leaves every row as it is (it saves each row
    unchanged).  Token pass: when every row sits at the newest
    destination and source transfers and the ledger answers an empty
    range with no delta, every row keeps its key, both cursors, both
    counters and its outbound figures; it keeps its inbound amount unless
    it is a row on its home chain that the loop body gets to, and its
    inbound valuations unless the loop body gets to it.  In each case a
    second pass finds the same situation and keeps the same. *)
Theorem pass_without_new_records_keeps_ledger_totals :
  (forall (d : ChainPass.Dao) (s : ChainPass.Store) sta nowInId nowOutId,
      ChainPass.GetNewChainSta d = (Some sta, None) ->
      ChainPass.GetNewDstTransaction d = (Some nowInId, None) ->
      ChainPass.GetNewSrcTransaction d = (Some nowOutId, None) ->
      nowInId <= ChainStatistic.LastInCheckId sta ->
      nowOutId <= ChainStatistic.LastOutCheckId sta ->
      (ChainPass.computeChainStatistics d s).1 = s
      /\ (ChainPass.computeChainStatistics d
            (ChainPass.computeChainStatistics d s).1).1 = s)
  /\ (forall (d : AssetPass.Dao) (s : AssetPass.Store) nowId,
      AssetPass.GetNewSrcTransfer d = (Some nowId, None) ->
      (forall name id, (AssetPass.CalculateAssets d name id id).1 = []) ->
      asset_settled nowId s ->
      forall k r,
        s !! k = Some r ->
        (AssetPass.computeAssetStatistics d s).1 !! k = Some r
        /\ (AssetPass.computeAssetStatistics d
              (AssetPass.computeAssetStatistics d s).1).1 !! k = Some r)
  /\ (forall (d : TokenPass.Dao) (c : ChainNode) (s : TokenPass.Store) (w : World)
             (nowInId nowOutId : Z),
      TokenPass.GetNewDstTransfer d = (Some nowInId, None) ->
      TokenPass.GetNewSrcTransfer d = (Some nowOutId, None) ->
      empty_range_no_delta d ->
      token_settled nowInId nowOutId s ->
      token_table_kept d nowInId nowOutId s
        (TokenPass.computeTokenStatistics d c s w).1.1
      /\ token_table_kept d nowInId nowOutId s
           (TokenPass.computeTokenStatistics d c
              (TokenPass.computeTokenStatistics d c s w).1.1
              (TokenPass.computeTokenStatistics d c s w).2).1.1).
Proof.
  split; [| split].
  - intros d s sta nowInId nowOutId Hsta Hin Hout Hle_in Hle_out.
    pose proof (ChainPassFacts.computeChainStatistics_no_new_records
                  d s sta nowInId nowOutId Hsta Hin Hout Hle_in Hle_out) as H.
    split; [exact H |]. rewrite H. exact H.
  - intros d s nowId Hfetch Hempty Hs k r Hk.
    pose proof (AssetPassFacts.computeAssetStatistics_keeps d nowId Hempty s Hfetch Hs k r Hk)
      as H1.
    split; [exact H1 |].
    apply (AssetPassFacts.computeAssetStatistics_keeps d nowId Hempty); [exact Hfetch | | exact H1].
    apply AssetPassFacts.computeAssetStatistics_settled; assumption.
  - intros d c s w nowInId nowOutId Hdst Hsrc Hempty Hs.
    pose proof (TokenQuietFacts.computeTokenStatistics_quiet d c nowInId nowOutId s
                  Hempty Hs Hdst Hsrc w) as H1.
    split; [exact H1 |].
    eapply TokenQuietFacts.token_table_kept_trans; [exact H1 |].
    apply TokenQuietFacts.computeTokenStatistics_quiet; try assumption.
    exact (proj2 H1).
Qed.

Lemma token_store_settled : token_settled 5 10 TokenScenario.store.
Proof.
  intros k r H. unfold TokenScenario.store in H.
  apply lookup_insert_Some in H as [[<- <-] | [_ H]]; [repeat split |].
  apply lookup_insert_Some in H as [[<- <-] | [_ H]]; [repeat split |].
  rewrite lookup_empty in H. discriminate H.
Defined.

Lemma pass_without_new_records_keeps_ledger_totals_witness :
  (7 <= ChainStatistic.LastInCheckId ChainScenario.rowEth
   /\ 20 <= ChainStatistic.LastOutCheckId ChainScenario.rowEth
   /\ (ChainPass.computeChainStatistics ChainScenario.quiet ChainScenario.store).1
      = ChainScenario.store)
  /\ (asset_settled 20 AssetScenario.settled
      /\ (forall name id, (AssetScenario.CalculateAssets name id id).1 = [])
      /\ (AssetPass.computeAssetStatistics AssetScenario.goodDao AssetScenario.settled).1
           !! "BBB"
         = Some (AssetStatistic.mk "BBB" 0 3 700 50000 1 20))
  /\ (empty_range_no_delta QuietTokenScenario.dao
      /\ token_settled 5 10 TokenScenario.store
      /\ TokenScenario.store !! (6, "0xb5c") = Some TokenScenario.rowBsc
      /\ (TokenPass.computeTokenStatistics QuietTokenScenario.dao TokenScenario.node
            (TokenPass.computeTokenStatistics QuietTokenScenario.dao TokenScenario.node
               TokenScenario.store Scenario.w0).1.1
            (TokenPass.computeTokenStatistics QuietTokenScenario.dao TokenScenario.node
               TokenScenario.store Scenario.w0).2).1.1 !! (6, "0xb5c")
         = Some QuietTokenScenario.rowBscAfter
      /\ token_row_kept QuietTokenScenario.dao TokenScenario.rowBsc
           QuietTokenScenario.rowBscAfter).
Proof.
  destruct pass_without_new_records_keeps_ledger_totals as (Hchain & Hasset & Htoken).
  assert (H1 : 7 <= ChainStatistic.LastInCheckId ChainScenario.rowEth) by (simpl; lia).
  assert (H2 : 20 <= ChainStatistic.LastOutCheckId ChainScenario.rowEth) by (simpl; lia).
  assert (H3 : asset_settled 20 AssetScenario.settled).
  { intros k r H. unfold AssetScenario.settled in H.
    apply lookup_insert_Some in H as [[<- <-] | [_ H]]; [split; reflexivity |].
    apply lookup_insert_Some in H as [[<- <-] | [_ H]]; [split; reflexivity |].
    rewrite lookup_empty in H. discriminate H. }
  assert (H4 : forall name id, (AssetScenario.CalculateAssets name id id).1 = []).
  { intros name id. unfold AssetScenario.CalculateAssets.
    rewrite Z.ltb_irrefl. reflexivity. }
  assert (H5 : empty_range_no_delta QuietTokenScenario.dao).
  { intros chainId hash id. cbn. rewrite Z.ltb_irrefl. split; reflexivity. }
  split; [| split].
  - split; [exact H1 |]. split; [exact H2 |].
    exact (proj1 (Hchain ChainScenario.quiet ChainScenario.store ChainScenario.rowEth 7 20
                    eq_refl eq_refl eq_refl H1 H2)).
  - split; [exact H3 |]. split; [exact H4 |].
    exact (proj1 (Hasset AssetScenario.goodDao AssetScenario.settled 20 eq_refl H4 H3
                    "BBB" _ eq_refl)).
  - split; [exact H5 |]. split; [exact token_store_settled |]. split; [reflexivity |].
    destruct (Htoken QuietTokenScenario.dao TokenScenario.node TokenScenario.store
                Scenario.w0 5 10 eq_refl eq_refl H5 token_store_settled) as [_ [Hkept _]].
    destruct (Hkept (6, "0xb5c") TokenScenario.rowBsc eq_refl) as (r' & Hr' & Hrow).
    assert (Hval : (TokenPass.computeTokenStatistics QuietTokenScenario.dao
                      TokenScenario.node
                      (TokenPass.computeTokenStatistics QuietTokenScenario.dao
                         TokenScenario.node TokenScenario.store Scenario.w0).1.1
                      (TokenPass.computeTokenStatistics QuietTokenScenario.dao
                         TokenScenario.node TokenScenario.store Scenario.w0).2).1.1
                   !! (6, "0xb5c")
                   = Some QuietTokenScenario.rowBscAfter)
      by (vm_compute; reflexivity).
    split; [exact Hval |].
    rewrite Hval in Hr'. injection Hr' as <-. exact Hrow.
Defined.
